(** * STMEngine: a shallow embedding of the rendering core

    The development follows the C sources of the engine:
    - [math3d.h]        vectors and 4x4 column-major matrices,
    - [mesh.cpp]        the static pools, the pool allocators, the OBJ
                        loader and the MD2 keyframe evaluator,
    - [loader_md2.cpp]  the MD2 binary loader and its evaluator,
    - [entity.cpp]      the transform hierarchy and the animators,
    - [rasterizer.cpp]  the triangle rasterizer,
    - [main.cpp]        the vertex transform stage and the mesh renderer.

    Conventions of the embedding.
    - [uint32_t], [uint16_t], [uint8_t] and [int32_t] are values of [Z]
      with the wrap-around written out ([wrap32], [wrap16], [wrap8],
      [swrap32]).
    - [float] is IEEE-754 binary32, as specified by the Standard Library's
      [SpecFloat] at precision 24 and maximal exponent 128; every C
      operation is rounded to nearest-even on its own.
    - The global C arrays are total maps from [Z]; a subscript outside of
      the declared bounds (undefined behaviour in C) reads whatever the map
      holds there.
    - Functions of the C library ([cosf], [sinf]), whose code is not part
      of the engine, are parameters of the sections that use them.  Of the
      [Device] class the engine has the interface only: a device is its
      size and the list of the calls it has received. *)

From Stdlib Require Import ZArith List Bool Lia.
From Stdlib Require Import Floats.SpecFloat.
Import ListNotations.

Local Open Scope Z_scope.

(** ** Machine integers *)

Definition wrap8 (z : Z) : Z := z mod 256.
Definition wrap16 (z : Z) : Z := z mod 65536.
Definition wrap32 (z : Z) : Z := z mod 4294967296.

(** Two's complement reading of the low 32 bits ([int32_t], [int]). *)
Definition swrap32 (z : Z) : Z :=
  let u := wrap32 z in if u <? 2147483648 then u else u - 4294967296.

Definition NO_SPACE : Z := 4294967295. (* 0xFFFFFFFF *)

(** ** Total maps for the global arrays *)

Definition array (T : Type) : Type := Z -> T.

Definition aset {T : Type} (a : array T) (i : Z) (v : T) : array T :=
  fun j => if Z.eqb j i then v else a j.

(** [for (i = lo; i < lo + n; i++) s = body i s] *)
Fixpoint for_loop {S : Type} (n : nat) (lo : Z) (body : Z -> S -> S) (s : S) : S :=
  match n with
  | O => s
  | Datatypes.S n' => for_loop n' (lo + 1) body (body lo s)
  end.

(** ** IEEE-754 binary32, the C type [float] *)

Module F32.

Definition prec : Z := 24.
Definition emax : Z := 128.

Definition float : Type := spec_float.

Definition fadd : float -> float -> float := SFadd prec emax.
Definition fsub : float -> float -> float := SFsub prec emax.
Definition fmul : float -> float -> float := SFmul prec emax.
Definition fdiv : float -> float -> float := SFdiv prec emax.
Definition fsqrt : float -> float := SFsqrt prec emax.
Definition fneg : float -> float := SFopp.

(** The C comparisons [<], [<=], [>], [>=] and [==]; every one of them is
    false when an operand is a NaN. *)
Definition flt : float -> float -> bool := SFltb.
Definition fle : float -> float -> bool := SFleb.
Definition fgt (a b : float) : bool := SFltb b a.
Definition fge (a b : float) : bool := SFleb b a.
Definition feq : float -> float -> bool := SFeqb.

(** Conversion of an integer to [float], rounded to nearest. *)
Definition of_int (z : Z) : float := binary_normalize prec emax z 0 false.

(** The decimal literal [num/den] (with [den] a power of ten), rounded to
    nearest: [0.1f] is [lit 1 10]. *)
Definition lit (num : Z) (den : positive) : float :=
  match num with
  | Z0 => S754_zero false
  | Zpos p => fdiv (S754_finite false p 0) (S754_finite false den 0)
  | Zneg p => fdiv (S754_finite true p 0) (S754_finite false den 0)
  end.

Definition zero : float := S754_zero false.
Definition one : float := of_int 1.

(** A value that is neither an infinity nor a NaN. *)
Definition is_finite (x : float) : bool :=
  match x with
  | S754_zero _ | S754_finite _ _ _ => true
  | _ => false
  end.

(** Conversion of a [float] to [int] ([(int)x]): truncation toward zero.
    The C standard leaves the conversion undefined when the truncated
    value does not fit; the embedding returns [INT_MIN] there, as the
    conversion instruction of x86 does. *)
Definition trunc (x : float) : Z :=
  match x with
  | S754_zero _ => 0
  | S754_finite s m e =>
      let a := match e with
               | Zneg p => Z.shiftr (Zpos m) (Zpos p)
               | _ => Z.shiftl (Zpos m) e
               end in
      if s then - a else a
  | _ => -2147483648
  end.

Definition to_int (x : float) : Z :=
  let t := trunc x in
  if (-2147483648 <=? t) && (t <=? 2147483647) then t else -2147483648.

(** Decoding of the 32 bits of a stored [float]. *)
Definition of_bits (w : Z) : float :=
  let s := Z.testbit w 31 in
  let e := Z.land (Z.shiftr w 23) 255 in
  let m := Z.land w 8388607 in
  if e =? 0 then
    match m with
    | Zpos p => S754_finite s p (-149)
    | _ => S754_zero s
    end
  else if e =? 255 then
    (if m =? 0 then S754_infinity s else S754_nan)
  else
    match m + 8388608 with
    | Zpos p => S754_finite s p (e - 150)
    | _ => S754_nan
    end.

(** Conversion of a binary64 value ([double]) to [float]. *)
Definition of_double (d : spec_float) : float :=
  match d with
  | S754_finite s m e => binary_round prec emax s m e
  | _ => d
  end.

End F32.

Import F32.

(** ** math3d.h *)

Record Vec2 : Type := MakeVec2 { v2_x : float; v2_y : float }.
Record Vec3 : Type := MakeVec3 { v3_x : float; v3_y : float; v3_z : float }.
Record Vec4 : Type :=
  MakeVec4 { v4_x : float; v4_y : float; v4_z : float; v4_w : float }.

(** [typedef struct { float m[16]; } Mat4;], column-major. *)
Definition Mat4 : Type := list float.

Definition EPSILON : float := lit 1 10000.

Definition mget (M : Mat4) (i : Z) : float := nth (Z.to_nat i) M zero.

Fixpoint set_nth {A : Type} (l : list A) (n : nat) (v : A) : list A :=
  match l, n with
  | [], _ => []
  | _ :: t, O => v :: t
  | h :: t, S n' => h :: set_nth t n' v
  end.

Definition mset (M : Mat4) (i : Z) (v : float) : Mat4 := set_nth M (Z.to_nat i) v.

Definition Vec3_Zero : Vec3 := MakeVec3 zero zero zero.
Definition Vec3_One : Vec3 := MakeVec3 one one one.

Definition Vec3_Add (a b : Vec3) : Vec3 :=
  MakeVec3 (fadd (v3_x a) (v3_x b)) (fadd (v3_y a) (v3_y b)) (fadd (v3_z a) (v3_z b)).

Definition Vec3_Sub (a b : Vec3) : Vec3 :=
  MakeVec3 (fsub (v3_x a) (v3_x b)) (fsub (v3_y a) (v3_y b)) (fsub (v3_z a) (v3_z b)).

Definition Vec3_Scale (v : Vec3) (s : float) : Vec3 :=
  MakeVec3 (fmul (v3_x v) s) (fmul (v3_y v) s) (fmul (v3_z v) s).

Definition Vec3_Length (v : Vec3) : float :=
  fsqrt (fadd (fadd (fmul (v3_x v) (v3_x v)) (fmul (v3_y v) (v3_y v)))
              (fmul (v3_z v) (v3_z v))).

Definition Vec3_Normalize (v : Vec3) : Vec3 :=
  let len := Vec3_Length v in
  if fgt len EPSILON then
    let inv := fdiv one len in
    MakeVec3 (fmul (v3_x v) inv) (fmul (v3_y v) inv) (fmul (v3_z v) inv)
  else MakeVec3 zero zero zero.

Definition Vec3_Lerp (a b : Vec3) (t : float) : Vec3 :=
  MakeVec3 (fadd (v3_x a) (fmul (fsub (v3_x b) (v3_x a)) t))
           (fadd (v3_y a) (fmul (fsub (v3_y b) (v3_y a)) t))
           (fadd (v3_z a) (fmul (fsub (v3_z b) (v3_z a)) t)).

Definition Vec3_Min (a b : Vec3) : Vec3 :=
  MakeVec3 (if flt (v3_x a) (v3_x b) then v3_x a else v3_x b)
           (if flt (v3_y a) (v3_y b) then v3_y a else v3_y b)
           (if flt (v3_z a) (v3_z b) then v3_z a else v3_z b).

Definition Vec3_Max (a b : Vec3) : Vec3 :=
  MakeVec3 (if fgt (v3_x a) (v3_x b) then v3_x a else v3_x b)
           (if fgt (v3_y a) (v3_y b) then v3_y a else v3_y b)
           (if fgt (v3_z a) (v3_z b) then v3_z a else v3_z b).

Definition Clampi (v lo hi : Z) : Z :=
  if v <? lo then lo else if v >? hi then hi else v.

Definition Min3i (a b c : Z) : Z :=
  let m := a in let m := if b <? m then b else m in if c <? m then c else m.

Definition Max3i (a b c : Z) : Z :=
  let m := a in let m := if b >? m then b else m in if c >? m then c else m.

(** [memset(m->m, 0, sizeof(m->m))] followed by the four diagonal stores. *)
Definition Mat4_Zero : Mat4 := repeat zero 16.

Definition Mat4_Identity : Mat4 :=
  mset (mset (mset (mset Mat4_Zero 15 one) 10 one) 5 one) 0 one.

(** The two nested loops of [Mat4_Multiply]; the local [r] is written at
    [col * 4 + row] and copied to [*out] at the end. *)
Definition Mat4_Multiply (a b : Mat4) : Mat4 :=
  for_loop 4 0 (fun row r =>
    for_loop 4 0 (fun col r =>
      mset r (col * 4 + row)
        (fadd (fadd (fadd (fmul (mget a (0 * 4 + row)) (mget b (col * 4 + 0)))
                          (fmul (mget a (1 * 4 + row)) (mget b (col * 4 + 1))))
                    (fmul (mget a (2 * 4 + row)) (mget b (col * 4 + 2))))
              (fmul (mget a (3 * 4 + row)) (mget b (col * 4 + 3))))) r)
    Mat4_Zero.

Definition Mat4_MultiplyVec4 (m : Mat4) (v : Vec4) : Vec4 :=
  MakeVec4
    (fadd (fadd (fadd (fmul (mget m 0) (v4_x v)) (fmul (mget m 4) (v4_y v)))
                (fmul (mget m 8) (v4_z v))) (fmul (mget m 12) (v4_w v)))
    (fadd (fadd (fadd (fmul (mget m 1) (v4_x v)) (fmul (mget m 5) (v4_y v)))
                (fmul (mget m 9) (v4_z v))) (fmul (mget m 13) (v4_w v)))
    (fadd (fadd (fadd (fmul (mget m 2) (v4_x v)) (fmul (mget m 6) (v4_y v)))
                (fmul (mget m 10) (v4_z v))) (fmul (mget m 14) (v4_w v)))
    (fadd (fadd (fadd (fmul (mget m 3) (v4_x v)) (fmul (mget m 7) (v4_y v)))
                (fmul (mget m 11) (v4_z v))) (fmul (mget m 15) (v4_w v))).

Definition Mat4_Translation (x y z : float) : Mat4 :=
  mset (mset (mset Mat4_Identity 12 x) 13 y) 14 z.

Definition Mat4_Scale (x y z : float) : Mat4 :=
  mset (mset (mset Mat4_Identity 0 x) 5 y) 10 z.

(** [cosf] and [sinf] belong to the C library. *)
Section Rotations.
Variables cosf sinf : float -> float.

Definition Mat4_RotationX (rad : float) : Mat4 :=
  let c := cosf rad in let s := sinf rad in
  mset (mset (mset (mset Mat4_Identity 5 c) 9 (fneg s)) 6 s) 10 c.

Definition Mat4_RotationY (rad : float) : Mat4 :=
  let c := cosf rad in let s := sinf rad in
  mset (mset (mset (mset Mat4_Identity 0 c) 8 s) 2 (fneg s)) 10 c.

Definition Mat4_RotationZ (rad : float) : Mat4 :=
  let c := cosf rad in let s := sinf rad in
  mset (mset (mset (mset Mat4_Identity 0 c) 4 (fneg s)) 1 s) 5 c.
End Rotations.

(** ** mesh.h: pool sizes and descriptors *)

Definition MAX_TOTAL_VERTICES : Z := 40960.
Definition MAX_TOTAL_INDICES : Z := 81920.
Definition MAX_MD2_FRAMES : Z := 200.
Definition MAX_MD2_VERTICES : Z := 204800.
Definition MAX_MESHES : Z := 64.        (* engine_config.h *)
Definition MAX_ENTITIES : Z := 256.     (* engine_config.h *)

Record Vertex_t : Type :=
  { position : Vec3; normal : Vec3; texcoord : Vec2 }.

Record MD2Vertex_t : Type :=
  { mv_x : Z; mv_y : Z; mv_z : Z; normal_index : Z }.

Record StaticMeshDesc_t : Type :=
  { vertex_start : Z; vertex_count : Z; index_start : Z; index_count : Z;
    bounds_center : Vec3; bounds_radius : float }.

Record MD2FrameDesc_t : Type :=
  { fd_scale : Vec3; fd_translate : Vec3;
    fd_vertex_start : Z; fd_vertex_count : Z }.

Record MD2UV_t : Type := { uv_u : float; uv_v : float }.

Record AnimatedMeshDesc_t : Type :=
  { frame_start : Z; frame_count : Z; an_index_start : Z; an_index_count : Z;
    verts_per_frame : Z; uv_start : Z; uv_count : Z }.

(** [type] is 0 (free), 1 (static) or 2 (animated).  The C [union] of [stat]
    and [anim] is kept as two fields: every read of a member in the sources
    is guarded by the [type] that was stored together with that member. *)
Record MeshSlot_t : Type :=
  { type : Z; flags : Z; stat : StaticMeshDesc_t; anim : AnimatedMeshDesc_t }.

Definition zero_Vertex : Vertex_t :=
  {| position := Vec3_Zero; normal := Vec3_Zero; texcoord := MakeVec2 zero zero |}.
Definition zero_MD2Vertex : MD2Vertex_t :=
  {| mv_x := 0; mv_y := 0; mv_z := 0; normal_index := 0 |}.
Definition zero_stat : StaticMeshDesc_t :=
  {| vertex_start := 0; vertex_count := 0; index_start := 0; index_count := 0;
     bounds_center := Vec3_Zero; bounds_radius := zero |}.
Definition zero_anim : AnimatedMeshDesc_t :=
  {| frame_start := 0; frame_count := 0; an_index_start := 0; an_index_count := 0;
     verts_per_frame := 0; uv_start := 0; uv_count := 0 |}.
Definition zero_frame : MD2FrameDesc_t :=
  {| fd_scale := Vec3_Zero; fd_translate := Vec3_Zero;
     fd_vertex_start := 0; fd_vertex_count := 0 |}.
Definition zero_uv : MD2UV_t := {| uv_u := zero; uv_v := zero |}.
Definition zero_slot : MeshSlot_t :=
  {| type := 0; flags := 0; stat := zero_stat; anim := zero_anim |}.

(** ** mesh.cpp: the static pools *)

Record MeshState : Type :=
  { g_vertex_pool : array Vertex_t;
    g_index_pool : array Z;
    g_md2_uv_pool : array MD2UV_t;
    g_frame_pool : array MD2FrameDesc_t;
    g_md2_vertex_pool : array MD2Vertex_t;
    g_meshes : array MeshSlot_t;
    g_vertex_used : Z;
    g_index_used : Z;
    g_frame_used : Z;
    g_md2_vertex_used : Z;
    g_md2_uv_used : Z }.

Definition set_vertex_pool (s : MeshState) (p : array Vertex_t) : MeshState :=
  {| g_vertex_pool := p; g_index_pool := g_index_pool s;
     g_md2_uv_pool := g_md2_uv_pool s; g_frame_pool := g_frame_pool s;
     g_md2_vertex_pool := g_md2_vertex_pool s; g_meshes := g_meshes s;
     g_vertex_used := g_vertex_used s; g_index_used := g_index_used s;
     g_frame_used := g_frame_used s; g_md2_vertex_used := g_md2_vertex_used s;
     g_md2_uv_used := g_md2_uv_used s |}.

Definition set_index_pool (s : MeshState) (p : array Z) : MeshState :=
  {| g_vertex_pool := g_vertex_pool s; g_index_pool := p;
     g_md2_uv_pool := g_md2_uv_pool s; g_frame_pool := g_frame_pool s;
     g_md2_vertex_pool := g_md2_vertex_pool s; g_meshes := g_meshes s;
     g_vertex_used := g_vertex_used s; g_index_used := g_index_used s;
     g_frame_used := g_frame_used s; g_md2_vertex_used := g_md2_vertex_used s;
     g_md2_uv_used := g_md2_uv_used s |}.

Definition set_md2_uv_pool (s : MeshState) (p : array MD2UV_t) : MeshState :=
  {| g_vertex_pool := g_vertex_pool s; g_index_pool := g_index_pool s;
     g_md2_uv_pool := p; g_frame_pool := g_frame_pool s;
     g_md2_vertex_pool := g_md2_vertex_pool s; g_meshes := g_meshes s;
     g_vertex_used := g_vertex_used s; g_index_used := g_index_used s;
     g_frame_used := g_frame_used s; g_md2_vertex_used := g_md2_vertex_used s;
     g_md2_uv_used := g_md2_uv_used s |}.

Definition set_frame_pool (s : MeshState) (p : array MD2FrameDesc_t) : MeshState :=
  {| g_vertex_pool := g_vertex_pool s; g_index_pool := g_index_pool s;
     g_md2_uv_pool := g_md2_uv_pool s; g_frame_pool := p;
     g_md2_vertex_pool := g_md2_vertex_pool s; g_meshes := g_meshes s;
     g_vertex_used := g_vertex_used s; g_index_used := g_index_used s;
     g_frame_used := g_frame_used s; g_md2_vertex_used := g_md2_vertex_used s;
     g_md2_uv_used := g_md2_uv_used s |}.

Definition set_md2_vertex_pool (s : MeshState) (p : array MD2Vertex_t) : MeshState :=
  {| g_vertex_pool := g_vertex_pool s; g_index_pool := g_index_pool s;
     g_md2_uv_pool := g_md2_uv_pool s; g_frame_pool := g_frame_pool s;
     g_md2_vertex_pool := p; g_meshes := g_meshes s;
     g_vertex_used := g_vertex_used s; g_index_used := g_index_used s;
     g_frame_used := g_frame_used s; g_md2_vertex_used := g_md2_vertex_used s;
     g_md2_uv_used := g_md2_uv_used s |}.

Definition set_meshes (s : MeshState) (p : array MeshSlot_t) : MeshState :=
  {| g_vertex_pool := g_vertex_pool s; g_index_pool := g_index_pool s;
     g_md2_uv_pool := g_md2_uv_pool s; g_frame_pool := g_frame_pool s;
     g_md2_vertex_pool := g_md2_vertex_pool s; g_meshes := p;
     g_vertex_used := g_vertex_used s; g_index_used := g_index_used s;
     g_frame_used := g_frame_used s; g_md2_vertex_used := g_md2_vertex_used s;
     g_md2_uv_used := g_md2_uv_used s |}.

Definition set_vertex_used (s : MeshState) (n : Z) : MeshState :=
  {| g_vertex_pool := g_vertex_pool s; g_index_pool := g_index_pool s;
     g_md2_uv_pool := g_md2_uv_pool s; g_frame_pool := g_frame_pool s;
     g_md2_vertex_pool := g_md2_vertex_pool s; g_meshes := g_meshes s;
     g_vertex_used := n; g_index_used := g_index_used s;
     g_frame_used := g_frame_used s; g_md2_vertex_used := g_md2_vertex_used s;
     g_md2_uv_used := g_md2_uv_used s |}.

Definition set_index_used (s : MeshState) (n : Z) : MeshState :=
  {| g_vertex_pool := g_vertex_pool s; g_index_pool := g_index_pool s;
     g_md2_uv_pool := g_md2_uv_pool s; g_frame_pool := g_frame_pool s;
     g_md2_vertex_pool := g_md2_vertex_pool s; g_meshes := g_meshes s;
     g_vertex_used := g_vertex_used s; g_index_used := n;
     g_frame_used := g_frame_used s; g_md2_vertex_used := g_md2_vertex_used s;
     g_md2_uv_used := g_md2_uv_used s |}.

Definition set_frame_used (s : MeshState) (n : Z) : MeshState :=
  {| g_vertex_pool := g_vertex_pool s; g_index_pool := g_index_pool s;
     g_md2_uv_pool := g_md2_uv_pool s; g_frame_pool := g_frame_pool s;
     g_md2_vertex_pool := g_md2_vertex_pool s; g_meshes := g_meshes s;
     g_vertex_used := g_vertex_used s; g_index_used := g_index_used s;
     g_frame_used := n; g_md2_vertex_used := g_md2_vertex_used s;
     g_md2_uv_used := g_md2_uv_used s |}.

Definition set_md2_vertex_used (s : MeshState) (n : Z) : MeshState :=
  {| g_vertex_pool := g_vertex_pool s; g_index_pool := g_index_pool s;
     g_md2_uv_pool := g_md2_uv_pool s; g_frame_pool := g_frame_pool s;
     g_md2_vertex_pool := g_md2_vertex_pool s; g_meshes := g_meshes s;
     g_vertex_used := g_vertex_used s; g_index_used := g_index_used s;
     g_frame_used := g_frame_used s; g_md2_vertex_used := n;
     g_md2_uv_used := g_md2_uv_used s |}.

Definition set_md2_uv_used (s : MeshState) (n : Z) : MeshState :=
  {| g_vertex_pool := g_vertex_pool s; g_index_pool := g_index_pool s;
     g_md2_uv_pool := g_md2_uv_pool s; g_frame_pool := g_frame_pool s;
     g_md2_vertex_pool := g_md2_vertex_pool s; g_meshes := g_meshes s;
     g_vertex_used := g_vertex_used s; g_index_used := g_index_used s;
     g_frame_used := g_frame_used s; g_md2_vertex_used := g_md2_vertex_used s;
     g_md2_uv_used := n |}.

(** *** Pool management *)

(** The state of the pools at program start (zero-initialised statics). *)
Definition mesh_startup : MeshState :=
  {| g_vertex_pool := fun _ => zero_Vertex; g_index_pool := fun _ => 0;
     g_md2_uv_pool := fun _ => zero_uv; g_frame_pool := fun _ => zero_frame;
     g_md2_vertex_pool := fun _ => zero_MD2Vertex; g_meshes := fun _ => zero_slot;
     g_vertex_used := 0; g_index_used := 0; g_frame_used := 0;
     g_md2_vertex_used := 0; g_md2_uv_used := 0 |}.

Definition Mesh_Init (s : MeshState) : MeshState :=
  {| g_vertex_pool := g_vertex_pool s; g_index_pool := g_index_pool s;
     g_md2_uv_pool := g_md2_uv_pool s; g_frame_pool := g_frame_pool s;
     g_md2_vertex_pool := g_md2_vertex_pool s;
     g_meshes := fun _ => zero_slot;
     g_vertex_used := 0; g_index_used := 0; g_frame_used := 0;
     g_md2_vertex_used := 0; g_md2_uv_used := 0 |}.

(** [for (i = 0; i < MAX_MESHES; i++) if (g_meshes[i].type == 0) return i;] *)
Fixpoint AllocMeshSlot_from (n : nat) (i : Z) (s : MeshState) : Z :=
  match n with
  | O => NO_SPACE
  | S n' => if type (g_meshes s i) =? 0 then i else AllocMeshSlot_from n' (i + 1) s
  end.

Definition AllocMeshSlot (s : MeshState) : Z :=
  AllocMeshSlot_from (Z.to_nat MAX_MESHES) 0 s.

Definition AllocVertices (count : Z) (s : MeshState) : Z * MeshState :=
  if wrap32 (g_vertex_used s + count) >? MAX_TOTAL_VERTICES then (NO_SPACE, s)
  else let start := g_vertex_used s in
       (start, set_vertex_used s (wrap32 (g_vertex_used s + count))).

Definition AllocIndices (count : Z) (s : MeshState) : Z * MeshState :=
  if wrap32 (g_index_used s + count) >? MAX_TOTAL_INDICES then (NO_SPACE, s)
  else let start := g_index_used s in
       (start, set_index_used s (wrap32 (g_index_used s + count))).

Definition AllocFrames (count : Z) (s : MeshState) : Z * MeshState :=
  if wrap32 (g_frame_used s + count) >? MAX_MD2_FRAMES then (NO_SPACE, s)
  else let start := g_frame_used s in
       (start, set_frame_used s (wrap32 (g_frame_used s + count))).

Definition AllocMD2Vertices (count : Z) (s : MeshState) : Z * MeshState :=
  if wrap32 (g_md2_vertex_used s + count) >? MAX_MD2_VERTICES then (NO_SPACE, s)
  else let start := g_md2_vertex_used s in
       (start, set_md2_vertex_used s (wrap32 (g_md2_vertex_used s + count))).

(** loader_md2.cpp; the UV pool has [MAX_MD2_VERTICES] entries as well. *)
Definition AllocMD2UVs (count : Z) (s : MeshState) : Z * MeshState :=
  if wrap32 (g_md2_uv_used s + count) >? MAX_MD2_VERTICES then (NO_SPACE, s)
  else let start := g_md2_uv_used s in
       (start, set_md2_uv_used s (wrap32 (g_md2_uv_used s + count))).

(** The five pools, for statements about all of them. *)
Inductive Pool : Type :=
  VertexPool | IndexPool | FramePool | MD2VertexPool | MD2UVPool.

Definition capacity (p : Pool) : Z :=
  match p with
  | VertexPool => MAX_TOTAL_VERTICES
  | IndexPool => MAX_TOTAL_INDICES
  | FramePool => MAX_MD2_FRAMES
  | MD2VertexPool => MAX_MD2_VERTICES
  | MD2UVPool => MAX_MD2_VERTICES
  end.

Definition used (p : Pool) (s : MeshState) : Z :=
  match p with
  | VertexPool => g_vertex_used s
  | IndexPool => g_index_used s
  | FramePool => g_frame_used s
  | MD2VertexPool => g_md2_vertex_used s
  | MD2UVPool => g_md2_uv_used s
  end.

Definition allocate (p : Pool) (n : Z) (s : MeshState) : Z * MeshState :=
  match p with
  | VertexPool => AllocVertices n s
  | IndexPool => AllocIndices n s
  | FramePool => AllocFrames n s
  | MD2VertexPool => AllocMD2Vertices n s
  | MD2UVPool => AllocMD2UVs n s
  end.

(** A sequence of [allocate] calls, and the state it leaves. *)
Fixpoint allocate_all (calls : list (Pool * Z)) (s : MeshState) : MeshState :=
  match calls with
  | [] => s
  | (p, n) :: rest => allocate_all rest (snd (allocate p n s))
  end.

(** *** Accessors *)

(** [NULL] is [None]; a slot pointer is the value of the slot. *)
Definition Mesh_Get (id : Z) (s : MeshState) : option MeshSlot_t :=
  if (id >=? MAX_MESHES) || (type (g_meshes s id) =? 0) then None
  else Some (g_meshes s id).

(** [Mesh_GetVertexPtr] and [Mesh_GetIndexPtr] return the address of the
    pool element, i.e. its offset. *)
Definition Mesh_GetVertexPtr (start : Z) : option Z :=
  if start <? MAX_TOTAL_VERTICES then Some start else None.

Definition Mesh_GetIndexPtr (start : Z) : option Z :=
  if start <? MAX_TOTAL_INDICES then Some start else None.

Definition set_type (m : MeshSlot_t) (t : Z) : MeshSlot_t :=
  {| type := t; flags := flags m; stat := stat m; anim := anim m |}.

Definition Mesh_Free (id : Z) (s : MeshState) : MeshState :=
  if id <? MAX_MESHES then set_meshes s (aset (g_meshes s) id (set_type (g_meshes s id) 0))
  else s.

(** *** The MD2 table of 162 pre-computed normals

    The literals of the sources have six decimals; they are kept as
    integers in units of 10^-6.  [g_md2_normals] (mesh.cpp) and [g_normals]
    (loader_md2.cpp) hold the same 162 rows. *)
Definition md2_normals_micro : list (Z * Z * Z) :=
  [
    (-525731, 0, 850651); (-442863, 238856, 864188); (-295242, 0, 955423);
    (-309017, 500000, 809017); (-162460, 262866, 951056); (0, 0, 1000000);
    (0, 850651, 525731); (-147621, 716567, 681718); (147621, 716567, 681718);
    (0, 525731, 850651); (309017, 500000, 809017); (525731, 0, 850651);
    (295242, 0, 955423); (442863, 238856, 864188); (162460, 262866, 951056);
    (-681718, 147621, 716567); (-809017, 309017, 500000);
    (-587785, 425325, 688191); (-850651, 525731, 0);
    (-864188, 442863, 238856); (-716567, 681718, 147621);
    (-688191, 587785, 425325); (-500000, 809017, 309017);
    (-238856, 864188, 442863); (-425325, 688191, 587785);
    (-716567, 681718, -147621); (-500000, 809017, -309017);
    (-525731, 850651, 0); (0, 850651, -525731); (-238856, 864188, -442863);
    (0, 955423, -295242); (-262866, 951056, -162460); (0, 1000000, 0);
    (0, 955423, 295242); (-262866, 951056, 162460); (238856, 864188, 442863);
    (262866, 951056, 162460); (500000, 809017, 309017);
    (238856, 864188, -442863); (262866, 951056, -162460);
    (500000, 809017, -309017); (850651, 525731, 0); (716567, 681718, 147621);
    (716567, 681718, -147621); (525731, 850651, 0); (425325, 688191, 587785);
    (864188, 442863, 238856); (688191, 587785, 425325);
    (809017, 309017, 500000); (681718, 147621, 716567);
    (587785, 425325, 688191); (955423, 295242, 0); (1000000, 0, 0);
    (951056, 162460, 262866); (850651, -525731, 0); (955423, -295242, 0);
    (864188, -442863, 238856); (951056, -162460, 262866);
    (809017, -309017, 500000); (681718, -147621, 716567);
    (850651, 0, 525731); (864188, 442863, -238856);
    (809017, 309017, -500000); (951056, 162460, -262866);
    (525731, 0, -850651); (681718, 147621, -716567);
    (681718, -147621, -716567); (850651, 0, -525731);
    (809017, -309017, -500000); (864188, -442863, -238856);
    (951056, -162460, -262866); (147621, 716567, -681718);
    (309017, 500000, -809017); (425325, 688191, -587785);
    (442863, 238856, -864188); (587785, 425325, -688191);
    (688191, 587785, -425325); (-147621, 716567, -681718);
    (-309017, 500000, -809017); (0, 525731, -850651); (-525731, 0, -850651);
    (-442863, 238856, -864188); (-295242, 0, -955423);
    (-162460, 262866, -951056); (0, 0, -1000000); (295242, 0, -955423);
    (162460, 262866, -951056); (-442863, -238856, -864188);
    (-309017, -500000, -809017); (-162460, -262866, -951056);
    (0, -850651, -525731); (-147621, -716567, -681718);
    (147621, -716567, -681718); (0, -525731, -850651);
    (309017, -500000, -809017); (442863, -238856, -864188);
    (162460, -262866, -951056); (238856, -864188, -442863);
    (500000, -809017, -309017); (425325, -688191, -587785);
    (716567, -681718, -147621); (688191, -587785, -425325);
    (587785, -425325, -688191); (0, -955423, -295242); (0, -1000000, 0);
    (262866, -951056, -162460); (0, -850651, 525731); (0, -955423, 295242);
    (238856, -864188, 442863); (262866, -951056, 162460);
    (500000, -809017, 309017); (716567, -681718, 147621);
    (525731, -850651, 0); (-238856, -864188, -442863);
    (-500000, -809017, -309017); (-262866, -951056, -162460);
    (-850651, -525731, 0); (-716567, -681718, -147621);
    (-716567, -681718, 147621); (-525731, -850651, 0);
    (-500000, -809017, 309017); (-238856, -864188, 442863);
    (-262866, -951056, 162460); (-864188, -442863, 238856);
    (-809017, -309017, 500000); (-688191, -587785, 425325);
    (-681718, -147621, 716567); (-442863, -238856, 864188);
    (-587785, -425325, 688191); (-309017, -500000, 809017);
    (-147621, -716567, 681718); (-425325, -688191, 587785);
    (-162460, -262866, 951056); (442863, -238856, 864188);
    (162460, -262866, 951056); (309017, -500000, 809017);
    (147621, -716567, 681718); (0, -525731, 850651);
    (425325, -688191, 587785); (587785, -425325, 688191);
    (688191, -587785, 425325); (-955423, 295242, 0);
    (-951056, 162460, 262866); (-1000000, 0, 0); (-850651, 0, 525731);
    (-955423, -295242, 0); (-951056, -162460, 262866);
    (-864188, 442863, -238856); (-951056, 162460, -262866);
    (-809017, 309017, -500000); (-864188, -442863, -238856);
    (-951056, -162460, -262866); (-809017, -309017, -500000);
    (-681718, 147621, -716567); (-681718, -147621, -716567);
    (-850651, 0, -525731); (-688191, 587785, -425325);
    (-587785, 425325, -688191); (-425325, 688191, -587785);
    (-425325, -688191, -587785); (-587785, -425325, -688191);
    (-688191, -587785, -425325)
  ].

Definition normal_row (r : Z * Z * Z) : float * float * float :=
  let '(a, b, c) := r in (lit a 1000000, lit b 1000000, lit c 1000000).

Definition g_md2_normals : list (float * float * float) :=
  Eval vm_compute in map normal_row md2_normals_micro.

Definition g_normals : list (float * float * float) := g_md2_normals.

(** A subscript of a table; [None] is a read outside of the table. *)
Definition table_read (tbl : list (float * float * float)) (i : Z)
  : option (float * float * float) :=
  if i <? 0 then None else nth_error tbl (Z.to_nat i).

(** *** MD2 vertex interpolation (mesh.cpp) *)

Definition default_normal : Vec3 := MakeVec3 zero one zero.

(** [position = byte * scale + translate], as [Mesh_GetMD2InterpolatedVertex]
    writes it. *)
Definition decompress (v : MD2Vertex_t) (fd : MD2FrameDesc_t) : Vec3 :=
  MakeVec3
    (fadd (fmul (of_int (mv_x v)) (v3_x (fd_scale fd))) (v3_x (fd_translate fd)))
    (fadd (fmul (of_int (mv_y v)) (v3_y (fd_scale fd))) (v3_y (fd_translate fd)))
    (fadd (fmul (of_int (mv_z v)) (v3_z (fd_scale fd))) (v3_z (fd_translate fd))).

Definition vec3_of_row (r : float * float * float) : Vec3 :=
  let '(a, b, c) := r in MakeVec3 a b c.

(** The result is [None] when a normal is read outside of [g_md2_normals]. *)
Definition Mesh_GetMD2InterpolatedVertex
    (s : MeshState) (mesh_id vertex_index frame_a frame_b : Z) (lerp : float)
  : option (Vec3 * Vec3) :=
  if (mesh_id >=? MAX_MESHES) || negb (type (g_meshes s mesh_id) =? 2) then
    Some (Vec3_Zero, default_normal)
  else
    let anim := anim (g_meshes s mesh_id) in
    (* Clamp frames *)
    let frame_a := if frame_a >=? frame_count anim
                   then wrap16 (frame_count anim - 1) else frame_a in
    let frame_b := if frame_b >=? frame_count anim
                   then wrap16 (frame_count anim - 1) else frame_b in
    if vertex_index >=? verts_per_frame anim then
      Some (Vec3_Zero, default_normal)
    else
      (* Get frame descriptors *)
      let fd_a := g_frame_pool s (frame_start anim + frame_a) in
      let fd_b := g_frame_pool s (frame_start anim + frame_b) in
      (* Get compressed vertices *)
      let v_a := g_md2_vertex_pool s (wrap32 (fd_vertex_start fd_a + vertex_index)) in
      let v_b := g_md2_vertex_pool s (wrap32 (fd_vertex_start fd_b + vertex_index)) in
      (* Decompress positions *)
      let pos_a := decompress v_a fd_a in
      let pos_b := decompress v_b fd_b in
      (* Get normals from lookup table *)
      let ni_a := Z.rem (normal_index v_a) 162 in
      let ni_b := Z.rem (normal_index v_b) 162 in
      match table_read g_md2_normals ni_a, table_read g_md2_normals ni_b with
      | Some ra, Some rb =>
          let norm_a := vec3_of_row ra in
          let norm_b := vec3_of_row rb in
          (* Interpolate *)
          Some (Vec3_Lerp pos_a pos_b lerp,
                Vec3_Normalize (Vec3_Lerp norm_a norm_b lerp))
      | _, _ => None
      end.

(** *** The evaluator of loader_md2.cpp *)

(** [scale * byte + translate], as [Mesh_GetMD2Vertex] writes it. *)
Definition decompress' (v : MD2Vertex_t) (fd : MD2FrameDesc_t) : Vec3 :=
  MakeVec3
    (fadd (fmul (v3_x (fd_scale fd)) (of_int (mv_x v))) (v3_x (fd_translate fd)))
    (fadd (fmul (v3_y (fd_scale fd)) (of_int (mv_y v))) (v3_y (fd_translate fd)))
    (fadd (fmul (v3_z (fd_scale fd)) (of_int (mv_z v))) (v3_z (fd_translate fd))).

(** The outputs [*pos], [*norm] and, when the pointer [uv] is not null
    ([want_uv]), [*uv].  The result is [None] when a normal is read outside
    of [g_normals]. *)
Definition Mesh_GetMD2Vertex
    (s : MeshState) (mesh_id vert_idx frame_a frame_b : Z) (t : float)
    (want_uv : bool)
  : option (Vec3 * Vec3 * option Vec2) :=
  let uv_out := if want_uv then Some (MakeVec2 zero zero) else None in
  match Mesh_Get mesh_id s with
  | None => Some (Vec3_Zero, default_normal, uv_out)
  | Some m =>
    if negb (type m =? 2) then Some (Vec3_Zero, default_normal, uv_out)
    else
      let frame_a := if frame_a >=? frame_count (anim m)
                     then wrap32 (frame_count (anim m) - 1) else frame_a in
      let frame_b := if frame_b >=? frame_count (anim m)
                     then wrap32 (frame_count (anim m) - 1) else frame_b in
      let vert_idx := if vert_idx >=? verts_per_frame (anim m) then 0 else vert_idx in
      let fa := g_frame_pool s (wrap32 (frame_start (anim m) + frame_a)) in
      let fb := g_frame_pool s (wrap32 (frame_start (anim m) + frame_b)) in
      let va := g_md2_vertex_pool s (wrap32 (fd_vertex_start fa + vert_idx)) in
      let vb := g_md2_vertex_pool s (wrap32 (fd_vertex_start fb + vert_idx)) in
      let pa := decompress' va fa in
      let pb := decompress' vb fb in
      let ni_a := Z.rem (normal_index va) 162 in
      let ni_b := Z.rem (normal_index vb) 162 in
      match table_read g_normals ni_a, table_read g_normals ni_b with
      | Some ra, Some rb =>
          let na := vec3_of_row ra in
          let nb := vec3_of_row rb in
          Some (Vec3_Lerp pa pb t, Vec3_Normalize (Vec3_Lerp na nb t), uv_out)
      | _, _ => None
      end
  end.

Definition Pool_eq_dec (p q : Pool) : {p = q} + {p <> q}.
Proof. decide equality. Defined.

(** ** loader_md2.cpp *)

(** A buffer is a list of bytes; a pointer into it is an offset.  A read
    outside of the buffer (undefined behaviour in C) yields 0. *)
Definition byte_at (data : list Z) (off : Z) : Z :=
  if off <? 0 then 0 else nth (Z.to_nat off) data 0.

Definition rd_u16 (data : list Z) (off : Z) : Z :=
  byte_at data off + 256 * byte_at data (off + 1).

Definition rd_i16 (data : list Z) (off : Z) : Z :=
  let u := rd_u16 data off in if u <? 32768 then u else u - 65536.

Definition rd_u32 (data : list Z) (off : Z) : Z :=
  byte_at data off + 256 * byte_at data (off + 1)
  + 65536 * byte_at data (off + 2) + 16777216 * byte_at data (off + 3).

Definition rd_i32 (data : list Z) (off : Z) : Z := swrap32 (rd_u32 data off).

Definition rd_f32 (data : list Z) (off : Z) : float := of_bits (rd_u32 data off).

(** [MD2Header_t]: seventeen little-endian [int32_t]. *)
Definition sizeof_MD2Header : Z := 68.
Definition hdr_magic (d : list Z) : Z := rd_i32 d 0.
Definition hdr_version (d : list Z) : Z := rd_i32 d 4.
Definition hdr_skin_width (d : list Z) : Z := rd_i32 d 8.
Definition hdr_skin_height (d : list Z) : Z := rd_i32 d 12.
Definition hdr_frame_size (d : list Z) : Z := rd_i32 d 16.
Definition hdr_num_vertices (d : list Z) : Z := rd_i32 d 24.
Definition hdr_num_triangles (d : list Z) : Z := rd_i32 d 32.
Definition hdr_num_frames (d : list Z) : Z := rd_i32 d 40.
Definition hdr_offset_texcoords (d : list Z) : Z := rd_i32 d 48.
Definition hdr_offset_triangles (d : list Z) : Z := rd_i32 d 52.
Definition hdr_offset_frames (d : list Z) : Z := rd_i32 d 56.

Definition MD2_MAGIC : Z := 844121161.
Definition MD2_VERSION : Z := 8.

(** [tris[i].vertex[k]] and [tris[i].texcoord[k]]; an [MD2Triangle_t] has
    twelve bytes. *)
Definition tri_vertex (d : list Z) (tris i k : Z) : Z := rd_u16 d (tris + 12 * i + 2 * k).
Definition tri_texcoord (d : list Z) (tris i k : Z) : Z :=
  rd_u16 d (tris + 12 * i + 6 + 2 * k).

(** The loop over the triangles: index buffer and expanded UVs. *)
Definition md2_triangle_body (d : list Z) (uv_start idx_start : Z) (inv_w inv_h : float)
    (i : Z) (s : MeshState) : MeshState :=
  let src_uvs := hdr_offset_texcoords d in
  let tris := hdr_offset_triangles d in
  let i3 := swrap32 (i * 3) in
  let s := set_index_pool s
             (aset (aset (aset (g_index_pool s)
                (idx_start + swrap32 (i3 + 0)) (tri_vertex d tris i 0))
                (idx_start + swrap32 (i3 + 1)) (tri_vertex d tris i 2))
                (idx_start + swrap32 (i3 + 2)) (tri_vertex d tris i 1)) in
  for_loop 3 0 (fun j s =>
    let uv_idx := tri_texcoord d tris i j in
    set_md2_uv_pool s
      (aset (g_md2_uv_pool s) (uv_start + swrap32 (i3 + j))
         {| uv_u := fmul (of_int (rd_i16 d (src_uvs + 4 * uv_idx))) inv_w;
            uv_v := fmul (of_int (rd_i16 d (src_uvs + 4 * uv_idx + 2))) inv_h |})) s.

(** The loop over the frames; [frame_ptr] is [offset_frames + f * frame_size]
    and [src->verts] starts 40 bytes into the frame. *)
Definition md2_frame_body (d : list Z) (frame_start vert_start : Z)
    (f : Z) (s : MeshState) : MeshState :=
  let nv := hdr_num_vertices d in
  let frame_ptr := hdr_offset_frames d + f * hdr_frame_size d in
  let fnv := swrap32 (f * nv) in
  let s := set_frame_pool s
             (aset (g_frame_pool s) (frame_start + f)
                {| fd_scale := MakeVec3 (rd_f32 d frame_ptr) (rd_f32 d (frame_ptr + 4))
                                        (rd_f32 d (frame_ptr + 8));
                   fd_translate := MakeVec3 (rd_f32 d (frame_ptr + 12))
                                            (rd_f32 d (frame_ptr + 16))
                                            (rd_f32 d (frame_ptr + 20));
                   fd_vertex_start := wrap16 (wrap32 (vert_start + fnv));
                   fd_vertex_count := wrap16 nv |}) in
  for_loop (Z.to_nat nv) 0 (fun v s =>
    set_md2_vertex_pool s
      (aset (g_md2_vertex_pool s) (vert_start + fnv + v)
         {| mv_x := byte_at d (frame_ptr + 40 + 4 * v);
            mv_y := byte_at d (frame_ptr + 40 + 4 * v + 1);
            mv_z := byte_at d (frame_ptr + 40 + 4 * v + 2);
            normal_index := byte_at d (frame_ptr + 40 + 4 * v + 3) |})) s.

Definition md2_fill_slot (d : list Z) (slot frame_start idx_start uv_start num_uvs : Z)
    (s : MeshState) : MeshState :=
  set_meshes s
    (aset (g_meshes s) slot
       {| type := 2; flags := flags (g_meshes s slot); stat := stat (g_meshes s slot);
          anim := {| frame_start := wrap16 frame_start;
                     frame_count := wrap16 (hdr_num_frames d);
                     an_index_start := wrap16 idx_start;
                     an_index_count := wrap16 (swrap32 (hdr_num_triangles d * 3));
                     verts_per_frame := wrap16 (hdr_num_vertices d);
                     uv_start := wrap16 uv_start;
                     uv_count := wrap16 num_uvs |} |}).

(** [data] is [None] for a null pointer.  The result is the returned handle
    and the state of the pools after the call. *)
Definition Mesh_LoadMD2 (data : option (list Z)) (size : Z) (s : MeshState)
  : Z * MeshState :=
  match data with
  | None => (NO_SPACE, s)
  | Some d =>
    if size <? sizeof_MD2Header then (NO_SPACE, s)
    else if negb (hdr_magic d =? MD2_MAGIC) || negb (hdr_version d =? MD2_VERSION)
    then (NO_SPACE, s)
    else if hdr_num_frames d >? MAX_MD2_FRAMES then (NO_SPACE, s)
    else
      let slot := AllocMeshSlot s in
      if slot =? NO_SPACE then (NO_SPACE, s)
      else
        (* MD2 uses per-triangle UVs *)
        let num_uvs := wrap32 (swrap32 (hdr_num_triangles d * 3)) in
        let '(uv_start, s) := AllocMD2UVs num_uvs s in
        if uv_start =? NO_SPACE then (NO_SPACE, s)
        else
          let inv_w := fdiv one (of_int (hdr_skin_width d)) in
          let inv_h := fdiv one (of_int (hdr_skin_height d)) in
          (* Build index buffer and expand UVs per triangle *)
          let '(idx_start, s) := AllocIndices (wrap32 (swrap32 (hdr_num_triangles d * 3))) s in
          if idx_start =? NO_SPACE then (NO_SPACE, s)
          else
            let s := for_loop (Z.to_nat (hdr_num_triangles d)) 0
                       (md2_triangle_body d uv_start idx_start inv_w inv_h) s in
            (* Allocate frames and vertices *)
            let '(frame_start, s) := AllocFrames (wrap32 (hdr_num_frames d)) s in
            if frame_start =? NO_SPACE then (NO_SPACE, s)
            else
              let total_verts :=
                wrap32 (swrap32 (hdr_num_frames d * hdr_num_vertices d)) in
              let '(vert_start, s) := AllocMD2Vertices total_verts s in
              if vert_start =? NO_SPACE then (NO_SPACE, s)
              else
                (* Extract frame data *)
                let s := for_loop (Z.to_nat (hdr_num_frames d)) 0
                           (md2_frame_body d frame_start vert_start) s in
                (slot, md2_fill_slot d slot frame_start idx_start uv_start num_uvs s)
  end.


(** ** entity.h and entity.cpp *)

Definition INVALID_ENTITY : Z := 4294967295.

Definition COMP_TRANSFORM : Z := 1.
Definition COMP_MESH_RENDERER : Z := 2.
Definition COMP_CAMERA : Z := 8.
Definition COMP_LIGHT : Z := 16.
Definition COMP_ANIMATOR : Z := 32.

Definition DEG_TO_RAD : float := lit 1745329251994329577 100000000000000000000.

Record Transform_t : Type :=
  { tr_position : Vec3; tr_rotation : Vec3; tr_scale : Vec3;
    local_matrix : Mat4; world_matrix : Mat4;
    parent : Z; dirty : Z }.

Record MeshRenderer_t : Type :=
  { mesh_id : Z; material_id : Z; mr_bounds_center : Vec3; mr_bounds_radius : float;
    visible : Z; cast_shadows : Z;
    anim_frame_a : Z; anim_frame_b : Z; anim_lerp : float; is_animated : Z }.

Record Camera_t : Type :=
  { fov : float; near_plane : float; far_plane : float; is_active : Z }.

Record Light_t : Type :=
  { light_type : Z; light_color : Vec3; intensity : float; range : float;
    spot_angle : float }.

Record Animator_t : Type :=
  { current_frame : Z; next_frame : Z;
    interpolation : float; frame_time : float; playback_speed : float;
    start_frame : Z; end_frame : Z;
    is_playing : Z; is_looping : Z }.

Record Entity_t : Type :=
  { id : Z; components : Z; active : Z; layer : Z; tag : Z; name : list Z }.

Record EntityState : Type :=
  { g_entities : array Entity_t;
    g_transforms : array Transform_t;
    g_mesh_renderers : array MeshRenderer_t;
    g_cameras : array Camera_t;
    g_lights : array Light_t;
    g_animators : array Animator_t;
    g_next_id : Z }.

Definition set_entities (st : EntityState) (a : array Entity_t) : EntityState :=
  {| g_entities := a; g_transforms := g_transforms st;
     g_mesh_renderers := g_mesh_renderers st; g_cameras := g_cameras st;
     g_lights := g_lights st; g_animators := g_animators st;
     g_next_id := g_next_id st |}.

Definition set_transforms (st : EntityState) (a : array Transform_t) : EntityState :=
  {| g_entities := g_entities st; g_transforms := a;
     g_mesh_renderers := g_mesh_renderers st; g_cameras := g_cameras st;
     g_lights := g_lights st; g_animators := g_animators st;
     g_next_id := g_next_id st |}.

Definition set_mesh_renderers (st : EntityState) (a : array MeshRenderer_t) : EntityState :=
  {| g_entities := g_entities st; g_transforms := g_transforms st;
     g_mesh_renderers := a; g_cameras := g_cameras st;
     g_lights := g_lights st; g_animators := g_animators st;
     g_next_id := g_next_id st |}.

Definition set_cameras (st : EntityState) (a : array Camera_t) : EntityState :=
  {| g_entities := g_entities st; g_transforms := g_transforms st;
     g_mesh_renderers := g_mesh_renderers st; g_cameras := a;
     g_lights := g_lights st; g_animators := g_animators st;
     g_next_id := g_next_id st |}.

Definition set_lights (st : EntityState) (a : array Light_t) : EntityState :=
  {| g_entities := g_entities st; g_transforms := g_transforms st;
     g_mesh_renderers := g_mesh_renderers st; g_cameras := g_cameras st;
     g_lights := a; g_animators := g_animators st;
     g_next_id := g_next_id st |}.

Definition set_animators (st : EntityState) (a : array Animator_t) : EntityState :=
  {| g_entities := g_entities st; g_transforms := g_transforms st;
     g_mesh_renderers := g_mesh_renderers st; g_cameras := g_cameras st;
     g_lights := g_lights st; g_animators := a;
     g_next_id := g_next_id st |}.

Definition set_next_id (st : EntityState) (n : Z) : EntityState :=
  {| g_entities := g_entities st; g_transforms := g_transforms st;
     g_mesh_renderers := g_mesh_renderers st; g_cameras := g_cameras st;
     g_lights := g_lights st; g_animators := g_animators st;
     g_next_id := n |}.

(** Field updates of [Transform_t], [Animator_t] and [Entity_t]. *)
Definition with_local (t : Transform_t) (m : Mat4) : Transform_t :=
  {| tr_position := tr_position t; tr_rotation := tr_rotation t; tr_scale := tr_scale t;
     local_matrix := m; world_matrix := world_matrix t;
     parent := parent t; dirty := dirty t |}.

Definition with_world_clean (t : Transform_t) (m : Mat4) : Transform_t :=
  {| tr_position := tr_position t; tr_rotation := tr_rotation t; tr_scale := tr_scale t;
     local_matrix := local_matrix t; world_matrix := m;
     parent := parent t; dirty := 0 |}.

Definition with_parent_dirty (t : Transform_t) (p : Z) : Transform_t :=
  {| tr_position := tr_position t; tr_rotation := tr_rotation t; tr_scale := tr_scale t;
     local_matrix := local_matrix t; world_matrix := world_matrix t;
     parent := p; dirty := 1 |}.

Definition with_position_dirty (t : Transform_t) (p : Vec3) : Transform_t :=
  {| tr_position := p; tr_rotation := tr_rotation t; tr_scale := tr_scale t;
     local_matrix := local_matrix t; world_matrix := world_matrix t;
     parent := parent t; dirty := 1 |}.

Definition with_rotation_dirty (t : Transform_t) (r : Vec3) : Transform_t :=
  {| tr_position := tr_position t; tr_rotation := r; tr_scale := tr_scale t;
     local_matrix := local_matrix t; world_matrix := world_matrix t;
     parent := parent t; dirty := 1 |}.

Definition with_scale_dirty (t : Transform_t) (sc : Vec3) : Transform_t :=
  {| tr_position := tr_position t; tr_rotation := tr_rotation t; tr_scale := sc;
     local_matrix := local_matrix t; world_matrix := world_matrix t;
     parent := parent t; dirty := 1 |}.

Definition with_components (e : Entity_t) (c : Z) : Entity_t :=
  {| id := id e; components := c; active := active e; layer := layer e;
     tag := tag e; name := name e |}.

(** The all-zero objects that [memset] leaves. *)
Definition zero_Entity : Entity_t :=
  {| id := 0; components := 0; active := 0; layer := 0; tag := 0; name := repeat 0 24 |}.
Definition zero_Transform : Transform_t :=
  {| tr_position := Vec3_Zero; tr_rotation := Vec3_Zero; tr_scale := Vec3_Zero;
     local_matrix := Mat4_Zero; world_matrix := Mat4_Zero; parent := 0; dirty := 0 |}.
Definition zero_MeshRenderer : MeshRenderer_t :=
  {| mesh_id := 0; material_id := 0; mr_bounds_center := Vec3_Zero;
     mr_bounds_radius := zero; visible := 0; cast_shadows := 0;
     anim_frame_a := 0; anim_frame_b := 0; anim_lerp := zero; is_animated := 0 |}.
Definition zero_Camera : Camera_t :=
  {| fov := zero; near_plane := zero; far_plane := zero; is_active := 0 |}.
Definition zero_Light : Light_t :=
  {| light_type := 0; light_color := Vec3_Zero; intensity := zero; range := zero;
     spot_angle := zero |}.
Definition zero_Animator : Animator_t :=
  {| current_frame := 0; next_frame := 0; interpolation := zero; frame_time := zero;
     playback_speed := zero; start_frame := 0; end_frame := 0;
     is_playing := 0; is_looping := 0 |}.

Fixpoint FindIndex_from (n : nat) (i : Z) (st : EntityState) (eid : Z) : Z :=
  match n with
  | O => -1
  | S n' => if id (g_entities st i) =? eid then i else FindIndex_from n' (i + 1) st eid
  end.

Definition FindIndex (st : EntityState) (eid : Z) : Z :=
  if eid =? INVALID_ENTITY then -1
  else FindIndex_from (Z.to_nat MAX_ENTITIES) 0 st eid.

Definition Entity_Init : EntityState :=
  let st := {| g_entities := fun _ => zero_Entity;
               g_transforms := fun _ => zero_Transform;
               g_mesh_renderers := fun _ => zero_MeshRenderer;
               g_cameras := fun _ => zero_Camera;
               g_lights := fun _ => zero_Light;
               g_animators := fun _ => zero_Animator;
               g_next_id := 1 |} in
  for_loop (Z.to_nat MAX_ENTITIES) 0 (fun i st =>
    let e := g_entities st i in
    let st := set_entities st (aset (g_entities st) i
                {| id := INVALID_ENTITY; components := components e; active := active e;
                   layer := layer e; tag := tag e; name := name e |}) in
    let t := g_transforms st i in
    set_transforms st (aset (g_transforms st) i
      {| tr_position := tr_position t; tr_rotation := tr_rotation t;
         tr_scale := Vec3_One; local_matrix := Mat4_Identity;
         world_matrix := Mat4_Identity; parent := INVALID_ENTITY; dirty := dirty t |})) st.

(** [strncpy(dst, src, 23)] into a [char[24]]: at most 23 bytes of [src] up
    to its terminator, padded with zeros; the last byte of [dst] stays. *)
Fixpoint strncpy_bytes (n : nat) (src : list Z) : list Z :=
  match n with
  | O => []
  | S n' => match src with
            | [] => 0 :: strncpy_bytes n' []
            | c :: rest => if c =? 0 then 0 :: strncpy_bytes n' []
                           else c :: strncpy_bytes n' rest
            end
  end.

Definition strncpy23 (dst src : list Z) : list Z :=
  strncpy_bytes 23 src ++ skipn 23 dst.

(** The body of [Entity_Create] for the free slot [i]. *)
Definition Entity_Create_at (nm : option (list Z)) (i : Z) (st : EntityState)
  : Z * EntityState :=
  let eid := g_next_id st in
  let st := set_next_id st (wrap32 (eid + 1)) in
  let e := g_entities st i in
  let st := set_entities st (aset (g_entities st) i
              {| id := eid; components := COMP_TRANSFORM; active := 1; layer := 0;
                 tag := 0;
                 name := match nm with
                         | Some src => strncpy23 (name e) src
                         | None => name e
                         end |}) in
  let t := g_transforms st i in
  let st := set_transforms st (aset (g_transforms st) i
              {| tr_position := Vec3_Zero; tr_rotation := Vec3_Zero; tr_scale := Vec3_One;
                 local_matrix := local_matrix t; world_matrix := world_matrix t;
                 parent := INVALID_ENTITY; dirty := 1 |}) in
  let r := g_mesh_renderers st i in
  let st := set_mesh_renderers st (aset (g_mesh_renderers st) i
              {| mesh_id := mesh_id r; material_id := material_id r;
                 mr_bounds_center := mr_bounds_center r;
                 mr_bounds_radius := mr_bounds_radius r;
                 visible := 1; cast_shadows := cast_shadows r;
                 anim_frame_a := anim_frame_a r; anim_frame_b := anim_frame_b r;
                 anim_lerp := anim_lerp r; is_animated := is_animated r |}) in
  let c := g_cameras st i in
  let st := set_cameras st (aset (g_cameras st) i
              {| fov := fmul (of_int 60) DEG_TO_RAD; near_plane := lit 1 10;
                 far_plane := of_int 1000; is_active := is_active c |}) in
  let l := g_lights st i in
  let st := set_lights st (aset (g_lights st) i
              {| light_type := light_type l; light_color := Vec3_One;
                 intensity := one; range := of_int 10; spot_angle := spot_angle l |}) in
  let a := g_animators st i in
  let st := set_animators st (aset (g_animators st) i
              {| current_frame := current_frame a; next_frame := next_frame a;
                 interpolation := interpolation a; frame_time := frame_time a;
                 playback_speed := one;
                 start_frame := start_frame a; end_frame := end_frame a;
                 is_playing := is_playing a; is_looping := is_looping a |}) in
  (eid, st).

Fixpoint Entity_Create_from (n : nat) (i : Z) (nm : option (list Z)) (st : EntityState)
  : Z * EntityState :=
  match n with
  | O => (INVALID_ENTITY, st)
  | S n' => if id (g_entities st i) =? INVALID_ENTITY then Entity_Create_at nm i st
            else Entity_Create_from n' (i + 1) nm st
  end.

Definition Entity_Create (nm : option (list Z)) (st : EntityState) : Z * EntityState :=
  Entity_Create_from (Z.to_nat MAX_ENTITIES) 0 nm st.

Definition Entity_AddComponent (eid c : Z) (st : EntityState) : EntityState :=
  let idx := FindIndex st eid in
  if idx >=? 0
  then set_entities st (aset (g_entities st) idx
         (with_components (g_entities st idx) (Z.lor (components (g_entities st idx)) c)))
  else st.

Definition Entity_GetAnimator (eid : Z) (st : EntityState) : option Z :=
  let idx := FindIndex st eid in if idx >=? 0 then Some idx else None.

Definition Entity_SetParent (child par : Z) (st : EntityState) : EntityState :=
  let idx := FindIndex st child in
  if idx >=? 0
  then set_transforms st (aset (g_transforms st) idx
         (with_parent_dirty (g_transforms st idx) par))
  else st.

Definition Transform_SetPosition (eid : Z) (p : Vec3) (st : EntityState) : EntityState :=
  let idx := FindIndex st eid in
  if idx >=? 0
  then set_transforms st (aset (g_transforms st) idx
         (with_position_dirty (g_transforms st idx) p))
  else st.

Definition Transform_SetRotation (eid : Z) (r : Vec3) (st : EntityState) : EntityState :=
  let idx := FindIndex st eid in
  if idx >=? 0
  then set_transforms st (aset (g_transforms st) idx
         (with_rotation_dirty (g_transforms st idx) r))
  else st.

Definition Transform_SetScale (eid : Z) (sc : Vec3) (st : EntityState) : EntityState :=
  let idx := FindIndex st eid in
  if idx >=? 0
  then set_transforms st (aset (g_transforms st) idx
         (with_scale_dirty (g_transforms st idx) sc))
  else st.

Section Transforms.
Variables cosf sinf : float -> float.

(** The four products of [UpdateLocalMatrix], with the reuse of [tmp] and
    of [Rx] as the sources write it. *)
Definition UpdateLocalMatrix (idx : Z) (st : EntityState) : EntityState :=
  let t := g_transforms st idx in
  let T := Mat4_Translation (v3_x (tr_position t)) (v3_y (tr_position t))
                            (v3_z (tr_position t)) in
  let Rx := Mat4_RotationX cosf sinf (v3_x (tr_rotation t)) in
  let Ry := Mat4_RotationY cosf sinf (v3_y (tr_rotation t)) in
  let Rz := Mat4_RotationZ cosf sinf (v3_z (tr_rotation t)) in
  let S := Mat4_Scale (v3_x (tr_scale t)) (v3_y (tr_scale t)) (v3_z (tr_scale t)) in
  let tmp := Mat4_Multiply Ry Rx in
  let Rx := Mat4_Multiply tmp Rz in
  let tmp := Mat4_Multiply T Rx in
  set_transforms st (aset (g_transforms st) idx (with_local t (Mat4_Multiply tmp S))).

(** One sweep of the propagation of the world matrices; the flag is
    [any_dirty]. *)
Definition propagate_body (i : Z) (acc : EntityState * bool) : EntityState * bool :=
  let '(st, any_dirty) := acc in
  if (id (g_entities st i) =? INVALID_ENTITY) || (dirty (g_transforms st i) =? 0)
  then acc
  else
    let t := g_transforms st i in
    if parent t =? INVALID_ENTITY then
      (set_transforms st (aset (g_transforms st) i (with_world_clean t (local_matrix t))),
       any_dirty)
    else
      let pidx := FindIndex st (parent t) in
      if (pidx >=? 0) && (dirty (g_transforms st pidx) =? 0) then
        (set_transforms st (aset (g_transforms st) i
           (with_world_clean t
              (Mat4_Multiply (world_matrix (g_transforms st pidx)) (local_matrix t)))),
         any_dirty)
      else (st, true).

Fixpoint propagate_passes (n : nat) (st : EntityState) : EntityState :=
  match n with
  | O => st
  | S n' =>
      let '(st', any_dirty) :=
        for_loop (Z.to_nat MAX_ENTITIES) 0 propagate_body (st, false) in
      if any_dirty then propagate_passes n' st' else st'
  end.

Definition update_local_body (i : Z) (st : EntityState) : EntityState :=
  if negb (id (g_entities st i) =? INVALID_ENTITY) && negb (dirty (g_transforms st i) =? 0)
  then UpdateLocalMatrix i st else st.

Definition Entity_UpdateTransforms (st : EntityState) : EntityState :=
  (* Update local matrices for dirty transforms *)
  let st := for_loop (Z.to_nat MAX_ENTITIES) 0 update_local_body st in
  (* Propagate world matrices (multiple passes for hierarchy) *)
  propagate_passes 8 st.

End Transforms.

Definition animator_body (dt : float) (i : Z) (st : EntityState) : EntityState :=
  if id (g_entities st i) =? INVALID_ENTITY then st
  else if Z.land (components (g_entities st i)) COMP_ANIMATOR =? 0 then st
  else
    let anim := g_animators st i in
    if is_playing anim =? 0 then st
    else
      let ft := fadd (frame_time anim) (fmul dt (playback_speed anim)) in
      let frame_duration := fdiv one (of_int 10) in   (* 10 FPS default *)
      let '(ft, cur, nxt, playing) :=
        if fge ft frame_duration then
          let ft := fsub ft frame_duration in
          let cur := next_frame anim in
          let nxt := wrap32 (next_frame anim + 1) in
          if nxt >? end_frame anim then
            if negb (is_looping anim =? 0)
            then (ft, cur, start_frame anim, is_playing anim)
            else (ft, cur, end_frame anim, 0)
          else (ft, cur, nxt, is_playing anim)
        else (ft, current_frame anim, next_frame anim, is_playing anim) in
      set_animators st (aset (g_animators st) i
        {| current_frame := cur; next_frame := nxt;
           interpolation := fdiv ft frame_duration; frame_time := ft;
           playback_speed := playback_speed anim;
           start_frame := start_frame anim; end_frame := end_frame anim;
           is_playing := playing; is_looping := is_looping anim |}).

Definition Entity_UpdateAnimators (dt : float) (st : EntityState) : EntityState :=
  for_loop (Z.to_nat MAX_ENTITIES) 0 (animator_body dt) st.

(** *** The rest of the entity interface *)

Definition with_id_components (e : Entity_t) (i c : Z) : Entity_t :=
  {| id := i; components := c; active := active e; layer := layer e;
     tag := tag e; name := name e |}.

Definition with_active (e : Entity_t) (a : Z) : Entity_t :=
  {| id := id e; components := components e; active := a; layer := layer e;
     tag := tag e; name := name e |}.

(** The loop of [Entity_Destroy] over the children of [eid]. *)
Definition detach_body (eid : Z) (i : Z) (st : EntityState) : EntityState :=
  if parent (g_transforms st i) =? eid
  then set_transforms st (aset (g_transforms st) i
         (with_parent_dirty (g_transforms st i) INVALID_ENTITY))
  else st.

Definition Entity_Destroy (eid : Z) (st : EntityState) : EntityState :=
  let idx := FindIndex st eid in
  if idx >=? 0 then
    let st := for_loop (Z.to_nat MAX_ENTITIES) 0 (detach_body eid) st in
    set_entities st (aset (g_entities st) idx
      (with_id_components (g_entities st idx) INVALID_ENTITY 0))
  else st.

Definition Entity_IsValid (eid : Z) (st : EntityState) : Z :=
  if FindIndex st eid >=? 0 then 1 else 0.

Definition Entity_SetActive (eid act : Z) (st : EntityState) : EntityState :=
  let idx := FindIndex st eid in
  if idx >=? 0
  then set_entities st (aset (g_entities st) idx
         (with_active (g_entities st idx) (if act =? 0 then 0 else 1)))
  else st.

(** [components &= ~c] on a [uint32_t]. *)
Definition Entity_RemoveComponent (eid c : Z) (st : EntityState) : EntityState :=
  let idx := FindIndex st eid in
  if idx >=? 0
  then set_entities st (aset (g_entities st) idx
         (with_components (g_entities st idx)
            (Z.land (components (g_entities st idx)) (Z.lnot c))))
  else st.

Definition Entity_HasComponent (eid c : Z) (st : EntityState) : Z :=
  let idx := FindIndex st eid in
  if idx >=? 0
  then (if Z.land (components (g_entities st idx)) c =? c then 1 else 0)
  else 0.

(** The getters return the address of the slot, i.e. its index. *)
Definition Entity_GetTransform (eid : Z) (st : EntityState) : option Z :=
  let idx := FindIndex st eid in if idx >=? 0 then Some idx else None.

Definition Transform_GetPosition (eid : Z) (st : EntityState) : Vec3 :=
  let idx := FindIndex st eid in
  if idx >=? 0 then tr_position (g_transforms st idx) else Vec3_Zero.

(** [EntityIterator_t] *)
Record EntityIterator_t : Type :=
  { it_index : Z; it_required : Z; it_current : Z }.

Definition Entity_BeginIteration (req : Z) : EntityIterator_t :=
  {| it_index := 0; it_required := req; it_current := INVALID_ENTITY |}.

(** The [while (it->index < MAX_ENTITIES)] loop of [Entity_Next]; [n] is the
    number of slots left. *)
Fixpoint Entity_Next_loop (n : nat) (st : EntityState) (it : EntityIterator_t)
  : Z * EntityIterator_t :=
  match n with
  | O => (0, {| it_index := it_index it; it_required := it_required it;
                it_current := INVALID_ENTITY |})
  | S n' =>
      let i := it_index it in
      let it := {| it_index := wrap32 (i + 1); it_required := it_required it;
                   it_current := it_current it |} in
      if negb (id (g_entities st i) =? INVALID_ENTITY)
         && negb (active (g_entities st i) =? 0)
         && (Z.land (components (g_entities st i)) (it_required it) =? it_required it)
      then (1, {| it_index := it_index it; it_required := it_required it;
                  it_current := id (g_entities st i) |})
      else Entity_Next_loop n' st it
  end.

Definition Entity_Next (st : EntityState) (it : EntityIterator_t) : Z * EntityIterator_t :=
  Entity_Next_loop (Z.to_nat (MAX_ENTITIES - it_index it)) st it.

(** ** Predicates and sample inputs of the statements *)

(** Every counter is within the capacity of its pool. *)
Definition pools_ok (s : MeshState) : Prop :=
  forall p, 0 <= used p s <= capacity p.

(** A request size for which [used + n] cannot leave the range of
    [uint32_t], whatever the fill level of the pool. *)
Definition request_ok (c : Pool * Z) : Prop :=
  0 <= snd c /\ snd c + capacity (fst c) < 4294967296.

(** The integer fields that the evaluators read are within their C types:
    [uint16_t] for the descriptor fields, [uint8_t] for the normal index. *)
Definition mesh_typed (s : MeshState) : Prop :=
  (forall i, 0 <= frame_start (anim (g_meshes s i)) <= 65535) /\
  (forall i, 0 <= frame_count (anim (g_meshes s i)) <= 65535) /\
  (forall i, 0 <= verts_per_frame (anim (g_meshes s i)) <= 65535) /\
  (forall i, 0 <= fd_vertex_start (g_frame_pool s i) <= 65535) /\
  (forall i, 0 <= normal_index (g_md2_vertex_pool s i) <= 255).

(** The compressed vertex [v] of frame [f] of the animated mesh [id], with
    the descriptor of that frame. *)
Definition frame_vertex (s : MeshState) (id f v : Z) : MD2Vertex_t * MD2FrameDesc_t :=
  let fd := g_frame_pool s (frame_start (anim (g_meshes s id)) + f) in
  (g_md2_vertex_pool s (fd_vertex_start fd + v), fd).

(** The row of the normal table that a compressed vertex selects. *)
Definition table_normal (v : MD2Vertex_t) : Vec3 :=
  vec3_of_row (nth (Z.to_nat (Z.rem (normal_index v) 162)) g_md2_normals (zero, zero, zero)).

Definition vec3_finite (v : Vec3) : bool :=
  is_finite (v3_x v) && is_finite (v3_y v) && is_finite (v3_z v).

(** Componentwise [==] of C. *)
Definition vec3_feq (a b : Vec3) : bool :=
  feq (v3_x a) (v3_x b) && feq (v3_y a) (v3_y b) && feq (v3_z a) (v3_z b).

(** The frame index after the clamp of the evaluators. *)
Definition clamp_frame (count f : Z) : Z := if f >=? count then count - 1 else f.

(** *** A small MD2 file: two frames of two vertices, one triangle *)

Definition le16 (z : Z) : list Z := [z mod 256; (z / 256) mod 256].

Definition le32 (z : Z) : list Z :=
  [z mod 256; (z / 256) mod 256; (z / 65536) mod 256; (z / 16777216) mod 256].

Definition f32_one_bits : Z := 1065353216.   (* 0x3F800000 *)
Definition f32_two_bits : Z := 1073741824.   (* 0x40000000 *)
Definition f32_inf_bits : Z := 2139095040.   (* 0x7F800000 *)

(** [scale_x] is the bit pattern of [scale[0]] of the first frame. *)
Definition md2_sample_file (scale_x : Z) : list Z :=
  (* header *)
  le32 844121161 ++ le32 8 ++ le32 64 ++ le32 64 ++ le32 48 ++ le32 0 ++
  le32 2 ++ le32 1 ++ le32 1 ++ le32 0 ++ le32 2 ++
  le32 68 ++ le32 68 ++ le32 72 ++ le32 84 ++ le32 180 ++ le32 180 ++
  (* one texture coordinate, one triangle *)
  le16 32 ++ le16 16 ++
  le16 0 ++ le16 1 ++ le16 1 ++ le16 0 ++ le16 0 ++ le16 0 ++
  (* frame 0 *)
  le32 scale_x ++ le32 f32_one_bits ++ le32 f32_one_bits ++
  le32 0 ++ le32 0 ++ le32 0 ++ repeat 0 16 ++
  [1; 2; 3; 0] ++ [4; 5; 6; 5] ++
  (* frame 1 *)
  le32 f32_two_bits ++ le32 f32_two_bits ++ le32 f32_two_bits ++
  le32 f32_one_bits ++ le32 f32_one_bits ++ le32 f32_one_bits ++ repeat 0 16 ++
  [7; 8; 9; 200] ++ [10; 11; 12; 161].

Definition md2_sample : list Z := Eval vm_compute in md2_sample_file f32_one_bits.
Definition md2_sample_inf : list Z := Eval vm_compute in md2_sample_file f32_inf_bits.

(** The pools after [Mesh_Init] and one [Mesh_LoadMD2] of a sample. *)
Definition loaded (file : list Z) : Z * MeshState :=
  Mesh_LoadMD2 (Some file) (Z.of_nat (length file)) (Mesh_Init mesh_startup).

(** *** The matrix product, entry by entry

    [Mat4_at M row col] is the entry of [M] in the column-major layout;
    the entry of a product is the sum over [k] of [a(row,k) * b(k,col)],
    added from [k = 0] upwards and rounded at each step. *)
Definition Mat4_at (M : Mat4) (row col : Z) : float := mget M (col * 4 + row).

Definition Mat4_entry (a b : Mat4) (row col : Z) : float :=
  fadd (fadd (fadd (fmul (Mat4_at a row 0) (Mat4_at b 0 col))
                   (fmul (Mat4_at a row 1) (Mat4_at b 1 col)))
             (fmul (Mat4_at a row 2) (Mat4_at b 2 col)))
       (fmul (Mat4_at a row 3) (Mat4_at b 3 col)).

Definition Mat4_product (a b : Mat4) : Mat4 :=
  map (fun k => Mat4_entry a b (k mod 4) (k / 4))
      [0; 1; 2; 3; 4; 5; 6; 7; 8; 9; 10; 11; 12; 13; 14; 15].

Section LocalMatrix.
Variables cosf sinf : float -> float.

Definition T_of (t : Transform_t) : Mat4 :=
  Mat4_Translation (v3_x (tr_position t)) (v3_y (tr_position t)) (v3_z (tr_position t)).
Definition Rx_of (t : Transform_t) : Mat4 := Mat4_RotationX cosf sinf (v3_x (tr_rotation t)).
Definition Ry_of (t : Transform_t) : Mat4 := Mat4_RotationY cosf sinf (v3_y (tr_rotation t)).
Definition Rz_of (t : Transform_t) : Mat4 := Mat4_RotationZ cosf sinf (v3_z (tr_rotation t)).
Definition S_of (t : Transform_t) : Mat4 :=
  Mat4_Scale (v3_x (tr_scale t)) (v3_y (tr_scale t)) (v3_z (tr_scale t)).

(** [T . (Ry . Rx . Rz) . S] *)
Definition local_TRyRxRzS (t : Transform_t) : Mat4 :=
  Mat4_product (Mat4_product (T_of t)
                  (Mat4_product (Mat4_product (Ry_of t) (Rx_of t)) (Rz_of t)))
               (S_of t).

(** [T . (Rz . Rx . Ry) . S], with the rotation bracketed from the left or
    from the right. *)
Definition local_TRzRxRyS (t : Transform_t) : Mat4 :=
  Mat4_product (Mat4_product (T_of t)
                  (Mat4_product (Mat4_product (Rz_of t) (Rx_of t)) (Ry_of t)))
               (S_of t).

Definition local_TRzRxRyS' (t : Transform_t) : Mat4 :=
  Mat4_product (Mat4_product (T_of t)
                  (Mat4_product (Rz_of t) (Mat4_product (Rx_of t) (Ry_of t))))
               (S_of t).

End LocalMatrix.

(** The values of [cosf] and [sinf] at the arguments 0 and 1, rounded to
    nearest ([cos 1 = 0.5403023...], [sin 1 = 0.8414709...]); the examples
    use no other argument. *)
Definition cosf_at_0_1 (x : float) : float :=
  if feq x zero then one
  else if feq x one then S754_finite false 9064768 (-24)
  else S754_nan.

Definition sinf_at_0_1 (x : float) : float :=
  if feq x zero then x
  else if feq x one then S754_finite false 14117540 (-24)
  else S754_nan.

(** *** Sample entity tables *)

(** The table after [Entity_Init] and one [Entity_Create(NULL)]; the new
    entity has the handle 1 and the slot 0. *)
Definition entity_sample : EntityState := snd (Entity_Create None Entity_Init).

(** The handles in use are below the counter of the next handle, which has
    not reached [INVALID_ENTITY]. *)
Definition handles_fresh (st : EntityState) : Prop :=
  0 <= g_next_id st < INVALID_ENTITY /\
  forall j, 0 <= j < MAX_ENTITIES ->
            id (g_entities st j) = INVALID_ENTITY \/ 0 <= id (g_entities st j) < g_next_id st.

(** *** Resolution of the world matrices

    [settles st L k i W]: with the local matrices [L], the transform of slot
    [i] is clean with the world matrix [W] after [k] sweeps at most.  A
    clean transform keeps its world matrix; a dirty root takes its local
    matrix; a dirty child takes [parent.world . local] once its parent has
    settled. *)
Inductive settles (st : EntityState) (L : Z -> Mat4) : nat -> Z -> Mat4 -> Prop :=
| settles_clean : forall i,
    dirty (g_transforms st i) = 0 ->
    settles st L 0 i (world_matrix (g_transforms st i))
| settles_root : forall i,
    0 <= i < MAX_ENTITIES ->
    id (g_entities st i) <> INVALID_ENTITY ->
    dirty (g_transforms st i) <> 0 ->
    parent (g_transforms st i) = INVALID_ENTITY ->
    settles st L 1 i (L i)
| settles_child : forall i k W,
    0 <= i < MAX_ENTITIES ->
    id (g_entities st i) <> INVALID_ENTITY ->
    dirty (g_transforms st i) <> 0 ->
    parent (g_transforms st i) <> INVALID_ENTITY ->
    0 <= FindIndex st (parent (g_transforms st i)) ->
    settles st L k (FindIndex st (parent (g_transforms st i))) W ->
    settles st L (S k) i (Mat4_Multiply W (L i)).

(** A chain of three entities: the entity of slot 0 is the child of the
    entity of slot 1, itself the child of the root of slot 2; the three are
    translated by (1,0,0), (0,2,0) and (0,0,3). *)
Definition entity_chain : EntityState :=
  let '(e1, st) := Entity_Create None Entity_Init in
  let '(e2, st) := Entity_Create None st in
  let '(e3, st) := Entity_Create None st in
  let st := Entity_SetParent e1 e2 st in
  let st := Entity_SetParent e2 e3 st in
  let st := Transform_SetPosition e1 (MakeVec3 one zero zero) st in
  let st := Transform_SetPosition e2 (MakeVec3 zero (of_int 2) zero) st in
  Transform_SetPosition e3 (MakeVec3 zero zero (of_int 3)) st.

(** What [Entity_UpdateAnimators] does to the animator of a slot whose
    entity is [e]: the body of its loop, read on that one element. *)
Definition animator_step (dt : float) (e : Entity_t) (anim : Animator_t) : Animator_t :=
  if id e =? INVALID_ENTITY then anim
  else if Z.land (components e) COMP_ANIMATOR =? 0 then anim
  else if is_playing anim =? 0 then anim
  else
    let ft := fadd (frame_time anim) (fmul dt (playback_speed anim)) in
    let frame_duration := fdiv one (of_int 10) in
    let '(ft, cur, nxt, playing) :=
      if fge ft frame_duration then
        let ft := fsub ft frame_duration in
        let cur := next_frame anim in
        let nxt := wrap32 (next_frame anim + 1) in
        if nxt >? end_frame anim then
          if negb (is_looping anim =? 0)
          then (ft, cur, start_frame anim, is_playing anim)
          else (ft, cur, end_frame anim, 0)
        else (ft, cur, nxt, is_playing anim)
      else (ft, current_frame anim, next_frame anim, is_playing anim) in
    {| current_frame := cur; next_frame := nxt;
       interpolation := fdiv ft frame_duration; frame_time := ft;
       playback_speed := playback_speed anim;
       start_frame := start_frame anim; end_frame := end_frame anim;
       is_playing := playing; is_looping := is_looping anim |}.

(** An entity with an animator that plays the clip [40, 45] in a loop, as
    main.cpp sets it up; the next frame is the last one of the clip. *)
Definition animator_sample : EntityState :=
  let st := Entity_AddComponent 1 COMP_ANIMATOR entity_sample in
  set_animators st (aset (g_animators st) 0
    {| current_frame := 44; next_frame := 45; interpolation := zero;
       frame_time := zero; playback_speed := one;
       start_frame := 40; end_frame := 45; is_playing := 1; is_looping := 1 |}).

(** The same animator playing its clip once. *)
Definition animator_sample_once : EntityState :=
  let st := animator_sample in
  set_animators st (aset (g_animators st) 0
    {| current_frame := 44; next_frame := 45; interpolation := zero;
       frame_time := zero; playback_speed := one;
       start_frame := 40; end_frame := 45; is_playing := 1; is_looping := 0 |}).

(** The test of [Entity_Next] on slot [i]: a live, active entity that has
    every required component. *)
Definition iter_match (st : EntityState) (req : Z) (i : Z) : bool :=
  negb (id (g_entities st i) =? INVALID_ENTITY)
  && negb (active (g_entities st i) =? 0)
  && (Z.land (components (g_entities st i)) req =? req).

(** The loop [while (Entity_Next(&it)) { ... it.current ... }] of the main
    loop, as the list of the handles it visits, in the order of the visits;
    [fuel] bounds the number of calls of [Entity_Next]. *)
Fixpoint visited (fuel : nat) (st : EntityState) (it : EntityIterator_t) : list Z :=
  match fuel with
  | O => nil
  | S fuel' =>
      let r := Entity_Next st it in
      if fst r =? 0 then nil else it_current (snd r) :: visited fuel' st (snd r)
  end.

(** The slots [lo], [lo + 1], ..., [lo + n - 1]. *)
Fixpoint slots (lo : Z) (n : nat) : list Z :=
  match n with
  | O => nil
  | S n' => lo :: slots (lo + 1) n'
  end.

(** No two slots hold the handle [eid]. *)
Definition handle_unique (st : EntityState) (eid : Z) : Prop :=
  forall j k, 0 <= j < MAX_ENTITIES -> 0 <= k < MAX_ENTITIES ->
              id (g_entities st j) = eid -> id (g_entities st k) = eid -> j = k.

(** The chain after one update, with its root moved afterwards: the root is
    dirty, its child and grandchild are clean. *)
Definition entity_chain_moved : EntityState :=
  Transform_SetPosition 3 (MakeVec3 one one one)
    (Entity_UpdateTransforms cosf_at_0_1 sinf_at_0_1 entity_chain).

(** ** color.h, device.h *)

Record Color : Type := { c_r : Z; c_g : Z; c_b : Z; c_a : Z }.

(** [Color(uint8_t r, uint8_t g, uint8_t b, uint8_t a = 255)] *)
Definition MakeColor (r g b : Z) : Color :=
  {| c_r := wrap8 r; c_g := wrap8 g; c_b := wrap8 b; c_a := 255 |}.

(** The calls of the rasterizer on its device. *)
Inductive DeviceCall : Type :=
| Call_Clear (c : Color)
| Call_ClearDepth
| Call_PutPixel (x y : Z) (z : float) (c : Color)
| Call_PutPixelNoDepth (x y : Z) (c : Color).

(** [dev_calls] has the most recent call first. *)
Record Device : Type :=
  { renderWidth : Z; renderHeight : Z; dev_calls : list DeviceCall }.

Definition device_call (d : Device) (c : DeviceCall) : Device :=
  {| renderWidth := renderWidth d; renderHeight := renderHeight d;
     dev_calls := c :: dev_calls d |}.

(** ** rasterizer.h, rasterizer.cpp (the [SDL_PC] build) *)

Record ScreenVertex_t : Type :=
  { sv_x : Z; sv_y : Z; sv_z : float; sv_w_inv : float;
    sv_u : float; sv_v : float; sv_color : Z }.

Record Texture_t : Type :=
  { pixels : array Z; tex_width : Z; tex_height : Z;
    width_mask : Z; height_mask : Z }.

Record RasterizerStats_t : Type :=
  { triangles_submitted : Z; triangles_culled : Z;
    triangles_drawn : Z; pixels_drawn : Z }.

(** [g_device] ([None] is [NULL]) and [g_stats]. *)
Record RasterState : Type :=
  { g_device : option Device; g_stats : RasterizerStats_t }.

Definition zero_stats : RasterizerStats_t :=
  {| triangles_submitted := 0; triangles_culled := 0;
     triangles_drawn := 0; pixels_drawn := 0 |}.

Definition submitted_incr (t : RasterizerStats_t) : RasterizerStats_t :=
  {| triangles_submitted := wrap32 (triangles_submitted t + 1);
     triangles_culled := triangles_culled t;
     triangles_drawn := triangles_drawn t; pixels_drawn := pixels_drawn t |}.

Definition culled_incr (t : RasterizerStats_t) : RasterizerStats_t :=
  {| triangles_submitted := triangles_submitted t;
     triangles_culled := wrap32 (triangles_culled t + 1);
     triangles_drawn := triangles_drawn t; pixels_drawn := pixels_drawn t |}.

Definition drawn_incr (t : RasterizerStats_t) : RasterizerStats_t :=
  {| triangles_submitted := triangles_submitted t;
     triangles_culled := triangles_culled t;
     triangles_drawn := wrap32 (triangles_drawn t + 1);
     pixels_drawn := pixels_drawn t |}.

Definition pixels_incr (t : RasterizerStats_t) : RasterizerStats_t :=
  {| triangles_submitted := triangles_submitted t;
     triangles_culled := triangles_culled t;
     triangles_drawn := triangles_drawn t;
     pixels_drawn := wrap32 (pixels_drawn t + 1) |}.

(** The arithmetic is that of [int32_t]; a product or a difference that
    leaves the range wraps around, as it does on the targets of the
    engine. *)
Definition EdgeFunction (v0x v0y v1x v1y px py : Z) : Z :=
  swrap32 (swrap32 (swrap32 (v1x - v0x) * swrap32 (py - v0y))
           - swrap32 (swrap32 (v1y - v0y) * swrap32 (px - v0x))).

Definition Rasterizer_Init : RasterState :=
  {| g_device := None; g_stats := zero_stats |}.

Definition Rasterizer_SetDevice (d : option Device) (st : RasterState) : RasterState :=
  {| g_device := d; g_stats := g_stats st |}.

Definition Rasterizer_ResetStats (st : RasterState) : RasterState :=
  {| g_device := g_device st; g_stats := zero_stats |}.

Definition Rasterizer_GetStats (st : RasterState) : RasterizerStats_t := g_stats st.

(** [RGB565ToColor]: the three fields of the 5-6-5 word, shifted up. *)
Definition RGB565ToColor (c : Z) : Color :=
  MakeColor (Z.shiftl (Z.land (Z.shiftr c 11) 31) 3)
            (Z.shiftl (Z.land (Z.shiftr c 5) 63) 2)
            (Z.shiftl (Z.land c 31) 3).

(** The macro [RGB565(r,g,b)] of engine_config.h. *)
Definition RGB565 (r g b : Z) : Z :=
  Z.lor (Z.lor (Z.shiftl (Z.land r 248) 8) (Z.shiftl (Z.land g 252) 3)) (Z.shiftr b 3).

Definition Rasterizer_Clear (color : Z) (st : RasterState) : RasterState :=
  match g_device st with
  | None => st
  | Some d =>
      Rasterizer_ResetStats
        {| g_device := Some (device_call d (Call_Clear (RGB565ToColor color)));
           g_stats := g_stats st |}
  end.

Definition Rasterizer_ClearDepth (st : RasterState) : RasterState :=
  match g_device st with
  | None => st
  | Some d => {| g_device := Some (device_call d Call_ClearDepth); g_stats := g_stats st |}
  end.

(** [u = u - (int)u; if (u < 0) u += 1.0f;] *)
Definition frac01 (u : float) : float :=
  let u := fsub u (of_int (to_int u)) in
  if flt u zero then fadd u one else u.

(** The subscript of the texel that [Texture_Sample] reads. *)
Definition Texture_Sample_index (tex : Texture_t) (u v : float) : Z :=
  let u := frac01 u in
  let v := frac01 v in
  let tx := Z.land (to_int (fmul u (of_int (tex_width tex)))) (width_mask tex) in
  let ty := Z.land (to_int (fmul v (of_int (tex_height tex)))) (height_mask tex) in
  swrap32 (swrap32 (ty * tex_width tex) + tx).

Definition Texture_Sample (tex : Texture_t) (u v : float) : Z :=
  pixels tex (Texture_Sample_index tex u v).

(** One channel of [ColorLerp], before the clamp:
    [(int)(b0 * k0 + b1 * k1 + b2 * k2 + 0.5f)]. *)
Definition lerp_channel (k0 k1 k2 : Z) (b0 b1 b2 : float) : Z :=
  to_int (fadd (fadd (fadd (fmul b0 (of_int k0)) (fmul b1 (of_int k1)))
                     (fmul b2 (of_int k2)))
               (lit 1 2)).

Definition ColorLerp (c0 c1 c2 : Z) (b0 b1 b2 : float) : Z :=
  let r := lerp_channel (Z.land (Z.shiftr c0 11) 31) (Z.land (Z.shiftr c1 11) 31)
                        (Z.land (Z.shiftr c2 11) 31) b0 b1 b2 in
  let g := lerp_channel (Z.land (Z.shiftr c0 5) 63) (Z.land (Z.shiftr c1 5) 63)
                        (Z.land (Z.shiftr c2 5) 63) b0 b1 b2 in
  let b := lerp_channel (Z.land c0 31) (Z.land c1 31) (Z.land c2 31) b0 b1 b2 in
  let r := if r >? 31 then 31 else r in
  let g := if g >? 63 then 63 else g in
  let b := if b >? 31 then 31 else b in
  wrap16 (Z.lor (Z.lor (Z.shiftl r 11) (Z.shiftl g 5)) b).

Definition ColorModulate (texel light : Z) : Z :=
  let tr := Z.land (Z.shiftr texel 11) 31 in
  let tg := Z.land (Z.shiftr texel 5) 63 in
  let tb := Z.land texel 31 in
  let lr := Z.land (Z.shiftr light 11) 31 in
  let lg := Z.land (Z.shiftr light 5) 63 in
  let lb := Z.land light 31 in
  wrap16 (Z.lor (Z.lor (Z.shiftl (Z.shiftr (tr * lr) 5) 11)
                       (Z.shiftl (Z.shiftr (tg * lg) 6) 5))
                (Z.shiftr (tb * lb) 5)).

(** The clamped bounding box of a triangle on a [width] x [height] screen:
    [(minX, maxX, minY, maxY)]. *)
Definition bounding_box (width height : Z) (v0 v1 v2 : ScreenVertex_t) : Z * Z * Z * Z :=
  (Clampi (Min3i (sv_x v0) (sv_x v1) (sv_x v2)) 0 (swrap32 (width - 1)),
   Clampi (Max3i (sv_x v0) (sv_x v1) (sv_x v2)) 0 (swrap32 (width - 1)),
   Clampi (Min3i (sv_y v0) (sv_y v1) (sv_y v2)) 0 (swrap32 (height - 1)),
   Clampi (Max3i (sv_y v0) (sv_y v1) (sv_y v2)) 0 (swrap32 (height - 1))).

(** [b0 * v0->z + b1 * v1->z + b2 * v2->z] with [bi = wi * invArea]. *)
Definition depth_at (v0 v1 v2 : ScreenVertex_t) (invArea : float) (w0 w1 w2 : Z) : float :=
  let b0 := fmul (of_int w0) invArea in
  let b1 := fmul (of_int w1) invArea in
  let b2 := fmul (of_int w2) invArea in
  fadd (fadd (fmul b0 (sv_z v0)) (fmul b1 (sv_z v1))) (fmul b2 (sv_z v2)).

(** The body of the two loops of [Rasterizer_DrawTriangleSolid], on the
    device and the statistics. *)
Definition solid_pixel (v0 v1 v2 : ScreenVertex_t) (col : Color) (invArea : float)
           (y x : Z) (s : Device * RasterizerStats_t) : Device * RasterizerStats_t :=
  let w0 := EdgeFunction (sv_x v1) (sv_y v1) (sv_x v2) (sv_y v2) x y in
  let w1 := EdgeFunction (sv_x v2) (sv_y v2) (sv_x v0) (sv_y v0) x y in
  let w2 := EdgeFunction (sv_x v0) (sv_y v0) (sv_x v1) (sv_y v1) x y in
  if Z.lor (Z.lor w0 w1) w2 >=? 0 then
    (device_call (fst s) (Call_PutPixel x y (depth_at v0 v1 v2 invArea w0 w1 w2) col),
     pixels_incr (snd s))
  else s.

Definition Rasterizer_DrawTriangleSolid (v0 v1 v2 : ScreenVertex_t) (color : Z)
           (st : RasterState) : RasterState :=
  match g_device st with
  | None => st
  | Some d =>
      let width := renderWidth d in
      let height := renderHeight d in
      let col := RGB565ToColor color in
      let stats := submitted_incr (g_stats st) in
      let area := EdgeFunction (sv_x v0) (sv_y v0) (sv_x v1) (sv_y v1) (sv_x v2) (sv_y v2) in
      if area <=? 0 then {| g_device := Some d; g_stats := culled_incr stats |}
      else
        let '(minX, maxX, minY, maxY) := bounding_box width height v0 v1 v2 in
        if (minX >? maxX) || (minY >? maxY)
        then {| g_device := Some d; g_stats := culled_incr stats |}
        else
          let invArea := fdiv one (of_int area) in
          let s :=
            for_loop (Z.to_nat (maxY - minY + 1)) minY (fun y s =>
              for_loop (Z.to_nat (maxX - minX + 1)) minX
                       (solid_pixel v0 v1 v2 col invArea y) s) (d, stats) in
          {| g_device := Some (fst s); g_stats := drawn_incr (snd s) |}
  end.

(** The colour of a pixel of [Rasterizer_DrawTriangle]. *)
Definition shade (v0 v1 v2 : ScreenVertex_t) (texture : option Texture_t)
           (invArea : float) (w0 w1 w2 : Z) : Z :=
  let b0 := fmul (of_int w0) invArea in
  let b1 := fmul (of_int w1) invArea in
  let b2 := fmul (of_int w2) invArea in
  match texture with
  | Some tex =>
      let w := fadd (fadd (fmul b0 (sv_w_inv v0)) (fmul b1 (sv_w_inv v1)))
                    (fmul b2 (sv_w_inv v2)) in
      let inv_w := fdiv one w in
      let u := fmul (fadd (fadd (fmul (fmul b0 (sv_u v0)) (sv_w_inv v0))
                                (fmul (fmul b1 (sv_u v1)) (sv_w_inv v1)))
                          (fmul (fmul b2 (sv_u v2)) (sv_w_inv v2))) inv_w in
      let v := fmul (fadd (fadd (fmul (fmul b0 (sv_v v0)) (sv_w_inv v0))
                                (fmul (fmul b1 (sv_v v1)) (sv_w_inv v1)))
                          (fmul (fmul b2 (sv_v v2)) (sv_w_inv v2))) inv_w in
      let texel := Texture_Sample tex u v in
      let light := ColorLerp (sv_color v0) (sv_color v1) (sv_color v2) b0 b1 b2 in
      ColorModulate texel light
  | None => ColorLerp (sv_color v0) (sv_color v1) (sv_color v2) b0 b1 b2
  end.

(** The state of the loops of [Rasterizer_DrawTriangle]: the device, the
    statistics and the three running edge values. *)
Record EdgeWalk : Type :=
  { ew_dev : Device; ew_stats : RasterizerStats_t; ew_w0 : Z; ew_w1 : Z; ew_w2 : Z }.

(** The body of the inner loop: the pixel, then [w0 += A12; w1 += A20;
    w2 += A01]. *)
Definition textured_pixel (v0 v1 v2 : ScreenVertex_t) (texture : option Texture_t)
           (invArea : float) (A12 A20 A01 : Z) (y x : Z) (s : EdgeWalk) : EdgeWalk :=
  let w0 := ew_w0 s in
  let w1 := ew_w1 s in
  let w2 := ew_w2 s in
  let '(d, t) :=
    if Z.lor (Z.lor w0 w1) w2 >=? 0 then
      (device_call (ew_dev s)
         (Call_PutPixel x y (depth_at v0 v1 v2 invArea w0 w1 w2)
            (RGB565ToColor (shade v0 v1 v2 texture invArea w0 w1 w2))),
       pixels_incr (ew_stats s))
    else (ew_dev s, ew_stats s) in
  {| ew_dev := d; ew_stats := t;
     ew_w0 := swrap32 (w0 + A12); ew_w1 := swrap32 (w1 + A20);
     ew_w2 := swrap32 (w2 + A01) |}.

(** The state of the outer loop: the device, the statistics and the edge
    values [w0_row], [w1_row], [w2_row] at the start of the row. *)
Definition textured_row (v0 v1 v2 : ScreenVertex_t) (texture : option Texture_t)
           (invArea : float) (A12 A20 A01 B12 B20 B01 : Z) (minX maxX : Z)
           (y : Z) (s : EdgeWalk) : EdgeWalk :=
  let r := for_loop (Z.to_nat (maxX - minX + 1)) minX
                    (textured_pixel v0 v1 v2 texture invArea A12 A20 A01 y) s in
  {| ew_dev := ew_dev r; ew_stats := ew_stats r;
     ew_w0 := swrap32 (ew_w0 s + B12); ew_w1 := swrap32 (ew_w1 s + B20);
     ew_w2 := swrap32 (ew_w2 s + B01) |}.

Definition Rasterizer_DrawTriangle (v0 v1 v2 : ScreenVertex_t) (texture : option Texture_t)
           (st : RasterState) : RasterState :=
  match g_device st with
  | None => st
  | Some d =>
      let width := renderWidth d in
      let height := renderHeight d in
      let stats := submitted_incr (g_stats st) in
      let x0 := sv_x v0 in let y0 := sv_y v0 in
      let x1 := sv_x v1 in let y1 := sv_y v1 in
      let x2 := sv_x v2 in let y2 := sv_y v2 in
      let area := EdgeFunction x0 y0 x1 y1 x2 y2 in
      if area <=? 0 then {| g_device := Some d; g_stats := culled_incr stats |}
      else
        let '(minX, maxX, minY, maxY) := bounding_box width height v0 v1 v2 in
        if (minX >? maxX) || (minY >? maxY)
        then {| g_device := Some d; g_stats := culled_incr stats |}
        else
          let invArea := fdiv one (of_int area) in
          let A12 := swrap32 (y1 - y2) in let B12 := swrap32 (x2 - x1) in
          let A20 := swrap32 (y2 - y0) in let B20 := swrap32 (x0 - x2) in
          let A01 := swrap32 (y0 - y1) in let B01 := swrap32 (x1 - x0) in
          let s :=
            for_loop (Z.to_nat (maxY - minY + 1)) minY
              (textured_row v0 v1 v2 texture invArea A12 A20 A01 B12 B20 B01 minX maxX)
              {| ew_dev := d; ew_stats := stats;
                 ew_w0 := EdgeFunction x1 y1 x2 y2 minX minY;
                 ew_w1 := EdgeFunction x2 y2 x0 y0 minX minY;
                 ew_w2 := EdgeFunction x0 y0 x1 y1 minX minY |} in
          {| g_device := Some (ew_dev s); g_stats := drawn_incr (ew_stats s) |}
  end.

(** The pixels of a list of calls: position and depth of every
    [PutPixel(x, y, z, c)], the most recent first. *)
Fixpoint pixel_sites (l : list DeviceCall) : list (Z * Z * float) :=
  match l with
  | nil => nil
  | Call_PutPixel x y z _ :: l' => (x, y, z) :: pixel_sites l'
  | _ :: l' => pixel_sites l'
  end.

(** A 4 x 4 device on which nothing has been drawn, and a triangle that
    covers its lower left half. *)
Definition raster_sample : RasterState :=
  {| g_device := Some {| renderWidth := 4; renderHeight := 4; dev_calls := nil |};
     g_stats := zero_stats |}.

Definition sv_at (x y : Z) : ScreenVertex_t :=
  {| sv_x := x; sv_y := y; sv_z := zero; sv_w_inv := one;
     sv_u := zero; sv_v := zero; sv_color := 65535 |}.

(** The pixels that the two loops of the rasterizer go through, row after
    row: [(x, y)] for [y] from [minY] to [maxY] and [x] from [minX] to
    [maxX]. *)
Definition box_sites (box : Z * Z * Z * Z) : list (Z * Z) :=
  let '(minX, maxX, minY, maxY) := box in
  flat_map (fun y => map (fun x => (x, y)) (slots minX (Z.to_nat (maxX - minX + 1))))
           (slots minY (Z.to_nat (maxY - minY + 1))).

(** The three edge values of a pixel, and the test [(w0 | w1 | w2) >= 0]. *)
Definition edge_values (v0 v1 v2 : ScreenVertex_t) (p : Z * Z) : Z * Z * Z :=
  (EdgeFunction (sv_x v1) (sv_y v1) (sv_x v2) (sv_y v2) (fst p) (snd p),
   EdgeFunction (sv_x v2) (sv_y v2) (sv_x v0) (sv_y v0) (fst p) (snd p),
   EdgeFunction (sv_x v0) (sv_y v0) (sv_x v1) (sv_y v1) (fst p) (snd p)).

Definition inside (v0 v1 v2 : ScreenVertex_t) (p : Z * Z) : bool :=
  let '(w0, w1, w2) := edge_values v0 v1 v2 p in
  Z.lor (Z.lor w0 w1) w2 >=? 0.

(** The call [PutPixel(x, y, z, c)] of a covered pixel, with the colour
    [colour w0 w1 w2]. *)
Definition pixel_call (v0 v1 v2 : ScreenVertex_t) (invArea : float)
           (colour : Z -> Z -> Z -> Color) (p : Z * Z) : DeviceCall :=
  let '(w0, w1, w2) := edge_values v0 v1 v2 p in
  Call_PutPixel (fst p) (snd p) (depth_at v0 v1 v2 invArea w0 w1 w2) (colour w0 w1 w2).

(** The signed area that both rasterizers test first. *)
Definition area_of (v0 v1 v2 : ScreenVertex_t) : Z :=
  EdgeFunction (sv_x v0) (sv_y v0) (sv_x v1) (sv_y v1) (sv_x v2) (sv_y v2).

(** What both rasterizers do at the pixel [(x, y)], given its edge values:
    a covered pixel is put on the device and counted. *)
Definition covered_pixel (v0 v1 v2 : ScreenVertex_t) (invArea : float)
           (colour : Z -> Z -> Z -> Color) (s : Device * RasterizerStats_t) (p : Z * Z)
  : Device * RasterizerStats_t :=
  if inside v0 v1 v2 p
  then (device_call (fst s) (pixel_call v0 v1 v2 invArea colour p), pixels_incr (snd s))
  else s.

(** The colour of [Rasterizer_DrawTriangleSolid] and that of
    [Rasterizer_DrawTriangle]. *)
Definition solid_colour (color : Z) : Z -> Z -> Z -> Color :=
  fun _ _ _ => RGB565ToColor color.

Definition textured_colour (v0 v1 v2 : ScreenVertex_t) (texture : option Texture_t)
           (invArea : float) : Z -> Z -> Z -> Color :=
  fun w0 w1 w2 => RGB565ToColor (shade v0 v1 v2 texture invArea w0 w1 w2).

(** The statistics after a triangle that was drawn with [n] pixels. *)
Definition stats_drawn (t : RasterizerStats_t) (n : nat) : RasterizerStats_t :=
  {| triangles_submitted := wrap32 (triangles_submitted t + 1);
     triangles_culled := triangles_culled t;
     triangles_drawn := wrap32 (triangles_drawn t + 1);
     pixels_drawn := wrap32 (pixels_drawn t + Z.of_nat n) |}.

(** The device after the calls [new], the most recent first. *)
Definition device_calls (d : Device) (new : list DeviceCall) : Device :=
  {| renderWidth := renderWidth d; renderHeight := renderHeight d;
     dev_calls := new ++ dev_calls d |}.

(** A device of a positive size, as [int] has it. *)
Definition device_sized (d : Device) : Prop :=
  1 <= renderWidth d <= 2147483647 /\ 1 <= renderHeight d <= 2147483647.

(** Position and depth of the call of a covered pixel. *)
Definition pixel_site (v0 v1 v2 : ScreenVertex_t) (invArea : float) (p : Z * Z)
  : Z * Z * float :=
  let '(w0, w1, w2) := edge_values v0 v1 v2 p in
  (fst p, snd p, depth_at v0 v1 v2 invArea w0 w1 w2).

(** The three fields of a 5-6-5 word, as every function of the rasterizer
    takes them: [(c >> 11) & 0x1F], [(c >> 5) & 0x3F], [c & 0x1F]. *)
Definition red565 (c : Z) : Z := Z.land (Z.shiftr c 11) 31.
Definition green565 (c : Z) : Z := Z.land (Z.shiftr c 5) 63.
Definition blue565 (c : Z) : Z := Z.land c 31.

(** A texture whose masks stay inside its size and whose size fits [int]. *)
Definition texture_masked (tex : Texture_t) : Prop :=
  0 <= width_mask tex < tex_width tex /\
  0 <= height_mask tex < tex_height tex /\
  tex_width tex * tex_height tex <= 2147483647.

(** A 64 x 64 texture, as [Texture_CreateCheckerboard] makes them. *)
Definition texture_sample : Texture_t :=
  {| pixels := fun i => if Z.even (Z.shiftr i 3) then 65535 else 33808;
     tex_width := 64; tex_height := 64; width_mask := 63; height_mask := 63 |}.

(** The word packed from three fields is their sum, fits 16 bits and has
    them as its fields: the check that is run on every triple of fields. *)
Definition fields_ok (R G B : Z) : bool :=
  let c := Z.lor (Z.lor (Z.shiftl R 11) (Z.shiftl G 5)) B in
  (wrap16 c =? c) && (c =? 2048 * R + 32 * G + B)
  && (red565 c =? R) && (green565 c =? G) && (blue565 c =? B).

(** ** mesh.cpp: the primitives *)

(** Consecutive stores [a[start] = x0; a[start + 1] = x1; ...]. *)
Fixpoint write_list {T : Type} (a : array T) (start : Z) (l : list T) : array T :=
  match l with
  | nil => a
  | x :: l' => write_list (aset a start x) (start + 1) l'
  end.

Definition MakeVertex (pos norm : Vec3) (uv : Vec2) : Vertex_t :=
  {| position := pos; normal := norm; texcoord := uv |}.

(** [g_meshes[slot].type = 1] and the six stores to [g_meshes[slot].stat];
    the four integer members are [uint16_t]. *)
Definition fill_static_slot (slot v_start v_count i_start i_count : Z)
           (center : Vec3) (radius : float) (s : MeshState) : MeshState :=
  set_meshes s
    (aset (g_meshes s) slot
       {| type := 1; flags := flags (g_meshes s slot);
          stat := {| vertex_start := wrap16 v_start; vertex_count := wrap16 v_count;
                     index_start := wrap16 i_start; index_count := wrap16 i_count;
                     bounds_center := center; bounds_radius := radius |};
          anim := anim (g_meshes s slot) |}).

Definition cube_vertices (h : float) : list Vertex_t :=
  let n := fneg h in
  let i0 := of_int 0 in let i1 := of_int 1 in let m1 := of_int (-1) in
  [ (* Front face (+Z) *)
    MakeVertex (MakeVec3 n n h) (MakeVec3 i0 i0 i1) (MakeVec2 i0 i1);
    MakeVertex (MakeVec3 h n h) (MakeVec3 i0 i0 i1) (MakeVec2 i1 i1);
    MakeVertex (MakeVec3 h h h) (MakeVec3 i0 i0 i1) (MakeVec2 i1 i0);
    MakeVertex (MakeVec3 n h h) (MakeVec3 i0 i0 i1) (MakeVec2 i0 i0);
    (* Back face (-Z) *)
    MakeVertex (MakeVec3 h n n) (MakeVec3 i0 i0 m1) (MakeVec2 i0 i1);
    MakeVertex (MakeVec3 n n n) (MakeVec3 i0 i0 m1) (MakeVec2 i1 i1);
    MakeVertex (MakeVec3 n h n) (MakeVec3 i0 i0 m1) (MakeVec2 i1 i0);
    MakeVertex (MakeVec3 h h n) (MakeVec3 i0 i0 m1) (MakeVec2 i0 i0);
    (* Top (+Y) *)
    MakeVertex (MakeVec3 n h h) (MakeVec3 i0 i1 i0) (MakeVec2 i0 i1);
    MakeVertex (MakeVec3 h h h) (MakeVec3 i0 i1 i0) (MakeVec2 i1 i1);
    MakeVertex (MakeVec3 h h n) (MakeVec3 i0 i1 i0) (MakeVec2 i1 i0);
    MakeVertex (MakeVec3 n h n) (MakeVec3 i0 i1 i0) (MakeVec2 i0 i0);
    (* Bottom (-Y) *)
    MakeVertex (MakeVec3 n n n) (MakeVec3 i0 m1 i0) (MakeVec2 i0 i1);
    MakeVertex (MakeVec3 h n n) (MakeVec3 i0 m1 i0) (MakeVec2 i1 i1);
    MakeVertex (MakeVec3 h n h) (MakeVec3 i0 m1 i0) (MakeVec2 i1 i0);
    MakeVertex (MakeVec3 n n h) (MakeVec3 i0 m1 i0) (MakeVec2 i0 i0);
    (* Right (+X) *)
    MakeVertex (MakeVec3 h n h) (MakeVec3 i1 i0 i0) (MakeVec2 i0 i1);
    MakeVertex (MakeVec3 h n n) (MakeVec3 i1 i0 i0) (MakeVec2 i1 i1);
    MakeVertex (MakeVec3 h h n) (MakeVec3 i1 i0 i0) (MakeVec2 i1 i0);
    MakeVertex (MakeVec3 h h h) (MakeVec3 i1 i0 i0) (MakeVec2 i0 i0);
    (* Left (-X) *)
    MakeVertex (MakeVec3 n n n) (MakeVec3 m1 i0 i0) (MakeVec2 i0 i1);
    MakeVertex (MakeVec3 n n h) (MakeVec3 m1 i0 i0) (MakeVec2 i1 i1);
    MakeVertex (MakeVec3 n h h) (MakeVec3 m1 i0 i0) (MakeVec2 i1 i0);
    MakeVertex (MakeVec3 n h n) (MakeVec3 m1 i0 i0) (MakeVec2 i0 i0) ].

Definition cube_indices : list Z :=
  [ 0;1;2;0;2;3; 4;5;6;4;6;7; 8;9;10;8;10;11;
    12;13;14;12;14;15; 16;17;18;16;18;19; 20;21;22;20;22;23 ].

(** The result is the returned handle and the state of the pools. *)
Definition Mesh_CreateCube (size : float) (s : MeshState) : Z * MeshState :=
  let slot := AllocMeshSlot s in
  if slot =? NO_SPACE then (NO_SPACE, s)
  else
    let '(v_start, s) := AllocVertices 24 s in
    let '(i_start, s) := AllocIndices 36 s in
    if (v_start =? NO_SPACE) || (i_start =? NO_SPACE) then (NO_SPACE, s)
    else
      let h := fmul size (lit 1 2) in
      let s := set_vertex_pool s (write_list (g_vertex_pool s) v_start (cube_vertices h)) in
      let s := set_index_pool s (write_list (g_index_pool s) i_start cube_indices) in
      (slot, fill_static_slot slot v_start 24 i_start 36
               (MakeVec3 (of_int 0) (of_int 0) (of_int 0))
               (fmul h (lit 1732 1000)) s).

Definition plane_vertices (hw hh : float) : list Vertex_t :=
  let i0 := of_int 0 in let i1 := of_int 1 in
  [ MakeVertex (MakeVec3 (fneg hw) i0 (fneg hh)) (MakeVec3 i0 i1 i0) (MakeVec2 i0 i0);
    MakeVertex (MakeVec3 hw i0 (fneg hh)) (MakeVec3 i0 i1 i0) (MakeVec2 i1 i0);
    MakeVertex (MakeVec3 hw i0 hh) (MakeVec3 i0 i1 i0) (MakeVec2 i1 i1);
    MakeVertex (MakeVec3 (fneg hw) i0 hh) (MakeVec3 i0 i1 i0) (MakeVec2 i0 i1) ].

Definition plane_indices : list Z := [ 0; 2; 1; 0; 3; 2 ].

Definition Mesh_CreatePlane (w h : float) (s : MeshState) : Z * MeshState :=
  let slot := AllocMeshSlot s in
  if slot =? NO_SPACE then (NO_SPACE, s)
  else
    let '(v_start, s) := AllocVertices 4 s in
    let '(i_start, s) := AllocIndices 6 s in
    if (v_start =? NO_SPACE) || (i_start =? NO_SPACE) then (NO_SPACE, s)
    else
      let hw := fmul w (lit 1 2) in
      let hh := fmul h (lit 1 2) in
      let s := set_vertex_pool s (write_list (g_vertex_pool s) v_start (plane_vertices hw hh)) in
      let s := set_index_pool s (write_list (g_index_pool s) i_start plane_indices) in
      (slot, fill_static_slot slot v_start 4 i_start 6
               (MakeVec3 (of_int 0) (of_int 0) (of_int 0))
               (if fgt hw hh then hw else hh) s).

Definition Mesh_GetFreeVertexCount (s : MeshState) : Z :=
  wrap32 (MAX_TOTAL_VERTICES - g_vertex_used s).

Definition Mesh_GetFreeIndexCount (s : MeshState) : Z :=
  wrap32 (MAX_TOTAL_INDICES - g_index_used s).

(** The indices of a static mesh, read through its descriptor as
    [RenderStaticMesh] reads them. *)
Definition static_indices (m : MeshSlot_t) (s : MeshState) : list Z :=
  map (fun k => g_index_pool s (index_start (stat m) + k))
      (slots 0 (Z.to_nat (index_count (stat m)))).

(** The state in which the index pool has served 65536 entries. *)
Definition mesh_late : MeshState := set_index_used mesh_startup 65536.

(** ** main.cpp: the vertex transform stage and the mesh renderer *)

Definition SCREEN_WIDTH : Z := 1240.   (* DISPLAY_WIDTH *)
Definition SCREEN_HEIGHT : Z := 680.   (* DISPLAY_HEIGHT *)
Definition COLOR_BLUE : Z := 31.       (* 0x001F *)

(** The camera matrices [g_view_matrix] and [g_proj_matrix]. *)
Record CameraState : Type := { g_view_matrix : Mat4; g_proj_matrix : Mat4 }.

(** The intermediate values of [TransformVertex]. *)
Definition view_pos_of (cam : CameraState) (v : Vertex_t) (model : Mat4) : Vec4 :=
  let world_pos :=
    Mat4_MultiplyVec4 model
      (MakeVec4 (v3_x (position v)) (v3_y (position v)) (v3_z (position v)) one) in
  Mat4_MultiplyVec4 (g_view_matrix cam) world_pos.

Definition clip_pos_of (cam : CameraState) (v : Vertex_t) (model : Mat4) : Vec4 :=
  Mat4_MultiplyVec4 (g_proj_matrix cam) (view_pos_of cam v model).

(** [(ndc_x, ndc_y, ndc_z)], each one [clip * inv_w] with
    [inv_w = 1.0f / clip.w]. *)
Definition ndc_of (cam : CameraState) (v : Vertex_t) (model : Mat4) : Vec3 :=
  let clip_pos := clip_pos_of cam v model in
  let inv_w := fdiv one (v4_w clip_pos) in
  MakeVec3 (fmul (v4_x clip_pos) inv_w) (fmul (v4_y clip_pos) inv_w)
           (fmul (v4_z clip_pos) inv_w).

(** [0.3f + 0.7f * (normal.y * 0.5f + 0.5f)], times 31, truncated and
    clamped to [0, 31]. *)
Definition light_intensity (v : Vertex_t) : Z :=
  let light := fadd (lit 3 10)
                    (fmul (lit 7 10) (fadd (fmul (v3_y (normal v)) (lit 1 2)) (lit 1 2))) in
  let intensity := to_int (fmul light (of_int 31)) in
  let intensity := if intensity >? 31 then 31 else intensity in
  if intensity <? 0 then 0 else intensity.

(** [None] is the result 0, with [*out] not written. *)
Definition TransformVertex (cam : CameraState) (v : Vertex_t) (model : Mat4)
  : option ScreenVertex_t :=
  let view_pos := view_pos_of cam v model in
  (* Near plane clip - reject if behind camera *)
  if fge (v4_z view_pos) (fneg (lit 1 10)) then None
  else
    let clip_pos := Mat4_MultiplyVec4 (g_proj_matrix cam) view_pos in
    (* Clip test - check w *)
    if fle (v4_w clip_pos) (lit 1 10000) then None
    else
      (* Perspective divide *)
      let inv_w := fdiv one (v4_w clip_pos) in
      let ndc_x := fmul (v4_x clip_pos) inv_w in
      let ndc_y := fmul (v4_y clip_pos) inv_w in
      let ndc_z := fmul (v4_z clip_pos) inv_w in
      (* Frustum culling *)
      if flt ndc_x (fneg (lit 15 10)) || fgt ndc_x (lit 15 10) then None
      else if flt ndc_y (fneg (lit 15 10)) || fgt ndc_y (lit 15 10) then None
      else if flt ndc_z zero || fgt ndc_z one then None
      else
        (* NDC to screen *)
        let screen_x := fmul (fadd (fmul ndc_x (lit 1 2)) (lit 1 2)) (of_int SCREEN_WIDTH) in
        let screen_y := fmul (fsub one (fadd (fmul ndc_y (lit 1 2)) (lit 1 2)))
                             (of_int SCREEN_HEIGHT) in
        let intensity := light_intensity v in
        Some {| sv_x := to_int screen_x; sv_y := to_int screen_y;
                sv_z := ndc_z; sv_w_inv := inv_w;
                sv_u := v2_x (texcoord v); sv_v := v2_y (texcoord v);
                sv_color := wrap16 (RGB565 (swrap32 (intensity * 8)) (swrap32 (intensity * 8))
                                           (swrap32 (intensity * 8))) |}.

Definition with_color (sv : ScreenVertex_t) (c : Z) : ScreenVertex_t :=
  {| sv_x := sv_x sv; sv_y := sv_y sv; sv_z := sv_z sv; sv_w_inv := sv_w_inv sv;
     sv_u := sv_u sv; sv_v := sv_v sv; sv_color := c |}.

(** [ax * by - ay * bx], the test of back faces of the two renderers. *)
Definition screen_cross (sv0 sv1 sv2 : ScreenVertex_t) : Z :=
  let ax := swrap32 (sv_x sv1 - sv_x sv0) in
  let ay := swrap32 (sv_y sv1 - sv_y sv0) in
  let bx := swrap32 (sv_x sv2 - sv_x sv0) in
  let by' := swrap32 (sv_y sv2 - sv_y sv0) in
  swrap32 (swrap32 (ax * by') - swrap32 (ay * bx)).

(** One turn of the loop of [RenderStaticMesh]: the triangle of the indices
    [i], [i + 1], [i + 2]. *)
Definition static_triangle (cam : CameraState) (ms : MeshState) (verts indices : Z)
           (model : Mat4) (color : Z) (i : Z) (rs : RasterState) : RasterState :=
  match TransformVertex cam (g_vertex_pool ms (verts + g_index_pool ms (indices + (i + 0)))) model with
  | None => rs
  | Some sv0 =>
    match TransformVertex cam (g_vertex_pool ms (verts + g_index_pool ms (indices + (i + 1)))) model with
    | None => rs
    | Some sv1 =>
      match TransformVertex cam (g_vertex_pool ms (verts + g_index_pool ms (indices + (i + 2)))) model with
      | None => rs
      | Some sv2 =>
          (* Backface culling (cross product of screen edges) *)
          if screen_cross sv0 sv1 sv2 <=? 0 then rs
          else
            (* Override vertex colors with mesh color *)
            Rasterizer_DrawTriangleSolid (with_color sv0 color) (with_color sv1 color)
                                         (with_color sv2 color) color rs
      end
    end
  end.

(** [for (uint32_t i = 0; i < mesh->stat.index_count; i += 3)]: the turn
    [k] has [i = 3 * k]; [index_count] is a [uint16_t], so [i] does not
    wrap. *)
Definition RenderStaticMesh (cam : CameraState) (ms : MeshState) (mesh_id : Z)
           (model_matrix : Mat4) (color : Z) (rs : RasterState) : RasterState :=
  match Mesh_Get mesh_id ms with
  | None => rs
  | Some mesh =>
      if negb (type mesh =? 1) then rs
      else
        match Mesh_GetVertexPtr (vertex_start (stat mesh)),
              Mesh_GetIndexPtr (index_start (stat mesh)) with
        | Some verts, Some indices =>
            if index_count (stat mesh) =? 0 then rs
            else
              for_loop (Z.to_nat ((index_count (stat mesh) + 2) / 3)) 0
                (fun k rs => static_triangle cam ms verts indices model_matrix color (3 * k) rs)
                rs
        | _, _ => rs
        end
  end.

(** The four counters are values of [uint32_t]. *)
Definition stats_typed (t : RasterizerStats_t) : Prop :=
  0 <= triangles_submitted t < 4294967296 /\ 0 <= triangles_culled t < 4294967296 /\
  0 <= triangles_drawn t < 4294967296 /\ 0 <= pixels_drawn t < 4294967296.

(** A call [PutPixel(x, y, z, c)] on the screen of [d]. *)
Definition on_screen (d : Device) (c : Color) (call : DeviceCall) : Prop :=
  match call with
  | Call_PutPixel x y _ c' => 0 <= x < renderWidth d /\ 0 <= y < renderHeight d /\ c' = c
  | _ => False
  end.

(** A camera at the origin that looks down the negative z axis, with a
    projection that copies [-z] to [w] and sets the clip depth to 1; the
    cube of [Mesh_CreateCube]; a 1240 x 680 device. *)
Definition camera_sample : CameraState :=
  {| g_view_matrix := Mat4_Identity;
     g_proj_matrix :=
       mset (mset (mset (mset Mat4_Identity 11 (of_int (-1))) 15 zero) 10 zero) 14 one |}.

Definition cube_sample : MeshState := snd (Mesh_CreateCube one mesh_startup).

Definition screen_sample : RasterState :=
  {| g_device := Some {| renderWidth := 1240; renderHeight := 680; dev_calls := nil |};
     g_stats := zero_stats |}.

Definition vertex_at (x y z : float) : Vertex_t :=
  {| position := MakeVec3 x y z; normal := MakeVec3 zero one zero;
     texcoord := MakeVec2 zero zero |}.

Definition is_nan (x : float) : bool :=
  match x with S754_nan => true | _ => false end.

(** What the renderer has done to the rasterizer after some triangles: [n]
    triangles drawn, none culled, the calls [new] on the device. *)
Definition rendered (d : Device) (c : Color) (t0 : RasterizerStats_t)
           (rs : RasterState) (new : list DeviceCall) (n : nat) : Prop :=
  g_device rs = Some (device_calls d new) /\
  Forall (on_screen d c) new /\
  g_stats rs =
  {| triangles_submitted := wrap32 (triangles_submitted t0 + Z.of_nat n);
     triangles_culled := triangles_culled t0;
     triangles_drawn := wrap32 (triangles_drawn t0 + Z.of_nat n);
     pixels_drawn := wrap32 (pixels_drawn t0 + Z.of_nat (length new)) |}.

(** ** mesh.cpp: the OBJ loader *)

Definition OBJ_MAX_POS : Z := 2048.
Definition OBJ_MAX_NORM : Z := 2048.
Definition OBJ_MAX_UV : Z := 2048.

(** The static parsing buffers [s_obj_pos], [s_obj_norm], [s_obj_uv]. *)
Record ObjBuffers : Type :=
  { s_obj_pos : array Vec3; s_obj_norm : array Vec3; s_obj_uv : array Vec2 }.

(** The inner loop [while (ptr < end && *ptr != '\n' && *ptr != '\r' &&
    len < 254) line[len++] = *ptr++;]: the characters of the line, the last
    one first, and the new [ptr]. *)
Fixpoint read_line (fuel : nat) (d : list Z) (size ptr len : Z) (acc : list Z)
  : list Z * Z :=
  match fuel with
  | O => (acc, ptr)
  | S fuel' =>
      if (ptr <? size) && negb (byte_at d ptr =? 10) && negb (byte_at d ptr =? 13)
         && (len <? 254)
      then read_line fuel' d size (ptr + 1) (len + 1) (byte_at d ptr :: acc)
      else (acc, ptr)
  end.

(** [while (ptr < end && ( *ptr == '\n' || *ptr == '\r')) ptr++;] *)
Fixpoint skip_eol (fuel : nat) (d : list Z) (size ptr : Z) : Z :=
  match fuel with
  | O => ptr
  | S fuel' =>
      if (ptr <? size) && ((byte_at d ptr =? 10) || (byte_at d ptr =? 13))
      then skip_eol fuel' d size (ptr + 1)
      else ptr
  end.

(** The string that [line] holds once [line[len] = '\0'] is stored: the
    characters before the first NUL. *)
Fixpoint cstr (l : list Z) : list Z :=
  match l with
  | nil => nil
  | c :: l' => if c =? 0 then nil else c :: cstr l'
  end.

(** The lines that each of the three passes of [Mesh_LoadOBJ] goes through:
    the outer loop [while (ptr < end)].  Every turn moves [ptr] forward, so
    [size - ptr] turns are enough. *)
Fixpoint obj_lines (fuel : nat) (d : list Z) (size ptr : Z) : list (list Z) :=
  match fuel with
  | O => nil
  | S fuel' =>
      if ptr <? size then
        let '(acc, p1) := read_line 254 d size ptr 0 nil in
        let p2 := skip_eol (Z.to_nat (size - p1)) d size p1 in
        cstr (rev acc) :: obj_lines fuel' d size p2
      else nil
  end.

(** [while ( *s == ' ' || *s == '\t') s++;] on a string. *)
Fixpoint skip_blank (s : list Z) : list Z :=
  match s with
  | c :: s' => if (c =? 32) || (c =? 9) then skip_blank s' else s
  | nil => nil
  end.

(** [s[k]], which is the terminator past the end of the string. *)
Definition char_at (s : list Z) (k : nat) : Z := nth k s 0.

Section OBJ.

(** [strtod] and [strtol] of the C library, on a string: the converted
    value ([(float)strtod(s, &end)], [(int)strtol(s, &end, 10)]) and the
    number [end - s] of characters taken, 0 when nothing is converted. *)
Variable strtod : list Z -> float * nat.
Variable strtol : list Z -> Z * nat.

(** The results are the returned flag, [*out] and [*s]. *)
Definition ParseFloat (s : list Z) (out : float) : Z * float * list Z :=
  let s := skip_blank s in
  if (char_at s 0 =? 0) || (char_at s 0 =? 10) || (char_at s 0 =? 13) then (0, out, s)
  else
    let '(x, n) := strtod s in
    if Nat.eqb n 0 then (0, x, s) else (1, x, skipn n s).

Definition ParseInt (s : list Z) (out : Z) : Z * Z * list Z :=
  let s := skip_blank s in
  if (char_at s 0 =? 0) || (char_at s 0 =? 10) || (char_at s 0 =? 13) then (0, out, s)
  else
    let '(x, n) := strtol s in
    if Nat.eqb n 0 then (0, x, s) else (1, x, skipn n s).

(** The results are [*v], [*vt], [*vn] and [*s]. *)
Definition ParseFaceIdx (s : list Z) : Z * Z * Z * list Z :=
  let '(_, v, s) := ParseInt s 0 in
  let '(vt, vn, s) :=
    if char_at s 0 =? 47 then
      let s := tl s in
      let '(vt, s) := if negb (char_at s 0 =? 47)
                      then (let '(_, vt, s) := ParseInt s 0 in (vt, s))
                      else (0, s) in
      let '(vn, s) := if char_at s 0 =? 47
                      then (let '(_, vn, s) := ParseInt (tl s) 0 in (vn, s))
                      else (0, s) in
      (vt, vn, s)
    else (0, 0, s) in
  (v, vt, vn, skip_blank s).

(** [while ( *lp && fc < 4) { ParseFaceIdx(...); if (fv[fc] != 0) fc++; else
    break; }]: the corners [(fv, ft, fn)] that were counted, in order;
    [n] is [4 - fc]. *)
Fixpoint face_corners (n : nat) (lp : list Z) : list (Z * Z * Z) :=
  match n with
  | O => nil
  | S n' =>
      if char_at lp 0 =? 0 then nil
      else
        let '(v, vt, vn, lp') := ParseFaceIdx lp in
        if v =? 0 then nil else (v, vt, vn) :: face_corners n' lp'
  end.

(** [lp[0] == 'f' && lp[1] == ' '], after the leading blanks. *)
Definition is_face_line (line : list Z) : bool :=
  let lp := skip_blank line in (char_at lp 0 =? 102) && (char_at lp 1 =? 32).

(** The counters and buffers of the first pass. *)
Record ObjCounts : Type :=
  { pos_count : Z; norm_count : Z; uv_count_obj : Z; obj_bufs : ObjBuffers }.

Definition three_floats (lp : list Z) : option Vec3 :=
  let '(r, x, lp) := ParseFloat lp zero in
  if r =? 0 then None
  else let '(r, y, lp) := ParseFloat lp zero in
       if r =? 0 then None
       else let '(r, z, lp) := ParseFloat lp zero in
            if r =? 0 then None else Some (MakeVec3 x y z).

Definition two_floats (lp : list Z) : option Vec2 :=
  let '(r, x, lp) := ParseFloat lp zero in
  if r =? 0 then None
  else let '(r, y, lp) := ParseFloat lp zero in
       if r =? 0 then None else Some (MakeVec2 x y).

(** One line of the first pass. *)
Definition obj_pass1_line (c : ObjCounts) (line : list Z) : ObjCounts :=
  let lp := skip_blank line in
  let b := obj_bufs c in
  if (char_at lp 0 =? 118) && (char_at lp 1 =? 32) then
    match three_floats (skipn 2 lp) with
    | Some p =>
        if pos_count c <? OBJ_MAX_POS
        then {| pos_count := wrap32 (pos_count c + 1); norm_count := norm_count c;
                uv_count_obj := uv_count_obj c;
                obj_bufs := {| s_obj_pos := aset (s_obj_pos b) (pos_count c) p;
                               s_obj_norm := s_obj_norm b; s_obj_uv := s_obj_uv b |} |}
        else c
    | None => c
    end
  else if (char_at lp 0 =? 118) && (char_at lp 1 =? 116) && (char_at lp 2 =? 32) then
    match two_floats (skipn 3 lp) with
    | Some t =>
        let t := MakeVec2 (v2_x t) (fsub one (v2_y t)) in
        if uv_count_obj c <? OBJ_MAX_UV
        then {| pos_count := pos_count c; norm_count := norm_count c;
                uv_count_obj := wrap32 (uv_count_obj c + 1);
                obj_bufs := {| s_obj_pos := s_obj_pos b; s_obj_norm := s_obj_norm b;
                               s_obj_uv := aset (s_obj_uv b) (uv_count_obj c) t |} |}
        else c
    | None => c
    end
  else if (char_at lp 0 =? 118) && (char_at lp 1 =? 110) && (char_at lp 2 =? 32) then
    match three_floats (skipn 3 lp) with
    | Some n =>
        if norm_count c <? OBJ_MAX_NORM
        then {| pos_count := pos_count c; norm_count := wrap32 (norm_count c + 1);
                uv_count_obj := uv_count_obj c;
                obj_bufs := {| s_obj_pos := s_obj_pos b;
                               s_obj_norm := aset (s_obj_norm b) (norm_count c)
                                                  (Vec3_Normalize n);
                               s_obj_uv := s_obj_uv b |} |}
        else c
    | None => c
    end
  else c.

(** The output vertex of a face corner [(fv, ft, fn)]. *)
Definition corner_vertex (c : ObjCounts) (corner : Z * Z * Z) : Vertex_t :=
  let '(fv, ft, fn) := corner in
  let b := obj_bufs c in
  let vi := if fv >? 0 then swrap32 (fv - 1) else swrap32 (pos_count c + fv) in
  let ti := if ft >? 0 then swrap32 (ft - 1)
            else if ft <? 0 then swrap32 (uv_count_obj c + ft) else -1 in
  let ni := if fn >? 0 then swrap32 (fn - 1)
            else if fn <? 0 then swrap32 (norm_count c + fn) else -1 in
  {| position := if (vi >=? 0) && (vi <? swrap32 (pos_count c))
                 then s_obj_pos b vi else Vec3_Zero;
     normal := if (ni >=? 0) && (ni <? swrap32 (norm_count c))
               then s_obj_norm b ni else MakeVec3 (of_int 0) (of_int 1) (of_int 0);
     texcoord := if (ti >=? 0) && (ti <? swrap32 (uv_count_obj c))
                 then s_obj_uv b ti else MakeVec2 (of_int 0) (of_int 0) |}.

(** The running state of the third pass: [v_count], [i_count] and the
    pools. *)
Record ObjBuild : Type := { v_count : Z; i_count : Z; ob_mesh : MeshState }.

(** [out_i[i_count++] = (uint16_t)x] *)
Definition push_index (i_start : Z) (x : Z) (o : ObjBuild) : ObjBuild :=
  {| v_count := v_count o; i_count := wrap32 (i_count o + 1);
     ob_mesh := set_index_pool (ob_mesh o)
                  (aset (g_index_pool (ob_mesh o)) (i_start + i_count o) (wrap16 x)) |}.

(** [out_v[v_count] = ...; v_count++] *)
Definition push_vertex (v_start : Z) (v : Vertex_t) (o : ObjBuild) : ObjBuild :=
  {| v_count := wrap32 (v_count o + 1); i_count := i_count o;
     ob_mesh := set_vertex_pool (ob_mesh o)
                  (aset (g_vertex_pool (ob_mesh o)) (v_start + v_count o) v) |}.

(** A face line of the third pass, from its corners on. *)
Definition emit_face (c : ObjCounts) (v_start i_start max_verts max_indices : Z)
           (corners : list (Z * Z * Z)) (o : ObjBuild) : ObjBuild :=
  let fc := Z.of_nat (length corners) in
  if (fc >=? 3) && (wrap32 (v_count o + fc) <=? max_verts)
     && (wrap32 (i_count o + 6) <=? max_indices)
  then
    let base := v_count o in
    let o := fold_left (fun o corner => push_vertex v_start (corner_vertex c corner) o)
                       corners o in
    (* Triangle *)
    let o := push_index i_start base o in
    let o := push_index i_start (wrap32 (base + 1)) o in
    let o := push_index i_start (wrap32 (base + 2)) o in
    (* Quad -> second triangle *)
    if fc =? 4 then
      let o := push_index i_start base o in
      let o := push_index i_start (wrap32 (base + 2)) o in
      push_index i_start (wrap32 (base + 3)) o
    else o
  else o.

Definition obj_pass3_line (c : ObjCounts) (v_start i_start max_verts max_indices : Z)
           (o : ObjBuild) (line : list Z) : ObjBuild :=
  if is_face_line line
  then emit_face c v_start i_start max_verts max_indices
                 (face_corners 4 (skipn 2 (skip_blank line))) o
  else o.

(** [bmin] and [bmax] over the vertices that were written. *)
Definition obj_bounds (v_start n : Z) (ms : MeshState) : Vec3 * Vec3 :=
  let p0 := position (g_vertex_pool ms (v_start + 0)) in
  for_loop (Z.to_nat (n - 1)) 1
    (fun i b => (Vec3_Min (fst b) (position (g_vertex_pool ms (v_start + i))),
                 Vec3_Max (snd b) (position (g_vertex_pool ms (v_start + i)))))
    (p0, p0).

(** [data] is [None] for a null pointer.  The results are the returned
    handle, the pools and the parsing buffers. *)
Definition Mesh_LoadOBJ (data : option (list Z)) (size : Z) (s : MeshState)
           (bufs : ObjBuffers) : Z * MeshState * ObjBuffers :=
  match data with
  | None => (NO_SPACE, s, bufs)
  | Some d =>
    if size =? 0 then (NO_SPACE, s, bufs)
    else
      let lines := obj_lines (Z.to_nat size) d size 0 in
      (* First pass: count and store raw data *)
      let c := fold_left obj_pass1_line lines
                 {| pos_count := 0; norm_count := 0; uv_count_obj := 0; obj_bufs := bufs |} in
      (* Count faces (second pass) *)
      let face_count :=
        fold_left (fun n line => if is_face_line line then wrap32 (n + 1) else n) lines 0 in
      let max_verts := wrap32 (face_count * 4) in
      let max_indices := wrap32 (face_count * 6) in
      (* Allocate from pools *)
      let slot := AllocMeshSlot s in
      if slot =? NO_SPACE then (NO_SPACE, s, obj_bufs c)
      else
        let '(v_start, s) := AllocVertices max_verts s in
        let '(i_start, s) := AllocIndices max_indices s in
        if (v_start =? NO_SPACE) || (i_start =? NO_SPACE) then (NO_SPACE, s, obj_bufs c)
        else
          (* Third pass: build mesh *)
          let o := fold_left (obj_pass3_line c v_start i_start max_verts max_indices) lines
                     {| v_count := 0; i_count := 0; ob_mesh := s |} in
          (* Trim unused allocation *)
          let s := set_index_used (set_vertex_used (ob_mesh o) (wrap32 (v_start + v_count o)))
                                  (wrap32 (i_start + i_count o)) in
          (* Calculate bounds *)
          let '(bmin, bmax) := obj_bounds v_start (v_count o) s in
          let center := Vec3_Scale (Vec3_Add bmin bmax) (lit 1 2) in
          (slot,
           fill_static_slot slot v_start (v_count o) i_start (i_count o) center
                            (Vec3_Length (Vec3_Sub bmax center)) s,
           obj_bufs c)
  end.

End OBJ.

(** The indices that the faces with the corner counts [fcs] give, the first
    of them starting at the vertex [base]: a face of 3 corners gives one
    triangle, a face of 4 corners two, a shorter one nothing. *)
Fixpoint face_indices (base : Z) (fcs : list Z) : list Z :=
  match fcs with
  | nil => nil
  | fc :: rest =>
      if fc <? 3 then face_indices base rest
      else
        [wrap16 base; wrap16 (base + 1); wrap16 (base + 2)]
        ++ (if fc =? 4 then [wrap16 base; wrap16 (base + 2); wrap16 (base + 3)] else nil)
        ++ face_indices (base + fc) rest
  end.

(** The number of vertices and of indices of these faces. *)
Fixpoint face_vertex_total (fcs : list Z) : Z :=
  match fcs with
  | nil => 0
  | fc :: rest => (if fc <? 3 then 0 else fc) + face_vertex_total rest
  end.

Definition face_index_total (fcs : list Z) : Z :=
  Z.of_nat (length (face_indices 0 fcs)).

(** The corners of the face lines of a file, line by line, and the result
    of the first pass. *)
Definition obj_faces (strtol : list Z -> Z * nat) (d : list Z) (size : Z)
  : list (list (Z * Z * Z)) :=
  map (fun line => face_corners strtol 4 (skipn 2 (skip_blank line)))
      (filter is_face_line (obj_lines (Z.to_nat size) d size 0)).

Definition obj_counts (strtod : list Z -> float * nat) (d : list Z) (size : Z)
           (bufs : ObjBuffers) : ObjCounts :=
  fold_left (obj_pass1_line strtod) (obj_lines (Z.to_nat size) d size 0)
            {| pos_count := 0; norm_count := 0; uv_count_obj := 0; obj_bufs := bufs |}.

Definition corner_count (cs : list (Z * Z * Z)) : Z := Z.of_nat (length cs).

(** The output vertices of these faces: one for every corner of every face
    that has three corners at least. *)
Definition face_vertices (c : ObjCounts) (faces : list (list (Z * Z * Z))) : list Vertex_t :=
  flat_map (fun cs => if corner_count cs <? 3 then nil else map (corner_vertex c) cs) faces.

(** The third pass after the faces [done]: what it has written from the
    pools [s] on. *)
Record obj_built (c : ObjCounts) (s : MeshState) (v_start i_start : Z)
       (done : list (list (Z * Z * Z))) (o : ObjBuild) : Prop :=
  { ob_v_count : v_count o = face_vertex_total (map corner_count done);
    ob_i_count : i_count o = face_index_total (map corner_count done);
    ob_indices : forall j, g_index_pool (ob_mesh o) j =
                           write_list (g_index_pool s) i_start
                                      (face_indices 0 (map corner_count done)) j;
    ob_vertices : forall j, g_vertex_pool (ob_mesh o) j =
                            write_list (g_vertex_pool s) v_start (face_vertices c done) j;
    ob_meshes : g_meshes (ob_mesh o) = g_meshes s }.

(** A [strtol] for decimal integers with an optional sign, and a [strtod]
    that reads such an integer: enough for the files of the examples. *)
Fixpoint digits (s : list Z) (acc : Z) (n : nat) : Z * nat :=
  match s with
  | c :: s' => if (48 <=? c) && (c <=? 57) then digits s' (10 * acc + (c - 48)) (S n)
               else (acc, n)
  | nil => (acc, n)
  end.

Definition strtol_dec (s : list Z) : Z * nat :=
  match s with
  | 45 :: s' => let '(v, n) := digits s' 0 O in
                if Nat.eqb n 0 then (0, O) else (swrap32 (- v), S n)
  | _ => let '(v, n) := digits s 0 O in (swrap32 v, n)
  end.

Definition strtod_dec (s : list Z) : float * nat :=
  let '(v, n) := strtol_dec s in (of_int v, n).

Definition obj_buffers_startup : ObjBuffers :=
  {| s_obj_pos := fun _ => Vec3_Zero; s_obj_norm := fun _ => Vec3_Zero;
     s_obj_uv := fun _ => MakeVec2 zero zero |}.

(** A cube as an OBJ file: the eight lines [v x y z] of its corners and six
    lines [f a b c d] of its faces, as bytes. *)
Definition obj_cube_file : list Z :=
  [ 118; 32; 45; 49; 32; 45; 49; 32; 45; 49; 10; 118; 32; 49; 32; 45;
    49; 32; 45; 49; 10; 118; 32; 49; 32; 49; 32; 45; 49; 10; 118; 32;
    45; 49; 32; 49; 32; 45; 49; 10; 118; 32; 45; 49; 32; 45; 49; 32;
    49; 10; 118; 32; 49; 32; 45; 49; 32; 49; 10; 118; 32; 49; 32; 49;
    32; 49; 10; 118; 32; 45; 49; 32; 49; 32; 49; 10; 102; 32; 49; 32;
    50; 32; 51; 32; 52; 10; 102; 32; 53; 32; 56; 32; 55; 32; 54; 10;
    102; 32; 49; 32; 53; 32; 54; 32; 50; 10; 102; 32; 50; 32; 54; 32;
    55; 32; 51; 10; 102; 32; 51; 32; 55; 32; 56; 32; 52; 10; 102; 32;
    53; 32; 49; 32; 52; 32; 56; 10 ].

(** The same with a triangle and a pentagon as faces. *)
Definition obj_mixed_file : list Z :=
  [ 118; 32; 48; 32; 48; 32; 48; 10; 118; 32; 49; 32; 48; 32; 48; 10;
    118; 32; 49; 32; 49; 32; 48; 10; 118; 32; 48; 32; 49; 32; 48; 10;
    118; 32; 48; 32; 50; 32; 48; 10; 102; 32; 49; 32; 50; 32; 51; 10;
    102; 32; 49; 32; 50; 32; 51; 32; 52; 32; 53; 10 ].

(** The indices of one face, as [emit_face] pushes them. *)
Definition pushed_indices (base fc : Z) : list Z :=
  [base; wrap32 (base + 1); wrap32 (base + 2)]
  ++ (if fc =? 4 then [base; wrap32 (base + 2); wrap32 (base + 3)] else nil).

(** ** color.cpp: the blend functions *)

Definition blendAverage (source target : Color) : Color :=
  {| c_r := wrap8 (Z.shiftr (wrap32 (c_r source + c_r target)) 1);
     c_g := wrap8 (Z.shiftr (wrap32 (c_g source + c_g target)) 1);
     c_b := wrap8 (Z.shiftr (wrap32 (c_b source + c_b target)) 1);
     c_a := 255 |}.

Definition blendMultiply (source target : Color) : Color :=
  {| c_r := wrap8 (Z.shiftr (wrap32 (c_r source * c_r target)) 8);
     c_g := wrap8 (Z.shiftr (wrap32 (c_g source * c_g target)) 8);
     c_b := wrap8 (Z.shiftr (wrap32 (c_b source * c_b target)) 8);
     c_a := 255 |}.

Definition blendAdd (source target : Color) : Color :=
  let r := wrap32 (c_r source + c_r target) in
  let g := wrap32 (c_g source + c_g target) in
  let b := wrap32 (c_b source + c_b target) in
  {| c_r := if r >? 255 then 255 else wrap8 r;
     c_g := if g >? 255 then 255 else wrap8 g;
     c_b := if b >? 255 then 255 else wrap8 b;
     c_a := 255 |}.

(** The channels of a colour are bytes. *)
Definition color_typed (c : Color) : Prop :=
  0 <= c_r c <= 255 /\ 0 <= c_g c <= 255 /\ 0 <= c_b c <= 255 /\ 0 <= c_a c <= 255.

(** The three colour channels. *)
Definition rgb_channels : list (Color -> Z) := [c_r; c_g; c_b].

Definition color_white : Color := {| c_r := 255; c_g := 255; c_b := 255; c_a := 255 |}.

(** ** Facts of binary32 arithmetic *)

Module F32Facts.

Lemma fsub_diag : forall s m e,
    fsub (S754_finite s m e) (S754_finite s m e) = S754_zero false.
Proof.
  intros s m e. unfold fsub, SFsub.
  rewrite Z.min_id. unfold shl_align. rewrite Z.sub_diag. cbn [fst].
  reflexivity.
Qed.

Lemma fmul_comm : forall x y, fmul x y = fmul y x.
Proof.
  intros x y. unfold fmul.
  destruct x as [sx | sx | | sx mx ex], y as [sy | sy | | sy my ey];
    cbn [SFmul]; try reflexivity; try (rewrite xorb_comm; reflexivity).
  rewrite xorb_comm, Pos.mul_comm, Z.add_comm. reflexivity.
Qed.

Lemma feq_refl : forall x, is_finite x = true -> feq x x = true.
Proof.
  intros x Hx. unfold feq, SFeqb.
  destruct x as [s | s | | s m e]; try discriminate; cbn [SFcompare].
  - reflexivity.
  - destruct s; rewrite Z.compare_refl, Pos.compare_cont_refl; reflexivity.
Qed.

Lemma feq_zeros : forall a b, feq (S754_zero a) (S754_zero b) = true.
Proof. reflexivity. Qed.

(** [a + (a - a) * t] gives back [a] itself when [a] is a finite number
    other than [-0] and [t] is finite. *)
Lemma lerp_same_exact : forall a t,
    is_finite a = true -> a <> S754_zero true -> is_finite t = true ->
    fadd a (fmul (fsub a a) t) = a.
Proof.
  intros a t Ha Hnz Ht.
  destruct a as [sa | sa | | sa ma ea]; try discriminate.
  - destruct sa; [congruence |].
    destruct t as [st | st | | st mt et]; try discriminate; destruct st; reflexivity.
  - rewrite fsub_diag.
    destruct t as [st | st | | st mt et]; try discriminate; reflexivity.
Qed.

(** For [-0] the result is a zero; in every finite case it compares equal
    to [a]. *)
Lemma lerp_same_feq : forall a t,
    is_finite a = true -> is_finite t = true ->
    feq (fadd a (fmul (fsub a a) t)) a = true.
Proof.
  intros a t Ha Ht.
  destruct a as [sa | sa | | sa ma ea]; try discriminate.
  - destruct sa, t as [st | st | | st mt et]; try discriminate; destruct st; reflexivity.
  - rewrite lerp_same_exact by (try assumption; discriminate).
    apply feq_refl. reflexivity.
Qed.

End F32Facts.

(** * Properties *)

(** ** Loops *)

Lemma for_loop_inv : forall (S : Type) (P : S -> Prop) (body : Z -> S -> S),
    (forall i s, P s -> P (body i s)) ->
    forall n lo s, P s -> P (for_loop n lo body s).
Proof.
  intros S P body Hbody n. induction n as [| n IH]; intros lo s Hs; cbn.
  - exact Hs.
  - apply IH. apply Hbody. exact Hs.
Qed.


(** A loop whose step [i] rewrites the element [i] of an array of the state,
    as a function of that element, and keeps what the function depends on. *)
Lemma for_loop_pointwise :
  forall (S A : Type) (get : S -> Z -> A) (body : Z -> S -> S) (g : Z -> A -> A)
         (I : S -> Prop),
    (forall i s, I s -> I (body i s)) ->
    (forall i s j, I s -> get (body i s) j = if j =? i then g i (get s i) else get s j) ->
    forall n lo s, I s ->
      forall j, get (for_loop n lo body s) j =
                if (lo <=? j) && (j <? lo + Z.of_nat n) then g j (get s j) else get s j.
Proof.
  intros S A get body g I HI Hget n.
  induction n as [| n IH]; intros lo s Hs j; cbn [for_loop].
  - replace ((lo <=? j) && (j <? lo + Z.of_nat 0)) with false; [reflexivity |].
    symmetry. apply andb_false_iff.
    destruct (Z.leb_spec lo j); [right; apply Z.ltb_ge; lia | left; reflexivity].
  - rewrite (IH (lo + 1) (body lo s) (HI lo s Hs) j), (Hget lo s j Hs).
    destruct (Z.eqb_spec j lo) as [-> | Hne].
    + replace ((lo + 1 <=? lo) && (lo <? lo + 1 + Z.of_nat n)) with false
        by (symmetry; apply andb_false_iff; left; apply Z.leb_gt; lia).
      replace ((lo <=? lo) && (lo <? lo + Z.of_nat (Datatypes.S n))) with true
        by (symmetry; apply andb_true_iff; split; [apply Z.leb_le | apply Z.ltb_lt]; lia).
      reflexivity.
    + replace ((lo + 1 <=? j) && (j <? lo + 1 + Z.of_nat n))
        with ((lo <=? j) && (j <? lo + Z.of_nat (Datatypes.S n))); [reflexivity |].
      destruct (Z.leb_spec lo j), (Z.leb_spec (lo + 1) j),
               (Z.ltb_spec j (lo + Z.of_nat (Datatypes.S n))),
               (Z.ltb_spec j (lo + 1 + Z.of_nat n));
        cbn; try reflexivity; lia.
Qed.

(** ** The pool allocators *)

Module PoolFacts.

Lemma capacity_small : forall p, 0 < capacity p < 4294967295.
Proof. destruct p; vm_compute; split; reflexivity. Qed.

Lemma wrap32_id : forall z, 0 <= z < 4294967296 -> wrap32 z = z.
Proof. intros z H. unfold wrap32. apply Z.mod_small. exact H. Qed.

Ltac split_gtb :=
  match goal with
  | |- context [?a >? ?b] => destruct (Z.gtb_spec a b)
  end.

Ltac pool_cases p :=
  destruct p; cbn [allocate used capacity fst snd] in *;
  unfold AllocVertices, AllocIndices, AllocFrames, AllocMD2Vertices, AllocMD2UVs.

(** One call, on a pool whose counter is in range. *)
Lemma allocate_fits : forall p n s,
    0 <= used p s -> 0 <= n -> used p s + n < 4294967296 ->
    used p s + n <= capacity p ->
    fst (allocate p n s) = used p s /\
    used p (snd (allocate p n s)) = used p s + n /\
    (forall q, q <> p -> used q (snd (allocate p n s)) = used q s).
Proof.
  intros p n s H0 Hn Hw Hfit.
  pool_cases p; rewrite wrap32_id by lia;
    (split_gtb; [lia |]);
    cbn; (split; [reflexivity | split; [reflexivity |]]);
    intros q Hq; destruct q; try reflexivity; congruence.
Qed.

Lemma allocate_full : forall p n s,
    0 <= used p s -> 0 <= n -> used p s + n < 4294967296 ->
    used p s + n > capacity p ->
    allocate p n s = (NO_SPACE, s).
Proof.
  intros p n s H0 Hn Hw Hfull.
  pool_cases p; rewrite wrap32_id by lia;
    (split_gtb; [reflexivity | lia]).
Qed.

Lemma allocate_keeps_ok : forall p n s,
    pools_ok s -> request_ok (p, n) -> pools_ok (snd (allocate p n s)).
Proof.
  intros p n s Hok [Hn Hw]; cbn [fst snd] in *.
  pose proof (Hok p) as Hp.
  destruct (Z_le_gt_dec (used p s + n) (capacity p)) as [Hfit | Hfull].
  - destruct (allocate_fits p n s) as (_ & Hu & Hother); try lia.
    intros q. destruct (Pool_eq_dec q p) as [-> | Hne].
    + rewrite Hu. lia.
    + rewrite (Hother q Hne). apply Hok.
  - rewrite allocate_full by lia. exact Hok.
Qed.

Lemma allocate_all_keeps_ok : forall calls s,
    pools_ok s -> Forall request_ok calls -> pools_ok (allocate_all calls s).
Proof.
  induction calls as [| [p n] rest IH]; intros s Hok Hcalls; cbn.
  - exact Hok.
  - inversion Hcalls as [| c l Hc Hrest]; subst.
    apply IH; [apply allocate_keeps_ok; assumption | assumption].
Qed.

(** A pool that is full stays full, whatever is allocated afterwards. *)
Lemma allocate_all_stays_full : forall calls s q,
    pools_ok s -> Forall request_ok calls ->
    used q s = capacity q -> used q (allocate_all calls s) = capacity q.
Proof.
  induction calls as [| [p n] rest IH]; intros s q Hok Hcalls Hq; cbn.
  - exact Hq.
  - inversion Hcalls as [| c l Hc Hrest]; subst.
    apply IH; [apply allocate_keeps_ok; assumption | assumption |].
    destruct Hc as [Hn Hw]; cbn [fst snd] in *.
    pose proof (Hok p) as Hp.
    destruct (Z_le_gt_dec (used p s + n) (capacity p)) as [Hfit | Hfull].
    + destruct (allocate_fits p n s) as (_ & Hu & Hother); try lia.
      destruct (Pool_eq_dec q p) as [-> | Hne].
      * rewrite Hu. lia.
      * rewrite (Hother q Hne). exact Hq.
    + rewrite allocate_full by lia. exact Hq.
Qed.

Lemma allocate_all_app : forall pre post s,
    allocate_all (pre ++ post) s = allocate_all post (allocate_all pre s).
Proof.
  induction pre as [| [p n] rest IH]; intros post s; cbn; [reflexivity | apply IH].
Qed.

(** C1 (as amended).  In any sequence of [allocate] calls whose sizes
    [n >= 0] cannot wrap the 32-bit sum ([n + capacity < 2^32]), started
    with every counter within its capacity, each call on a pool [p]
    - succeeds when [used + n <= capacity]: it returns the previous
      [used], which is not the sentinel, and [used] grows by exactly [n];
    - fails when [used + n > capacity]: it returns [0xFFFFFFFF] and the
      state is unchanged; the sentinel is returned in that case only;
    - leaves the counters of the other pools alone;
    - fails for every [n >= 1] once [used = capacity]; and a pool that
      is full stays full along the sequence, until [Mesh_Init] puts
      every counter back to 0. *)
Theorem allocate_sequence_correct :
  forall (s0 : MeshState) (pre post : list (Pool * Z)) (p : Pool) (n : Z),
    pools_ok s0 ->
    Forall request_ok (pre ++ (p, n) :: post) ->
    let s := allocate_all pre s0 in
    let r := fst (allocate p n s) in
    let s' := snd (allocate p n s) in
    (used p s + n <= capacity p ->
       r = used p s /\ r <> NO_SPACE /\ used p s' = used p s + n) /\
    (used p s + n > capacity p -> r = NO_SPACE /\ s' = s) /\
    (r = NO_SPACE <-> used p s + n > capacity p) /\
    (forall q, q <> p -> used q s' = used q s) /\
    (used p s = capacity p -> 1 <= n -> r = NO_SPACE /\ s' = s) /\
    (forall q, used q s0 = capacity q -> used q s = capacity q) /\
    (forall q, used q (Mesh_Init s') = 0).
Proof.
  intros s0 pre post p n Hok Hcalls s r s'.
  apply Forall_app in Hcalls as [Hpre Hrest].
  inversion Hrest as [| c l Hreq Hpost]; subst c l.
  assert (Hs : pools_ok s) by (apply allocate_all_keeps_ok; assumption).
  destruct Hreq as [Hn Hw]; cbn [fst snd] in Hn, Hw.
  pose proof (Hs p) as Hp. pose proof (capacity_small p) as Hcap.
  assert (Hfits : used p s + n <= capacity p ->
                  r = used p s /\ r <> NO_SPACE /\ used p s' = used p s + n).
  { intros Hfit. destruct (allocate_fits p n s) as (Hr & Hu & _); try lia.
    subst r s'. rewrite Hr. repeat split; try assumption.
    unfold NO_SPACE. lia. }
  assert (Hfull : used p s + n > capacity p -> r = NO_SPACE /\ s' = s).
  { intros Hgt. subst r s'. rewrite allocate_full by lia. split; reflexivity. }
  repeat split.
  - apply Hfits; assumption.
  - apply Hfits; assumption.
  - apply Hfits; assumption.
  - apply Hfull; assumption.
  - apply Hfull; assumption.
  - intros Hr. destruct (Z_le_gt_dec (used p s + n) (capacity p)) as [Hfit | Hgt];
      [| exact Hgt].
    destruct (Hfits Hfit) as (_ & Hne & _). contradiction.
  - intros Hgt. apply Hfull; assumption.
  - intros q Hq. subst s'.
    destruct (Z_le_gt_dec (used p s + n) (capacity p)) as [Hfit | Hgt].
    + destruct (allocate_fits p n s) as (_ & _ & Hother); try lia. apply Hother; assumption.
    + rewrite allocate_full by lia. reflexivity.
  - apply Hfull; lia.
  - apply Hfull; lia.
  - intros q Hq. subst s. apply allocate_all_stays_full; assumption.
  - intros q. destruct q; reflexivity.
Qed.

Lemma startup_pools_ok : pools_ok (Mesh_Init mesh_startup).
Proof. intros p. destruct p; cbn; unfold capacity; vm_compute; split; discriminate. Qed.

Lemma allocate_sequence_correct_witness :
  let s0 := Mesh_Init mesh_startup in
  let pre := [(VertexPool, 40960); (IndexPool, 6)] in
  let s := allocate_all pre s0 in
  used VertexPool s = capacity VertexPool /\
  fst (allocate VertexPool 24 s) = NO_SPACE /\
  snd (allocate VertexPool 24 s) = s.
Proof.
  intros s0 pre s.
  assert (Hok : pools_ok s0).
  { intros p. destruct p; vm_compute; split; discriminate. }
  assert (Hcalls : Forall request_ok (pre ++ (VertexPool, 24) :: [(FramePool, 1)])).
  { repeat constructor; vm_compute; discriminate. }
  pose proof (allocate_sequence_correct s0 pre [(FramePool, 1)] VertexPool 24 Hok Hcalls)
    as (_ & _ & _ & _ & Hfull & _).
  split; [reflexivity |].
  apply Hfull; [reflexivity | vm_compute; discriminate].
Defined.

(** C1, as stated, fails: with the vertex pool filled up to its capacity,
    [AllocVertices(0)] does not fail; it returns the offset 40960. *)
Lemma allocate_zero_when_full :
  let s := snd (AllocVertices 40960 (Mesh_Init mesh_startup)) in
  g_vertex_used s = MAX_TOTAL_VERTICES /\
  fst (AllocVertices 0 s) = 40960 /\
  fst (AllocVertices 0 s) <> NO_SPACE.
Proof. vm_compute. repeat split; discriminate. Qed.

(** The 32-bit sum of the capacity test wraps for large requests: with
    one vertex in use, [AllocVertices(0xFFFFFFFF)] succeeds and leaves
    the counter at 0. *)
Lemma AllocVertices_wraps :
  let s := snd (AllocVertices 1 (Mesh_Init mesh_startup)) in
  fst (AllocVertices 4294967295 s) = 1 /\
  g_vertex_used (snd (AllocVertices 4294967295 s)) = 0.
Proof. vm_compute. split; reflexivity. Qed.

End PoolFacts.

(** ** The MD2 loader and the keyframe evaluators *)

Module MD2Facts.

Lemma normals_length : List.length g_md2_normals = 162%nat.
Proof. reflexivity. Qed.

Lemma rem_162_range : forall b, 0 <= b -> 0 <= Z.rem b 162 < 162.
Proof. intros b Hb. apply Z.rem_bound_pos; lia. Qed.

Lemma table_read_inside : forall i,
    0 <= i < 162 ->
    table_read g_md2_normals i =
    Some (nth (Z.to_nat i) g_md2_normals (zero, zero, zero)).
Proof.
  intros i Hi. unfold table_read.
  destruct (Z.ltb_spec i 0) as [Hneg | _]; [lia |].
  apply nth_error_nth'. rewrite normals_length. lia.
Qed.

(** Every entry of the table is a finite number other than [-0]. *)
Definition plain (x : float) : bool :=
  match x with
  | S754_finite _ _ _ | S754_zero false => true
  | _ => false
  end.

Lemma normals_plain :
  forallb (fun r => let '(a, b, c) := r in plain a && plain b && plain c)
          g_md2_normals = true.
Proof. vm_compute. reflexivity. Qed.

Lemma plain_lerp : forall a t,
    plain a = true -> is_finite t = true -> fadd a (fmul (fsub a a) t) = a.
Proof.
  intros a t Ha Ht. apply F32Facts.lerp_same_exact; try assumption.
  - destruct a as [[|] | | |]; try discriminate; reflexivity.
  - intros ->. discriminate.
Qed.

Lemma table_normal_lerp : forall v t,
    0 <= normal_index v -> is_finite t = true ->
    Vec3_Lerp (table_normal v) (table_normal v) t = table_normal v.
Proof.
  intros v t Hv Ht. unfold table_normal.
  pose proof (rem_162_range _ Hv) as Hr.
  set (i := Z.to_nat (Z.rem (normal_index v) 162)).
  assert (Hin : In (nth i g_md2_normals (zero, zero, zero)) g_md2_normals).
  { apply nth_In. rewrite normals_length. subst i. lia. }
  pose proof normals_plain as Hall. rewrite forallb_forall in Hall.
  specialize (Hall _ Hin).
  destruct (nth i g_md2_normals (zero, zero, zero)) as [[a b] c].
  apply andb_prop in Hall as [Hab Hc]. apply andb_prop in Hab as [Ha Hb].
  unfold Vec3_Lerp; cbn [vec3_of_row v3_x v3_y v3_z].
  rewrite !plain_lerp by assumption. reflexivity.
Qed.

Lemma decompress_comm : forall v fd, decompress' v fd = decompress v fd.
Proof.
  intros v fd. unfold decompress', decompress.
  rewrite (F32Facts.fmul_comm (v3_x (fd_scale fd))),
          (F32Facts.fmul_comm (v3_y (fd_scale fd))),
          (F32Facts.fmul_comm (v3_z (fd_scale fd))).
  reflexivity.
Qed.

Lemma wrap16_id : forall z, 0 <= z < 65536 -> wrap16 z = z.
Proof. intros z H. unfold wrap16. apply Z.mod_small. exact H. Qed.

Lemma Mesh_Get_animated : forall s id,
    0 <= id < MAX_MESHES -> type (g_meshes s id) = 2 ->
    Mesh_Get id s = Some (g_meshes s id).
Proof.
  intros s id Hid Hty. unfold Mesh_Get. rewrite Hty.
  destruct (Z.geb_spec id MAX_MESHES) as [Hge | _]; [lia | reflexivity].
Qed.

(** C10.  For every byte [b] the subscript [b % 162] lies inside the table
    of 162 normals, so that the lookup of [g_md2_normals] and of
    [g_normals] succeeds; and with bytes as normal indices in the
    animated-vertex pool, neither [Mesh_GetMD2InterpolatedVertex] nor
    [Mesh_GetMD2Vertex] ever reads a normal outside of its table, whatever
    the arguments of the call. *)
Theorem md2_normal_index_in_bounds :
  forall (s : MeshState) (mesh_id vert fa fb b : Z) (t : float) (uv : bool),
    (forall i, 0 <= normal_index (g_md2_vertex_pool s i) <= 255) ->
    0 <= b <= 255 ->
    0 <= Z.rem b 162 < Z.of_nat (List.length g_md2_normals) /\
    table_read g_md2_normals (Z.rem b 162) <> None /\
    table_read g_normals (Z.rem b 162) <> None /\
    Mesh_GetMD2InterpolatedVertex s mesh_id vert fa fb t <> None /\
    Mesh_GetMD2Vertex s mesh_id vert fa fb t uv <> None.
Proof.
  intros s mesh_id vert fa fb b t uv Hbytes Hb.
  assert (Hread : forall c, 0 <= c <= 255 -> table_read g_md2_normals (Z.rem c 162) <> None).
  { intros c Hc. rewrite table_read_inside by (apply rem_162_range; lia). discriminate. }
  split; [rewrite normals_length; apply rem_162_range; lia |].
  split; [apply Hread; assumption |].
  split; [apply Hread; assumption |].
  assert (Hin : forall v, 0 <= Z.rem (normal_index (g_md2_vertex_pool s v)) 162 < 162).
  { intros v. apply rem_162_range. apply Hbytes. }
  split.
  - unfold Mesh_GetMD2InterpolatedVertex. cbv zeta.
    repeat match goal with
           | |- context [if ?c then _ else _] => destruct c
           end; try discriminate.
    all: rewrite !table_read_inside by apply Hin; discriminate.
  - unfold Mesh_GetMD2Vertex, g_normals. cbv zeta.
    destruct (Mesh_Get mesh_id s) as [m |]; [| discriminate].
    repeat match goal with
           | |- context [if ?c then _ else _] => destruct c
           end; try discriminate.
    all: rewrite !table_read_inside by apply Hin; discriminate.
Qed.

(** The witness of C10: the pools right after [Mesh_Init]. *)
Lemma md2_normal_index_in_bounds_witness :
  table_read g_normals (Z.rem 200 162) <> None /\
  Mesh_GetMD2Vertex (Mesh_Init mesh_startup) 0 0 0 0 zero true <> None.
Proof.
  pose proof (md2_normal_index_in_bounds (Mesh_Init mesh_startup) 0 0 0 0 200 zero true)
    as (_ & _ & Htab & _ & Heval).
  - intros i. cbn. lia.
  - lia.
  - split; assumption.
Defined.

Lemma clamp_frame_below : forall count f,
    1 <= count -> (clamp_frame count f <? count) = true.
Proof.
  intros count f Hc. unfold clamp_frame.
  destruct (Z.geb_spec f count); apply Z.ltb_lt; lia.
Qed.

Lemma clamp_frame_idem : forall count f,
    1 <= count ->
    (if clamp_frame count f >=? count then count - 1 else clamp_frame count f)
    = clamp_frame count f.
Proof.
  intros count f Hc. pose proof (clamp_frame_below count f Hc) as H.
  apply Z.ltb_lt in H.
  destruct (Z.geb_spec (clamp_frame count f) count); [lia | reflexivity].
Qed.

(** C3 (as amended).  For an animated mesh with at least one frame, a frame
    index [>= frame_count] is evaluated as [frame_count - 1] by both
    evaluators.  A vertex index [>= verts_per_frame] is not clamped to the
    last vertex: [Mesh_GetMD2Vertex] evaluates vertex 0 in its place, and
    [Mesh_GetMD2InterpolatedVertex] returns the position (0,0,0) and the
    normal (0,1,0). *)
Theorem md2_out_of_range_indices :
  forall (s : MeshState) (id v fa fb : Z) (t : float) (uv : bool),
    0 <= id < MAX_MESHES ->
    type (g_meshes s id) = 2 ->
    1 <= frame_count (anim (g_meshes s id)) <= 65535 ->
    let a := anim (g_meshes s id) in
    Mesh_GetMD2Vertex s id v fa fb t uv =
      Mesh_GetMD2Vertex s id v (clamp_frame (frame_count a) fa)
                        (clamp_frame (frame_count a) fb) t uv /\
    Mesh_GetMD2InterpolatedVertex s id v fa fb t =
      Mesh_GetMD2InterpolatedVertex s id v (clamp_frame (frame_count a) fa)
                                    (clamp_frame (frame_count a) fb) t /\
    (v >= verts_per_frame a ->
       Mesh_GetMD2Vertex s id v fa fb t uv = Mesh_GetMD2Vertex s id 0 fa fb t uv /\
       Mesh_GetMD2InterpolatedVertex s id v fa fb t = Some (Vec3_Zero, default_normal)).
Proof.
  intros s id v fa fb t uv Hid Hty Hfc a.
  assert (Hw32 : wrap32 (frame_count a - 1) = frame_count a - 1).
  { apply PoolFacts.wrap32_id. subst a. lia. }
  assert (Hw16 : wrap16 (frame_count a - 1) = frame_count a - 1).
  { apply wrap16_id. subst a. lia. }
  assert (Hge : (id >=? MAX_MESHES) = false).
  { destruct (Z.geb_spec id MAX_MESHES); [lia | reflexivity]. }
  split; [| split].
  - unfold Mesh_GetMD2Vertex. rewrite (Mesh_Get_animated s id Hid Hty).
    rewrite Hty. cbn [Z.eqb Pos.eqb negb]. cbv zeta. fold a.
    rewrite Hw32, !clamp_frame_idem by (subst a; lia).
    reflexivity.
  - unfold Mesh_GetMD2InterpolatedVertex. rewrite Hge, Hty.
    cbn [Z.eqb Pos.eqb negb orb]. cbv zeta. fold a.
    rewrite Hw16, !clamp_frame_idem by (subst a; lia).
    reflexivity.
  - intros Hv. split.
    + unfold Mesh_GetMD2Vertex. rewrite (Mesh_Get_animated s id Hid Hty).
      rewrite Hty. cbn [Z.eqb Pos.eqb negb]. cbv zeta. fold a.
      destruct (Z.geb_spec v (verts_per_frame a)) as [_ | Hlt]; [| lia].
      destruct (Z.geb_spec 0 (verts_per_frame a)); reflexivity.
    + unfold Mesh_GetMD2InterpolatedVertex. rewrite Hge, Hty.
      cbn [Z.eqb Pos.eqb negb orb]. cbv zeta. fold a.
      destruct (Z.geb_spec v (verts_per_frame a)) as [_ | Hlt]; [reflexivity | lia].
Qed.

Lemma md2_out_of_range_indices_witness :
  let s := snd (loaded md2_sample) in
  Mesh_GetMD2Vertex s 0 1 7 9 (lit 1 2) true = Mesh_GetMD2Vertex s 0 1 1 1 (lit 1 2) true /\
  Mesh_GetMD2InterpolatedVertex s 0 1 7 9 (lit 1 2) =
    Mesh_GetMD2InterpolatedVertex s 0 1 1 1 (lit 1 2).
Proof.
  intros s.
  assert (Hid : 0 <= 0 < MAX_MESHES) by (unfold MAX_MESHES; lia).
  assert (Hty : type (g_meshes s 0) = 2) by reflexivity.
  assert (Hfc : 1 <= frame_count (anim (g_meshes s 0)) <= 65535)
    by (vm_compute; split; discriminate).
  destruct (md2_out_of_range_indices s 0 1 7 9 (lit 1 2) true Hid Hty Hfc) as (H1 & H2 & _).
  split; assumption.
Defined.

(** C3, as stated, fails on the sample file (two vertices per frame): the
    vertex index 5 is not evaluated as the last vertex 1.
    [Mesh_GetMD2Vertex] evaluates vertex 0, and
    [Mesh_GetMD2InterpolatedVertex] returns its default outputs. *)
Lemma md2_vertex_index_not_clamped :
  let s := snd (loaded md2_sample) in
  verts_per_frame (anim (g_meshes s 0)) = 2 /\
  Mesh_GetMD2Vertex s 0 5 0 0 zero false <> Mesh_GetMD2Vertex s 0 1 0 0 zero false /\
  Mesh_GetMD2Vertex s 0 5 0 0 zero false = Mesh_GetMD2Vertex s 0 0 0 0 zero false /\
  Mesh_GetMD2InterpolatedVertex s 0 5 0 0 zero <>
    Mesh_GetMD2InterpolatedVertex s 0 1 0 0 zero /\
  Mesh_GetMD2InterpolatedVertex s 0 5 0 0 zero = Some (Vec3_Zero, default_normal).
Proof. vm_compute. repeat split; discriminate. Qed.

Lemma feq3 : forall a t,
    vec3_finite a = true -> is_finite t = true -> vec3_feq (Vec3_Lerp a a t) a = true.
Proof.
  intros [x y z] t Ha Ht. unfold vec3_finite in Ha. cbn [v3_x v3_y v3_z] in Ha.
  apply andb_prop in Ha as [Hxy Hz]. apply andb_prop in Hxy as [Hx Hy].
  unfold vec3_feq, Vec3_Lerp; cbn [v3_x v3_y v3_z].
  rewrite !F32Facts.lerp_same_feq by assumption. reflexivity.
Qed.

(** C8 (as amended).  For an animated mesh, a frame [f < frame_count], a
    vertex [v < verts_per_frame] and a finite factor [t] (so every [t] of
    [0,1]): when the decompressed position [byte * scale + translate] of
    the vertex in frame [f] has no infinite or NaN coordinate, both
    evaluators called with [frame_a = frame_b = f] return a position whose
    coordinates compare equal ([==]) to the decompressed ones, even the
    same value when no coordinate is [-0], and the normal
    [Vec3_Normalize] of the table row of the vertex; [t] has no
    influence. *)
Theorem md2_same_frame_identity :
  forall (s : MeshState) (id f v : Z) (t : float) (uv : bool),
    mesh_typed s ->
    0 <= id < MAX_MESHES ->
    type (g_meshes s id) = 2 ->
    0 <= f < frame_count (anim (g_meshes s id)) ->
    0 <= v < verts_per_frame (anim (g_meshes s id)) ->
    is_finite t = true ->
    let vx := fst (frame_vertex s id f v) in
    let fd := snd (frame_vertex s id f v) in
    vec3_finite (decompress vx fd) = true ->
    exists p : Vec3,
      Mesh_GetMD2Vertex s id v f f t uv =
        Some (p, Vec3_Normalize (table_normal vx),
              if uv then Some (MakeVec2 zero zero) else None) /\
      Mesh_GetMD2InterpolatedVertex s id v f f t =
        Some (p, Vec3_Normalize (table_normal vx)) /\
      vec3_feq p (decompress vx fd) = true /\
      (v3_x (decompress vx fd) <> S754_zero true ->
       v3_y (decompress vx fd) <> S754_zero true ->
       v3_z (decompress vx fd) <> S754_zero true -> p = decompress vx fd).
Proof.
  intros s id f v t uv (Hfs & Hfc & Hvpf & Hvs & Hni) Hid Hty Hf Hv Ht vx fd Hfin.
  set (a := anim (g_meshes s id)) in *.
  assert (Hge : (id >=? MAX_MESHES) = false).
  { destruct (Z.geb_spec id MAX_MESHES); [lia | reflexivity]. }
  assert (Hfge : (f >=? frame_count a) = false).
  { destruct (Z.geb_spec f (frame_count a)); [lia | reflexivity]. }
  assert (Hvge : (v >=? verts_per_frame a) = false).
  { destruct (Z.geb_spec v (verts_per_frame a)); [lia | reflexivity]. }
  pose proof (Hfs id) as Hfs'. pose proof (Hfc id) as Hfc'. pose proof (Hvpf id) as Hvpf'.
  fold a in Hfs', Hfc', Hvpf'.
  assert (Hw1 : wrap32 (frame_start a + f) = frame_start a + f)
    by (apply PoolFacts.wrap32_id; lia).
  assert (Hw2 : wrap32 (fd_vertex_start fd + v) = fd_vertex_start fd + v).
  { apply PoolFacts.wrap32_id. pose proof (Hvs (frame_start a + f)). subst fd.
    unfold frame_vertex; cbn [snd]; fold a. lia. }
  assert (Hvx : 0 <= Z.rem (normal_index vx) 162 < 162).
  { apply MD2Facts.rem_162_range. subst vx. unfold frame_vertex; cbn [fst]. apply Hni. }
  assert (Hvx0 : 0 <= normal_index vx).
  { subst vx. unfold frame_vertex; cbn [fst]. apply Hni. }
  exists (Vec3_Lerp (decompress vx fd) (decompress vx fd) t).
  split; [| split; [| split]].
  - unfold Mesh_GetMD2Vertex. rewrite (Mesh_Get_animated s id Hid Hty), Hty.
    cbn [Z.eqb Pos.eqb negb]. cbv zeta. fold a. rewrite Hfge, Hvge, Hw1.
    change (g_frame_pool s (frame_start a + f)) with fd.
    rewrite Hw2.
    change (g_md2_vertex_pool s (fd_vertex_start fd + v)) with vx.
    unfold g_normals. rewrite table_read_inside by assumption.
    rewrite decompress_comm.
    change (vec3_of_row (nth (Z.to_nat (Z.rem (normal_index vx) 162)) g_md2_normals
                             (zero, zero, zero))) with (table_normal vx).
    rewrite table_normal_lerp by assumption.
    reflexivity.
  - unfold Mesh_GetMD2InterpolatedVertex. rewrite Hge, Hty.
    cbn [Z.eqb Pos.eqb negb orb]. cbv zeta. fold a. rewrite Hfge, Hvge.
    change (g_frame_pool s (frame_start a + f)) with fd.
    rewrite Hw2.
    change (g_md2_vertex_pool s (fd_vertex_start fd + v)) with vx.
    rewrite table_read_inside by assumption.
    change (vec3_of_row (nth (Z.to_nat (Z.rem (normal_index vx) 162)) g_md2_normals
                             (zero, zero, zero))) with (table_normal vx).
    rewrite table_normal_lerp by assumption.
    reflexivity.
  - apply feq3; assumption.
  - intros Hx Hy Hz. unfold vec3_finite in Hfin.
    destruct (decompress vx fd) as [x y z]; cbn [v3_x v3_y v3_z] in *.
    apply andb_prop in Hfin as [Hxy Hfz]. apply andb_prop in Hxy as [Hfx Hfy].
    unfold Vec3_Lerp; cbn [v3_x v3_y v3_z].
    rewrite !F32Facts.lerp_same_exact by assumption. reflexivity.
Qed.



(** *** The loader keeps the integer fields within their C types *)

Lemma typed_ext : forall s s',
    g_meshes s' = g_meshes s -> g_frame_pool s' = g_frame_pool s ->
    g_md2_vertex_pool s' = g_md2_vertex_pool s ->
    mesh_typed s -> mesh_typed s'.
Proof.
  intros s s' Hm Hf Hv H. unfold mesh_typed in *. rewrite Hm, Hf, Hv. exact H.
Qed.

Lemma wrap16_range : forall z, 0 <= wrap16 z <= 65535.
Proof. intros z. unfold wrap16. pose proof (Z.mod_pos_bound z 65536). lia. Qed.

Lemma byte_at_range : forall d off,
    Forall (fun b => 0 <= b <= 255) d -> 0 <= byte_at d off <= 255.
Proof.
  intros d off Hd. unfold byte_at.
  destruct (off <? 0); [lia |].
  destruct (nth_in_or_default (Z.to_nat off) d 0) as [Hin | ->]; [| lia].
  rewrite Forall_forall in Hd. apply Hd. exact Hin.
Qed.

Lemma allocate_typed : forall p n s, mesh_typed s -> mesh_typed (snd (allocate p n s)).
Proof.
  intros p n s H. apply (typed_ext s); try exact H;
    destruct p; cbn [allocate];
    unfold AllocVertices, AllocIndices, AllocFrames, AllocMD2Vertices, AllocMD2UVs;
    match goal with |- context [if ?c then _ else _] => destruct c end; reflexivity.
Qed.

Lemma md2_triangle_body_typed : forall d uv idx iw ih i s,
    mesh_typed s -> mesh_typed (md2_triangle_body d uv idx iw ih i s).
Proof.
  intros d uv idx iw ih i s H. unfold md2_triangle_body. cbv zeta.
  apply for_loop_inv.
  - intros j s' Hs'. apply (typed_ext s'); try exact Hs'; reflexivity.
  - apply (typed_ext s); try exact H; reflexivity.
Qed.

Lemma md2_frame_body_typed : forall d fs vs f s,
    Forall (fun b => 0 <= b <= 255) d ->
    mesh_typed s -> mesh_typed (md2_frame_body d fs vs f s).
Proof.
  intros d fs vs f s Hd H. unfold md2_frame_body. cbv zeta.
  apply for_loop_inv.
  - intros v s' (H1 & H2 & H3 & H4 & H5). unfold mesh_typed.
    cbn [set_md2_vertex_pool g_meshes g_frame_pool g_md2_vertex_pool].
    repeat split; try apply H1; try apply H2; try apply H3; try apply H4.
    all: unfold aset; destruct (Z.eqb _ _); cbn [normal_index];
      try apply H5; apply byte_at_range; exact Hd.
  - destruct H as (H1 & H2 & H3 & H4 & H5). unfold mesh_typed.
    cbn [set_frame_pool g_meshes g_frame_pool g_md2_vertex_pool].
    repeat split; try apply H1; try apply H2; try apply H3; try apply H5.
    all: unfold aset; destruct (Z.eqb _ _); cbn [fd_vertex_start];
      try apply H4; apply wrap16_range.
Qed.

Lemma md2_fill_slot_typed : forall d slot fs idx uv n s,
    mesh_typed s -> mesh_typed (md2_fill_slot d slot fs idx uv n s).
Proof.
  intros d slot fs idx uv n s (H1 & H2 & H3 & H4 & H5). unfold mesh_typed, md2_fill_slot.
  cbn [set_meshes g_meshes g_frame_pool g_md2_vertex_pool].
  repeat split; try apply H4; try apply H5.
  all: unfold aset; destruct (Z.eqb _ _);
    cbn [anim frame_start frame_count verts_per_frame];
    try apply H1; try apply H2; try apply H3; apply wrap16_range.
Qed.

Lemma Mesh_LoadMD2_typed : forall d size s,
    Forall (fun b => 0 <= b <= 255) d ->
    mesh_typed s -> mesh_typed (snd (Mesh_LoadMD2 (Some d) size s)).
Proof.
  intros d size s Hd H. unfold Mesh_LoadMD2.
  repeat match goal with
         | |- context [if ?c then _ else _] => destruct c; [exact H |]
         end.
  pose proof (allocate_typed MD2UVPool (wrap32 (swrap32 (hdr_num_triangles d * 3))) s H) as H1.
  cbn [allocate] in H1.
  destruct (AllocMD2UVs _ s) as [uv_start s1]. cbn [snd] in H1.
  destruct (uv_start =? NO_SPACE); [exact H1 |].
  pose proof (allocate_typed IndexPool (wrap32 (swrap32 (hdr_num_triangles d * 3))) s1 H1) as H2.
  cbn [allocate] in H2.
  destruct (AllocIndices _ s1) as [idx_start s2]. cbn [snd] in H2.
  destruct (idx_start =? NO_SPACE); [exact H2 |].
  set (s3 := for_loop _ 0 _ s2).
  assert (H3 : mesh_typed s3).
  { subst s3. apply for_loop_inv; [| exact H2].
    intros i s' Hs'. apply md2_triangle_body_typed. exact Hs'. }
  pose proof (allocate_typed FramePool (wrap32 (hdr_num_frames d)) s3 H3) as H4.
  cbn [allocate] in H4.
  destruct (AllocFrames _ s3) as [frame_start s4]. cbn [snd] in H4.
  destruct (frame_start =? NO_SPACE); [exact H4 |].
  pose proof (allocate_typed MD2VertexPool
                (wrap32 (swrap32 (hdr_num_frames d * hdr_num_vertices d))) s4 H4) as H5.
  cbn [allocate] in H5.
  destruct (AllocMD2Vertices _ s4) as [vert_start s5]. cbn [snd] in H5.
  destruct (vert_start =? NO_SPACE); [exact H5 |].
  cbn [snd]. apply md2_fill_slot_typed.
  apply for_loop_inv; [| exact H5].
  intros i s' Hs'. apply md2_frame_body_typed; assumption.
Qed.

Lemma startup_typed : mesh_typed (Mesh_Init mesh_startup).
Proof. unfold mesh_typed. repeat split; vm_compute; discriminate. Qed.

Lemma sample_bytes : forall x,
    0 <= x < 4294967296 -> Forall (fun b => 0 <= b <= 255) (md2_sample_file x).
Proof.
  intros x Hx. unfold md2_sample_file, le32, le16.
  repeat (apply Forall_app; split);
    repeat (apply Forall_cons; [first [lia | (pose proof (Z.mod_pos_bound x 256);
           pose proof (Z.mod_pos_bound (x / 256) 256);
           pose proof (Z.mod_pos_bound (x / 65536) 256);
           pose proof (Z.mod_pos_bound (x / 16777216) 256); lia)
           | (vm_compute; split; discriminate)] |]);
    try apply Forall_nil.
  all: cbn; repeat (apply Forall_cons; [lia |]); apply Forall_nil.
Qed.

Lemma sample_typed : mesh_typed (snd (loaded md2_sample)).
Proof.
  unfold loaded. apply Mesh_LoadMD2_typed; [| exact startup_typed].
  apply (sample_bytes f32_one_bits). vm_compute. split; [discriminate | reflexivity].
Qed.

(** The witness of C8: frame 1, vertex 1 of the sample file. *)
Lemma md2_same_frame_identity_witness :
  let s := snd (loaded md2_sample) in
  exists p : Vec3,
    Mesh_GetMD2Vertex s 0 1 1 1 (lit 1 4) false =
      Some (p, Vec3_Normalize (table_normal (fst (frame_vertex s 0 1 1))), None) /\
    vec3_feq p (decompress (fst (frame_vertex s 0 1 1)) (snd (frame_vertex s 0 1 1))) = true.
Proof.
  intros s.
  assert (Hid : 0 <= 0 < MAX_MESHES) by (unfold MAX_MESHES; lia).
  assert (Hty : type (g_meshes s 0) = 2) by reflexivity.
  assert (Hf : 0 <= 1 < frame_count (anim (g_meshes s 0)))
    by (vm_compute; split; [discriminate | reflexivity]).
  assert (Hv : 0 <= 1 < verts_per_frame (anim (g_meshes s 0)))
    by (vm_compute; split; [discriminate | reflexivity]).
  assert (Ht : is_finite (lit 1 4) = true) by reflexivity.
  assert (Hfin : vec3_finite (decompress (fst (frame_vertex s 0 1 1))
                                         (snd (frame_vertex s 0 1 1))) = true)
    by (vm_compute; reflexivity).
  destruct (md2_same_frame_identity s 0 1 1 (lit 1 4) false sample_typed Hid Hty Hf Hv Ht Hfin)
    as (p & H1 & _ & H3 & _).
  exists p. split; assumption.
Defined.

(** C8, as stated, fails on a frame whose [scale] is infinite: the vertex
    decompresses to [+inf], and the evaluation with [frame_a = frame_b]
    returns a NaN, which differs from it. *)
Lemma md2_same_frame_not_identity :
  let s := snd (loaded md2_sample_inf) in
  let d := decompress (fst (frame_vertex s 0 0 0)) (snd (frame_vertex s 0 0 0)) in
  fst (loaded md2_sample_inf) = 0 /\
  v3_x d = S754_infinity false /\
  option_map (fun r => v3_x (fst (fst r))) (Mesh_GetMD2Vertex s 0 0 0 0 (lit 1 2) false)
    = Some S754_nan /\
  option_map (fun r => v3_x (fst r)) (Mesh_GetMD2InterpolatedVertex s 0 0 0 0 (lit 1 2))
    = Some S754_nan /\
  feq S754_nan (v3_x d) = false.
Proof. vm_compute. repeat split; reflexivity. Qed.

(** C7.  [Mesh_LoadMD2] returns the sentinel [0xFFFFFFFF], and leaves the
    pools as they were, whenever the buffer is null, [size] is below the 68
    bytes of the header, the magic differs from 844121161 (the bytes
    "IDP2" read as a little-endian [int32_t]), the version differs from 8,
    or [num_frames] exceeds [MAX_MD2_FRAMES]; hence a handle other than
    the sentinel is returned only for inputs that pass all these checks. *)
Theorem Mesh_LoadMD2_validates :
  forall (data : option (list Z)) (size : Z) (s : MeshState),
    sizeof_MD2Header = 17 * 4 /\
    le32 MD2_MAGIC = [73; 68; 80; 50] /\
    (data = None -> Mesh_LoadMD2 data size s = (NO_SPACE, s)) /\
    (size < sizeof_MD2Header -> Mesh_LoadMD2 data size s = (NO_SPACE, s)) /\
    (forall d, data = Some d ->
       hdr_magic d <> 844121161 \/ hdr_version d <> 8 \/ hdr_num_frames d > MAX_MD2_FRAMES ->
       Mesh_LoadMD2 data size s = (NO_SPACE, s)) /\
    (fst (Mesh_LoadMD2 data size s) <> NO_SPACE ->
       exists d, data = Some d /\ sizeof_MD2Header <= size /\
                 hdr_magic d = 844121161 /\ hdr_version d = 8 /\
                 hdr_num_frames d <= MAX_MD2_FRAMES).
Proof.
  intros data size s.
  split; [reflexivity |]. split; [reflexivity |].
  split; [| split; [| split]].
  - intros ->. reflexivity.
  - intros Hsize. unfold Mesh_LoadMD2. destruct data as [d |]; [| reflexivity].
    destruct (Z.ltb_spec size sizeof_MD2Header); [reflexivity | lia].
  - intros d -> Hbad. unfold Mesh_LoadMD2.
    destruct (size <? sizeof_MD2Header); [reflexivity |].
    unfold MD2_MAGIC, MD2_VERSION.
    destruct (Z.eqb_spec (hdr_magic d) 844121161) as [Hm | Hm]; [| reflexivity].
    destruct (Z.eqb_spec (hdr_version d) 8) as [Hv | Hv]; [| reflexivity].
    cbn [negb orb].
    destruct (Z.gtb_spec (hdr_num_frames d) MAX_MD2_FRAMES) as [Hf | Hf]; [reflexivity |].
    destruct Hbad as [Hbad | [Hbad | Hbad]]; [contradiction | contradiction | lia].
  - unfold Mesh_LoadMD2. destruct data as [d |]; [| intros H; contradiction H; reflexivity].
    destruct (Z.ltb_spec size sizeof_MD2Header) as [Hs | Hs];
      [intros H; contradiction H; reflexivity |].
    unfold MD2_MAGIC, MD2_VERSION.
    destruct (Z.eqb_spec (hdr_magic d) 844121161) as [Hm | Hm];
      [| intros H; contradiction H; reflexivity].
    destruct (Z.eqb_spec (hdr_version d) 8) as [Hv | Hv];
      [| intros H; contradiction H; reflexivity].
    cbn [negb orb].
    destruct (Z.gtb_spec (hdr_num_frames d) MAX_MD2_FRAMES) as [Hf | Hf];
      [intros H; contradiction H; reflexivity |].
    intros _. exists d. repeat split; try assumption; lia.
Qed.

(** The sample file passes the checks and is given the first slot; with one
    byte of the magic changed it is refused. *)
Lemma Mesh_LoadMD2_sample :
  fst (loaded md2_sample) = 0 /\
  fst (Mesh_LoadMD2 (Some (74 :: tl md2_sample)) 180 (Mesh_Init mesh_startup)) = NO_SPACE /\
  fst (Mesh_LoadMD2 (Some md2_sample) 67 (Mesh_Init mesh_startup)) = NO_SPACE.
Proof. vm_compute. repeat split; reflexivity. Qed.

End MD2Facts.


(** ** The transform hierarchy and the animators *)

Module EntityFacts.

Lemma Mat4_Multiply_product : forall a b, Mat4_Multiply a b = Mat4_product a b.
Proof. intros a b. reflexivity. Qed.

Section Transforms.
Variables cosf sinf : float -> float.

(** The local matrix that [UpdateLocalMatrix] stores, as its four calls of
    [Mat4_Multiply] build it. *)
Definition stored_local (t : Transform_t) : Mat4 :=
  Mat4_Multiply
    (Mat4_Multiply (T_of t)
       (Mat4_Multiply (Mat4_Multiply (Ry_of cosf sinf t) (Rx_of cosf sinf t))
                      (Rz_of cosf sinf t)))
    (S_of t).

Definition needs_update (st : EntityState) (j : Z) : bool :=
  negb (id (g_entities st j) =? INVALID_ENTITY) && negb (dirty (g_transforms st j) =? 0).

Lemma update_local_body_spec : forall i st,
    g_entities (update_local_body cosf sinf i st) = g_entities st /\
    forall j, g_transforms (update_local_body cosf sinf i st) j =
              if (j =? i) && needs_update st i
              then with_local (g_transforms st i) (stored_local (g_transforms st i))
              else g_transforms st j.
Proof.
  intros i st. unfold update_local_body. fold (needs_update st i).
  destruct (needs_update st i).
  - split; [reflexivity |]. intros j.
    unfold UpdateLocalMatrix; cbn [set_transforms g_transforms]. unfold aset.
    destruct (j =? i); reflexivity.
  - split; [reflexivity |]. intros j. rewrite andb_false_r. reflexivity.
Qed.

Lemma update_loop_spec : forall n lo st,
    g_entities (for_loop n lo (update_local_body cosf sinf) st) = g_entities st /\
    forall j, g_transforms (for_loop n lo (update_local_body cosf sinf) st) j =
              if (lo <=? j) && (j <? lo + Z.of_nat n) && needs_update st j
              then with_local (g_transforms st j) (stored_local (g_transforms st j))
              else g_transforms st j.
Proof.
  induction n as [| n IH]; intros lo st.
  - cbn [for_loop]. split; [reflexivity |]. intros j.
    replace ((lo <=? j) && (j <? lo + Z.of_nat 0)) with false; [reflexivity |].
    symmetry. apply andb_false_iff.
    destruct (Z.leb_spec lo j); [right; apply Z.ltb_ge; lia | left; reflexivity].
  - cbn [for_loop].
    destruct (update_local_body_spec lo st) as [He Ht].
    destruct (IH (lo + 1) (update_local_body cosf sinf lo st)) as [He' Ht'].
    split; [congruence |]. intros j. rewrite Ht'.
    assert (Hnu : needs_update (update_local_body cosf sinf lo st) j = needs_update st j).
    { unfold needs_update. rewrite He, Ht.
      destruct ((j =? lo) && needs_update st lo) eqn:E; [| reflexivity].
      apply andb_prop in E as [Ej _]. apply Z.eqb_eq in Ej. subst j. reflexivity. }
    rewrite Hnu, Ht.
    destruct (Z.eqb_spec j lo) as [-> | Hne].
    + replace ((lo + 1 <=? lo) && (lo <? lo + 1 + Z.of_nat n)) with false
        by (symmetry; apply andb_false_iff; left; apply Z.leb_gt; lia).
      replace ((lo <=? lo) && (lo <? lo + Z.of_nat (S n))) with true
        by (symmetry; apply andb_true_iff; split; [apply Z.leb_le | apply Z.ltb_lt]; lia).
      cbn [andb]. reflexivity.
    + cbn [andb].
      replace ((lo + 1 <=? j) && (j <? lo + 1 + Z.of_nat n))
        with ((lo <=? j) && (j <? lo + Z.of_nat (S n))); [reflexivity |].
      destruct (Z.leb_spec lo j), (Z.leb_spec (lo + 1) j),
               (Z.ltb_spec j (lo + Z.of_nat (S n))), (Z.ltb_spec j (lo + 1 + Z.of_nat n));
        cbn; try reflexivity; lia.
Qed.

(** The sweeps of the second phase write [world_matrix] and [dirty] only. *)
Definition same_local (t t' : Transform_t) : Prop :=
  local_matrix t = local_matrix t' /\ tr_position t = tr_position t' /\
  tr_rotation t = tr_rotation t' /\ tr_scale t = tr_scale t'.

Lemma propagate_body_local : forall st0 i acc,
    (forall j, same_local (g_transforms (fst acc) j) (g_transforms st0 j)) ->
    forall j, same_local (g_transforms (fst (propagate_body i acc)) j) (g_transforms st0 j).
Proof.
  intros st0 i [st flag] H j. cbn [fst] in H. unfold propagate_body.
  repeat match goal with
         | |- context [if ?c then _ else _] => destruct c
         end; cbn [fst set_transforms g_transforms]; try apply H.
  all: unfold aset; destruct (j =? i) eqn:E; try apply H.
  all: apply Z.eqb_eq in E; subst j; destruct (H i) as (H1 & H2 & H3 & H4);
    repeat split; assumption.
Qed.

Lemma propagate_passes_local : forall n st j,
    same_local (g_transforms (propagate_passes n st) j) (g_transforms st j).
Proof.
  induction n as [| n IH]; intros st j; cbn [propagate_passes].
  - repeat split.
  - pose proof (for_loop_inv _
        (fun acc => forall j, same_local (g_transforms (fst acc) j) (g_transforms st j))
        propagate_body (propagate_body_local st)
        (Z.to_nat MAX_ENTITIES) 0 (st, false)) as Hsweep.
    destruct (for_loop (Z.to_nat MAX_ENTITIES) 0 propagate_body (st, false)) as [st' flag].
    cbn [fst] in Hsweep.
    assert (H' : same_local (g_transforms st' j) (g_transforms st j)).
    { apply Hsweep. intros k. repeat split. }
    destruct flag; [| exact H'].
    destruct (IH st' j) as (A1 & A2 & A3 & A4), H' as (B1 & B2 & B3 & B4).
    repeat split; congruence.
Qed.

End Transforms.

(** For every slot whose entity exists and is dirty when
    [Entity_UpdateTransforms] runs, the local matrix stored by the call is
    the matrix product [T(p) . (Ry(r.y) . Rx(r.x) . Rz(r.z)) . S(s)],
    built as [(T . ((Ry . Rx) . Rz)) . S] with every entry of every
    product the rounded sum of the four rounded products of a row by a
    column; position, rotation and scale are left as they were.  This holds
    for every implementation of [cosf] and [sinf]. *)
Theorem UpdateTransforms_local_matrix :
  forall (cosf sinf : float -> float) (st : EntityState) (i : Z),
    0 <= i < MAX_ENTITIES ->
    id (g_entities st i) <> INVALID_ENTITY ->
    dirty (g_transforms st i) <> 0 ->
    let t := g_transforms st i in
    let t' := g_transforms (Entity_UpdateTransforms cosf sinf st) i in
    local_matrix t' = local_TRyRxRzS cosf sinf t /\
    tr_position t' = tr_position t /\
    tr_rotation t' = tr_rotation t /\
    tr_scale t' = tr_scale t.
Proof.
  intros cosf sinf st i Hi Hid Hdirty t t'.
  unfold Entity_UpdateTransforms in t'.
  destruct (propagate_passes_local 8
              (for_loop (Z.to_nat MAX_ENTITIES) 0 (update_local_body cosf sinf) st) i)
    as (H1 & H2 & H3 & H4).
  destruct (update_loop_spec cosf sinf (Z.to_nat MAX_ENTITIES) 0 st) as [_ Hloop].
  specialize (Hloop i).
  assert (Hin : (0 <=? i) && (i <? 0 + Z.of_nat (Z.to_nat MAX_ENTITIES)) = true).
  { apply andb_true_iff. split; [apply Z.leb_le | apply Z.ltb_lt]; unfold MAX_ENTITIES in *; lia. }
  assert (Hnu : needs_update st i = true).
  { unfold needs_update. apply andb_true_iff. split; apply negb_true_iff, Z.eqb_neq; assumption. }
  rewrite Hin, Hnu in Hloop. cbn [andb] in Hloop.
  subst t'. rewrite H1, H2, H3, H4, Hloop.
  cbn [with_local local_matrix tr_position tr_rotation tr_scale].
  split; [| split; [| split; reflexivity]; reflexivity].
  fold t. unfold stored_local, local_TRyRxRzS.
  rewrite (Mat4_Multiply_product (Ry_of cosf sinf t) (Rx_of cosf sinf t)).
  rewrite (Mat4_Multiply_product (Mat4_product (Ry_of cosf sinf t) (Rx_of cosf sinf t))
                                 (Rz_of cosf sinf t)).
  rewrite (Mat4_Multiply_product (T_of t)).
  rewrite (Mat4_Multiply_product _ (S_of t)).
  reflexivity.
Qed.

(** *** Lookup of an entity by its handle *)

Lemma FindIndex_from_spec : forall n lo st eid,
    let r := FindIndex_from n lo st eid in
    (r = -1 /\ forall j, lo <= j < lo + Z.of_nat n -> id (g_entities st j) <> eid) \/
    (lo <= r < lo + Z.of_nat n /\ id (g_entities st r) = eid /\
     forall j, lo <= j < r -> id (g_entities st j) <> eid).
Proof.
  induction n as [| n IH]; intros lo st eid; cbn [FindIndex_from].
  - left. split; [reflexivity |]. intros j Hj. lia.
  - destruct (Z.eqb_spec (id (g_entities st lo)) eid) as [Heq | Hne].
    + right. split; [lia |]. split; [exact Heq |]. intros j Hj. lia.
    + destruct (IH (lo + 1) st eid) as [[Hr Hall] | (Hr & Hid & Hfirst)].
      * left. split; [exact Hr |]. intros j Hj.
        destruct (Z.eq_dec j lo) as [-> | Hjl]; [exact Hne | apply Hall; lia].
      * right. split; [lia |]. split; [exact Hid |]. intros j Hj.
        destruct (Z.eq_dec j lo) as [-> | Hjl]; [exact Hne | apply Hfirst; lia].
Qed.

(** [FindIndex] returns either -1 or the first slot, among the 256, that
    holds the handle; it returns -1 exactly for [INVALID_ENTITY] and for
    handles that no slot holds. *)
Theorem FindIndex_first_match :
  forall (st : EntityState) (eid : Z),
    let r := FindIndex st eid in
    (r = -1 \/ 0 <= r < MAX_ENTITIES) /\
    (0 <= r ->
       eid <> INVALID_ENTITY /\ id (g_entities st r) = eid /\
       forall j, 0 <= j < r -> id (g_entities st j) <> eid) /\
    (r = -1 <->
       eid = INVALID_ENTITY \/
       forall j, 0 <= j < MAX_ENTITIES -> id (g_entities st j) <> eid).
Proof.
  intros st eid r. subst r. unfold FindIndex.
  destruct (Z.eqb_spec eid INVALID_ENTITY) as [Hinv | Hval].
  - split; [left; reflexivity |]. split; [intros H; lia |].
    split; [intros _; left; exact Hinv | reflexivity].
  - pose proof (FindIndex_from_spec (Z.to_nat MAX_ENTITIES) 0 st eid) as H.
    cbv zeta in H. rewrite Z2Nat.id in H by (unfold MAX_ENTITIES; lia).
    destruct H as [[Hr Hall] | (Hr & Hid & Hfirst)].
    + rewrite Hr. split; [left; reflexivity |]. split; [intros H; lia |].
      split; [intros _; right; exact Hall | reflexivity].
    + split; [right; lia |]. split; [intros _; repeat split; assumption |].
      split.
      * intros Hneg. lia.
      * intros [Hinv | Hall]; [contradiction |].
        exfalso. apply (Hall (FindIndex_from (Z.to_nat MAX_ENTITIES) 0 st eid)); [lia | exact Hid].
Qed.

(** [FindIndex] reads the handles of the table only. *)
Lemma FindIndex_from_ext : forall n lo st st' eid,
    (forall j, id (g_entities st' j) = id (g_entities st j)) ->
    FindIndex_from n lo st' eid = FindIndex_from n lo st eid.
Proof.
  induction n as [| n IH]; intros lo st st' eid H; cbn [FindIndex_from]; [reflexivity |].
  rewrite H. destruct (id (g_entities st lo) =? eid); [reflexivity | apply IH; exact H].
Qed.

Lemma FindIndex_ext : forall st st' eid,
    (forall j, id (g_entities st' j) = id (g_entities st j)) ->
    FindIndex st' eid = FindIndex st eid.
Proof.
  intros st st' eid H. unfold FindIndex.
  destruct (eid =? INVALID_ENTITY); [reflexivity | apply FindIndex_from_ext; exact H].
Qed.

(** *** The component mask *)

Lemma land_lor_same : forall x c, Z.land (Z.lor x c) c = c.
Proof.
  intros x c. apply Z.bits_inj'. intros n Hn.
  rewrite Z.land_spec, Z.lor_spec.
  destruct (Z.testbit x n), (Z.testbit c n); reflexivity.
Qed.

Lemma land_lnot_same : forall x c, Z.land (Z.land x (Z.lnot c)) c = 0.
Proof.
  intros x c. apply Z.bits_inj'. intros n Hn.
  rewrite !Z.land_spec, Z.lnot_spec, Z.bits_0 by exact Hn.
  destruct (Z.testbit x n), (Z.testbit c n); reflexivity.
Qed.

Lemma land_lor_keep : forall x c d, Z.land x d = d -> Z.land (Z.lor x c) d = d.
Proof.
  intros x c d H. apply Z.bits_inj'. intros n Hn.
  rewrite Z.land_spec, Z.lor_spec.
  assert (Hb : Z.testbit (Z.land x d) n = Z.testbit d n) by (rewrite H; reflexivity).
  rewrite Z.land_spec in Hb.
  destruct (Z.testbit x n), (Z.testbit c n), (Z.testbit d n); try reflexivity; discriminate.
Qed.

Lemma land_lnot_disjoint : forall x c d,
    Z.land d c = 0 -> Z.land (Z.land x (Z.lnot c)) d = Z.land x d.
Proof.
  intros x c d H. apply Z.bits_inj'. intros n Hn.
  rewrite !Z.land_spec, Z.lnot_spec by exact Hn.
  assert (Hb : Z.testbit (Z.land d c) n = false) by (rewrite H; apply Z.bits_0).
  rewrite Z.land_spec in Hb.
  destruct (Z.testbit x n), (Z.testbit c n), (Z.testbit d n); try reflexivity; discriminate.
Qed.

Lemma FindIndex_set_components : forall st idx c eid,
    FindIndex (set_entities st (aset (g_entities st) idx
                 (with_components (g_entities st idx) c))) eid
    = FindIndex st eid.
Proof.
  intros st idx c eid. apply FindIndex_ext. intros j.
  cbn [set_entities g_entities]. unfold aset.
  destruct (Z.eqb_spec j idx) as [-> | _]; reflexivity.
Qed.

(** The component mask of a live entity: a component that was added is
    reported, one that was removed is not; adding keeps the components
    that were there, removing keeps those that share no bit with the
    removed mask.  For a handle that [FindIndex] does not find, adding and
    removing change nothing and no component is reported. *)
Theorem component_mask_laws :
  forall (st : EntityState) (eid c : Z),
    (FindIndex st eid = -1 ->
       Entity_AddComponent eid c st = st /\
       Entity_RemoveComponent eid c st = st /\
       Entity_HasComponent eid c st = 0) /\
    (0 <= FindIndex st eid ->
       Entity_HasComponent eid c (Entity_AddComponent eid c st) = 1 /\
       (c <> 0 -> Entity_HasComponent eid c (Entity_RemoveComponent eid c st) = 0) /\
       (forall d, Entity_HasComponent eid d st = 1 ->
                  Entity_HasComponent eid d (Entity_AddComponent eid c st) = 1) /\
       (forall d, Z.land d c = 0 ->
                  Entity_HasComponent eid d (Entity_RemoveComponent eid c st) =
                  Entity_HasComponent eid d st)).
Proof.
  intros st eid c. split.
  - intros Hnone.
    unfold Entity_AddComponent, Entity_RemoveComponent, Entity_HasComponent.
    rewrite Hnone. cbn. repeat split.
  - intros Hidx.
    assert (Hge : (FindIndex st eid >=? 0) = true).
    { destruct (Z.geb_spec (FindIndex st eid) 0); [reflexivity | lia]. }
    unfold Entity_AddComponent, Entity_RemoveComponent, Entity_HasComponent.
    rewrite Hge. cbv zeta. rewrite !FindIndex_set_components, Hge.
    cbn [set_entities g_entities]. unfold aset. rewrite Z.eqb_refl.
    cbn [with_components components].
    split; [| split; [| split]].
    + rewrite land_lor_same, Z.eqb_refl. reflexivity.
    + intros Hc. rewrite land_lnot_same.
      destruct (Z.eqb_spec 0 c) as [H0 | _]; [congruence | reflexivity].
    + intros d. destruct (Z.eqb_spec (Z.land (components (g_entities st (FindIndex st eid))) d) d)
        as [Hd | Hd]; [| discriminate].
      intros _. rewrite land_lor_keep by exact Hd. rewrite Z.eqb_refl. reflexivity.
    + intros d Hd. rewrite land_lnot_disjoint by exact Hd. reflexivity.
Qed.

Lemma component_mask_laws_witness :
  Entity_HasComponent 1 COMP_ANIMATOR (Entity_AddComponent 1 COMP_ANIMATOR entity_sample) = 1 /\
  Entity_HasComponent 1 COMP_TRANSFORM
    (Entity_RemoveComponent 1 COMP_TRANSFORM entity_sample) = 0.
Proof.
  assert (Hidx : 0 <= FindIndex entity_sample 1) by (vm_compute; discriminate).
  destruct (proj2 (component_mask_laws entity_sample 1 COMP_ANIMATOR) Hidx) as (Hadd & _).
  destruct (proj2 (component_mask_laws entity_sample 1 COMP_TRANSFORM) Hidx) as (_ & Hrem & _).
  split; [exact Hadd |].
  apply Hrem. vm_compute. discriminate.
Defined.

(** *** Creation of entities *)

Lemma Entity_Create_from_spec : forall n lo nm st,
    (Entity_Create_from n lo nm st = (INVALID_ENTITY, st) /\
     forall j, lo <= j < lo + Z.of_nat n -> id (g_entities st j) <> INVALID_ENTITY) \/
    (exists i, lo <= i < lo + Z.of_nat n /\
               id (g_entities st i) = INVALID_ENTITY /\
               (forall j, lo <= j < i -> id (g_entities st j) <> INVALID_ENTITY) /\
               Entity_Create_from n lo nm st = Entity_Create_at nm i st).
Proof.
  induction n as [| n IH]; intros lo nm st; cbn [Entity_Create_from].
  - left. split; [reflexivity |]. intros j Hj. lia.
  - destruct (Z.eqb_spec (id (g_entities st lo)) INVALID_ENTITY) as [Heq | Hne].
    + right. exists lo. split; [lia |]. split; [exact Heq |].
      split; [intros j Hj; lia | reflexivity].
    + destruct (IH (lo + 1) nm st) as [[Hr Hall] | (i & Hi & Hid & Hfirst & Hr)].
      * left. split; [exact Hr |]. intros j Hj.
        destruct (Z.eq_dec j lo) as [-> | Hjl]; [exact Hne | apply Hall; lia].
      * right. exists i. split; [lia |]. split; [exact Hid |]. split; [| exact Hr].
        intros j Hj. destruct (Z.eq_dec j lo) as [-> | Hjl]; [exact Hne | apply Hfirst; lia].
Qed.

Lemma Entity_Create_at_entities : forall nm i st j,
    g_entities (snd (Entity_Create_at nm i st)) j =
    if j =? i
    then {| id := g_next_id st; components := COMP_TRANSFORM; active := 1; layer := 0;
            tag := 0;
            name := match nm with
                    | Some src => strncpy23 (name (g_entities st i)) src
                    | None => name (g_entities st i)
                    end |}
    else g_entities st j.
Proof. intros nm i st j. reflexivity. Qed.

Lemma Entity_Create_at_transforms : forall nm i st j,
    g_transforms (snd (Entity_Create_at nm i st)) j =
    if j =? i
    then {| tr_position := Vec3_Zero; tr_rotation := Vec3_Zero; tr_scale := Vec3_One;
            local_matrix := local_matrix (g_transforms st i);
            world_matrix := world_matrix (g_transforms st i);
            parent := INVALID_ENTITY; dirty := 1 |}
    else g_transforms st j.
Proof. intros nm i st j. reflexivity. Qed.

(** [Entity_Create], on a table whose handles are fresh.  With no free slot
    it returns [INVALID_ENTITY] and changes nothing.  Otherwise it returns
    the counter [g_next_id], a handle that no slot held before; the entity
    takes the first free slot, where [FindIndex] finds it afterwards, with
    the [Transform] component only, active, at the origin with unit scale,
    without parent and dirty; the other slots are as before, and the
    handles stay fresh as long as the counter does not reach
    [INVALID_ENTITY]. *)
Theorem Entity_Create_fresh_handle :
  forall (st : EntityState) (nm : option (list Z)),
    handles_fresh st ->
    let eid := fst (Entity_Create nm st) in
    let st' := snd (Entity_Create nm st) in
    ((forall j, 0 <= j < MAX_ENTITIES -> id (g_entities st j) <> INVALID_ENTITY) ->
       eid = INVALID_ENTITY /\ st' = st) /\
    (forall i, 0 <= i < MAX_ENTITIES ->
       id (g_entities st i) = INVALID_ENTITY ->
       (forall j, 0 <= j < i -> id (g_entities st j) <> INVALID_ENTITY) ->
       eid = g_next_id st /\ eid <> INVALID_ENTITY /\
       (forall j, 0 <= j < MAX_ENTITIES -> id (g_entities st j) <> eid) /\
       FindIndex st' eid = i /\ Entity_IsValid eid st' = 1 /\
       components (g_entities st' i) = COMP_TRANSFORM /\
       active (g_entities st' i) = 1 /\
       tr_position (g_transforms st' i) = Vec3_Zero /\
       tr_rotation (g_transforms st' i) = Vec3_Zero /\
       tr_scale (g_transforms st' i) = Vec3_One /\
       parent (g_transforms st' i) = INVALID_ENTITY /\
       dirty (g_transforms st' i) = 1 /\
       (forall j, j <> i -> g_entities st' j = g_entities st j /\
                            g_transforms st' j = g_transforms st j) /\
       (g_next_id st + 1 < INVALID_ENTITY -> handles_fresh st')).
Proof.
  intros st nm [Hnext Hfresh] eid st'.
  pose proof (Entity_Create_from_spec (Z.to_nat MAX_ENTITIES) 0 nm st) as Hspec.
  rewrite Z2Nat.id in Hspec by (unfold MAX_ENTITIES; lia). cbn [Z.add] in Hspec.
  fold (Entity_Create nm st) in Hspec.
  split.
  - intros Hfull. destruct Hspec as [[Hr _] | (i & Hi & Hid & _)].
    + subst eid st'. rewrite Hr. split; reflexivity.
    + exfalso. apply (Hfull i Hi). exact Hid.
  - intros i Hi Hid Hfirst.
    assert (Hcreate : Entity_Create nm st = Entity_Create_at nm i st).
    { destruct Hspec as [[_ Hall] | (k & Hk & Hkid & Hkfirst & Hr)].
      - exfalso. apply (Hall i Hi). exact Hid.
      - assert (k = i).
        { destruct (Z.lt_trichotomy k i) as [Hlt | [Heq | Hgt]]; [| exact Heq |].
          - exfalso. apply (Hfirst k); [lia | exact Hkid].
          - exfalso. apply (Hkfirst i); [lia | exact Hid]. }
        subst k. exact Hr. }
    assert (Heid : eid = g_next_id st) by (subst eid; rewrite Hcreate; reflexivity).
    assert (Hnew : forall j, 0 <= j < MAX_ENTITIES -> id (g_entities st j) <> eid).
    { intros j Hj. rewrite Heid. destruct (Hfresh j Hj) as [Hinv | Hlt]; [rewrite Hinv |]; lia. }
    assert (Hent : forall j, g_entities st' j =
                     if j =? i
                     then {| id := g_next_id st; components := COMP_TRANSFORM; active := 1;
                             layer := 0; tag := 0;
                             name := match nm with
                                     | Some src => strncpy23 (name (g_entities st i)) src
                                     | None => name (g_entities st i)
                                     end |}
                     else g_entities st j).
    { intros j. subst st'. rewrite Hcreate. apply Entity_Create_at_entities. }
    assert (Htr : forall j, g_transforms st' j =
                     if j =? i
                     then {| tr_position := Vec3_Zero; tr_rotation := Vec3_Zero;
                             tr_scale := Vec3_One;
                             local_matrix := local_matrix (g_transforms st i);
                             world_matrix := world_matrix (g_transforms st i);
                             parent := INVALID_ENTITY; dirty := 1 |}
                     else g_transforms st j).
    { intros j. subst st'. rewrite Hcreate. apply Entity_Create_at_transforms. }
    assert (Hat : id (g_entities st' i) = eid).
    { rewrite Hent, Z.eqb_refl, Heid. reflexivity. }
    assert (Hfind : FindIndex st' eid = i).
    { destruct (FindIndex_first_match st' eid) as (Hrange & Hfound & Hnone).
      cbv zeta in Hrange, Hfound, Hnone.
      destruct Hrange as [Hm1 | Hr].
      - exfalso. apply Hnone in Hm1. destruct Hm1 as [Hinv | Hall]; [lia |].
        apply (Hall i Hi). exact Hat.
      - destruct (Hfound (proj1 Hr)) as (_ & Hrid & Hrfirst).
        destruct (Z.lt_trichotomy (FindIndex st' eid) i) as [Hlt | [Heq | Hgt]];
          [| exact Heq |].
        + exfalso. rewrite Hent in Hrid.
          destruct (Z.eqb_spec (FindIndex st' eid) i) as [He | _]; [lia |].
          apply (Hnew (FindIndex st' eid)); [lia | exact Hrid].
        + exfalso. apply (Hrfirst i); [lia | exact Hat]. }
    split; [exact Heid |]. split; [lia |]. split; [exact Hnew |].
    split; [exact Hfind |].
    split; [unfold Entity_IsValid; rewrite Hfind;
            destruct (Z.geb_spec i 0); [reflexivity | lia] |].
    rewrite Hent, Htr, Z.eqb_refl. cbn [components active tr_position tr_rotation
                                        tr_scale parent dirty].
    repeat (split; [reflexivity |]).
    split.
    + intros j Hj. rewrite Hent, Htr.
      destruct (Z.eqb_spec j i) as [-> | _]; [contradiction | split; reflexivity].
    + intros Hroom. split.
      * subst st'. rewrite Hcreate. cbn [Entity_Create_at snd g_next_id set_next_id
          set_entities set_transforms set_mesh_renderers set_cameras set_lights set_animators].
        rewrite PoolFacts.wrap32_id by (unfold INVALID_ENTITY in *; lia). lia.
      * intros j Hj.
        assert (Hn' : g_next_id st' = g_next_id st + 1).
        { subst st'. rewrite Hcreate. cbn [Entity_Create_at snd g_next_id set_next_id
            set_entities set_transforms set_mesh_renderers set_cameras set_lights
            set_animators].
          apply PoolFacts.wrap32_id. unfold INVALID_ENTITY in *. lia. }
        rewrite Hn', Hent. destruct (Z.eqb_spec j i) as [-> | _].
        -- right. cbn [id]. lia.
        -- destruct (Hfresh j Hj) as [Hinv | Hlt]; [left; exact Hinv | right; lia].
Qed.

Lemma Entity_Init_fresh : handles_fresh Entity_Init.
Proof.
  split; [vm_compute; split; [discriminate | reflexivity] |].
  intros j Hj. left.
  unfold Entity_Init.
  set (P := fun (k : Z) (st : EntityState) =>
              forall j, 0 <= j < k -> id (g_entities st j) = INVALID_ENTITY).
  assert (Hloop : forall n lo st, 0 <= lo -> P lo st ->
            P (lo + Z.of_nat n)
              (for_loop n lo (fun i st =>
                 let e := g_entities st i in
                 let st := set_entities st (aset (g_entities st) i
                   {| id := INVALID_ENTITY; components := components e; active := active e;
                      layer := layer e; tag := tag e; name := name e |}) in
                 let t := g_transforms st i in
                 set_transforms st (aset (g_transforms st) i
                   {| tr_position := tr_position t; tr_rotation := tr_rotation t;
                      tr_scale := Vec3_One; local_matrix := Mat4_Identity;
                      world_matrix := Mat4_Identity; parent := INVALID_ENTITY;
                      dirty := dirty t |})) st)).
  { induction n as [| n IH]; intros lo st Hlo HP.
    - cbn [for_loop]. rewrite Z.add_0_r. exact HP.
    - cbn [for_loop]. replace (lo + Z.of_nat (S n)) with (lo + 1 + Z.of_nat n) by lia.
      apply IH; [lia |]. intros k Hk. cbn [set_transforms set_entities g_entities].
      unfold aset. destruct (Z.eqb_spec k lo) as [-> | Hne]; [reflexivity |].
      apply HP. lia. }
  apply (Hloop (Z.to_nat MAX_ENTITIES) 0); [lia | intros k Hk; lia |].
  rewrite Z2Nat.id by (unfold MAX_ENTITIES; lia). exact Hj.
Qed.

Lemma Entity_Create_fresh_handle_witness :
  fst (Entity_Create None Entity_Init) = 1 /\
  FindIndex (snd (Entity_Create None Entity_Init)) 1 = 0.
Proof.
  destruct (Entity_Create_fresh_handle Entity_Init None Entity_Init_fresh) as [_ H].
  assert (Hi : 0 <= 0 < MAX_ENTITIES) by (unfold MAX_ENTITIES; lia).
  assert (Hid : id (g_entities Entity_Init 0) = INVALID_ENTITY) by reflexivity.
  assert (Hfirst : forall j, 0 <= j < 0 -> id (g_entities Entity_Init j) <> INVALID_ENTITY)
    by (intros j Hj; lia).
  destruct (H 0 Hi Hid Hfirst) as (H1 & _ & _ & H4 & _).
  split; [rewrite H1; reflexivity | exact H4].
Defined.

(** *** The sweeps of [Entity_UpdateTransforms] *)

Section Sweeps.
Variable S0 : EntityState.

Definition locals0 (i : Z) : Mat4 := local_matrix (g_transforms S0 i).

(** What every state reached from [S0] by steps of the sweeps satisfies. *)
Record reached (s : EntityState) : Prop :=
  { r_ids : forall j, id (g_entities s j) = id (g_entities S0 j);
    r_parent : forall j, parent (g_transforms s j) = parent (g_transforms S0 j);
    r_local : forall j, local_matrix (g_transforms s j) = local_matrix (g_transforms S0 j);
    r_clean : forall j, dirty (g_transforms S0 j) = 0 -> dirty (g_transforms s j) = 0;
    r_world : forall k j W, settles S0 locals0 k j W ->
                            dirty (g_transforms s j) = 0 ->
                            world_matrix (g_transforms s j) = W }.

Lemma reached_start : reached S0.
Proof.
  constructor; try reflexivity.
  - intros j H. exact H.
  - intros k j W Hs Hd. destruct Hs; [reflexivity | contradiction | contradiction].
Qed.

Lemma reached_FindIndex : forall s eid, reached s -> FindIndex s eid = FindIndex S0 eid.
Proof. intros s eid R. apply FindIndex_ext. apply (r_ids s R). Qed.

(** The four outcomes of one step. *)
Inductive step_kind (i : Z) (s : EntityState) : EntityState * bool -> bool -> Prop :=
| step_skip : forall f,
    id (g_entities s i) = INVALID_ENTITY \/ dirty (g_transforms s i) = 0 ->
    step_kind i s (s, f) f
| step_root : forall f,
    id (g_entities s i) <> INVALID_ENTITY -> dirty (g_transforms s i) <> 0 ->
    parent (g_transforms s i) = INVALID_ENTITY ->
    step_kind i s
      (set_transforms s (aset (g_transforms s) i
         (with_world_clean (g_transforms s i) (local_matrix (g_transforms s i)))), f) f
| step_child : forall f,
    id (g_entities s i) <> INVALID_ENTITY -> dirty (g_transforms s i) <> 0 ->
    parent (g_transforms s i) <> INVALID_ENTITY ->
    0 <= FindIndex s (parent (g_transforms s i)) ->
    dirty (g_transforms s (FindIndex s (parent (g_transforms s i)))) = 0 ->
    step_kind i s
      (set_transforms s (aset (g_transforms s) i
         (with_world_clean (g_transforms s i)
            (Mat4_Multiply
               (world_matrix (g_transforms s (FindIndex s (parent (g_transforms s i)))))
               (local_matrix (g_transforms s i))))), f) f
| step_blocked : forall f,
    id (g_entities s i) <> INVALID_ENTITY -> dirty (g_transforms s i) <> 0 ->
    parent (g_transforms s i) <> INVALID_ENTITY ->
    FindIndex s (parent (g_transforms s i)) < 0 \/
    dirty (g_transforms s (FindIndex s (parent (g_transforms s i)))) <> 0 ->
    step_kind i s (s, true) f.

Lemma propagate_body_kind : forall i s f, step_kind i s (propagate_body i (s, f)) f.
Proof.
  intros i s f. unfold propagate_body.
  destruct (Z.eqb_spec (id (g_entities s i)) INVALID_ENTITY) as [Hinv | Hval];
    [apply step_skip; left; exact Hinv |].
  destruct (Z.eqb_spec (dirty (g_transforms s i)) 0) as [Hcl | Hd];
    [apply step_skip; right; exact Hcl |].
  cbn [orb]. cbv zeta.
  destruct (Z.eqb_spec (parent (g_transforms s i)) INVALID_ENTITY) as [Hroot | Hchild];
    [apply step_root; assumption |].
  destruct (Z.geb_spec (FindIndex s (parent (g_transforms s i))) 0) as [Hge | Hlt].
  - destruct (Z.eqb_spec (dirty (g_transforms s (FindIndex s (parent (g_transforms s i))))) 0)
      as [Hpc | Hpd]; cbn [andb].
    + apply step_child; try assumption.
    + apply step_blocked; try assumption. right. exact Hpd.
  - cbn [andb]. apply step_blocked; try assumption. left. lia.
Qed.

Lemma settles_dirty_range : forall k j W,
    settles S0 locals0 k j W -> dirty (g_transforms S0 j) <> 0 ->
    0 <= j < MAX_ENTITIES /\ id (g_entities S0 j) <> INVALID_ENTITY.
Proof. intros k j W Hs Hd. destruct Hs; [contradiction | split; assumption | split; assumption]. Qed.

Lemma reached_dirty_same : forall s j,
    reached s -> dirty (g_transforms s j) <> 0 -> dirty (g_transforms S0 j) <> 0.
Proof. intros s j R Hd H0. apply Hd. apply (r_clean s R). exact H0. Qed.

Lemma settles_inv_root : forall k i W,
    settles S0 locals0 k i W ->
    dirty (g_transforms S0 i) <> 0 -> parent (g_transforms S0 i) = INVALID_ENTITY ->
    W = locals0 i.
Proof.
  intros k i W Hs Hd Hp. destruct Hs; [contradiction | reflexivity | contradiction].
Qed.

Lemma settles_inv_child : forall k i W,
    settles S0 locals0 k i W ->
    dirty (g_transforms S0 i) <> 0 -> parent (g_transforms S0 i) <> INVALID_ENTITY ->
    exists k' W',
      k = S k' /\ 0 <= FindIndex S0 (parent (g_transforms S0 i)) /\
      settles S0 locals0 k' (FindIndex S0 (parent (g_transforms S0 i))) W' /\
      W = Mat4_Multiply W' (locals0 i).
Proof.
  intros k i W Hs Hd Hp. destruct Hs as [i Hc | i Hi Hv Hdd Hpp | i k W Hi Hv Hdd Hpp Hfi Hs'];
    [contradiction | contradiction |].
  exists k, W. repeat split; assumption.
Qed.

Lemma reached_set_world : forall s i M,
    reached s ->
    dirty (g_transforms s i) <> 0 ->
    (forall k W, settles S0 locals0 k i W -> M = W) ->
    reached (set_transforms s (aset (g_transforms s) i
               (with_world_clean (g_transforms s i) M))).
Proof.
  intros s i M R Hd HM.
  constructor; cbn [set_transforms g_entities g_transforms]; unfold aset.
  - apply (r_ids s R).
  - intros j. destruct (Z.eqb_spec j i) as [-> | _]; apply (r_parent s R).
  - intros j. destruct (Z.eqb_spec j i) as [-> | _]; apply (r_local s R).
  - intros j Hj. destruct (Z.eqb_spec j i) as [-> | _];
      [reflexivity | apply (r_clean s R); exact Hj].
  - intros k j W Hs. destruct (Z.eqb_spec j i) as [-> | _].
    + intros _. cbn [with_world_clean world_matrix]. apply (HM k W Hs).
    + apply (r_world s R k j W Hs).
Qed.

Lemma reached_step : forall i s f,
    reached s -> reached (fst (propagate_body i (s, f))).
Proof.
  intros i s f R.
  destruct (propagate_body_kind i s f)
    as [f H | f Hv Hd Hp | f Hv Hd Hp Hfi Hpc | f Hv Hd Hp Hb]; cbn [fst]; try exact R.
  - apply reached_set_world; [exact R | exact Hd |].
    intros k W Hs. rewrite (r_local s R).
    symmetry. apply (settles_inv_root k i W Hs).
    + apply (reached_dirty_same s i R Hd).
    + rewrite <- (r_parent s R). exact Hp.
  - apply reached_set_world; [exact R | exact Hd |].
    intros k W Hs.
    destruct (settles_inv_child k i W Hs) as (k' & W' & _ & _ & Hs' & HW).
    + apply (reached_dirty_same s i R Hd).
    + rewrite <- (r_parent s R). exact Hp.
    + rewrite HW. rewrite (r_local s R). f_equal.
      rewrite (reached_FindIndex s _ R), (r_parent s R) in Hpc |- *.
      apply (r_world s R k' _ W' Hs' Hpc).
Qed.

Lemma step_keeps_clean : forall i s f j,
    dirty (g_transforms s j) = 0 ->
    g_transforms (fst (propagate_body i (s, f))) j = g_transforms s j.
Proof.
  intros i s f j Hj.
  destruct (propagate_body_kind i s f)
    as [f H | f Hv Hd Hp | f Hv Hd Hp Hfi Hpc | f Hv Hd Hp Hb]; cbn [fst]; try reflexivity.
  all: cbn [set_transforms g_transforms]; unfold aset;
    destruct (Z.eqb_spec j i) as [-> | _]; [contradiction | reflexivity].
Qed.

(** The entities that settle within [k] sweeps are clean. *)
Definition settled_upto (k : nat) (s : EntityState) : Prop :=
  forall m j W, (m <= k)%nat -> settles S0 locals0 m j W -> dirty (g_transforms s j) = 0.

Lemma settled_step : forall k i s f,
    settled_upto k s -> settled_upto k (fst (propagate_body i (s, f))).
Proof.
  intros k i s f H m j W Hm Hs. rewrite step_keeps_clean; eapply H; eassumption.
Qed.

Lemma step_settles_next : forall k i s f W,
    reached s -> settled_upto k s ->
    settles S0 locals0 (S k) i W ->
    dirty (g_transforms (fst (propagate_body i (s, f))) i) = 0.
Proof.
  intros k i s f W R Hk Hs.
  destruct (propagate_body_kind i s f)
    as [f H | f Hv Hd Hp | f Hv Hd Hp Hfi Hpc | f Hv Hd Hp Hb]; cbn [fst].
  - destruct H as [Hinv | Hcl]; [| exact Hcl].
    destruct (Z.eq_dec (dirty (g_transforms s i)) 0) as [Hz | Hnz]; [exact Hz |].
    destruct (settles_dirty_range _ _ _ Hs (reached_dirty_same s i R Hnz)) as [_ Hval].
    rewrite (r_ids s R) in Hinv. contradiction.
  - cbn [set_transforms g_transforms]. unfold aset. rewrite Z.eqb_refl. reflexivity.
  - cbn [set_transforms g_transforms]. unfold aset. rewrite Z.eqb_refl. reflexivity.
  - exfalso.
    destruct (settles_inv_child (S k) i W Hs) as (k' & W' & Hk' & Hfi & Hs' & _).
    + apply (reached_dirty_same s i R Hd).
    + rewrite <- (r_parent s R). exact Hp.
    + injection Hk' as <-.
      rewrite (reached_FindIndex s _ R), (r_parent s R) in Hb.
      destruct Hb as [Hneg | Hpd]; [lia |].
      apply Hpd. apply (Hk k _ W'); [lia | exact Hs'].
Qed.

(** A loop invariant that may depend on the loop counter. *)
Lemma for_loop_inv_at : forall (A : Type) (P : Z -> A -> Prop) (body : Z -> A -> A),
    (forall i a, P i a -> P (i + 1) (body i a)) ->
    forall n lo a, P lo a -> P (lo + Z.of_nat n) (for_loop n lo body a).
Proof.
  intros A P body Hbody n. induction n as [| n IH]; intros lo a Ha; cbn [for_loop].
  - rewrite Z.add_0_r. exact Ha.
  - replace (lo + Z.of_nat (S n)) with (lo + 1 + Z.of_nat n) by lia.
    apply IH. apply Hbody. exact Ha.
Qed.

Definition sweep (s : EntityState) : EntityState * bool :=
  for_loop (Z.to_nat MAX_ENTITIES) 0 propagate_body (s, false).

Lemma sweep_spec : forall k s,
    reached s -> settled_upto k s ->
    reached (fst (sweep s)) /\ settled_upto (S k) (fst (sweep s)) /\
    (snd (sweep s) = false ->
     forall j, 0 <= j < MAX_ENTITIES -> id (g_entities S0 j) <> INVALID_ENTITY ->
               dirty (g_transforms (fst (sweep s)) j) = 0).
Proof.
  intros k s R Hk. unfold sweep.
  set (P := fun (lo : Z) (acc : EntityState * bool) =>
              reached (fst acc) /\ settled_upto k (fst acc) /\
              (forall j W, 0 <= j < lo -> settles S0 locals0 (S k) j W ->
                           dirty (g_transforms (fst acc) j) = 0) /\
              (snd acc = false ->
               forall j, 0 <= j < lo -> id (g_entities S0 j) <> INVALID_ENTITY ->
                         dirty (g_transforms (fst acc) j) = 0)).
  assert (HP : P (0 + Z.of_nat (Z.to_nat MAX_ENTITIES))
                 (for_loop (Z.to_nat MAX_ENTITIES) 0 propagate_body (s, false))).
  { apply for_loop_inv_at.
    - intros i [s1 f1] (R1 & K1 & N1 & F1). cbn [fst snd] in *.
      split; [apply reached_step; exact R1 |].
      split; [apply settled_step; exact K1 |].
      split.
      + intros j W Hj Hs. destruct (Z.eq_dec j i) as [-> | Hne].
        * eapply step_settles_next; eassumption.
        * rewrite step_keeps_clean; apply (N1 j W); try assumption; lia.
      + intros Hf j Hj Hval.
        destruct (propagate_body_kind i s1 f1)
          as [f H | f H1 H2 H3 | f H1 H2 H3 H4 H5 | f H1 H2 H3 H4];
          cbn [fst snd] in *; try discriminate.
        * destruct (Z.eq_dec j i) as [-> | Hne]; [| apply F1; [exact Hf | lia | exact Hval]].
          destruct H as [Hinv | Hcl]; [| exact Hcl].
          rewrite (r_ids s1 R1) in Hinv. contradiction.
        * cbn [set_transforms g_transforms]. unfold aset.
          destruct (Z.eqb_spec j i) as [-> | Hne]; [reflexivity |].
          apply F1; [exact Hf | lia | exact Hval].
        * cbn [set_transforms g_transforms]. unfold aset.
          destruct (Z.eqb_spec j i) as [-> | Hne]; [reflexivity |].
          apply F1; [exact Hf | lia | exact Hval].
    - cbn [fst snd]. split; [exact R |]. split; [exact Hk |].
      split; intros; lia. }
  rewrite Z2Nat.id in HP by (unfold MAX_ENTITIES; lia). cbn [Z.add] in HP.
  destruct HP as (R1 & K1 & N1 & F1).
  split; [exact R1 |]. split; [| exact F1].
  intros m j W Hm Hs.
  destruct (Nat.eq_dec m (S k)) as [-> | Hne].
  - destruct (Z.eq_dec (dirty (g_transforms S0 j)) 0) as [Hz | Hnz];
      [apply (r_clean _ R1); exact Hz |].
    destruct (settles_dirty_range _ _ _ Hs Hnz) as [Hj _].
    apply (N1 j W); assumption.
  - apply (K1 m j W); [lia | exact Hs].
Qed.

Lemma propagate_passes_unfold : forall n s,
    propagate_passes (S n) s =
    if snd (sweep s) then propagate_passes n (fst (sweep s)) else fst (sweep s).
Proof.
  intros n s. cbn [propagate_passes]. unfold sweep.
  destruct (for_loop (Z.to_nat MAX_ENTITIES) 0 propagate_body (s, false)) as [s' f].
  reflexivity.
Qed.

Lemma passes_spec : forall n k s,
    reached s -> settled_upto k s ->
    reached (propagate_passes n s) /\ settled_upto (k + n) (propagate_passes n s).
Proof.
  induction n as [| n IH]; intros k s R Hk.
  - cbn [propagate_passes]. split; [exact R |].
    intros m j W Hm Hs. apply (Hk m j W); [lia | exact Hs].
  - rewrite propagate_passes_unfold.
    destruct (sweep_spec k s R Hk) as (R1 & K1 & F1).
    destruct (snd (sweep s)).
    + destruct (IH (S k) (fst (sweep s)) R1 K1) as [R2 K2].
      split; [exact R2 |]. intros m j W Hm Hs. apply (K2 m j W); [lia | exact Hs].
    + split; [exact R1 |]. intros m j W Hm Hs.
      destruct (Z.eq_dec (dirty (g_transforms S0 j)) 0) as [Hz | Hnz];
        [apply (r_clean _ R1); exact Hz |].
      destruct (settles_dirty_range _ _ _ Hs Hnz) as [Hj Hval].
      apply F1; [reflexivity | exact Hj | exact Hval].
Qed.

Lemma passes_settle : forall n k j W,
    (k <= n)%nat -> settles S0 locals0 k j W ->
    dirty (g_transforms (propagate_passes n S0) j) = 0 /\
    world_matrix (g_transforms (propagate_passes n S0) j) = W.
Proof.
  intros n k j W Hk Hs.
  assert (H0 : settled_upto 0 S0).
  { intros m i V Hm Hi. destruct Hi; [assumption | lia | lia]. }
  destruct (passes_spec n 0 S0 reached_start H0) as [R K].
  assert (Hd : dirty (g_transforms (propagate_passes n S0) j) = 0)
    by (apply (K k j W); [lia | exact Hs]).
  split; [exact Hd | eapply (r_world _ R); eassumption].
Qed.

End Sweeps.

(** *** The two phases together *)

Section Hierarchy.
Variables cosf sinf : float -> float.

Lemma stored_local_product : forall t,
    stored_local cosf sinf t = local_TRyRxRzS cosf sinf t.
Proof.
  intros t. unfold stored_local, local_TRyRxRzS.
  rewrite (Mat4_Multiply_product (Ry_of cosf sinf t) (Rx_of cosf sinf t)).
  rewrite (Mat4_Multiply_product (Mat4_product (Ry_of cosf sinf t) (Rx_of cosf sinf t))
                                 (Rz_of cosf sinf t)).
  rewrite (Mat4_Multiply_product (T_of t)).
  rewrite (Mat4_Multiply_product _ (S_of t)).
  reflexivity.
Qed.

Definition phase1 (st : EntityState) : EntityState :=
  for_loop (Z.to_nat MAX_ENTITIES) 0 (update_local_body cosf sinf) st.

Lemma UpdateTransforms_phases : forall st,
    Entity_UpdateTransforms cosf sinf st = propagate_passes 8 (phase1 st).
Proof. intros st. unfold Entity_UpdateTransforms, phase1. reflexivity. Qed.

Lemma phase1_fields : forall st j,
    id (g_entities (phase1 st) j) = id (g_entities st j) /\
    dirty (g_transforms (phase1 st) j) = dirty (g_transforms st j) /\
    parent (g_transforms (phase1 st) j) = parent (g_transforms st j) /\
    world_matrix (g_transforms (phase1 st) j) = world_matrix (g_transforms st j) /\
    (dirty (g_transforms st j) = 0 -> g_transforms (phase1 st) j = g_transforms st j) /\
    (0 <= j < MAX_ENTITIES -> id (g_entities st j) <> INVALID_ENTITY ->
     dirty (g_transforms st j) <> 0 ->
     local_matrix (g_transforms (phase1 st) j) = local_TRyRxRzS cosf sinf (g_transforms st j)).
Proof.
  intros st j. unfold phase1.
  destruct (update_loop_spec cosf sinf (Z.to_nat MAX_ENTITIES) 0 st) as [He Ht].
  rewrite He, Ht.
  split; [reflexivity |].
  destruct ((0 <=? j) && (j <? 0 + Z.of_nat (Z.to_nat MAX_ENTITIES)) && needs_update st j)
    eqn:E.
  - do 3 (split; [reflexivity |]). split.
    + intros Hc. apply andb_prop in E as [_ Hnu]. unfold needs_update in Hnu.
      apply andb_prop in Hnu as [_ Hd]. rewrite Hc in Hd. discriminate.
    + intros _ _ _. cbn [with_local local_matrix]. apply stored_local_product.
  - do 3 (split; [reflexivity |]). split; [intros _; reflexivity |].
    intros Hj Hv Hd. exfalso.
    assert (Ht' : (0 <=? j) && (j <? 0 + Z.of_nat (Z.to_nat MAX_ENTITIES))
                  && needs_update st j = true).
    { rewrite Z2Nat.id by (unfold MAX_ENTITIES; lia).
      apply andb_true_iff. split; [apply andb_true_iff; split |].
      - apply Z.leb_le. lia.
      - apply Z.ltb_lt. lia.
      - unfold needs_update. apply andb_true_iff.
        split; apply negb_true_iff, Z.eqb_neq; assumption. }
    congruence.
Qed.

Lemma phase1_FindIndex : forall st eid, FindIndex (phase1 st) eid = FindIndex st eid.
Proof. intros st eid. apply FindIndex_ext. intros j. apply (phase1_fields st j). Qed.

Lemma settles_phase1 : forall st k i W,
    settles st (fun j => local_TRyRxRzS cosf sinf (g_transforms st j)) k i W ->
    settles (phase1 st) (locals0 (phase1 st)) k i W.
Proof.
  intros st k i W Hs. unfold locals0.
  induction Hs as [i Hc | i Hi Hv Hd Hp | i k W Hi Hv Hd Hp Hfi Hs IH].
  - destruct (phase1_fields st i) as (_ & Hd1 & _ & Hw1 & _).
    rewrite <- Hw1. apply settles_clean. rewrite Hd1. exact Hc.
  - destruct (phase1_fields st i) as (Hid1 & Hd1 & Hp1 & _ & _ & Hl1).
    rewrite <- (Hl1 Hi Hv Hd).
    apply (settles_root (phase1 st) (fun j => local_matrix (g_transforms (phase1 st) j)) i).
    + exact Hi.
    + rewrite Hid1. exact Hv.
    + rewrite Hd1. exact Hd.
    + rewrite Hp1. exact Hp.
  - destruct (phase1_fields st i) as (Hid1 & Hd1 & Hp1 & _ & _ & Hl1).
    rewrite <- (Hl1 Hi Hv Hd).
    rewrite <- Hp1, <- phase1_FindIndex in Hfi, IH.
    apply (settles_child (phase1 st) (fun j => local_matrix (g_transforms (phase1 st) j))
                         i k W).
    + exact Hi.
    + rewrite Hid1. exact Hv.
    + rewrite Hd1. exact Hd.
    + rewrite Hp1. exact Hp.
    + exact Hfi.
    + exact IH.
Qed.

End Hierarchy.

(** The resolution of the hierarchy.  After [Entity_UpdateTransforms], a
    transform that settles within the 8 sweeps is clean and holds the
    world matrix that [settles] describes: its old world matrix if it was
    clean, its new local matrix [T.Ry.Rx.Rz.S] if it is a dirty root, and
    [parent.world . local] if it is a dirty child of a live parent that
    settles first, whatever the order of the slots.  A chain of up to 8
    dirty entities is therefore resolved by one call. *)
Theorem UpdateTransforms_settles :
  forall (cosf sinf : float -> float) (st : EntityState) (k : nat) (i : Z) (W : Mat4),
    (k <= 8)%nat ->
    settles st (fun j => local_TRyRxRzS cosf sinf (g_transforms st j)) k i W ->
    let st' := Entity_UpdateTransforms cosf sinf st in
    dirty (g_transforms st' i) = 0 /\ world_matrix (g_transforms st' i) = W.
Proof.
  intros cosf sinf st k i W Hk Hs st'. subst st'. rewrite UpdateTransforms_phases.
  exact (passes_settle (phase1 cosf sinf st) 8 k i W Hk (settles_phase1 cosf sinf st k i W Hs)).
Qed.

Lemma passes_keep_clean : forall n s i,
    dirty (g_transforms s i) = 0 ->
    g_transforms (propagate_passes n s) i = g_transforms s i.
Proof.
  induction n as [| n IH]; intros s i Hc; [reflexivity |].
  rewrite propagate_passes_unfold.
  assert (Hsweep : g_transforms (fst (sweep s)) i = g_transforms s i).
  { unfold sweep.
    apply (for_loop_inv _ (fun acc => g_transforms (fst acc) i = g_transforms s i)).
    - intros k [s1 f1] H1. cbn [fst] in H1.
      rewrite step_keeps_clean; [exact H1 | rewrite H1; exact Hc].
    - reflexivity. }
  destruct (snd (sweep s)); [| exact Hsweep].
  rewrite IH; [exact Hsweep | rewrite Hsweep; exact Hc].
Qed.

(** A transform that is clean is not touched by [Entity_UpdateTransforms]:
    neither its local nor its world matrix changes, even when its parent
    is dirty and moves. *)
Theorem UpdateTransforms_skips_clean :
  forall (cosf sinf : float -> float) (st : EntityState) (i : Z),
    dirty (g_transforms st i) = 0 ->
    g_transforms (Entity_UpdateTransforms cosf sinf st) i = g_transforms st i.
Proof.
  intros cosf sinf st i Hc. rewrite UpdateTransforms_phases.
  destruct (phase1_fields cosf sinf st i) as (_ & Hd & _ & _ & Hsame & _).
  rewrite passes_keep_clean by (rewrite Hd; exact Hc).
  apply Hsame. exact Hc.
Qed.

(** The chain of three entities, each of them dirty, with the child in a
    lower slot than its parent: the origin of the entity of slot 0 is sent
    to (1,2,3). *)
Lemma UpdateTransforms_settles_witness :
  let st' := Entity_UpdateTransforms cosf_at_0_1 sinf_at_0_1 entity_chain in
  dirty (g_transforms st' 0) = 0 /\
  mget (world_matrix (g_transforms st' 0)) 12 = one /\
  mget (world_matrix (g_transforms st' 0)) 13 = of_int 2 /\
  mget (world_matrix (g_transforms st' 0)) 14 = of_int 3.
Proof.
  intros st'.
  set (L := fun j => local_TRyRxRzS cosf_at_0_1 sinf_at_0_1 (g_transforms entity_chain j)).
  assert (Hr : forall j, j = 0 \/ j = 1 \/ j = 2 -> 0 <= j < MAX_ENTITIES)
    by (intros j Hj; unfold MAX_ENTITIES; lia).
  assert (H2 : settles entity_chain L 1 2 (L 2)).
  { apply settles_root; [apply Hr; lia | | | ]; vm_compute; try reflexivity; discriminate. }
  assert (F1 : FindIndex entity_chain (parent (g_transforms entity_chain 1)) = 2)
    by (vm_compute; reflexivity).
  assert (F0 : FindIndex entity_chain (parent (g_transforms entity_chain 0)) = 1)
    by (vm_compute; reflexivity).
  assert (H1 : settles entity_chain L 2 1 (Mat4_Multiply (L 2) (L 1))).
  { apply settles_child; [apply Hr; lia | | | | | ].
    - vm_compute; discriminate.
    - vm_compute; discriminate.
    - vm_compute; discriminate.
    - rewrite F1. lia.
    - rewrite F1. exact H2. }
  assert (H0 : settles entity_chain L 3 0 (Mat4_Multiply (Mat4_Multiply (L 2) (L 1)) (L 0))).
  { apply settles_child; [apply Hr; lia | | | | | ].
    - vm_compute; discriminate.
    - vm_compute; discriminate.
    - vm_compute; discriminate.
    - rewrite F0. lia.
    - rewrite F0. exact H1. }
  assert (Hk : (3 <= 8)%nat) by lia.
  destruct (UpdateTransforms_settles cosf_at_0_1 sinf_at_0_1 entity_chain 3 0 _ Hk H0)
    as [Hd Hw].
  fold st' in Hd, Hw.
  split; [exact Hd |]. rewrite Hw.
  vm_compute. repeat split; reflexivity.
Defined.

(** The entity created by [Entity_Create] is dirty; with its rotation set
    to (1,1,0) its local matrix is recomputed. *)
Lemma UpdateTransforms_local_matrix_witness :
  let st := Transform_SetRotation 1 (MakeVec3 one one zero) entity_sample in
  local_matrix (g_transforms (Entity_UpdateTransforms cosf_at_0_1 sinf_at_0_1 st) 0) =
  local_TRyRxRzS cosf_at_0_1 sinf_at_0_1 (g_transforms st 0).
Proof.
  intros st.
  assert (Hi : 0 <= 0 < MAX_ENTITIES) by (unfold MAX_ENTITIES; lia).
  assert (Hv : id (g_entities st 0) <> INVALID_ENTITY) by (vm_compute; discriminate).
  assert (Hd : dirty (g_transforms st 0) <> 0) by (vm_compute; discriminate).
  exact (proj1 (UpdateTransforms_local_matrix cosf_at_0_1 sinf_at_0_1 st 0 Hi Hv Hd)).
Defined.

(** *** The animators *)

Lemma animator_body_entities : forall dt i st,
    g_entities (animator_body dt i st) = g_entities st.
Proof.
  intros dt i st. unfold animator_body.
  repeat match goal with
         | |- context [if ?c then _ else _] => destruct c
         end; reflexivity.
Qed.

Lemma animator_body_step : forall dt i st j,
    g_animators (animator_body dt i st) j =
    if j =? i then animator_step dt (g_entities st i) (g_animators st i)
    else g_animators st j.
Proof.
  intros dt i st j. unfold animator_body, animator_step.
  destruct (id (g_entities st i) =? INVALID_ENTITY);
    [destruct (Z.eqb_spec j i) as [-> | _]; reflexivity |].
  destruct (Z.land (components (g_entities st i)) COMP_ANIMATOR =? 0);
    [destruct (Z.eqb_spec j i) as [-> | _]; reflexivity |].
  destruct (is_playing (g_animators st i) =? 0);
    [destruct (Z.eqb_spec j i) as [-> | _]; reflexivity |].
  cbv zeta.
  repeat match goal with
         | |- context [if ?c then _ else _] =>
             lazymatch c with
             | (j =? i) => fail
             | _ => destruct c
             end
         end; cbn [set_animators g_animators]; unfold aset; reflexivity.
Qed.

Lemma UpdateAnimators_pointwise : forall dt st j,
    g_animators (Entity_UpdateAnimators dt st) j =
    if (0 <=? j) && (j <? MAX_ENTITIES)
    then animator_step dt (g_entities st j) (g_animators st j)
    else g_animators st j.
Proof.
  intros dt st j. unfold Entity_UpdateAnimators.
  pose proof (for_loop_pointwise EntityState Animator_t g_animators (animator_body dt)
                (fun i a => animator_step dt (g_entities st i) a)
                (fun s => g_entities s = g_entities st)) as H.
  rewrite H; [reflexivity | | | reflexivity].
  - intros i s Hs. rewrite animator_body_entities. exact Hs.
  - intros i s k Hs. rewrite animator_body_step, Hs. reflexivity.
Qed.

Lemma animator_step_clip : forall dt e a,
    let a' := animator_step dt e a in
    start_frame a' = start_frame a /\ end_frame a' = end_frame a /\
    is_looping a' = is_looping a /\ playback_speed a' = playback_speed a /\
    (id e = INVALID_ENTITY \/ Z.land (components e) COMP_ANIMATOR = 0 \/ is_playing a = 0 ->
     a' = a) /\
    (0 <= start_frame a -> end_frame a < 4294967295 ->
     start_frame a <= current_frame a <= end_frame a ->
     start_frame a <= next_frame a <= end_frame a ->
     start_frame a <= current_frame a' <= end_frame a /\
     start_frame a <= next_frame a' <= end_frame a) /\
    (is_playing a' = 0 \/ is_playing a' = is_playing a) /\
    (is_playing a <> 0 -> is_playing a' = 0 ->
     is_looping a = 0 /\ next_frame a' = end_frame a /\ current_frame a' = next_frame a).
Proof.
  intros dt e a a'. subst a'. unfold animator_step.
  destruct (Z.eqb_spec (id e) INVALID_ENTITY) as [Hinv | Hval];
    [repeat split; try reflexivity; try tauto; try lia; right; reflexivity |].
  destruct (Z.eqb_spec (Z.land (components e) COMP_ANIMATOR) 0) as [Hno | Hhas];
    [repeat split; try reflexivity; try tauto; try lia; right; reflexivity |].
  destruct (Z.eqb_spec (is_playing a) 0) as [Hstop | Hplay];
    [repeat split; try reflexivity; try tauto; try lia; right; reflexivity |].
  cbv zeta.
  destruct (fge (fadd (frame_time a) (fmul dt (playback_speed a))) (fdiv one (of_int 10)));
    [destruct (Z.gtb_spec (wrap32 (next_frame a + 1)) (end_frame a)) as [Hpast | Hin];
     [destruct (Z.eqb_spec (is_looping a) 0) as [Hnl | Hl] |] |];
    cbn [negb start_frame end_frame is_looping playback_speed current_frame
         next_frame is_playing];
    repeat split; try reflexivity; try tauto; try lia;
    try (intros; unfold wrap32; rewrite Z.mod_small by lia; lia);
    try (intros; unfold wrap32 in *; rewrite Z.mod_small in * by lia; lia);
    first [left; reflexivity | right; reflexivity].
Qed.

(** [Entity_UpdateAnimators] leaves an animator as it is when its slot is
    free, when the entity has no animator component, or when the animator is
    not playing; and it writes nothing but animators. *)
Theorem UpdateAnimators_inactive :
  forall (dt : float) (st : EntityState) (i : Z),
    id (g_entities st i) = INVALID_ENTITY \/
    Z.land (components (g_entities st i)) COMP_ANIMATOR = 0 \/
    is_playing (g_animators st i) = 0 ->
    let st' := Entity_UpdateAnimators dt st in
    g_animators st' i = g_animators st i /\
    g_entities st' = g_entities st /\ g_transforms st' = g_transforms st /\
    g_next_id st' = g_next_id st.
Proof.
  intros dt st i H st'. subst st'. split.
  - rewrite UpdateAnimators_pointwise.
    destruct ((0 <=? i) && (i <? MAX_ENTITIES)); [| reflexivity].
    apply (animator_step_clip dt (g_entities st i) (g_animators st i)). exact H.
  - unfold Entity_UpdateAnimators.
    apply (for_loop_inv EntityState
             (fun s => g_entities s = g_entities st /\ g_transforms s = g_transforms st /\
                       g_next_id s = g_next_id st)); [| repeat split].
    intros k s Hs. unfold animator_body.
    repeat match goal with
           | |- context [if ?c then _ else _] => destruct c
           end; exact Hs.
Qed.

Lemma UpdateAnimators_inactive_witness :
  is_playing (g_animators entity_sample 0) = 0 /\
  g_animators (Entity_UpdateAnimators (lit 1 4) entity_sample) 0 = g_animators entity_sample 0.
Proof.
  assert (H : is_playing (g_animators entity_sample 0) = 0) by reflexivity.
  split; [exact H |].
  apply (UpdateAnimators_inactive (lit 1 4) entity_sample 0). right; right; exact H.
Defined.

(** An animator whose frames lie in its clip [start_frame, end_frame] still
    has them there after [Entity_UpdateAnimators], whatever the time step;
    the clip itself, the speed and the loop flag are never written. *)
Theorem UpdateAnimators_keeps_clip :
  forall (dt : float) (st : EntityState) (i : Z),
    let a := g_animators st i in
    0 <= start_frame a -> end_frame a < 4294967295 ->
    start_frame a <= current_frame a <= end_frame a ->
    start_frame a <= next_frame a <= end_frame a ->
    let a' := g_animators (Entity_UpdateAnimators dt st) i in
    start_frame a' = start_frame a /\ end_frame a' = end_frame a /\
    is_looping a' = is_looping a /\ playback_speed a' = playback_speed a /\
    start_frame a <= current_frame a' <= end_frame a /\
    start_frame a <= next_frame a' <= end_frame a.
Proof.
  intros dt st i a H0 Hend Hcur Hnxt a'. subst a'.
  rewrite UpdateAnimators_pointwise.
  destruct ((0 <=? i) && (i <? MAX_ENTITIES)).
  - destruct (animator_step_clip dt (g_entities st i) a)
      as (Hs & He & Hl & Hp & _ & Hclip & _).
    destruct (Hclip H0 Hend Hcur Hnxt) as [Hc' Hn'].
    fold a. split; [exact Hs |]. split; [exact He |]. split; [exact Hl |].
    split; [exact Hp |]. split; [exact Hc' | exact Hn'].
  - fold a. split; [reflexivity |]. split; [reflexivity |]. split; [reflexivity |].
    split; [reflexivity |]. split; [exact Hcur | exact Hnxt].
Qed.

Lemma UpdateAnimators_keeps_clip_witness :
  let a' := g_animators (Entity_UpdateAnimators (lit 1 4) animator_sample) 0 in
  current_frame a' = 45 /\ next_frame a' = 40 /\
  40 <= current_frame a' <= 45 /\ 40 <= next_frame a' <= 45.
Proof.
  assert (H0 : 0 <= start_frame (g_animators animator_sample 0)) by (vm_compute; discriminate).
  assert (H1 : end_frame (g_animators animator_sample 0) < 4294967295) by reflexivity.
  assert (H2 : start_frame (g_animators animator_sample 0)
               <= current_frame (g_animators animator_sample 0)
               <= end_frame (g_animators animator_sample 0))
    by (vm_compute; split; discriminate).
  assert (H3 : start_frame (g_animators animator_sample 0)
               <= next_frame (g_animators animator_sample 0)
               <= end_frame (g_animators animator_sample 0))
    by (vm_compute; split; discriminate).
  destruct (UpdateAnimators_keeps_clip (lit 1 4) animator_sample 0 H0 H1 H2 H3)
    as (_ & _ & _ & _ & Hc & Hn).
  split; [vm_compute; reflexivity |]. split; [vm_compute; reflexivity |].
  split; [exact Hc | exact Hn].
Defined.

(** [Entity_UpdateAnimators] only ever clears the playing flag, and it clears
    it in one case: a clip that does not loop has stepped past its last
    frame; the next frame is then held on the last frame of the clip. *)
Theorem UpdateAnimators_stops_at_end :
  forall (dt : float) (st : EntityState) (i : Z),
    let a := g_animators st i in
    let a' := g_animators (Entity_UpdateAnimators dt st) i in
    (is_playing a' = 0 \/ is_playing a' = is_playing a) /\
    (is_playing a <> 0 -> is_playing a' = 0 ->
     is_looping a = 0 /\ next_frame a' = end_frame a /\ current_frame a' = next_frame a).
Proof.
  intros dt st i a a'. subst a'.
  rewrite UpdateAnimators_pointwise.
  destruct ((0 <=? i) && (i <? MAX_ENTITIES)).
  - destruct (animator_step_clip dt (g_entities st i) a)
      as (_ & _ & _ & _ & _ & _ & Hflag & Hstop).
    split; [exact Hflag | exact Hstop].
  - split; [right; reflexivity |]. intros Hp Hz. fold a in Hz. contradiction.
Qed.

Lemma UpdateAnimators_stops_at_end_witness :
  let a := g_animators animator_sample_once 0 in
  let a' := g_animators (Entity_UpdateAnimators (lit 1 4) animator_sample_once) 0 in
  is_playing a <> 0 /\ is_playing a' = 0 /\
  is_looping a = 0 /\ next_frame a' = end_frame a /\ current_frame a' = next_frame a.
Proof.
  assert (H1 : is_playing (g_animators animator_sample_once 0) <> 0) by (vm_compute; discriminate).
  assert (H2 : is_playing (g_animators (Entity_UpdateAnimators (lit 1 4) animator_sample_once) 0) = 0)
    by (vm_compute; reflexivity).
  split; [exact H1 |]. split; [exact H2 |].
  exact (proj2 (UpdateAnimators_stops_at_end (lit 1 4) animator_sample_once 0) H1 H2).
Defined.

(** One frame is consumed per call at most: after a step of 0.25 s at speed
    1 from the start of a frame (period 0.1 s), the time left in the frame is
    more than a period, and the interpolation factor handed to the renderer
    is above one. *)
Theorem UpdateAnimators_overshoot :
  forall (st : EntityState) (i : Z),
    0 <= i < MAX_ENTITIES ->
    id (g_entities st i) <> INVALID_ENTITY ->
    Z.land (components (g_entities st i)) COMP_ANIMATOR <> 0 ->
    is_playing (g_animators st i) <> 0 ->
    frame_time (g_animators st i) = zero ->
    playback_speed (g_animators st i) = one ->
    let a' := g_animators (Entity_UpdateAnimators (lit 1 4) st) i in
    flt one (interpolation a') = true /\
    current_frame a' = next_frame (g_animators st i).
Proof.
  intros st i Hi Hid Hc Hp Hft Hsp a'. subst a'.
  rewrite UpdateAnimators_pointwise.
  replace ((0 <=? i) && (i <? MAX_ENTITIES)) with true
    by (symmetry; apply andb_true_iff; split; [apply Z.leb_le | apply Z.ltb_lt]; lia).
  unfold animator_step.
  destruct (Z.eqb_spec (id (g_entities st i)) INVALID_ENTITY) as [| _]; [contradiction |].
  destruct (Z.eqb_spec (Z.land (components (g_entities st i)) COMP_ANIMATOR) 0) as [| _];
    [contradiction |].
  destruct (Z.eqb_spec (is_playing (g_animators st i)) 0) as [| _]; [contradiction |].
  rewrite Hft, Hsp. cbv zeta.
  replace (fge (fadd zero (fmul (lit 1 4) one)) (fdiv one (of_int 10))) with true
    by (vm_compute; reflexivity).
  repeat match goal with
         | |- context [if ?c then _ else _] => destruct c
         end; cbn [interpolation current_frame]; (split; [vm_compute; reflexivity | reflexivity]).
Qed.

Lemma UpdateAnimators_overshoot_witness :
  flt one (interpolation (g_animators (Entity_UpdateAnimators (lit 1 4) animator_sample) 0)) = true.
Proof.
  apply (UpdateAnimators_overshoot animator_sample 0).
  - unfold MAX_ENTITIES; lia.
  - vm_compute; discriminate.
  - vm_compute; discriminate.
  - vm_compute; discriminate.
  - reflexivity.
  - reflexivity.
Defined.

(** *** Destruction *)

Lemma detach_loop_spec : forall eid st,
    let st' := for_loop (Z.to_nat MAX_ENTITIES) 0 (detach_body eid) st in
    g_entities st' = g_entities st /\ g_next_id st' = g_next_id st /\
    g_animators st' = g_animators st /\
    forall j, g_transforms st' j =
              if (0 <=? j) && (j <? MAX_ENTITIES) && (parent (g_transforms st j) =? eid)
              then with_parent_dirty (g_transforms st j) INVALID_ENTITY
              else g_transforms st j.
Proof.
  intros eid st st'. subst st'.
  assert (Hinv : forall s,
             g_entities s = g_entities st /\ g_next_id s = g_next_id st /\
             g_animators s = g_animators st ->
             forall i, g_entities (detach_body eid i s) = g_entities st /\
                       g_next_id (detach_body eid i s) = g_next_id st /\
                       g_animators (detach_body eid i s) = g_animators st).
  { intros s Hs i. unfold detach_body.
    destruct (parent (g_transforms s i) =? eid); exact Hs. }
  pose proof (for_loop_inv EntityState
                (fun s => g_entities s = g_entities st /\ g_next_id s = g_next_id st /\
                          g_animators s = g_animators st)
                (detach_body eid) (fun i s Hs => Hinv s Hs i)
                (Z.to_nat MAX_ENTITIES) 0 st
                (conj eq_refl (conj eq_refl eq_refl))) as (He & Hn & Ha).
  split; [exact He |]. split; [exact Hn |]. split; [exact Ha |].
  intros j.
  rewrite (for_loop_pointwise EntityState Transform_t g_transforms (detach_body eid)
             (fun _ t => if parent t =? eid then with_parent_dirty t INVALID_ENTITY else t)
             (fun _ => True)); [| intros; exact I | | exact I].
  - replace (0 + Z.of_nat (Z.to_nat MAX_ENTITIES)) with MAX_ENTITIES by reflexivity.
    destruct ((0 <=? j) && (j <? MAX_ENTITIES)); reflexivity.
  - intros i s k _. unfold detach_body.
    destruct (parent (g_transforms s i) =? eid) eqn:Hp.
    + cbn [set_transforms g_transforms]. unfold aset.
      destruct (Z.eqb_spec k i) as [-> | _]; reflexivity.
    + destruct (Z.eqb_spec k i) as [-> | _]; reflexivity.
Qed.

(** [Entity_Destroy] on a live handle frees its slot (no handle, no
    component) and touches no other slot of the entity table; every
    transform whose parent was the destroyed entity becomes a dirty root and
    keeps its position, rotation, scale and matrices, every other transform
    is as before; the handle counter is not moved back.  If the handle was
    held by one slot only, it is invalid afterwards.  On a handle that is
    not live nothing changes. *)
Theorem Entity_Destroy_detaches :
  forall (st : EntityState) (eid : Z),
    let idx := FindIndex st eid in
    let st' := Entity_Destroy eid st in
    (idx = -1 -> st' = st) /\
    (0 <= idx ->
       id (g_entities st' idx) = INVALID_ENTITY /\
       components (g_entities st' idx) = 0 /\
       (forall j, j <> idx -> g_entities st' j = g_entities st j) /\
       (forall j, 0 <= j < MAX_ENTITIES -> parent (g_transforms st j) = eid ->
                  g_transforms st' j = with_parent_dirty (g_transforms st j) INVALID_ENTITY) /\
       (forall j, 0 <= j < MAX_ENTITIES -> parent (g_transforms st' j) <> eid) /\
       (forall j, parent (g_transforms st j) <> eid ->
                  g_transforms st' j = g_transforms st j) /\
       g_next_id st' = g_next_id st /\
       (handle_unique st eid -> Entity_IsValid eid st' = 0)).
Proof.
  intros st eid idx st'. subst idx st'.
  destruct (FindIndex_first_match st eid) as (Hrange & Hfound & Hnone).
  unfold Entity_Destroy. split.
  - intros Hm. rewrite Hm. reflexivity.
  - intros Hidx. cbv zeta.
    destruct (Z.geb_spec (FindIndex st eid) 0) as [_ | Hlt]; [| lia].
    destruct (Hfound Hidx) as (Hval & Hid & _).
    destruct (detach_loop_spec eid st) as (He & Hn & _ & Ht).
    remember (for_loop (Z.to_nat MAX_ENTITIES) 0 (detach_body eid) st) as L eqn:HL.
    clear HL.
    cbn [set_entities g_entities g_transforms g_next_id].
    rewrite He. unfold aset.
    split; [rewrite Z.eqb_refl; reflexivity |].
    split; [rewrite Z.eqb_refl; reflexivity |].
    split; [intros j Hj; destruct (Z.eqb_spec j (FindIndex st eid)); [contradiction | reflexivity] |].
    split.
    { intros j Hj Hp. rewrite Ht.
      replace ((0 <=? j) && (j <? MAX_ENTITIES)) with true
        by (symmetry; apply andb_true_iff; split; [apply Z.leb_le | apply Z.ltb_lt]; lia).
      rewrite Hp, Z.eqb_refl. reflexivity. }
    split.
    { intros j Hj. rewrite Ht.
      replace ((0 <=? j) && (j <? MAX_ENTITIES)) with true
        by (symmetry; apply andb_true_iff; split; [apply Z.leb_le | apply Z.ltb_lt]; lia).
      cbn [andb].
      destruct (Z.eqb_spec (parent (g_transforms st j)) eid) as [Hp | Hp].
      - cbn [with_parent_dirty parent]. intros Heq. apply Hval. symmetry. exact Heq.
      - exact Hp. }
    split.
    { intros j Hp. rewrite Ht.
      destruct (Z.eqb_spec (parent (g_transforms st j)) eid) as [Hp' | _]; [contradiction |].
      rewrite andb_false_r. reflexivity. }
    split; [exact Hn |].
    intros Huniq. unfold Entity_IsValid.
    match goal with
    | |- (if FindIndex ?s eid >=? 0 then 1 else 0) = 0 =>
        destruct (FindIndex_first_match s eid) as (_ & _ & Hnone');
        assert (Hr : FindIndex s eid = -1)
    end.
    { apply Hnone'. right. intros j Hj. cbn [set_entities g_entities].
      unfold aset.
      destruct (Z.eqb_spec j (FindIndex st eid)) as [-> | Hne].
      - cbn [with_id_components id]. intros Heq. apply Hval. symmetry. exact Heq.
      - intros Hj'. apply Hne. apply (Huniq j (FindIndex st eid)); [exact Hj | | exact Hj' | exact Hid].
        destruct Hrange as [Hr | Hr]; lia. }
    rewrite Hr. reflexivity.
Qed.

(** *** Iteration *)

Lemma Entity_Next_at : forall st it,
    0 <= it_index it < MAX_ENTITIES ->
    Entity_Next st it =
    if iter_match st (it_required it) (it_index it)
    then (1, {| it_index := it_index it + 1; it_required := it_required it;
                it_current := id (g_entities st (it_index it)) |})
    else Entity_Next st {| it_index := it_index it + 1; it_required := it_required it;
                           it_current := it_current it |}.
Proof.
  intros st it Hi. unfold Entity_Next at 1.
  replace (Z.to_nat (MAX_ENTITIES - it_index it))
    with (S (Z.to_nat (MAX_ENTITIES - (it_index it + 1)))) by lia.
  cbn [Entity_Next_loop it_index it_required it_current].
  unfold wrap32. rewrite Z.mod_small by (unfold MAX_ENTITIES in Hi; lia).
  unfold iter_match.
  destruct (negb (id (g_entities st (it_index it)) =? INVALID_ENTITY)
            && negb (active (g_entities st (it_index it)) =? 0)
            && (Z.land (components (g_entities st (it_index it))) (it_required it)
                =? it_required it)); reflexivity.
Qed.

Lemma Entity_Next_end : forall st it,
    MAX_ENTITIES <= it_index it ->
    Entity_Next st it =
    (0, {| it_index := it_index it; it_required := it_required it;
           it_current := INVALID_ENTITY |}).
Proof.
  intros st it Hi. unfold Entity_Next.
  replace (Z.to_nat (MAX_ENTITIES - it_index it)) with O by lia. reflexivity.
Qed.

Lemma visited_from : forall st n fuel it,
    0 <= it_index it -> it_index it + Z.of_nat n = MAX_ENTITIES ->
    (n < fuel)%nat ->
    visited fuel st it =
    map (fun i => id (g_entities st i))
        (filter (iter_match st (it_required it)) (slots (it_index it) n)).
Proof.
  intros st n. induction n as [| n IH]; intros fuel it H0 Hn Hfuel.
  - destruct fuel as [| fuel]; [lia |].
    cbn [visited slots filter map].
    rewrite Entity_Next_end by lia. reflexivity.
  - destruct fuel as [| fuel]; [lia |].
    cbn [visited slots filter].
    rewrite Entity_Next_at by lia.
    destruct (iter_match st (it_required it) (it_index it)) eqn:Hm.
    + cbn [fst snd it_current Z.eqb map]. f_equal.
      rewrite (IH fuel); cbn [it_index it_required]; [reflexivity | lia | lia | lia].
    + pose proof (IH (S fuel)
                    {| it_index := it_index it + 1; it_required := it_required it;
                       it_current := it_current it |}) as IH'.
      cbn [it_index it_required] in IH'. rewrite <- IH' by lia.
      reflexivity.
Qed.

(** The loop over [Entity_Next], started by [Entity_BeginIteration], ends
    after at most [MAX_ENTITIES + 1] calls and visits the handles of the
    live, active entities that have every required component, each slot
    once, in the order of the slots. *)
Theorem Entity_Next_visits_matching :
  forall (st : EntityState) (req : Z) (fuel : nat),
    (Z.to_nat MAX_ENTITIES < fuel)%nat ->
    visited fuel st (Entity_BeginIteration req) =
    map (fun i => id (g_entities st i))
        (filter (iter_match st req) (slots 0 (Z.to_nat MAX_ENTITIES))).
Proof.
  intros st req fuel Hfuel.
  apply (visited_from st (Z.to_nat MAX_ENTITIES) fuel (Entity_BeginIteration req)).
  - cbn [Entity_BeginIteration it_index]. lia.
  - reflexivity.
  - exact Hfuel.
Qed.

Lemma Entity_Next_visits_matching_witness :
  visited 300 entity_sample (Entity_BeginIteration COMP_TRANSFORM) = 1 :: nil.
Proof.
  rewrite (Entity_Next_visits_matching entity_sample COMP_TRANSFORM 300)
    by (vm_compute; lia).
  vm_compute. reflexivity.
Defined.

Lemma UpdateTransforms_skips_clean_witness :
  dirty (g_transforms entity_chain_moved 2) = 1 /\
  parent (g_transforms entity_chain_moved 1) = id (g_entities entity_chain_moved 2) /\
  g_transforms (Entity_UpdateTransforms cosf_at_0_1 sinf_at_0_1 entity_chain_moved) 1
  = g_transforms entity_chain_moved 1.
Proof.
  split; [vm_compute; reflexivity |]. split; [vm_compute; reflexivity |].
  apply (UpdateTransforms_skips_clean cosf_at_0_1 sinf_at_0_1 entity_chain_moved 1).
  vm_compute. reflexivity.
Defined.

End EntityFacts.

(** ** The rasterizer *)

Module RasterFacts.

(** *** 32-bit arithmetic *)

Lemma swrap32_mod : forall z, swrap32 z mod 4294967296 = z mod 4294967296.
Proof.
  intros z. unfold swrap32, wrap32.
  destruct (Z.ltb_spec (z mod 4294967296) 2147483648).
  - apply Z.mod_mod. lia.
  - rewrite Zminus_mod, Z.mod_same, Z.sub_0_r, Z.mod_mod, Z.mod_mod by lia. reflexivity.
Qed.

Lemma swrap32_eq : forall a b,
    a mod 4294967296 = b mod 4294967296 -> swrap32 a = swrap32 b.
Proof. intros a b H. unfold swrap32, wrap32. rewrite H. reflexivity. Qed.

Lemma swrap32_id : forall z, -2147483648 <= z < 2147483648 -> swrap32 z = z.
Proof.
  intros z Hz. unfold swrap32, wrap32.
  destruct (Z.ltb_spec (z mod 4294967296) 2147483648) as [Hlt | Hge].
  - destruct (Z_lt_le_dec z 0) as [Hneg | Hpos].
    + replace z with (z + 4294967296 - 1 * 4294967296) in Hlt by lia.
      rewrite Zminus_mod, Z_mod_mult, Z.sub_0_r, Z.mod_mod, Z.mod_small in Hlt by lia. lia.
    + apply Z.mod_small. lia.
  - destruct (Z_lt_le_dec z 0) as [Hneg | Hpos].
    + replace (z mod 4294967296) with (z + 4294967296); [lia |].
      replace z with (z + 4294967296 - 1 * 4294967296) at 2 by lia.
      rewrite Zminus_mod, Z_mod_mult, Z.sub_0_r, Z.mod_mod, Z.mod_small by lia. reflexivity.
    + rewrite Z.mod_small in Hge by lia. lia.
Qed.

Lemma swrap32_range : forall z, -2147483648 <= swrap32 z < 2147483648.
Proof.
  intros z. unfold swrap32, wrap32.
  pose proof (Z.mod_pos_bound z 4294967296 ltac:(lia)).
  destruct (Z.ltb_spec (z mod 4294967296) 2147483648); lia.
Qed.

Lemma wrap32_succ : forall z n, wrap32 (wrap32 z + n) = wrap32 (z + n).
Proof. intros z n. unfold wrap32. apply Zplus_mod_idemp_l. Qed.

(** [EdgeFunction] is the polynomial [(c - a)(y - b) - (d - b)(x - a)]
    modulo 2^32. *)
Lemma EdgeFunction_mod : forall a b c d x y,
    EdgeFunction a b c d x y mod 4294967296 =
    ((c - a) * (y - b) - (d - b) * (x - a)) mod 4294967296.
Proof.
  intros a b c d x y. unfold EdgeFunction.
  rewrite swrap32_mod.
  rewrite Zminus_mod, !swrap32_mod.
  rewrite (Zmult_mod (swrap32 (c - a))), (Zmult_mod (swrap32 (d - b))), !swrap32_mod.
  rewrite <- !Zmult_mod, <- Zminus_mod. reflexivity.
Qed.

Lemma EdgeFunction_eq : forall a b c d x y e,
    e mod 4294967296 = ((c - a) * (y - b) - (d - b) * (x - a)) mod 4294967296 ->
    swrap32 e = EdgeFunction a b c d x y.
Proof.
  intros a b c d x y e H.
  rewrite <- (swrap32_id (EdgeFunction a b c d x y)).
  - apply swrap32_eq. rewrite H, EdgeFunction_mod. reflexivity.
  - unfold EdgeFunction. apply swrap32_range.
Qed.

(** One step to the right adds [b - d] to the edge value, one step down
    adds [c - a]: the increments [A12], [B12], ... of
    [Rasterizer_DrawTriangle]. *)
Lemma EdgeFunction_step_x : forall a b c d x y,
    swrap32 (EdgeFunction a b c d x y + swrap32 (b - d)) = EdgeFunction a b c d (x + 1) y.
Proof.
  intros a b c d x y. apply EdgeFunction_eq.
  rewrite Zplus_mod, EdgeFunction_mod, swrap32_mod, <- Zplus_mod.
  f_equal. ring.
Qed.

Lemma EdgeFunction_step_y : forall a b c d x y,
    swrap32 (EdgeFunction a b c d x y + swrap32 (c - a)) = EdgeFunction a b c d x (y + 1).
Proof.
  intros a b c d x y. apply EdgeFunction_eq.
  rewrite Zplus_mod, EdgeFunction_mod, swrap32_mod, <- Zplus_mod.
  f_equal. ring.
Qed.

(** *** The loops as a traversal of the bounding box *)

Lemma for_loop_fold : forall (S : Type) (body : Z -> S -> S) n lo (s : S),
    for_loop n lo body s = fold_left (fun s i => body i s) (slots lo n) s.
Proof.
  intros S body n. induction n as [| n IH]; intros lo s; cbn [for_loop slots fold_left].
  - reflexivity.
  - apply IH.
Qed.

Lemma fold_left_flat_map : forall (A B S : Type) (f : S -> B -> S) (g : A -> list B) l s,
    fold_left f (flat_map g l) s = fold_left (fun s a => fold_left f (g a) s) l s.
Proof.
  intros A B S f g l. induction l as [| a l IH]; intros s; cbn [flat_map fold_left].
  - reflexivity.
  - rewrite fold_left_app. apply IH.
Qed.

Lemma fold_left_map : forall (A B S : Type) (f : S -> B -> S) (g : A -> B) l s,
    fold_left f (map g l) s = fold_left (fun s a => f s (g a)) l s.
Proof.
  intros A B S f g l. induction l as [| a l IH]; intros s; cbn [map fold_left].
  - reflexivity.
  - apply IH.
Qed.

Lemma fold_left_ext : forall (A S : Type) (f g : S -> A -> S) l s,
    (forall s a, f s a = g s a) -> fold_left f l s = fold_left g l s.
Proof.
  intros A S f g l. induction l as [| a l IH]; intros s H; cbn [fold_left].
  - reflexivity.
  - rewrite H. apply IH. exact H.
Qed.

Lemma In_slots : forall n lo x, In x (slots lo n) <-> lo <= x < lo + Z.of_nat n.
Proof.
  induction n as [| n IH]; intros lo x; cbn [slots In].
  - split; [intros [] | lia].
  - rewrite IH. split; [intros [<- | H]; lia | intros H].
    destruct (Z.eq_dec lo x) as [-> | Hne]; [left; reflexivity | right; lia].
Qed.

Lemma In_box_sites : forall minX maxX minY maxY p,
    In p (box_sites (minX, maxX, minY, maxY)) <->
    minX <= fst p <= maxX /\ minY <= snd p <= maxY.
Proof.
  intros minX maxX minY maxY [x y]. unfold box_sites. rewrite in_flat_map. cbn [fst snd].
  split.
  - intros (y' & Hy & Hin). apply in_map_iff in Hin. destruct Hin as (x' & Heq & Hx).
    inversion Heq; subst. apply In_slots in Hy. apply In_slots in Hx. lia.
  - intros H. exists y. split.
    + apply In_slots. lia.
    + apply in_map_iff. exists x. split; [reflexivity |]. apply In_slots. lia.
Qed.

(** The two loops of the solid rasterizer. *)
Lemma solid_pixel_covered : forall v0 v1 v2 color invArea y x s,
    solid_pixel v0 v1 v2 (RGB565ToColor color) invArea y x s =
    covered_pixel v0 v1 v2 invArea (solid_colour color) s (x, y).
Proof. reflexivity. Qed.

Lemma solid_loops : forall v0 v1 v2 color invArea minX maxX minY maxY s,
    for_loop (Z.to_nat (maxY - minY + 1)) minY
      (fun y s => for_loop (Z.to_nat (maxX - minX + 1)) minX
                    (solid_pixel v0 v1 v2 (RGB565ToColor color) invArea y) s) s
    = fold_left (covered_pixel v0 v1 v2 invArea (solid_colour color))
                (box_sites (minX, maxX, minY, maxY)) s.
Proof.
  intros. unfold box_sites. rewrite fold_left_flat_map, for_loop_fold.
  apply fold_left_ext. intros s' y.
  rewrite fold_left_map, for_loop_fold. apply fold_left_ext. intros s'' x.
  apply solid_pixel_covered.
Qed.

(** The inner loop of the textured rasterizer: the running edge values are
    those of the pixel. *)
Lemma textured_inner : forall v0 v1 v2 texture invArea y n x s,
    ew_w0 s = EdgeFunction (sv_x v1) (sv_y v1) (sv_x v2) (sv_y v2) x y ->
    ew_w1 s = EdgeFunction (sv_x v2) (sv_y v2) (sv_x v0) (sv_y v0) x y ->
    ew_w2 s = EdgeFunction (sv_x v0) (sv_y v0) (sv_x v1) (sv_y v1) x y ->
    let r := for_loop n x
               (textured_pixel v0 v1 v2 texture invArea
                  (swrap32 (sv_y v1 - sv_y v2)) (swrap32 (sv_y v2 - sv_y v0))
                  (swrap32 (sv_y v0 - sv_y v1)) y) s in
    (ew_dev r, ew_stats r) =
    fold_left (covered_pixel v0 v1 v2 invArea (textured_colour v0 v1 v2 texture invArea))
              (map (fun x => (x, y)) (slots x n)) (ew_dev s, ew_stats s).
Proof.
  intros v0 v1 v2 texture invArea y n.
  induction n as [| n IH]; intros x s H0 H1 H2; cbn [for_loop slots map fold_left].
  - reflexivity.
  - cbv zeta in IH. rewrite IH.
    + f_equal. unfold textured_pixel, covered_pixel, inside, pixel_call, edge_values,
        textured_colour.
      cbn [fst snd]. rewrite <- H0, <- H1, <- H2.
      destruct (Z.lor (Z.lor (ew_w0 s) (ew_w1 s)) (ew_w2 s) >=? 0); reflexivity.
    + unfold textured_pixel.
      destruct (Z.lor (Z.lor (ew_w0 s) (ew_w1 s)) (ew_w2 s) >=? 0);
        cbn [ew_w0]; rewrite H0; apply EdgeFunction_step_x.
    + unfold textured_pixel.
      destruct (Z.lor (Z.lor (ew_w0 s) (ew_w1 s)) (ew_w2 s) >=? 0);
        cbn [ew_w1]; rewrite H1; apply EdgeFunction_step_x.
    + unfold textured_pixel.
      destruct (Z.lor (Z.lor (ew_w0 s) (ew_w1 s)) (ew_w2 s) >=? 0);
        cbn [ew_w2]; rewrite H2; apply EdgeFunction_step_x.
Qed.

Lemma textured_loops : forall v0 v1 v2 texture invArea minX maxX n y s,
    ew_w0 s = EdgeFunction (sv_x v1) (sv_y v1) (sv_x v2) (sv_y v2) minX y ->
    ew_w1 s = EdgeFunction (sv_x v2) (sv_y v2) (sv_x v0) (sv_y v0) minX y ->
    ew_w2 s = EdgeFunction (sv_x v0) (sv_y v0) (sv_x v1) (sv_y v1) minX y ->
    let r := for_loop n y
               (textured_row v0 v1 v2 texture invArea
                  (swrap32 (sv_y v1 - sv_y v2)) (swrap32 (sv_y v2 - sv_y v0))
                  (swrap32 (sv_y v0 - sv_y v1))
                  (swrap32 (sv_x v2 - sv_x v1)) (swrap32 (sv_x v0 - sv_x v2))
                  (swrap32 (sv_x v1 - sv_x v0)) minX maxX) s in
    (ew_dev r, ew_stats r) =
    fold_left (covered_pixel v0 v1 v2 invArea (textured_colour v0 v1 v2 texture invArea))
              (flat_map (fun y => map (fun x => (x, y))
                                      (slots minX (Z.to_nat (maxX - minX + 1))))
                        (slots y n))
              (ew_dev s, ew_stats s).
Proof.
  intros v0 v1 v2 texture invArea minX maxX n.
  induction n as [| n IH]; intros y s H0 H1 H2; cbn [for_loop slots flat_map fold_left].
  - reflexivity.
  - cbv zeta in IH. rewrite fold_left_app. rewrite IH.
    + f_equal. unfold textured_row. cbn [ew_dev ew_stats].
      apply (textured_inner v0 v1 v2 texture invArea y _ minX s H0 H1 H2).
    + unfold textured_row. cbn [ew_w0]. rewrite H0. apply EdgeFunction_step_y.
    + unfold textured_row. cbn [ew_w1]. rewrite H1. apply EdgeFunction_step_y.
    + unfold textured_row. cbn [ew_w2]. rewrite H2. apply EdgeFunction_step_y.
Qed.

Lemma covered_pixel_in : forall v0 v1 v2 invArea colour s p,
    inside v0 v1 v2 p = true ->
    covered_pixel v0 v1 v2 invArea colour s p =
    (device_call (fst s) (pixel_call v0 v1 v2 invArea colour p), pixels_incr (snd s)).
Proof. intros. unfold covered_pixel. rewrite H. reflexivity. Qed.

Lemma covered_pixel_out : forall v0 v1 v2 invArea colour s p,
    inside v0 v1 v2 p = false -> covered_pixel v0 v1 v2 invArea colour s p = s.
Proof. intros. unfold covered_pixel. rewrite H. reflexivity. Qed.

(** The traversal puts the covered pixels, in order, and counts them. *)
Lemma covered_fold : forall v0 v1 v2 invArea colour l d t,
    0 <= pixels_drawn t < 4294967296 ->
    let r := fold_left (covered_pixel v0 v1 v2 invArea colour) l (d, t) in
    let n := length (filter (inside v0 v1 v2) l) in
    (fst r = device_calls d (rev (map (pixel_call v0 v1 v2 invArea colour)
                                      (filter (inside v0 v1 v2) l)))) /\
    (triangles_submitted (snd r) = triangles_submitted t) /\
    (triangles_culled (snd r) = triangles_culled t) /\
    (triangles_drawn (snd r) = triangles_drawn t) /\
    (pixels_drawn (snd r) = wrap32 (pixels_drawn t + Z.of_nat n)).
Proof.
  intros v0 v1 v2 invArea colour l.
  induction l as [| p l IH]; intros d t Ht; cbv zeta; [| cbv zeta in IH];
    cbn [fold_left filter].
  - cbn [map rev length Z.of_nat fst snd]. rewrite Z.add_0_r.
    unfold device_calls, wrap32. cbn [app]. rewrite Z.mod_small by exact Ht.
    destruct d; repeat split; reflexivity.
  - destruct (inside v0 v1 v2 p) eqn:Hin.
    + rewrite covered_pixel_in by exact Hin. cbn [fst snd].
      assert (Ht' : 0 <= pixels_drawn (pixels_incr t) < 4294967296)
        by (cbn [pixels_incr pixels_drawn]; unfold wrap32; apply Z.mod_pos_bound; lia).
      destruct (IH (device_call d (pixel_call v0 v1 v2 invArea colour p)) (pixels_incr t) Ht')
        as (Hd & Hs & Hc & Hdr & Hp).
      rewrite Hd, Hs, Hc, Hdr, Hp.
      split; [| split; [reflexivity | split; [reflexivity | split; [reflexivity |]]]].
      * unfold device_calls, device_call.
        cbn [renderWidth renderHeight dev_calls map rev]. rewrite <- app_assoc. reflexivity.
      * cbn [pixels_incr pixels_drawn length].
        rewrite wrap32_succ. unfold wrap32. f_equal. lia.
    + rewrite covered_pixel_out by exact Hin. apply IH. exact Ht.
Qed.

(** *** The bounding box *)

Lemma Clampi_range : forall v hi, 0 <= hi -> 0 <= Clampi v 0 hi <= hi.
Proof.
  intros v hi H. unfold Clampi.
  destruct (Z.ltb_spec v 0); [lia |]. destruct (Z.gtb_spec v hi); lia.
Qed.

Lemma Clampi_mono : forall v v' hi, 0 <= hi -> v <= v' -> Clampi v 0 hi <= Clampi v' 0 hi.
Proof.
  intros v v' hi H Hv. unfold Clampi.
  destruct (Z.ltb_spec v 0), (Z.ltb_spec v' 0), (Z.gtb_spec v hi), (Z.gtb_spec v' hi); lia.
Qed.

Lemma Min3i_le_Max3i : forall a b c, Min3i a b c <= Max3i a b c.
Proof.
  intros a b c. unfold Min3i, Max3i. cbv zeta.
  destruct (Z.ltb_spec b a), (Z.gtb_spec b a);
    repeat match goal with
           | |- context [?x <? ?y] => destruct (Z.ltb_spec x y)
           | |- context [?x >? ?y] => destruct (Z.gtb_spec x y)
           end; lia.
Qed.

Lemma box_ordered : forall d v0 v1 v2 minX maxX minY maxY,
    device_sized d ->
    bounding_box (renderWidth d) (renderHeight d) v0 v1 v2 = (minX, maxX, minY, maxY) ->
    0 <= minX <= maxX /\ maxX < renderWidth d /\
    0 <= minY <= maxY /\ maxY < renderHeight d.
Proof.
  intros d v0 v1 v2 minX maxX minY maxY [Hw Hh] Hbox.
  unfold bounding_box in Hbox.
  rewrite !(swrap32_id (renderWidth d - 1)), !(swrap32_id (renderHeight d - 1)) in Hbox by lia.
  inversion Hbox; subst; clear Hbox.
  pose proof (Min3i_le_Max3i (sv_x v0) (sv_x v1) (sv_x v2)) as Hx.
  pose proof (Min3i_le_Max3i (sv_y v0) (sv_y v1) (sv_y v2)) as Hy.
  pose proof (Clampi_range (Min3i (sv_x v0) (sv_x v1) (sv_x v2)) (renderWidth d - 1)).
  pose proof (Clampi_range (Max3i (sv_x v0) (sv_x v1) (sv_x v2)) (renderWidth d - 1)).
  pose proof (Clampi_range (Min3i (sv_y v0) (sv_y v1) (sv_y v2)) (renderHeight d - 1)).
  pose proof (Clampi_range (Max3i (sv_y v0) (sv_y v1) (sv_y v2)) (renderHeight d - 1)).
  pose proof (Clampi_mono _ _ (renderWidth d - 1) ltac:(lia) Hx).
  pose proof (Clampi_mono _ _ (renderHeight d - 1) ltac:(lia) Hy).
  lia.
Qed.

Lemma stats_drawn_eq : forall t r n,
    triangles_submitted r = wrap32 (triangles_submitted t + 1) ->
    triangles_culled r = triangles_culled t ->
    triangles_drawn r = triangles_drawn t ->
    pixels_drawn r = wrap32 (pixels_drawn t + Z.of_nat n) ->
    drawn_incr r = stats_drawn t n.
Proof.
  intros t r n Hs Hc Hd Hp. unfold drawn_incr, stats_drawn.
  rewrite Hs, Hc, Hd, Hp. reflexivity.
Qed.

(** *** The two rasterizers on a triangle of positive area *)

Lemma solid_exact : forall v0 v1 v2 color st d,
    g_device st = Some d -> device_sized d ->
    0 < area_of v0 v1 v2 ->
    0 <= pixels_drawn (g_stats st) < 4294967296 ->
    let hits := filter (inside v0 v1 v2)
                       (box_sites (bounding_box (renderWidth d) (renderHeight d) v0 v1 v2)) in
    let invArea := fdiv one (of_int (area_of v0 v1 v2)) in
    Rasterizer_DrawTriangleSolid v0 v1 v2 color st =
    {| g_device := Some (device_calls d
                           (rev (map (pixel_call v0 v1 v2 invArea (solid_colour color)) hits)));
       g_stats := stats_drawn (g_stats st) (length hits) |}.
Proof.
  intros v0 v1 v2 color st d Hd Hsz Harea Hpix hits invArea. subst hits invArea.
  unfold Rasterizer_DrawTriangleSolid. rewrite Hd. cbv zeta.
  fold (area_of v0 v1 v2).
  destruct (Z.leb_spec (area_of v0 v1 v2) 0) as [Hle | _]; [lia |].
  destruct (bounding_box (renderWidth d) (renderHeight d) v0 v1 v2)
    as [[[minX maxX] minY] maxY] eqn:Hbox.
  destruct (box_ordered d v0 v1 v2 minX maxX minY maxY Hsz Hbox) as (Hx & _ & Hy & _).
  destruct (Z.gtb_spec minX maxX) as [Hgt | _]; [lia |].
  destruct (Z.gtb_spec minY maxY) as [Hgt | _]; [lia |].
  cbn [orb]. rewrite solid_loops.
  destruct (covered_fold v0 v1 v2 (fdiv one (of_int (area_of v0 v1 v2))) (solid_colour color)
              (box_sites (minX, maxX, minY, maxY)) d (submitted_incr (g_stats st)) Hpix)
    as (Hdev & Hs & Hc & Hdr & Hp).
  rewrite Hdev. f_equal. apply stats_drawn_eq; assumption.
Qed.

Lemma textured_exact : forall v0 v1 v2 texture st d,
    g_device st = Some d -> device_sized d ->
    0 < area_of v0 v1 v2 ->
    0 <= pixels_drawn (g_stats st) < 4294967296 ->
    let hits := filter (inside v0 v1 v2)
                       (box_sites (bounding_box (renderWidth d) (renderHeight d) v0 v1 v2)) in
    let invArea := fdiv one (of_int (area_of v0 v1 v2)) in
    Rasterizer_DrawTriangle v0 v1 v2 texture st =
    {| g_device := Some (device_calls d
                           (rev (map (pixel_call v0 v1 v2 invArea
                                        (textured_colour v0 v1 v2 texture invArea)) hits)));
       g_stats := stats_drawn (g_stats st) (length hits) |}.
Proof.
  intros v0 v1 v2 texture st d Hd Hsz Harea Hpix hits invArea. subst hits invArea.
  unfold Rasterizer_DrawTriangle. rewrite Hd. cbv zeta.
  fold (area_of v0 v1 v2).
  destruct (Z.leb_spec (area_of v0 v1 v2) 0) as [Hle | _]; [lia |].
  destruct (bounding_box (renderWidth d) (renderHeight d) v0 v1 v2)
    as [[[minX maxX] minY] maxY] eqn:Hbox.
  destruct (box_ordered d v0 v1 v2 minX maxX minY maxY Hsz Hbox) as (Hx & _ & Hy & _).
  destruct (Z.gtb_spec minX maxX) as [Hgt | _]; [lia |].
  destruct (Z.gtb_spec minY maxY) as [Hgt | _]; [lia |].
  cbn [orb].
  match goal with
  | |- context [for_loop ?n minY ?body ?s0] =>
      pose proof (textured_loops v0 v1 v2 texture
                    (fdiv one (of_int (area_of v0 v1 v2))) minX maxX n minY s0
                    eq_refl eq_refl eq_refl) as Hloops;
      cbv zeta in Hloops; cbn [ew_dev ew_stats] in Hloops;
      remember (for_loop n minY body s0) as r eqn:Hr; clear Hr
  end.
  destruct (covered_fold v0 v1 v2 (fdiv one (of_int (area_of v0 v1 v2)))
              (textured_colour v0 v1 v2 texture (fdiv one (of_int (area_of v0 v1 v2))))
              (box_sites (minX, maxX, minY, maxY)) d (submitted_incr (g_stats st)) Hpix)
    as (Hdev & Hs & Hc & Hdr & Hp).
  unfold box_sites in Hdev, Hs, Hc, Hdr, Hp. rewrite <- Hloops in Hdev, Hs, Hc, Hdr, Hp.
  cbn [fst snd] in Hdev, Hs, Hc, Hdr, Hp.
  rewrite Hdev. f_equal. apply stats_drawn_eq; assumption.
Qed.

Lemma pixel_sites_app : forall a b, pixel_sites (a ++ b) = pixel_sites a ++ pixel_sites b.
Proof.
  induction a as [| c a IH]; intros b; cbn [app pixel_sites]; [reflexivity |].
  destruct c; rewrite IH; reflexivity.
Qed.

Lemma pixel_sites_calls : forall v0 v1 v2 invArea colour l,
    pixel_sites (rev (map (pixel_call v0 v1 v2 invArea colour) l)) =
    rev (map (pixel_site v0 v1 v2 invArea) l).
Proof.
  intros v0 v1 v2 invArea colour l. induction l as [| p l IH]; cbn [map rev]; [reflexivity |].
  rewrite pixel_sites_app, IH. reflexivity.
Qed.

Lemma inside_edges : forall v0 v1 v2 p,
    inside v0 v1 v2 p = true <->
    0 <= EdgeFunction (sv_x v1) (sv_y v1) (sv_x v2) (sv_y v2) (fst p) (snd p) /\
    0 <= EdgeFunction (sv_x v2) (sv_y v2) (sv_x v0) (sv_y v0) (fst p) (snd p) /\
    0 <= EdgeFunction (sv_x v0) (sv_y v0) (sv_x v1) (sv_y v1) (fst p) (snd p).
Proof.
  intros v0 v1 v2 p. unfold inside, edge_values.
  rewrite Z.geb_le, !Z.lor_nonneg. tauto.
Qed.

(** Without a device both rasterizers do nothing, not even count the
    triangle.  With a device, a triangle is counted as submitted and then
    either as culled or as drawn: it is culled exactly when its signed area
    [EdgeFunction(v0, v1, v2)] is not positive, and then the device receives
    no call; the test of the bounding box never culls a triangle on a
    device of positive size, so a triangle of positive area is counted as
    drawn even when it lies off the screen. *)
Theorem DrawTriangle_cull_rule :
  forall (v0 v1 v2 : ScreenVertex_t) (color : Z) (texture : option Texture_t)
         (st : RasterState),
    let s1 := Rasterizer_DrawTriangleSolid v0 v1 v2 color st in
    let s2 := Rasterizer_DrawTriangle v0 v1 v2 texture st in
    (g_device st = None -> s1 = st /\ s2 = st) /\
    (forall d, g_device st = Some d ->
       (area_of v0 v1 v2 <= 0 ->
          s1 = {| g_device := Some d; g_stats := culled_incr (submitted_incr (g_stats st)) |} /\
          s2 = s1) /\
       (0 < area_of v0 v1 v2 -> device_sized d ->
          0 <= pixels_drawn (g_stats st) < 4294967296 ->
          triangles_culled (g_stats s1) = triangles_culled (g_stats st) /\
          triangles_drawn (g_stats s1) = wrap32 (triangles_drawn (g_stats st) + 1) /\
          triangles_submitted (g_stats s1) = wrap32 (triangles_submitted (g_stats st) + 1) /\
          g_stats s2 = g_stats s1)).
Proof.
  intros v0 v1 v2 color texture st s1 s2. subst s1 s2. split.
  - intros Hn. unfold Rasterizer_DrawTriangleSolid, Rasterizer_DrawTriangle.
    rewrite Hn. split; reflexivity.
  - intros d Hd. split.
    + intros Hle. unfold Rasterizer_DrawTriangleSolid, Rasterizer_DrawTriangle.
      rewrite Hd. cbv zeta. fold (area_of v0 v1 v2).
      destruct (Z.leb_spec (area_of v0 v1 v2) 0) as [_ | Hgt]; [| lia].
      split; reflexivity.
    + intros Hpos Hsz Hpix.
      rewrite (solid_exact v0 v1 v2 color st d Hd Hsz Hpos Hpix).
      rewrite (textured_exact v0 v1 v2 texture st d Hd Hsz Hpos Hpix).
      cbn [g_stats stats_drawn triangles_culled triangles_drawn triangles_submitted].
      repeat split; reflexivity.
Qed.

(** [Rasterizer_DrawTriangleSolid] on a triangle of positive area puts, row
    after row of the clamped bounding box, exactly the pixels whose three
    edge values are non-negative, each with the interpolated depth and the
    colour of the call, and counts them in [pixels_drawn]; every pixel it
    puts is on the screen. *)
Theorem DrawTriangleSolid_covers :
  forall (v0 v1 v2 : ScreenVertex_t) (color : Z) (st : RasterState) (d : Device),
    g_device st = Some d -> device_sized d ->
    0 < area_of v0 v1 v2 ->
    0 <= pixels_drawn (g_stats st) < 4294967296 ->
    let hits := filter (inside v0 v1 v2)
                       (box_sites (bounding_box (renderWidth d) (renderHeight d) v0 v1 v2)) in
    let invArea := fdiv one (of_int (area_of v0 v1 v2)) in
    Rasterizer_DrawTriangleSolid v0 v1 v2 color st =
    {| g_device := Some (device_calls d
                           (rev (map (pixel_call v0 v1 v2 invArea (solid_colour color)) hits)));
       g_stats := stats_drawn (g_stats st) (length hits) |} /\
    Forall (fun p => 0 <= fst p < renderWidth d /\ 0 <= snd p < renderHeight d /\
                     0 <= EdgeFunction (sv_x v1) (sv_y v1) (sv_x v2) (sv_y v2) (fst p) (snd p) /\
                     0 <= EdgeFunction (sv_x v2) (sv_y v2) (sv_x v0) (sv_y v0) (fst p) (snd p) /\
                     0 <= EdgeFunction (sv_x v0) (sv_y v0) (sv_x v1) (sv_y v1) (fst p) (snd p))
           hits.
Proof.
  intros v0 v1 v2 color st d Hd Hsz Hpos Hpix hits invArea. split.
  - apply solid_exact; assumption.
  - subst hits. apply Forall_forall. intros p Hp.
    apply filter_In in Hp. destruct Hp as [Hbox Hin].
    destruct (bounding_box (renderWidth d) (renderHeight d) v0 v1 v2)
      as [[[minX maxX] minY] maxY] eqn:Hb.
    destruct (box_ordered d v0 v1 v2 minX maxX minY maxY Hsz Hb) as (Hx & Hxw & Hy & Hyh).
    apply In_box_sites in Hbox. apply inside_edges in Hin.
    split; [lia |]. split; [lia |]. exact Hin.
Qed.

Lemma DrawTriangleSolid_covers_witness :
  pixels_drawn (g_stats (Rasterizer_DrawTriangleSolid (sv_at 0 0) (sv_at 3 0) (sv_at 0 3)
                           63488 raster_sample)) = 10.
Proof.
  assert (Hd : g_device raster_sample =
               Some {| renderWidth := 4; renderHeight := 4; dev_calls := nil |}) by reflexivity.
  assert (Hsz : device_sized {| renderWidth := 4; renderHeight := 4; dev_calls := nil |})
    by (unfold device_sized; cbn; lia).
  assert (Hpos : 0 < area_of (sv_at 0 0) (sv_at 3 0) (sv_at 0 3)) by (vm_compute; reflexivity).
  assert (Hpix : 0 <= pixels_drawn (g_stats raster_sample) < 4294967296) by (cbn; lia).
  rewrite (proj1 (DrawTriangleSolid_covers (sv_at 0 0) (sv_at 3 0) (sv_at 0 3) 63488
                    raster_sample _ Hd Hsz Hpos Hpix)).
  vm_compute. reflexivity.
Defined.

(** [Rasterizer_DrawTriangle], which steps its edge values from pixel to
    pixel, covers the pixels of [Rasterizer_DrawTriangleSolid], which
    evaluates [EdgeFunction] at every pixel: for every texture and every
    colour the two put the same pixels with the same depths in the same
    order, and leave the same statistics. *)
Theorem DrawTriangle_same_coverage :
  forall (v0 v1 v2 : ScreenVertex_t) (color : Z) (texture : option Texture_t)
         (st : RasterState) (d : Device),
    g_device st = Some d -> device_sized d ->
    0 <= pixels_drawn (g_stats st) < 4294967296 ->
    let s1 := Rasterizer_DrawTriangleSolid v0 v1 v2 color st in
    let s2 := Rasterizer_DrawTriangle v0 v1 v2 texture st in
    g_stats s2 = g_stats s1 /\
    exists d1 d2,
      g_device s1 = Some d1 /\ g_device s2 = Some d2 /\
      pixel_sites (dev_calls d2) = pixel_sites (dev_calls d1) /\
      length (dev_calls d2) = length (dev_calls d1).
Proof.
  intros v0 v1 v2 color texture st d Hd Hsz Hpix s1 s2. subst s1 s2.
  destruct (Z_lt_le_dec 0 (area_of v0 v1 v2)) as [Hpos | Hle].
  - rewrite (solid_exact v0 v1 v2 color st d Hd Hsz Hpos Hpix).
    rewrite (textured_exact v0 v1 v2 texture st d Hd Hsz Hpos Hpix).
    cbn [g_stats g_device]. split; [reflexivity |].
    eexists. eexists. split; [reflexivity |]. split; [reflexivity |].
    unfold device_calls. cbn [dev_calls].
    rewrite !pixel_sites_app, !pixel_sites_calls, !length_app, !length_rev, !length_map.
    split; reflexivity.
  - unfold Rasterizer_DrawTriangleSolid, Rasterizer_DrawTriangle.
    rewrite Hd. cbv zeta. fold (area_of v0 v1 v2).
    destruct (Z.leb_spec (area_of v0 v1 v2) 0) as [_ | Hgt]; [| lia].
    cbn [g_stats g_device]. split; [reflexivity |].
    exists d, d. repeat split; reflexivity.
Qed.

Lemma DrawTriangle_same_coverage_witness :
  g_stats (Rasterizer_DrawTriangle (sv_at 0 0) (sv_at 3 0) (sv_at 0 3) None raster_sample) =
  g_stats (Rasterizer_DrawTriangleSolid (sv_at 0 0) (sv_at 3 0) (sv_at 0 3) 63488 raster_sample).
Proof.
  assert (Hd : g_device raster_sample =
               Some {| renderWidth := 4; renderHeight := 4; dev_calls := nil |}) by reflexivity.
  assert (Hsz : device_sized {| renderWidth := 4; renderHeight := 4; dev_calls := nil |})
    by (unfold device_sized; cbn; lia).
  assert (Hpix : 0 <= pixels_drawn (g_stats raster_sample) < 4294967296) by (cbn; lia).
  exact (proj1 (DrawTriangle_same_coverage (sv_at 0 0) (sv_at 3 0) (sv_at 0 3) 63488 None
                  raster_sample _ Hd Hsz Hpix)).
Defined.

(** *** Colours *)

Lemma forallb_slots : forall (f : Z -> bool) n lo,
    forallb f (slots lo n) = true -> forall i, lo <= i < lo + Z.of_nat n -> f i = true.
Proof.
  intros f n lo H i Hi. rewrite forallb_forall in H. apply H. apply In_slots. exact Hi.
Qed.

Lemma fields_all :
  forallb (fun R => forallb (fun G => forallb (fields_ok R G) (slots 0 32)) (slots 0 64))
          (slots 0 32) = true.
Proof. vm_compute. reflexivity. Qed.

(** Packing three fields and taking them back. *)
Lemma fields_pack : forall R G B,
    0 <= R < 32 -> 0 <= G < 64 -> 0 <= B < 32 ->
    let c := Z.lor (Z.lor (Z.shiftl R 11) (Z.shiftl G 5)) B in
    wrap16 c = c /\ c = 2048 * R + 32 * G + B /\
    red565 c = R /\ green565 c = G /\ blue565 c = B.
Proof.
  intros R G B HR HG HB c.
  pose proof (forallb_slots _ _ _ fields_all R ltac:(cbn; lia)) as H1. cbv beta in H1.
  pose proof (forallb_slots _ _ _ H1 G ltac:(cbn; lia)) as H2. cbv beta in H2.
  pose proof (forallb_slots _ _ _ H2 B ltac:(cbn; lia)) as H3.
  unfold fields_ok in H3. fold c in H3.
  rewrite !andb_true_iff, !Z.eqb_eq in H3. tauto.
Qed.

Lemma land_mask_range : forall x m, 0 <= m -> 0 <= Z.land x m <= m.
Proof.
  intros x m Hm. split; [apply Z.land_nonneg; right; exact Hm |].
  pose proof (Z.lor_ldiff_and m x) as Hsplit.
  assert (Hdis : Z.land (Z.ldiff m x) (Z.land m x) = 0).
  { apply Z.bits_inj'. intros n Hn.
    rewrite Z.land_spec, Z.ldiff_spec, Z.land_spec, Z.bits_0.
    destruct (Z.testbit m n), (Z.testbit x n); reflexivity. }
  rewrite <- Z.lxor_lor, <- Z.add_nocarry_lxor in Hsplit by exact Hdis.
  assert (0 <= Z.ldiff m x) by (apply Z.ldiff_nonneg; left; exact Hm).
  rewrite (Z.land_comm x m). lia.
Qed.

Lemma field_ranges : forall c,
    0 <= red565 c < 32 /\ 0 <= green565 c < 64 /\ 0 <= blue565 c < 32.
Proof.
  intros c. unfold red565, green565, blue565.
  pose proof (land_mask_range (Z.shiftr c 11) 31 ltac:(lia)).
  pose proof (land_mask_range (Z.shiftr c 5) 63 ltac:(lia)).
  pose proof (land_mask_range c 31 ltac:(lia)). lia.
Qed.

(** [ColorModulate] multiplies the fields of the texel and of the light and
    drops the low 5 (6 for green) bits of each product: no field of the
    result is above that of the texel, and a field of the texel that is not
    zero comes out strictly smaller, whatever the light; white light does
    not give the texel back. *)
Theorem ColorModulate_darkens :
  forall (texel light : Z),
    let m := ColorModulate texel light in
    0 <= m < 65536 /\
    red565 m = (red565 texel * red565 light) / 32 /\
    green565 m = (green565 texel * green565 light) / 64 /\
    blue565 m = (blue565 texel * blue565 light) / 32 /\
    red565 m <= red565 texel /\ green565 m <= green565 texel /\
    blue565 m <= blue565 texel /\
    (0 < red565 texel -> red565 m < red565 texel) /\
    (0 < green565 texel -> green565 m < green565 texel) /\
    (0 < blue565 texel -> blue565 m < blue565 texel).
Proof.
  intros texel light m. subst m. unfold ColorModulate. cbv zeta.
  fold (red565 texel) (green565 texel) (blue565 texel)
       (red565 light) (green565 light) (blue565 light).
  destruct (field_ranges texel) as (Htr & Htg & Htb).
  destruct (field_ranges light) as (Hlr & Hlg & Hlb).
  rewrite !Z.shiftr_div_pow2 by lia.
  change (2 ^ 5) with 32. change (2 ^ 6) with 64.
  assert (HR : 0 <= red565 texel * red565 light / 32 <= red565 texel /\
               (0 < red565 texel -> red565 texel * red565 light / 32 < red565 texel)).
  { split; [split; [apply Z.div_pos; nia | apply Z.div_le_upper_bound; nia] |].
    intros Hpos. apply Z.div_lt_upper_bound; nia. }
  assert (HG : 0 <= green565 texel * green565 light / 64 <= green565 texel /\
               (0 < green565 texel -> green565 texel * green565 light / 64 < green565 texel)).
  { split; [split; [apply Z.div_pos; nia | apply Z.div_le_upper_bound; nia] |].
    intros Hpos. apply Z.div_lt_upper_bound; nia. }
  assert (HB : 0 <= blue565 texel * blue565 light / 32 <= blue565 texel /\
               (0 < blue565 texel -> blue565 texel * blue565 light / 32 < blue565 texel)).
  { split; [split; [apply Z.div_pos; nia | apply Z.div_le_upper_bound; nia] |].
    intros Hpos. apply Z.div_lt_upper_bound; nia. }
  destruct (fields_pack (red565 texel * red565 light / 32)
                        (green565 texel * green565 light / 64)
                        (blue565 texel * blue565 light / 32)
                        ltac:(lia) ltac:(lia) ltac:(lia)) as (Hw & Hsum & Hr & Hg & Hb).
  cbv zeta in Hw, Hsum, Hr, Hg, Hb.
  rewrite Hw, Hr, Hg, Hb.
  split; [rewrite Hsum; lia |].
  repeat split; try reflexivity; tauto.
Qed.

(** [RGB565ToColor] takes the three fields of a 5-6-5 word and shifts them
    up to 8 bits, so the low 3 (2 for green) bits of every channel are
    zero and white comes out as (248, 252, 248); packing the channels with
    the macro [RGB565] gives the word back, and unpacking a packed colour
    gives its channels without their low bits. *)
Theorem RGB565_round_trip :
  (forall c, 0 <= c < 65536 ->
     RGB565 (c_r (RGB565ToColor c)) (c_g (RGB565ToColor c)) (c_b (RGB565ToColor c)) = c /\
     c_r (RGB565ToColor c) = 8 * red565 c /\
     c_g (RGB565ToColor c) = 4 * green565 c /\
     c_b (RGB565ToColor c) = 8 * blue565 c /\
     c_a (RGB565ToColor c) = 255) /\
  (forall r g b, 0 <= r < 256 -> 0 <= g < 256 -> 0 <= b < 256 ->
     0 <= RGB565 r g b < 65536 /\
     RGB565ToColor (RGB565 r g b) = MakeColor (Z.land r 248) (Z.land g 252) (Z.land b 248)).
Proof.
  split.
  - intros c Hc.
    assert (Hall : forallb (fun c =>
               (RGB565 (c_r (RGB565ToColor c)) (c_g (RGB565ToColor c)) (c_b (RGB565ToColor c))
                =? c)
               && (c_r (RGB565ToColor c) =? 8 * red565 c)
               && (c_g (RGB565ToColor c) =? 4 * green565 c)
               && (c_b (RGB565ToColor c) =? 8 * blue565 c)) (slots 0 (Z.to_nat 65536)) = true)
      by (vm_compute; reflexivity).
    pose proof (forallb_slots _ _ _ Hall c ltac:(lia)) as H. cbv beta in H.
    rewrite !andb_true_iff, !Z.eqb_eq in H.
    destruct H as [[[H1 H2] H3] H4].
    split; [exact H1 |]. split; [exact H2 |]. split; [exact H3 |]. split; [exact H4 |].
    reflexivity.
  - intros r g b Hr Hg Hb.
    assert (Hall : forallb (fun x =>
               (Z.shiftl (Z.land x 248) 8 =? Z.shiftl (x / 8) 11)
               && (Z.shiftl (Z.land x 252) 3 =? Z.shiftl (x / 4) 5)
               && (Z.shiftr x 3 =? x / 8)
               && (Z.land x 248 =? 8 * (x / 8)) && (Z.land x 252 =? 4 * (x / 4)))
               (slots 0 256) = true) by (vm_compute; reflexivity).
    pose proof (forallb_slots _ _ _ Hall r ltac:(cbn; lia)) as Hr'.
    pose proof (forallb_slots _ _ _ Hall g ltac:(cbn; lia)) as Hg'.
    pose proof (forallb_slots _ _ _ Hall b ltac:(cbn; lia)) as Hb'.
    cbv beta in Hr', Hg', Hb'.
    rewrite !andb_true_iff, !Z.eqb_eq in Hr', Hg', Hb'.
    destruct Hr' as [[[[Hr1 _] _] Hr4] _].
    destruct Hg' as [[[[_ Hg2] _] _] Hg5].
    destruct Hb' as [[[[_ _] Hb3] Hb4] _].
    assert (HR : 0 <= r / 8 < 32)
      by (split; [apply Z.div_pos; lia | apply Z.div_lt_upper_bound; lia]).
    assert (HG : 0 <= g / 4 < 64)
      by (split; [apply Z.div_pos; lia | apply Z.div_lt_upper_bound; lia]).
    assert (HB : 0 <= b / 8 < 32)
      by (split; [apply Z.div_pos; lia | apply Z.div_lt_upper_bound; lia]).
    destruct (fields_pack (r / 8) (g / 4) (b / 8) HR HG HB) as (_ & Hsum & Hfr & Hfg & Hfb).
    cbv zeta in Hsum, Hfr, Hfg, Hfb.
    unfold RGB565. rewrite Hr1, Hg2, Hb3.
    split; [rewrite Hsum; lia |].
    unfold RGB565ToColor. fold (red565 (Z.lor (Z.lor (Z.shiftl (r / 8) 11) (Z.shiftl (g / 4) 5)) (b / 8))).
    fold (green565 (Z.lor (Z.lor (Z.shiftl (r / 8) 11) (Z.shiftl (g / 4) 5)) (b / 8))).
    fold (blue565 (Z.lor (Z.lor (Z.shiftl (r / 8) 11) (Z.shiftl (g / 4) 5)) (b / 8))).
    rewrite Hfr, Hfg, Hfb, Hr4, Hg5, Hb4.
    rewrite !Z.shiftl_mul_pow2 by lia. change (2 ^ 3) with 8. change (2 ^ 2) with 4.
    f_equal; lia.
Qed.

Lemma RGB565_round_trip_witness :
  RGB565ToColor (RGB565 255 255 255) = MakeColor 248 252 248 /\
  RGB565 248 252 248 = 65535.
Proof.
  split.
  - apply (proj2 RGB565_round_trip 255 255 255); lia.
  - reflexivity.
Defined.

(** *** Texture sampling *)

(** Whatever the coordinates, NaN and infinities included, [Texture_Sample]
    reads a texel inside the [width * height] pixels of the texture, in the
    row and the column that the masks select. *)
Theorem Texture_Sample_in_bounds :
  forall (tex : Texture_t) (u v : float),
    texture_masked tex ->
    let i := Texture_Sample_index tex u v in
    0 <= i < tex_width tex * tex_height tex /\
    0 <= i mod tex_width tex <= width_mask tex /\
    0 <= i / tex_width tex <= height_mask tex.
Proof.
  intros tex u v (Hw & Hh & Hfit) i. subst i. unfold Texture_Sample_index. cbv zeta.
  set (tx := Z.land (to_int (fmul (frac01 u) (of_int (tex_width tex)))) (width_mask tex)).
  set (ty := Z.land (to_int (fmul (frac01 v) (of_int (tex_height tex)))) (height_mask tex)).
  assert (Hx : 0 <= tx <= width_mask tex) by (apply land_mask_range; lia).
  assert (Hy : 0 <= ty <= height_mask tex) by (apply land_mask_range; lia).
  assert (Hprod : 0 <= ty * tex_width tex + tx < tex_width tex * tex_height tex) by nia.
  rewrite (swrap32_id (ty * tex_width tex)) by nia.
  rewrite swrap32_id by lia.
  split; [exact Hprod |].
  rewrite Z.add_comm, Z.mod_add, Z.div_add, Z.mod_small, Z.div_small by lia.
  lia.
Qed.

Lemma Texture_Sample_in_bounds_witness :
  0 <= Texture_Sample_index texture_sample (S754_nan) (S754_infinity false) < 64 * 64.
Proof.
  assert (H : texture_masked texture_sample) by (unfold texture_masked; cbn; lia).
  exact (proj1 (Texture_Sample_in_bounds texture_sample S754_nan (S754_infinity false) H)).
Defined.

End RasterFacts.

(** ** The mesh slots and the primitives *)

Module PrimitiveFacts.

Lemma AllocMeshSlot_from_spec : forall n lo s,
    0 <= lo -> lo + Z.of_nat n <= MAX_MESHES ->
    let r := AllocMeshSlot_from n lo s in
    (r = NO_SPACE /\ forall j, lo <= j < lo + Z.of_nat n -> type (g_meshes s j) <> 0) \/
    (lo <= r < lo + Z.of_nat n /\ type (g_meshes s r) = 0 /\
     forall j, lo <= j < r -> type (g_meshes s j) <> 0).
Proof.
  induction n as [| n IH]; intros lo s Hlo Hhi; cbn [AllocMeshSlot_from].
  - left. split; [reflexivity |]. intros j Hj. lia.
  - destruct (Z.eqb_spec (type (g_meshes s lo)) 0) as [Heq | Hne].
    + right. split; [lia |]. split; [exact Heq |]. intros j Hj. lia.
    + destruct (IH (lo + 1) s ltac:(lia) ltac:(lia)) as [[Hr Hall] | (Hr & Hty & Hfirst)].
      * left. split; [exact Hr |]. intros j Hj.
        destruct (Z.eq_dec j lo) as [-> | Hjl]; [exact Hne | apply Hall; lia].
      * right. split; [lia |]. split; [exact Hty |]. intros j Hj.
        destruct (Z.eq_dec j lo) as [-> | Hjl]; [exact Hne | apply Hfirst; lia].
Qed.

(** [AllocMeshSlot] returns the first slot whose [type] is 0, and
    0xFFFFFFFF exactly when the 64 slots are taken; it claims nothing: the
    slot is taken by the store to [type] of its caller. *)
Theorem AllocMeshSlot_first_free :
  forall (s : MeshState),
    let r := AllocMeshSlot s in
    (r = NO_SPACE /\ forall j, 0 <= j < MAX_MESHES -> type (g_meshes s j) <> 0) \/
    (0 <= r < MAX_MESHES /\ type (g_meshes s r) = 0 /\
     forall j, 0 <= j < r -> type (g_meshes s j) <> 0).
Proof.
  intros s. unfold AllocMeshSlot.
  apply (AllocMeshSlot_from_spec (Z.to_nat MAX_MESHES) 0 s); unfold MAX_MESHES; lia.
Qed.

Lemma write_list_outside : forall (T : Type) (l : list T) a start j,
    j < start \/ start + Z.of_nat (length l) <= j -> write_list a start l j = a j.
Proof.
  intros T l. induction l as [| x l IH]; intros a start j Hj; cbn [write_list].
  - reflexivity.
  - cbn [length] in Hj. rewrite IH by lia. unfold aset.
    destruct (Z.eqb_spec j start); [lia | reflexivity].
Qed.

Lemma write_list_read : forall (T : Type) (d : T) (l : list T) a start k,
    (k < length l)%nat -> write_list a start l (start + Z.of_nat k) = nth k l d.
Proof.
  intros T d l. induction l as [| x l IH]; intros a start k Hk; cbn [write_list].
  - cbn in Hk. lia.
  - destruct k as [| k].
    + rewrite write_list_outside by lia. unfold aset. cbn [Z.of_nat nth].
      rewrite Z.add_0_r, Z.eqb_refl. reflexivity.
    + cbn [length] in Hk. cbn [nth].
      replace (start + Z.of_nat (S k)) with (start + 1 + Z.of_nat k) by lia.
      apply IH. lia.
Qed.

Lemma map_slots_read : forall (T : Type) (d : T) (l : list T) a start,
    map (fun k => write_list a start l (start + k)) (slots 0 (length l)) = l.
Proof.
  intros T d l a start.
  apply (nth_ext _ _ d d).
  - rewrite length_map.
    assert (H : forall n lo, length (slots lo n) = n)
      by (induction n; intros; cbn [slots length]; [reflexivity | f_equal; auto]).
    apply H.
  - intros n Hn. rewrite length_map in Hn.
    assert (Hlen : forall n lo, length (slots lo n) = n)
      by (induction n0; intros; cbn [slots length]; [reflexivity | f_equal; auto]).
    rewrite Hlen in Hn.
    assert (Hnth : forall m lo k, (k < m)%nat -> nth k (slots lo m) 0 = lo + Z.of_nat k).
    { induction m as [| m IHm]; intros lo k Hk; [lia |].
      destruct k as [| k]; cbn [slots nth]; [lia |].
      rewrite IHm by lia. lia. }
    rewrite (nth_indep _ _ (write_list a start l (start + 0)))
      by (rewrite length_map, Hlen; exact Hn).
    rewrite (map_nth (fun k => write_list a start l (start + k))).
    rewrite Hnth by exact Hn. cbn [Z.add]. apply write_list_read. exact Hn.
Qed.

Lemma wrap32_small : forall z, 0 <= z < 4294967296 -> wrap32 z = z.
Proof. intros z Hz. unfold wrap32. apply Z.mod_small. exact Hz. Qed.

Lemma wrap16_small : forall z, 0 <= z < 65536 -> wrap16 z = z.
Proof. intros z Hz. unfold wrap16. apply Z.mod_small. exact Hz. Qed.

Lemma aset_same : forall (T : Type) (a : array T) i v, aset a i v i = v.
Proof. intros. unfold aset. rewrite Z.eqb_refl. reflexivity. Qed.

(** The state after the two allocations of a primitive that both succeed. *)
Lemma primitive_allocs : forall nv ni s,
    0 <= nv -> 0 <= ni ->
    0 <= g_vertex_used s -> g_vertex_used s + nv <= MAX_TOTAL_VERTICES ->
    0 <= g_index_used s -> g_index_used s + ni <= MAX_TOTAL_INDICES ->
    AllocVertices nv s = (g_vertex_used s, set_vertex_used s (g_vertex_used s + nv)) /\
    AllocIndices ni (set_vertex_used s (g_vertex_used s + nv)) =
      (g_index_used s,
       set_index_used (set_vertex_used s (g_vertex_used s + nv)) (g_index_used s + ni)).
Proof.
  intros nv ni s Hnv Hni Hv0 Hv Hi0 Hi.
  unfold AllocVertices, AllocIndices. cbn [set_vertex_used g_index_used].
  unfold MAX_TOTAL_VERTICES, MAX_TOTAL_INDICES in *.
  rewrite !wrap32_small by lia.
  destruct (Z.gtb_spec (g_vertex_used s + nv) 40960); [lia |].
  destruct (Z.gtb_spec (g_index_used s + ni) 81920); [lia |].
  split; reflexivity.
Qed.

(** [Mesh_CreateCube] with a free slot and room in both pools: it returns
    the first free slot, now a static mesh of 24 vertices and 36 indices
    placed at the former fill levels of the pools, which advance by 24 and
    36; the 36 indices are those of the table, all below 24; nothing that
    was in the pools before and no other slot is written.  The descriptor
    keeps its starts in 16 bits: the indices are found through it when the
    index pool was below 65536, and 65536 entries too low otherwise. *)
Theorem Mesh_CreateCube_builds :
  forall (size : float) (s : MeshState),
    AllocMeshSlot s <> NO_SPACE ->
    0 <= g_vertex_used s -> g_vertex_used s + 24 <= MAX_TOTAL_VERTICES ->
    0 <= g_index_used s -> g_index_used s + 36 <= MAX_TOTAL_INDICES ->
    let slot := fst (Mesh_CreateCube size s) in
    let s' := snd (Mesh_CreateCube size s) in
    slot = AllocMeshSlot s /\ 0 <= slot < MAX_MESHES /\
    Mesh_Get slot s' = Some (g_meshes s' slot) /\
    type (g_meshes s' slot) = 1 /\
    vertex_start (stat (g_meshes s' slot)) = g_vertex_used s /\
    vertex_count (stat (g_meshes s' slot)) = 24 /\
    index_start (stat (g_meshes s' slot)) = wrap16 (g_index_used s) /\
    index_count (stat (g_meshes s' slot)) = 36 /\
    g_vertex_used s' = g_vertex_used s + 24 /\
    g_index_used s' = g_index_used s + 36 /\
    map (fun k => g_index_pool s' (g_index_used s + k)) (slots 0 36) = cube_indices /\
    Forall (fun i => 0 <= i < 24) cube_indices /\
    (forall j, j < g_vertex_used s -> g_vertex_pool s' j = g_vertex_pool s j) /\
    (forall j, j < g_index_used s -> g_index_pool s' j = g_index_pool s j) /\
    (forall j, j <> slot -> g_meshes s' j = g_meshes s j) /\
    (g_index_used s < 65536 -> static_indices (g_meshes s' slot) s' = cube_indices) /\
    (65536 <= g_index_used s ->
       index_start (stat (g_meshes s' slot)) = g_index_used s - 65536).
Proof.
  intros size s Hslot Hv0 Hv Hi0 Hi slot s'. subst slot s'.
  destruct (AllocMeshSlot_first_free s) as [[Hno _] | (Hr & Hfree & _)]; [contradiction |].
  destruct (primitive_allocs 24 36 s ltac:(lia) ltac:(lia) Hv0 Hv Hi0 Hi) as [HA HB].
  unfold Mesh_CreateCube.
  destruct (Z.eqb_spec (AllocMeshSlot s) NO_SPACE) as [| _]; [contradiction |].
  rewrite HA, HB.
  unfold MAX_TOTAL_VERTICES, MAX_TOTAL_INDICES, NO_SPACE in *.
  destruct (Z.eqb_spec (g_vertex_used s) 4294967295) as [|_]; [lia |].
  destruct (Z.eqb_spec (g_index_used s) 4294967295) as [|_]; [lia |].
  cbn [orb fst snd]. cbv zeta. unfold fill_static_slot, Mesh_Get.
  cbn [set_meshes set_index_pool set_vertex_pool set_index_used set_vertex_used
       g_meshes g_vertex_pool g_index_pool g_vertex_used g_index_used].
  rewrite !aset_same.
  cbn [type stat vertex_start vertex_count index_start index_count].
  change (wrap16 24) with 24. change (wrap16 36) with 36.
  split; [reflexivity |]. split; [exact Hr |].
  split.
  { destruct (Z.geb_spec (AllocMeshSlot s) MAX_MESHES); [lia |]. reflexivity. }
  split; [reflexivity |].
  split; [apply wrap16_small; lia |].
  split; [reflexivity |]. split; [reflexivity |]. split; [reflexivity |].
  split; [reflexivity |]. split; [reflexivity |].
  split; [apply (map_slots_read Z 0 cube_indices) |].
  split; [repeat constructor; lia |].
  split; [intros j Hj; apply write_list_outside; left; exact Hj |].
  split; [intros j Hj; apply write_list_outside; left; exact Hj |].
  split.
  { intros j Hj. unfold aset.
    destruct (Z.eqb_spec j (AllocMeshSlot s)); [contradiction | reflexivity]. }
  split.
  - intros Hlow. unfold static_indices.
    cbn [stat index_start index_count]. rewrite (wrap16_small (g_index_used s)) by lia.
    apply (map_slots_read Z 0 cube_indices).
  - intros Hhigh. unfold wrap16.
    replace (g_index_used s) with (g_index_used s - 65536 + 1 * 65536) at 1 by lia.
    rewrite Z.mod_add by lia. apply Z.mod_small. lia.
Qed.

Lemma Mesh_CreateCube_builds_witness :
  let s' := snd (Mesh_CreateCube one mesh_late) in
  fst (Mesh_CreateCube one mesh_late) = 0 /\
  g_index_used s' = 65572 /\
  index_start (stat (g_meshes s' 0)) = 0.
Proof.
  assert (H1 : AllocMeshSlot mesh_late <> NO_SPACE) by (vm_compute; discriminate).
  assert (H2 : 0 <= g_vertex_used mesh_late) by (vm_compute; discriminate).
  assert (H3 : g_vertex_used mesh_late + 24 <= MAX_TOTAL_VERTICES) by (vm_compute; discriminate).
  assert (H4 : 0 <= g_index_used mesh_late) by (vm_compute; discriminate).
  assert (H5 : g_index_used mesh_late + 36 <= MAX_TOTAL_INDICES) by (vm_compute; discriminate).
  destruct (Mesh_CreateCube_builds one mesh_late H1 H2 H3 H4 H5)
    as (Hs & _ & _ & _ & _ & _ & _ & _ & _ & Hu & _ & _ & _ & _ & _ & _ & Hhigh).
  split; [exact Hs |]. split; [exact Hu |].
  apply Hhigh. vm_compute. discriminate.
Defined.

(** A creation that fails still keeps what it took.  Without a free slot
    [Mesh_CreateCube] changes nothing.  With a free slot it calls both
    allocators before it looks at their results: when one pool has room and
    the other has not, it returns 0xFFFFFFFF, writes no slot and no pool
    entry, and the pool that had room stays advanced by 24 vertices or by
    36 indices. *)
Theorem Mesh_CreateCube_failure :
  forall (size : float) (s : MeshState),
    0 <= g_vertex_used s <= MAX_TOTAL_VERTICES ->
    0 <= g_index_used s <= MAX_TOTAL_INDICES ->
    let r := Mesh_CreateCube size s in
    (AllocMeshSlot s = NO_SPACE -> r = (NO_SPACE, s)) /\
    (AllocMeshSlot s <> NO_SPACE ->
       (MAX_TOTAL_VERTICES < g_vertex_used s + 24 ->
        MAX_TOTAL_INDICES < g_index_used s + 36 -> r = (NO_SPACE, s)) /\
       (g_vertex_used s + 24 <= MAX_TOTAL_VERTICES ->
        MAX_TOTAL_INDICES < g_index_used s + 36 ->
        r = (NO_SPACE, set_vertex_used s (g_vertex_used s + 24))) /\
       (MAX_TOTAL_VERTICES < g_vertex_used s + 24 ->
        g_index_used s + 36 <= MAX_TOTAL_INDICES ->
        r = (NO_SPACE, set_index_used s (g_index_used s + 36)))).
Proof.
  intros size s Hv Hi r. subst r. unfold Mesh_CreateCube. split.
  - intros Hno. rewrite Hno. reflexivity.
  - intros Hslot.
    destruct (Z.eqb_spec (AllocMeshSlot s) NO_SPACE) as [| _]; [contradiction |].
    unfold AllocVertices, AllocIndices, MAX_TOTAL_VERTICES, MAX_TOTAL_INDICES, NO_SPACE in *.
    rewrite (wrap32_small (g_vertex_used s + 24)) by lia.
    split; [| split].
    + intros Hvfull Hifull.
      destruct (Z.gtb_spec (g_vertex_used s + 24) 40960); [| lia].
      rewrite (wrap32_small (g_index_used s + 36)) by lia.
      destruct (Z.gtb_spec (g_index_used s + 36) 81920); [| lia].
      reflexivity.
    + intros Hvfit Hifull.
      destruct (Z.gtb_spec (g_vertex_used s + 24) 40960); [lia |].
      cbn [set_vertex_used g_index_used].
      rewrite (wrap32_small (g_index_used s + 36)) by lia.
      destruct (Z.gtb_spec (g_index_used s + 36) 81920); [| lia].
      rewrite Z.eqb_refl, orb_true_r. reflexivity.
    + intros Hvfull Hifit.
      destruct (Z.gtb_spec (g_vertex_used s + 24) 40960); [| lia].
      rewrite (wrap32_small (g_index_used s + 36)) by lia.
      destruct (Z.gtb_spec (g_index_used s + 36) 81920); [lia |].
      rewrite Z.eqb_refl. reflexivity.
Qed.

Lemma Mesh_CreateCube_failure_witness :
  fst (Mesh_CreateCube one (set_index_used mesh_startup 81900)) = NO_SPACE /\
  g_vertex_used (snd (Mesh_CreateCube one (set_index_used mesh_startup 81900))) = 24.
Proof.
  assert (Hv : 0 <= g_vertex_used (set_index_used mesh_startup 81900) <= MAX_TOTAL_VERTICES)
    by (vm_compute; split; discriminate).
  assert (Hi : 0 <= g_index_used (set_index_used mesh_startup 81900) <= MAX_TOTAL_INDICES)
    by (vm_compute; split; discriminate).
  destruct (Mesh_CreateCube_failure one (set_index_used mesh_startup 81900) Hv Hi)
    as (_ & Hfail).
  destruct (Hfail ltac:(vm_compute; discriminate)) as (_ & Hleak & _).
  rewrite Hleak; [split; reflexivity | vm_compute; discriminate | vm_compute; reflexivity].
Defined.

(** [Mesh_CreatePlane] with a free slot and room in both pools: the first
    free slot becomes a static mesh of 4 vertices and the 6 indices
    0,2,1, 0,3,2 at the former fill levels of the pools, which advance by 4
    and 6; the vertices lie in the plane y = 0 with the normal (0,1,0);
    nothing that was in the pools before and no other slot is written. *)
Theorem Mesh_CreatePlane_builds :
  forall (w h : float) (s : MeshState),
    AllocMeshSlot s <> NO_SPACE ->
    0 <= g_vertex_used s -> g_vertex_used s + 4 <= MAX_TOTAL_VERTICES ->
    0 <= g_index_used s -> g_index_used s + 6 <= MAX_TOTAL_INDICES ->
    let slot := fst (Mesh_CreatePlane w h s) in
    let s' := snd (Mesh_CreatePlane w h s) in
    slot = AllocMeshSlot s /\ 0 <= slot < MAX_MESHES /\
    Mesh_Get slot s' = Some (g_meshes s' slot) /\
    type (g_meshes s' slot) = 1 /\
    vertex_start (stat (g_meshes s' slot)) = g_vertex_used s /\
    vertex_count (stat (g_meshes s' slot)) = 4 /\
    index_start (stat (g_meshes s' slot)) = wrap16 (g_index_used s) /\
    index_count (stat (g_meshes s' slot)) = 6 /\
    g_vertex_used s' = g_vertex_used s + 4 /\
    g_index_used s' = g_index_used s + 6 /\
    map (fun k => g_index_pool s' (g_index_used s + k)) (slots 0 6) = [0; 2; 1; 0; 3; 2] /\
    (forall k, 0 <= k < 4 ->
       v3_y (position (g_vertex_pool s' (g_vertex_used s + k))) = of_int 0 /\
       normal (g_vertex_pool s' (g_vertex_used s + k)) = MakeVec3 (of_int 0) (of_int 1) (of_int 0)) /\
    (forall j, j < g_vertex_used s -> g_vertex_pool s' j = g_vertex_pool s j) /\
    (forall j, j < g_index_used s -> g_index_pool s' j = g_index_pool s j) /\
    (forall j, j <> slot -> g_meshes s' j = g_meshes s j).
Proof.
  intros w h s Hslot Hv0 Hv Hi0 Hi slot s'. subst slot s'.
  destruct (AllocMeshSlot_first_free s) as [[Hno _] | (Hr & Hfree & _)]; [contradiction |].
  destruct (primitive_allocs 4 6 s ltac:(lia) ltac:(lia) Hv0 Hv Hi0 Hi) as [HA HB].
  unfold Mesh_CreatePlane.
  destruct (Z.eqb_spec (AllocMeshSlot s) NO_SPACE) as [| _]; [contradiction |].
  rewrite HA, HB.
  unfold MAX_TOTAL_VERTICES, MAX_TOTAL_INDICES, NO_SPACE in *.
  destruct (Z.eqb_spec (g_vertex_used s) 4294967295) as [|_]; [lia |].
  destruct (Z.eqb_spec (g_index_used s) 4294967295) as [|_]; [lia |].
  cbn [orb fst snd]. cbv zeta. unfold fill_static_slot, Mesh_Get.
  cbn [set_meshes set_index_pool set_vertex_pool set_index_used set_vertex_used
       g_meshes g_vertex_pool g_index_pool g_vertex_used g_index_used].
  rewrite !aset_same.
  cbn [type stat vertex_start vertex_count index_start index_count].
  change (wrap16 4) with 4. change (wrap16 6) with 6.
  split; [reflexivity |]. split; [exact Hr |].
  split.
  { destruct (Z.geb_spec (AllocMeshSlot s) MAX_MESHES); [lia |]. reflexivity. }
  split; [reflexivity |].
  split; [apply wrap16_small; lia |].
  split; [reflexivity |]. split; [reflexivity |]. split; [reflexivity |].
  split; [reflexivity |]. split; [reflexivity |].
  split; [apply (map_slots_read Z 0 plane_indices) |].
  split.
  { intros k Hk.
    assert (Hcase : k = 0 \/ k = 1 \/ k = 2 \/ k = 3) by lia.
    replace k with (Z.of_nat (Z.to_nat k)) by lia.
    rewrite (write_list_read Vertex_t zero_Vertex) by (cbn [plane_vertices length]; lia).
    destruct Hcase as [-> | [-> | [-> | ->]]]; split; reflexivity. }
  split; [intros j Hj; apply write_list_outside; left; exact Hj |].
  split; [intros j Hj; apply write_list_outside; left; exact Hj |].
  intros j Hj. unfold aset.
  destruct (Z.eqb_spec j (AllocMeshSlot s)); [contradiction | reflexivity].
Qed.

Lemma Mesh_CreatePlane_builds_witness :
  fst (Mesh_CreatePlane (of_int 10) (of_int 10) mesh_startup) = 0 /\
  g_vertex_used (snd (Mesh_CreatePlane (of_int 10) (of_int 10) mesh_startup)) = 4.
Proof.
  assert (H1 : AllocMeshSlot mesh_startup <> NO_SPACE) by (vm_compute; discriminate).
  assert (H2 : 0 <= g_vertex_used mesh_startup) by (vm_compute; discriminate).
  assert (H3 : g_vertex_used mesh_startup + 4 <= MAX_TOTAL_VERTICES) by (vm_compute; discriminate).
  assert (H4 : 0 <= g_index_used mesh_startup) by (vm_compute; discriminate).
  assert (H5 : g_index_used mesh_startup + 6 <= MAX_TOTAL_INDICES) by (vm_compute; discriminate).
  destruct (Mesh_CreatePlane_builds (of_int 10) (of_int 10) mesh_startup H1 H2 H3 H4 H5)
    as (Hs & _ & _ & _ & _ & _ & _ & _ & Hu & _).
  split; [exact Hs | exact Hu].
Defined.

(** [Mesh_Free] only clears the [type] of the slot: [Mesh_Get] no longer
    finds the mesh and [AllocMeshSlot] can hand the slot out again, but the
    fill levels of the five pools stay where they were, so the vertices
    and indices of a freed mesh are never given back; an id of 64 or more
    is ignored. *)
Theorem Mesh_Free_keeps_pools :
  forall (id : Z) (s : MeshState),
    0 <= id ->
    let s' := Mesh_Free id s in
    (forall p, used p s' = used p s) /\
    (forall j, j <> id -> g_meshes s' j = g_meshes s j) /\
    (MAX_MESHES <= id -> s' = s) /\
    (id < MAX_MESHES ->
       Mesh_Get id s' = None /\
       0 <= AllocMeshSlot s' <= id /\
       stat (g_meshes s' id) = stat (g_meshes s id)).
Proof.
  intros id s Hid s'. subst s'. unfold Mesh_Free.
  destruct (Z.ltb_spec id MAX_MESHES) as [Hlt | Hge].
  - split; [intros p; destruct p; reflexivity |].
    split.
    { intros j Hj. cbn [set_meshes g_meshes]. unfold aset.
      destruct (Z.eqb_spec j id); [contradiction | reflexivity]. }
    split; [intros Hge; lia |].
    intros _.
    assert (Hty : type (g_meshes (set_meshes s (aset (g_meshes s) id
                                                  (set_type (g_meshes s id) 0))) id) = 0)
      by (cbn [set_meshes g_meshes]; rewrite aset_same; reflexivity).
    split.
    { unfold Mesh_Get. rewrite Hty. rewrite orb_true_r. reflexivity. }
    split.
    { match goal with
      | |- 0 <= AllocMeshSlot ?t <= id =>
          destruct (AllocMeshSlot_first_free t) as [[_ Hall] | (Hr & _ & Hfirst)]
      end.
      - exfalso. apply (Hall id); [lia | exact Hty].
      - split; [lia |].
        match goal with
        | |- ?r <= id => destruct (Z_le_gt_dec r id) as [Hle | Hgt]; [exact Hle |]
        end.
        exfalso. apply (Hfirst id); [lia | exact Hty]. }
    cbn [set_meshes g_meshes]. rewrite aset_same. reflexivity.
  - split; [reflexivity |]. split; [reflexivity |]. split; [reflexivity |]. intros H. lia.
Qed.

Lemma Mesh_Free_keeps_pools_witness :
  let s := snd (Mesh_CreateCube one mesh_startup) in
  Mesh_Get 0 (Mesh_Free 0 s) = None /\ g_vertex_used (Mesh_Free 0 s) = 24.
Proof.
  intros s.
  destruct (Mesh_Free_keeps_pools 0 s ltac:(lia)) as (Hu & _ & _ & Hf).
  split.
  - apply Hf. reflexivity.
  - change (used VertexPool (Mesh_Free 0 s) = 24).
    rewrite (Hu VertexPool). vm_compute. reflexivity.
Defined.

End PrimitiveFacts.

(** ** The vertex transform stage and the mesh renderer *)

Module RenderFacts.

(** *** Comparisons and NaN *)

Lemma SFcompare_antisym : forall x y,
    SFcompare y x = match SFcompare x y with
                    | Some c => Some (CompOpp c)
                    | None => None
                    end.
Proof.
  intros x y.
  destruct x as [sx | sx | | sx mx ex], y as [sy | sy | | sy my ey]; cbn;
    try reflexivity;
    try (destruct sx; reflexivity); try (destruct sy; reflexivity);
    try (destruct sx, sy; reflexivity).
  destruct sx, sy; try reflexivity.
  - rewrite (Z.compare_antisym ey ex).
    destruct (ey ?= ex); cbn [CompOpp]; try reflexivity.
    do 2 f_equal. symmetry. exact (Pos.compare_cont_antisym mx my Eq).
  - rewrite (Z.compare_antisym ey ex).
    destruct (ey ?= ex); cbn [CompOpp]; try reflexivity.
    f_equal. symmetry. exact (Pos.compare_cont_antisym mx my Eq).
Qed.

(** [!(x < y)] for two numbers is [y <= x]; with a NaN every comparison is
    false. *)
Lemma not_lt_ge : forall x y,
    flt x y = false -> is_nan x = true \/ is_nan y = true \/ fle y x = true.
Proof.
  intros x y H. unfold flt, fle, SFltb, SFleb in *.
  rewrite (SFcompare_antisym x y).
  destruct (SFcompare x y) as [[| |] |] eqn:Hc; cbn [CompOpp]; try discriminate.
  - right; right; reflexivity.
  - right; right; reflexivity.
  - destruct x, y; cbn in Hc; try discriminate; auto.
Qed.

Lemma not_le_gt : forall x y,
    fle x y = false -> is_nan x = true \/ is_nan y = true \/ flt y x = true.
Proof.
  intros x y H. unfold flt, fle, SFltb, SFleb in *.
  rewrite (SFcompare_antisym x y).
  destruct (SFcompare x y) as [[| |] |] eqn:Hc; cbn [CompOpp]; try discriminate.
  - right; right; reflexivity.
  - destruct x, y; cbn in Hc; try discriminate; auto.
Qed.

Lemma fmul_nan_l : forall y, fmul S754_nan y = S754_nan.
Proof. intros y. destruct y; reflexivity. Qed.

Lemma fmul_nan_r : forall x, fmul x S754_nan = S754_nan.
Proof. intros x. destruct x; reflexivity. Qed.

Lemma fadd_nan_l : forall y, fadd S754_nan y = S754_nan.
Proof. intros y. destruct y; reflexivity. Qed.

Lemma fadd_nan_r : forall x, fadd x S754_nan = S754_nan.
Proof. intros x. destruct x; reflexivity. Qed.

Lemma fsub_nan_r : forall x, fsub x S754_nan = S754_nan.
Proof. intros x. destruct x; reflexivity. Qed.

Lemma cmp_nan : forall c,
    fle c S754_nan = false /\ fle S754_nan c = false /\
    flt c S754_nan = false /\ flt S754_nan c = false.
Proof. intros c. destruct c; repeat split; reflexivity. Qed.

(** *** [TransformVertex] *)

Lemma Some_inj : forall (A : Type) (x y : A), Some x = Some y -> x = y.
Proof. intros A x y H. injection H as H. exact H. Qed.

Lemma grey_levels :
  forallb (fun i => wrap16 (RGB565 (swrap32 (i * 8)) (swrap32 (i * 8)) (swrap32 (i * 8)))
                    =? 2113 * i) (slots 0 32) = true.
Proof. vm_compute. reflexivity. Qed.

Lemma light_intensity_range : forall v, 0 <= light_intensity v <= 31.
Proof.
  intros v. unfold light_intensity. cbv zeta.
  match goal with
  | |- context [to_int ?x] => generalize (to_int x); intros t
  end.
  destruct (Z.gtb_spec t 31).
  - destruct (Z.ltb_spec 31 0); lia.
  - destruct (Z.ltb_spec t 0); lia.
Qed.

(** [TransformVertex] returns 0 exactly when one of its eight comparisons
    holds, in the arithmetic of [float]: view z >= -0.1, clip w <= 0.0001,
    x or y of the normalised coordinates below -1.5 or above 1.5, depth
    below 0 or above 1.  When it returns 1 the output carries the depth,
    [1/w] and the texture coordinates, and a grey level
    [2113 * intensity] with an intensity from 0 to 31; the view z is below
    -0.1 and the depth is between 0 and 1 unless they are NaN, which no
    comparison rejects. *)
Theorem TransformVertex_rejects_exactly :
  forall (cam : CameraState) (v : Vertex_t) (model : Mat4),
    let vp := view_pos_of cam v model in
    let cp := clip_pos_of cam v model in
    let n := ndc_of cam v model in
    (TransformVertex cam v model = None <->
       fge (v4_z vp) (fneg (lit 1 10)) = true \/ fle (v4_w cp) (lit 1 10000) = true \/
       flt (v3_x n) (fneg (lit 15 10)) = true \/ fgt (v3_x n) (lit 15 10) = true \/
       flt (v3_y n) (fneg (lit 15 10)) = true \/ fgt (v3_y n) (lit 15 10) = true \/
       flt (v3_z n) zero = true \/ fgt (v3_z n) one = true) /\
    (forall out, TransformVertex cam v model = Some out ->
       sv_z out = v3_z n /\ sv_w_inv out = fdiv one (v4_w cp) /\
       sv_u out = v2_x (texcoord v) /\ sv_v out = v2_y (texcoord v) /\
       sv_color out = 2113 * light_intensity v /\ 0 <= light_intensity v <= 31 /\
       (is_nan (v4_z vp) = true \/ flt (v4_z vp) (fneg (lit 1 10)) = true) /\
       (is_nan (v3_z n) = true \/ (fle zero (v3_z n) = true /\ fle (v3_z n) one = true))).
Proof.
  intros cam v model vp cp n. subst vp cp n.
  unfold TransformVertex, ndc_of, clip_pos_of. cbv zeta. cbn [v3_x v3_y v3_z].
  set (vp := view_pos_of cam v model).
  set (cp := Mat4_MultiplyVec4 (g_proj_matrix cam) vp).
  set (iw := fdiv one (v4_w cp)).
  destruct (fge (v4_z vp) (fneg (lit 1 10))) eqn:H1.
  { split; [split; [intros _; left; reflexivity | reflexivity] | intros out H; discriminate]. }
  destruct (fle (v4_w cp) (lit 1 10000)) eqn:H2.
  { split; [split; [intros _; right; left; reflexivity | reflexivity]
           | intros out H; discriminate]. }
  destruct (flt (fmul (v4_x cp) iw) (fneg (lit 15 10))) eqn:H3.
  { split; [split; [intros _; do 2 right; left; reflexivity | reflexivity]
           | intros out H; discriminate]. }
  destruct (fgt (fmul (v4_x cp) iw) (lit 15 10)) eqn:H4.
  { split; [split; [intros _; do 3 right; left; reflexivity | reflexivity]
           | intros out H; discriminate]. }
  destruct (flt (fmul (v4_y cp) iw) (fneg (lit 15 10))) eqn:H5.
  { split; [split; [intros _; do 4 right; left; reflexivity | reflexivity]
           | intros out H; discriminate]. }
  destruct (fgt (fmul (v4_y cp) iw) (lit 15 10)) eqn:H6.
  { split; [split; [intros _; do 5 right; left; reflexivity | reflexivity]
           | intros out H; discriminate]. }
  destruct (flt (fmul (v4_z cp) iw) zero) eqn:H7.
  { split; [split; [intros _; do 6 right; left; reflexivity | reflexivity]
           | intros out H; discriminate]. }
  destruct (fgt (fmul (v4_z cp) iw) one) eqn:H8.
  { split; [split; [intros _; do 7 right; reflexivity | reflexivity]
           | intros out H; discriminate]. }
  cbn [orb]. split.
  - split; [intros H; discriminate |].
    intros [H | [H | [H | [H | [H | [H | [H | H]]]]]]]; discriminate.
  - intros out Hout. apply Some_inj in Hout. subst out.
    cbn [sv_z sv_w_inv sv_u sv_v sv_color].
    pose proof (light_intensity_range v) as Hli.
    split; [reflexivity |]. split; [reflexivity |]. split; [reflexivity |].
    split; [reflexivity |].
    split.
    { pose proof (forallb_forall (fun i => wrap16 (RGB565 (swrap32 (i * 8)) (swrap32 (i * 8))
                                                     (swrap32 (i * 8))) =? 2113 * i)
                    (slots 0 32)) as [Hall _].
      specialize (Hall grey_levels (light_intensity v)).
      apply Z.eqb_eq. apply Hall. apply RasterFacts.In_slots. cbn. lia. }
    split; [exact Hli |].
    split.
    + unfold fge in H1. destruct (not_le_gt _ _ H1) as [Hn | [Hn | Hlt]].
      * discriminate.
      * left. exact Hn.
      * right. exact Hlt.
    + destruct (not_lt_ge _ _ H7) as [Hn | [Hn | Hge]]; [left; exact Hn | discriminate |].
      unfold fgt in H8. destruct (not_lt_ge _ _ H8) as [Hn | [Hn | Hle]];
        [discriminate | left; exact Hn |].
      right. split; assumption.
Qed.

Lemma MultiplyVec4_nan : forall m v,
    is_nan (v4_x v) = true ->
    Mat4_MultiplyVec4 m v = MakeVec4 S754_nan S754_nan S754_nan S754_nan.
Proof.
  intros m v H. unfold Mat4_MultiplyVec4.
  destruct (v4_x v); try discriminate.
  rewrite !fmul_nan_r, !fadd_nan_l. reflexivity.
Qed.

(** A vertex whose x coordinate is NaN is never rejected, whatever the
    matrices: every comparison of [TransformVertex] is false on a NaN.  The
    vertex comes out with a NaN depth and with both screen coordinates
    equal to the result of [(int32_t)NaN], INT_MIN here. *)
Theorem TransformVertex_accepts_nan :
  forall (cam : CameraState) (v : Vertex_t) (model : Mat4),
    is_nan (v3_x (position v)) = true ->
    exists out,
      TransformVertex cam v model = Some out /\
      sv_x out = -2147483648 /\ sv_y out = -2147483648 /\ is_nan (sv_z out) = true.
Proof.
  intros cam v model Hnan.
  assert (Hvp : view_pos_of cam v model = MakeVec4 S754_nan S754_nan S754_nan S754_nan).
  { unfold view_pos_of. cbv zeta.
    rewrite (MultiplyVec4_nan model) by exact Hnan.
    apply MultiplyVec4_nan. reflexivity. }
  unfold TransformVertex. cbv zeta. rewrite Hvp.
  rewrite (MultiplyVec4_nan (g_proj_matrix cam)) by reflexivity.
  cbn [v4_x v4_y v4_z v4_w]. rewrite !fmul_nan_l.
  unfold fge, fgt.
  destruct (cmp_nan (fneg (lit 1 10))) as (E1 & _ & _ & _).
  destruct (cmp_nan (lit 1 10000)) as (_ & E2 & _ & _).
  destruct (cmp_nan (fneg (lit 15 10))) as (_ & _ & _ & E3).
  destruct (cmp_nan (lit 15 10)) as (_ & _ & E4 & _).
  destruct (cmp_nan zero) as (_ & _ & _ & E5).
  destruct (cmp_nan one) as (_ & _ & E6 & _).
  unfold fle, flt in *.
  rewrite E1, E2, E3, E4, E5, E6. cbn [orb].
  eexists. split; [reflexivity |]. cbn [sv_x sv_y sv_z].
  repeat split; reflexivity.
Qed.

Lemma TransformVertex_accepts_nan_witness :
  exists out,
    TransformVertex camera_sample (vertex_at S754_nan zero zero) Mat4_Identity = Some out /\
    sv_x out = -2147483648.
Proof.
  destruct (TransformVertex_accepts_nan camera_sample (vertex_at S754_nan zero zero)
              Mat4_Identity eq_refl) as (out & H & Hx & _).
  exists out. split; [exact H | exact Hx].
Defined.

(** The vertex with view z = 0.05 is rejected; the one at z = -2 on the
    axis is accepted in the middle of the screen. *)
Lemma TransformVertex_rejects_exactly_witness :
  TransformVertex camera_sample (vertex_at zero zero (lit 5 100)) Mat4_Identity = None /\
  exists out,
    TransformVertex camera_sample (vertex_at zero zero (of_int (-2))) Mat4_Identity = Some out /\
    sv_x out = 620 /\ sv_y out = 340 /\ sv_color out = 2113 * 31.
Proof.
  split.
  - apply (proj1 (TransformVertex_rejects_exactly camera_sample
                    (vertex_at zero zero (lit 5 100)) Mat4_Identity)).
    left. vm_compute. reflexivity.
  - eexists. split; [vm_compute; reflexivity |]. repeat split; reflexivity.
Defined.

(** *** [RenderStaticMesh] *)

(** The cross product of the back-face test of the renderer is the signed
    area that the rasterizer tests. *)
Lemma screen_cross_area : forall sv0 sv1 sv2 c,
    area_of (with_color sv0 c) (with_color sv1 c) (with_color sv2 c) = screen_cross sv0 sv1 sv2.
Proof. reflexivity. Qed.

Lemma rendered_start : forall d c rs,
    g_device rs = Some d -> stats_typed (g_stats rs) ->
    rendered d c (g_stats rs) rs nil 0.
Proof.
  intros d c rs Hd (Hs & Hc & Hdr & Hp). unfold rendered.
  split; [rewrite Hd; destruct d; reflexivity |].
  split; [constructor |].
  cbn [length Z.of_nat]. rewrite !Z.add_0_r.
  rewrite !PrimitiveFacts.wrap32_small by assumption.
  destruct (g_stats rs); reflexivity.
Qed.

Lemma rendered_draw : forall d color t0 rs new n sv0 sv1 sv2,
    device_sized d ->
    rendered d (RGB565ToColor color) t0 rs new n ->
    0 < area_of sv0 sv1 sv2 ->
    exists new' ,
      rendered d (RGB565ToColor color) t0
               (Rasterizer_DrawTriangleSolid sv0 sv1 sv2 color rs) new' (S n).
Proof.
  intros d color t0 rs new n sv0 sv1 sv2 Hsz (Hd & Hall & Hst) Hpos.
  assert (Hsz' : device_sized (device_calls d new)) by exact Hsz.
  assert (Hpix : 0 <= pixels_drawn (g_stats rs) < 4294967296).
  { rewrite Hst. cbn [pixels_drawn]. unfold wrap32. apply Z.mod_pos_bound. lia. }
  pose proof (RasterFacts.solid_exact sv0 sv1 sv2 color rs (device_calls d new)
                Hd Hsz' Hpos Hpix) as Hex.
  cbv zeta in Hex. cbn [device_calls renderWidth renderHeight] in Hex.
  set (hits := filter (inside sv0 sv1 sv2)
                      (box_sites (bounding_box (renderWidth d) (renderHeight d) sv0 sv1 sv2)))
    in *.
  exists (rev (map (pixel_call sv0 sv1 sv2 (fdiv one (of_int (area_of sv0 sv1 sv2)))
                               (solid_colour color)) hits) ++ new).
  unfold rendered. rewrite Hex. cbn [g_device g_stats].
  split; [unfold device_calls; cbn [renderWidth renderHeight dev_calls];
          rewrite app_assoc; reflexivity |].
  split.
  - apply Forall_app. split; [| exact Hall].
    apply Forall_rev. apply Forall_map. apply Forall_forall. intros p Hp.
    subst hits. apply filter_In in Hp. destruct Hp as [Hbox _].
    destruct (bounding_box (renderWidth d) (renderHeight d) sv0 sv1 sv2)
      as [[[minX maxX] minY] maxY] eqn:Hb.
    destruct (RasterFacts.box_ordered d sv0 sv1 sv2 minX maxX minY maxY Hsz Hb)
      as (Hx & Hxw & Hy & Hyh).
    apply RasterFacts.In_box_sites in Hbox.
    unfold pixel_call, edge_values, on_screen, solid_colour.
    split; [lia |]. split; [lia | reflexivity].
  - rewrite Hst. unfold stats_drawn.
    cbn [triangles_submitted triangles_culled triangles_drawn pixels_drawn].
    rewrite !RasterFacts.wrap32_succ.
    rewrite length_app, length_rev, length_map.
    f_equal; unfold wrap32; f_equal; lia.
Qed.

Lemma static_triangle_rendered : forall cam ms verts indices model color i d t0 rs new n,
    device_sized d ->
    rendered d (RGB565ToColor color) t0 rs new n ->
    exists new' n',
      rendered d (RGB565ToColor color) t0
               (static_triangle cam ms verts indices model color i rs) new' n'.
Proof.
  intros cam ms verts indices model color i d t0 rs new n Hsz Hr.
  unfold static_triangle.
  destruct (TransformVertex cam _ model) as [sv0 |]; [| exists new, n; exact Hr].
  destruct (TransformVertex cam _ model) as [sv1 |]; [| exists new, n; exact Hr].
  destruct (TransformVertex cam _ model) as [sv2 |]; [| exists new, n; exact Hr].
  destruct (Z.leb_spec (screen_cross sv0 sv1 sv2) 0) as [Hle | Hpos];
    [exists new, n; exact Hr |].
  rewrite <- (screen_cross_area sv0 sv1 sv2 color) in Hpos.
  destruct (rendered_draw d color t0 rs new n _ _ _ Hsz Hr Hpos) as (new' & Hr').
  exists new', (S n). exact Hr'.
Qed.

(** [RenderStaticMesh] on a device of positive size: every triangle it
    submits is drawn, since the rasterizer tests the very cross product
    that the renderer has found positive: [triangles_culled] does not move
    and [triangles_submitted] and [triangles_drawn] grow by the same
    number; the device receives [PutPixel] calls only, all of them on the
    screen and in the colour of the mesh, and [pixels_drawn] grows by
    their number. *)
Theorem RenderStaticMesh_draws :
  forall (cam : CameraState) (ms : MeshState) (mesh_id : Z) (model : Mat4) (color : Z)
         (rs : RasterState) (d : Device),
    g_device rs = Some d -> device_sized d -> stats_typed (g_stats rs) ->
    let rs' := RenderStaticMesh cam ms mesh_id model color rs in
    exists (new : list DeviceCall) (n : nat),
      g_device rs' = Some (device_calls d new) /\
      Forall (on_screen d (RGB565ToColor color)) new /\
      triangles_culled (g_stats rs') = triangles_culled (g_stats rs) /\
      triangles_submitted (g_stats rs') =
        wrap32 (triangles_submitted (g_stats rs) + Z.of_nat n) /\
      triangles_drawn (g_stats rs') = wrap32 (triangles_drawn (g_stats rs) + Z.of_nat n) /\
      pixels_drawn (g_stats rs') =
        wrap32 (pixels_drawn (g_stats rs) + Z.of_nat (length new)).
Proof.
  intros cam ms mesh_id model color rs d Hd Hsz Hty rs'.
  assert (H : exists new n, rendered d (RGB565ToColor color) (g_stats rs) rs' new n).
  { subst rs'. unfold RenderStaticMesh.
    pose proof (rendered_start d (RGB565ToColor color) rs Hd Hty) as H0.
    destruct (Mesh_Get mesh_id ms) as [mesh |]; [| exists nil, O; exact H0].
    destruct (negb (type mesh =? 1)); [exists nil, O; exact H0 |].
    destruct (Mesh_GetVertexPtr (vertex_start (stat mesh))) as [verts |];
      [| exists nil, O; exact H0].
    destruct (Mesh_GetIndexPtr (index_start (stat mesh))) as [indices |];
      [| exists nil, O; exact H0].
    destruct (index_count (stat mesh) =? 0); [exists nil, O; exact H0 |].
    apply (for_loop_inv RasterState
             (fun r => exists new n, rendered d (RGB565ToColor color) (g_stats rs) r new n)).
    - intros k r (new & n & Hr).
      apply (static_triangle_rendered cam ms verts indices model color (3 * k) d
               (g_stats rs) r new n Hsz Hr).
    - exists nil, O. exact H0. }
  destruct H as (new & n & Hdev & Hall & Hst).
  exists new, n. rewrite Hst.
  cbn [triangles_culled triangles_submitted triangles_drawn pixels_drawn].
  repeat split; assumption || reflexivity.
Qed.

Lemma RenderStaticMesh_draws_witness :
  exists new n,
    g_device (RenderStaticMesh camera_sample cube_sample 0
                (Mat4_Translation zero zero (of_int (-3))) 63488 screen_sample)
    = Some (device_calls {| renderWidth := 1240; renderHeight := 680; dev_calls := nil |} new) /\
    triangles_culled (g_stats (RenderStaticMesh camera_sample cube_sample 0
                (Mat4_Translation zero zero (of_int (-3))) 63488 screen_sample)) = 0 /\
    triangles_drawn (g_stats (RenderStaticMesh camera_sample cube_sample 0
                (Mat4_Translation zero zero (of_int (-3))) 63488 screen_sample))
    = wrap32 (0 + Z.of_nat n).
Proof.
  assert (Hd : g_device screen_sample =
               Some {| renderWidth := 1240; renderHeight := 680; dev_calls := nil |})
    by reflexivity.
  assert (Hsz : device_sized {| renderWidth := 1240; renderHeight := 680; dev_calls := nil |})
    by (unfold device_sized; cbn; lia).
  assert (Hty : stats_typed (g_stats screen_sample))
    by (unfold stats_typed; cbn; lia).
  destruct (RenderStaticMesh_draws camera_sample cube_sample 0
              (Mat4_Translation zero zero (of_int (-3))) 63488 screen_sample _ Hd Hsz Hty)
    as (new & n & H1 & _ & H3 & _ & H5 & _).
  exists new, n. split; [exact H1 |]. split; [exact H3 | exact H5].
Defined.

(** A triangle is handed to the rasterizer only if its three vertices pass
    [TransformVertex]: when every triangle of the mesh has a rejected
    vertex, [RenderStaticMesh] leaves the rasterizer, statistics included,
    as it was; and so it does for a mesh that [Mesh_Get] does not find or
    that is not static. *)
Theorem RenderStaticMesh_needs_three_vertices :
  forall (cam : CameraState) (ms : MeshState) (mesh_id : Z) (model : Mat4) (color : Z)
         (rs : RasterState),
    let rs' := RenderStaticMesh cam ms mesh_id model color rs in
    (Mesh_Get mesh_id ms = None -> rs' = rs) /\
    (forall mesh, Mesh_Get mesh_id ms = Some mesh ->
       (type mesh <> 1 -> rs' = rs) /\
       ((forall k, 0 <= k -> 3 * k < index_count (stat mesh) ->
           exists j, 0 <= j < 3 /\
             TransformVertex cam
               (g_vertex_pool ms (vertex_start (stat mesh)
                                  + g_index_pool ms (index_start (stat mesh) + (3 * k + j))))
               model = None) ->
        rs' = rs)).
Proof.
  intros cam ms mesh_id model color rs rs'. subst rs'. unfold RenderStaticMesh. split.
  - intros Hn. rewrite Hn. reflexivity.
  - intros mesh Hm. rewrite Hm. split.
    + intros Hty. destruct (Z.eqb_spec (type mesh) 1); [contradiction | reflexivity].
    + intros Hrej.
      destruct (negb (type mesh =? 1)); [reflexivity |].
      unfold Mesh_GetVertexPtr, Mesh_GetIndexPtr.
      destruct (vertex_start (stat mesh) <? MAX_TOTAL_VERTICES); [| reflexivity].
      destruct (index_start (stat mesh) <? MAX_TOTAL_INDICES); [| reflexivity].
      destruct (index_count (stat mesh) =? 0); [reflexivity |].
      assert (Hloop : forall n lo r,
                 0 <= lo -> 3 * (lo + Z.of_nat n) <= index_count (stat mesh) + 2 ->
                 for_loop n lo
                   (fun k r0 => static_triangle cam ms (vertex_start (stat mesh))
                                  (index_start (stat mesh)) model color (3 * k) r0) r = r).
      { induction n as [| n IH]; intros lo r Hlo Hhi; cbn [for_loop]; [reflexivity |].
        rewrite IH by lia.
        destruct (Hrej lo Hlo ltac:(lia)) as (j & Hj & Hnone).
        unfold static_triangle.
        assert (Hcase : j = 0 \/ j = 1 \/ j = 2) by lia.
        destruct Hcase as [-> | [-> | ->]].
        - rewrite Hnone. reflexivity.
        - rewrite Hnone.
          repeat first [reflexivity | discriminate | destruct (TransformVertex cam _ model)].
        - rewrite Hnone.
          repeat first [reflexivity | discriminate | destruct (TransformVertex cam _ model)]. }
      assert (H3 : 3 * ((index_count (stat mesh) + 2) / 3) <= index_count (stat mesh) + 2)
        by (apply Z.mul_div_le; lia).
      destruct (Z_lt_le_dec ((index_count (stat mesh) + 2) / 3) 0) as [Hneg | Hpos].
      * replace (Z.to_nat ((index_count (stat mesh) + 2) / 3)) with O by lia. reflexivity.
      * apply Hloop; lia.
Qed.

End RenderFacts.

(** ** The OBJ loader *)

Module ObjFacts.

(** *** The lines of the file *)

Lemma read_line_ptr : forall fuel d size ptr len acc,
    ptr <= snd (read_line fuel d size ptr len acc).
Proof.
  induction fuel as [| fuel IH]; intros d size ptr len acc; cbn [read_line snd]; [lia |].
  destruct ((ptr <? size) && negb (byte_at d ptr =? 10) && negb (byte_at d ptr =? 13)
            && (len <? 254)); cbn [snd]; [| lia].
  specialize (IH d size (ptr + 1) (len + 1) (byte_at d ptr :: acc)). lia.
Qed.

Lemma read_line_stuck : forall fuel d size ptr acc,
    ptr < size ->
    snd (read_line (S fuel) d size ptr 0 acc) = ptr ->
    byte_at d ptr = 10 \/ byte_at d ptr = 13.
Proof.
  intros fuel d size ptr acc Hlt H. cbn [read_line] in H.
  destruct (Z.ltb_spec ptr size); [| lia].
  destruct (Z.eqb_spec (byte_at d ptr) 10) as [E10 | N10]; [left; exact E10 |].
  destruct (Z.eqb_spec (byte_at d ptr) 13) as [E13 | N13]; [right; exact E13 |].
  cbn [andb negb Z.ltb Z.compare] in H.
  pose proof (read_line_ptr fuel d size (ptr + 1) (0 + 1) (byte_at d ptr :: acc)). lia.
Qed.

Lemma skip_eol_ge : forall fuel d size ptr, ptr <= skip_eol fuel d size ptr.
Proof.
  induction fuel as [| fuel IH]; intros d size ptr; cbn [skip_eol]; [lia |].
  destruct ((ptr <? size) && ((byte_at d ptr =? 10) || (byte_at d ptr =? 13))); [| lia].
  specialize (IH d size (ptr + 1)). lia.
Qed.

Lemma skip_eol_moves : forall fuel d size ptr,
    ptr < size -> byte_at d ptr = 10 \/ byte_at d ptr = 13 ->
    ptr < skip_eol (S fuel) d size ptr.
Proof.
  intros fuel d size ptr Hlt Hc. cbn [skip_eol].
  destruct (Z.ltb_spec ptr size); [| lia].
  replace ((byte_at d ptr =? 10) || (byte_at d ptr =? 13)) with true
    by (symmetry; apply orb_true_iff; destruct Hc as [-> | ->]; [left | right]; reflexivity).
  cbn [andb]. pose proof (skip_eol_ge fuel d size (ptr + 1)). lia.
Qed.

(** Every turn of the outer loop moves [ptr] forward. *)
Lemma line_progress : forall d size ptr,
    ptr < size ->
    ptr < skip_eol (Z.to_nat (size - snd (read_line 254 d size ptr 0 nil))) d size
                   (snd (read_line 254 d size ptr 0 nil)).
Proof.
  intros d size ptr Hlt.
  pose proof (read_line_ptr 254 d size ptr 0 nil) as Hge.
  destruct (Z.eq_dec (snd (read_line 254 d size ptr 0 nil)) ptr) as [Heq | Hne].
  - pose proof (read_line_stuck 253 d size ptr nil Hlt Heq) as Hc.
    rewrite Heq.
    replace (Z.to_nat (size - ptr)) with (S (Z.to_nat (size - ptr - 1))) by lia.
    apply skip_eol_moves; assumption.
  - pose proof (skip_eol_ge (Z.to_nat (size - snd (read_line 254 d size ptr 0 nil))) d size
                  (snd (read_line 254 d size ptr 0 nil))). lia.
Qed.

(** [size - ptr] turns are enough: more fuel gives the same lines. *)
Lemma obj_lines_enough : forall fuel k d size ptr,
    size - ptr <= Z.of_nat fuel ->
    obj_lines (fuel + k) d size ptr = obj_lines fuel d size ptr.
Proof.
  induction fuel as [| fuel IH]; intros k d size ptr Hf.
  - destruct k as [| k]; [reflexivity |]. cbn [Nat.add obj_lines].
    destruct (Z.ltb_spec ptr size); [lia | reflexivity].
  - cbn [Nat.add obj_lines].
    destruct (Z.ltb_spec ptr size) as [Hlt | Hge]; [| reflexivity].
    pose proof (line_progress d size ptr Hlt) as Hp.
    destruct (read_line 254 d size ptr 0 nil) as [acc p1]. cbn [snd] in Hp.
    f_equal. apply IH. lia.
Qed.

Lemma obj_lines_length : forall fuel d size ptr,
    (length (obj_lines fuel d size ptr) <= fuel)%nat.
Proof.
  induction fuel as [| fuel IH]; intros d size ptr; cbn [obj_lines length]; [lia |].
  destruct (ptr <? size); cbn [length]; [| lia].
  destruct (read_line 254 d size ptr 0 nil) as [acc p1]. cbn [length].
  specialize (IH d size (skip_eol (Z.to_nat (size - p1)) d size p1)). lia.
Qed.

(** *** The faces *)

Section Faces.

Variable strtod : list Z -> float * nat.
Variable strtol : list Z -> Z * nat.

Lemma face_corners_length : forall n lp, (length (face_corners strtol n lp) <= n)%nat.
Proof.
  induction n as [| n IH]; intros lp; cbn [face_corners length]; [lia |].
  destruct (char_at lp 0 =? 0); cbn [length]; [lia |].
  destruct (ParseFaceIdx strtol lp) as [[[v vt] vn] lp'].
  destruct (v =? 0); cbn [length]; [lia |].
  specialize (IH lp'). lia.
Qed.

Lemma face_count_fold : forall lines n,
    0 <= n -> n + Z.of_nat (length lines) < 4294967296 ->
    fold_left (fun n line => if is_face_line line then wrap32 (n + 1) else n) lines n
    = n + Z.of_nat (length (filter is_face_line lines)).
Proof.
  induction lines as [| line lines IH]; intros n Hn Hb; cbn [fold_left filter length].
  - lia.
  - cbn [length] in Hb. destruct (is_face_line line); cbn [length].
    + rewrite PrimitiveFacts.wrap32_small by lia. rewrite IH by lia. lia.
    + rewrite IH by lia. lia.
Qed.

Lemma face_indices_app : forall l1 l2 base,
    face_indices base (l1 ++ l2) =
    face_indices base l1 ++ face_indices (base + face_vertex_total l1) l2.
Proof.
  induction l1 as [| fc l1 IH]; intros l2 base; cbn [app face_indices face_vertex_total].
  - rewrite Z.add_0_r. reflexivity.
  - destruct (fc <? 3).
    + rewrite IH. rewrite Z.add_0_l. reflexivity.
    + rewrite IH, Z.add_assoc. cbn [app]. do 3 f_equal.
      rewrite app_assoc. reflexivity.
Qed.

Lemma face_vertex_total_app : forall l1 l2,
    face_vertex_total (l1 ++ l2) = face_vertex_total l1 + face_vertex_total l2.
Proof.
  induction l1 as [| fc l1 IH]; intros l2; cbn [app face_vertex_total]; [lia |].
  rewrite IH. lia.
Qed.

Lemma face_indices_length_base : forall l b b',
    length (face_indices b l) = length (face_indices b' l).
Proof.
  induction l as [| fc l IH]; intros b b'; cbn [face_indices]; [reflexivity |].
  destruct (fc <? 3); [apply IH |].
  rewrite !length_app. rewrite (IH (b + fc) (b' + fc)).
  destruct (fc =? 4); reflexivity.
Qed.

Lemma face_index_total_app : forall l1 l2,
    face_index_total (l1 ++ l2) = face_index_total l1 + face_index_total l2.
Proof.
  intros l1 l2. unfold face_index_total.
  rewrite face_indices_app, length_app.
  rewrite (face_indices_length_base l2 (0 + face_vertex_total l1) 0). lia.
Qed.

Lemma totals_bounds : forall l,
    Forall (fun fc => 0 <= fc <= 4) l ->
    0 <= face_vertex_total l <= 4 * Z.of_nat (length l) /\
    0 <= face_index_total l <= 6 * Z.of_nat (length l).
Proof.
  induction l as [| fc l IH]; intros H.
  - unfold face_index_total. cbn. lia.
  - inversion H as [| x y Hfc Hl]; subst.
    destruct (IH Hl) as [Hv Hi].
    change (fc :: l) with ([fc] ++ l).
    rewrite face_vertex_total_app, face_index_total_app, length_app.
    assert (Hone : 0 <= face_index_total [fc] <= 6).
    { unfold face_index_total. cbn [face_indices].
      destruct (fc <? 3); [cbn; lia |]. destruct (fc =? 4); cbn; lia. }
    cbn [face_vertex_total length].
    destruct (Z.ltb_spec fc 3); lia.
Qed.

(** *** The writes of the third pass *)

Lemma write_list_app : forall (T : Type) (l1 l2 : list T) a start,
    write_list a start (l1 ++ l2) =
    write_list (write_list a start l1) (start + Z.of_nat (length l1)) l2.
Proof.
  intros T l1. induction l1 as [| x l1 IH]; intros l2 a start; cbn [app write_list length].
  - rewrite Z.add_0_r. reflexivity.
  - rewrite IH. f_equal. lia.
Qed.

Lemma write_list_ext : forall (T : Type) (l : list T) a b start,
    (forall j, a j = b j) -> forall j, write_list a start l j = write_list b start l j.
Proof.
  intros T l. induction l as [| x l IH]; intros a b start H j; cbn [write_list].
  - apply H.
  - apply IH. intros k. unfold aset. destruct (k =? start); [reflexivity | apply H].
Qed.

Lemma wrap16_wrap32 : forall x, wrap16 (wrap32 x) = wrap16 x.
Proof.
  intros x. unfold wrap16, wrap32.
  rewrite (Z.div_mod x 4294967296) at 2 by lia.
  replace (4294967296 * (x / 4294967296) + x mod 4294967296)
    with (x mod 4294967296 + (65536 * (x / 4294967296)) * 65536) by lia.
  rewrite Z.mod_add by lia. reflexivity.
Qed.

(** The vertices of a face, pushed one after the other. *)
Lemma push_vertices : forall v_start vs o,
    0 <= v_count o -> v_count o + Z.of_nat (length vs) < 4294967296 ->
    let o' := fold_left (fun o v => push_vertex v_start v o) vs o in
    v_count o' = v_count o + Z.of_nat (length vs) /\
    i_count o' = i_count o /\
    g_index_pool (ob_mesh o') = g_index_pool (ob_mesh o) /\
    g_meshes (ob_mesh o') = g_meshes (ob_mesh o) /\
    g_vertex_pool (ob_mesh o') =
      write_list (g_vertex_pool (ob_mesh o)) (v_start + v_count o) vs.
Proof.
  intros v_start vs. induction vs as [| v vs IH]; intros o H0 Hb; cbv zeta;
    cbn [fold_left length write_list].
  - cbn [Z.of_nat]. rewrite Z.add_0_r. repeat split; reflexivity.
  - cbn [length] in Hb.
    assert (Hw : wrap32 (v_count o + 1) = v_count o + 1)
      by (apply PrimitiveFacts.wrap32_small; lia).
    destruct (IH (push_vertex v_start v o)) as (Hv & Hi & Hx & Hm & Hp).
    + cbn [push_vertex v_count]. lia.
    + cbn [push_vertex v_count]. lia.
    + cbv zeta in Hv, Hi, Hx, Hm, Hp.
      rewrite Hv, Hi, Hx, Hm, Hp.
      cbn [push_vertex v_count i_count ob_mesh set_vertex_pool g_index_pool g_meshes
           g_vertex_pool].
      rewrite Hw.
      split; [lia |]. split; [reflexivity |]. split; [reflexivity |]. split; [reflexivity |].
      f_equal. lia.
Qed.

Lemma push_indices : forall i_start xs o,
    0 <= i_count o -> i_count o + Z.of_nat (length xs) < 4294967296 ->
    let o' := fold_left (fun o x => push_index i_start x o) xs o in
    v_count o' = v_count o /\
    i_count o' = i_count o + Z.of_nat (length xs) /\
    g_vertex_pool (ob_mesh o') = g_vertex_pool (ob_mesh o) /\
    g_meshes (ob_mesh o') = g_meshes (ob_mesh o) /\
    g_index_pool (ob_mesh o') =
      write_list (g_index_pool (ob_mesh o)) (i_start + i_count o) (map wrap16 xs).
Proof.
  intros i_start xs. induction xs as [| x xs IH]; intros o H0 Hb; cbv zeta;
    cbn [fold_left length write_list map].
  - cbn [Z.of_nat]. rewrite Z.add_0_r. repeat split; reflexivity.
  - cbn [length] in Hb.
    assert (Hw : wrap32 (i_count o + 1) = i_count o + 1)
      by (apply PrimitiveFacts.wrap32_small; lia).
    destruct (IH (push_index i_start x o)) as (Hv & Hi & Hx & Hm & Hp).
    + cbn [push_index i_count]. lia.
    + cbn [push_index i_count]. lia.
    + cbv zeta in Hv, Hi, Hx, Hm, Hp.
      rewrite Hv, Hi, Hx, Hm, Hp.
      cbn [push_index v_count i_count ob_mesh set_index_pool g_index_pool g_meshes
           g_vertex_pool].
      rewrite Hw.
      split; [reflexivity |]. split; [lia |]. split; [reflexivity |]. split; [reflexivity |].
      f_equal. lia.
Qed.

Lemma pushed_indices_wrap16 : forall base fc,
    3 <= fc ->
    map wrap16 (pushed_indices base fc) = face_indices base [fc].
Proof.
  intros base fc Hfc. unfold pushed_indices. cbn [face_indices].
  destruct (Z.ltb_spec fc 3); [lia |].
  rewrite map_app. cbn [map app]. rewrite !wrap16_wrap32.
  destruct (fc =? 4); cbn [map app]; rewrite ?wrap16_wrap32; reflexivity.
Qed.

Lemma emit_face_pushes : forall c v_start i_start max_verts max_indices cs o,
    3 <= corner_count cs ->
    wrap32 (v_count o + corner_count cs) <= max_verts ->
    wrap32 (i_count o + 6) <= max_indices ->
    emit_face c v_start i_start max_verts max_indices cs o =
    fold_left (fun o x => push_index i_start x o)
              (pushed_indices (v_count o) (corner_count cs))
              (fold_left (fun o v => push_vertex v_start v o) (map (corner_vertex c) cs) o).
Proof.
  intros c v_start i_start max_verts max_indices cs o H3 Hv Hi.
  unfold emit_face. fold (corner_count cs).
  destruct (Z.geb_spec (corner_count cs) 3); [| lia].
  destruct (Z.leb_spec (wrap32 (v_count o + corner_count cs)) max_verts); [| lia].
  destruct (Z.leb_spec (wrap32 (i_count o + 6)) max_indices); [| lia].
  cbn [andb]. cbv zeta. rewrite RasterFacts.fold_left_map.
  unfold pushed_indices. destruct (corner_count cs =? 4); reflexivity.
Qed.

Lemma emit_face_skips : forall c v_start i_start max_verts max_indices cs o,
    corner_count cs < 3 ->
    emit_face c v_start i_start max_verts max_indices cs o = o.
Proof.
  intros c v_start i_start max_verts max_indices cs o H3.
  unfold emit_face. fold (corner_count cs).
  destruct (Z.geb_spec (corner_count cs) 3); [lia | reflexivity].
Qed.

Lemma emit_face_built : forall c s v_start i_start max_verts max_indices done cs o,
    obj_built c s v_start i_start done o ->
    0 <= v_count o -> 0 <= i_count o ->
    corner_count cs <= 4 ->
    v_count o + 4 <= max_verts -> i_count o + 6 <= max_indices ->
    max_verts < 4294967296 -> max_indices < 4294967296 ->
    obj_built c s v_start i_start (done ++ [cs])
              (emit_face c v_start i_start max_verts max_indices cs o).
Proof.
  intros c s v_start i_start max_verts max_indices done cs o
         [Hvc Hic Hidx Hvtx Hm] Hv0 Hi0 Hfc Hvroom Hiroom Hmv Hmi.
  assert (Hcc : 0 <= corner_count cs) by (unfold corner_count; lia).
  destruct (Z_lt_le_dec (corner_count cs) 3) as [Hlt | Hge].
  - rewrite emit_face_skips by exact Hlt.
    assert (Hltb : (corner_count cs <? 3) = true) by (apply Z.ltb_lt; exact Hlt).
    constructor.
    + rewrite map_app, face_vertex_total_app. cbn [map face_vertex_total].
      rewrite Hltb. lia.
    + rewrite map_app, face_index_total_app. cbn [map].
      unfold face_index_total at 2. cbn [face_indices]. rewrite Hltb. cbn. lia.
    + intros j. rewrite map_app, face_indices_app. cbn [map face_indices].
      rewrite Hltb, app_nil_r. apply Hidx.
    + intros j. unfold face_vertices. rewrite flat_map_app. cbn [flat_map].
      rewrite Hltb, !app_nil_r. apply Hvtx.
    + exact Hm.
  - assert (Hltb : (corner_count cs <? 3) = false) by (apply Z.ltb_ge; exact Hge).
    rewrite emit_face_pushes
      by (rewrite ?PrimitiveFacts.wrap32_small by lia; lia).
    destruct (push_vertices v_start (map (corner_vertex c) cs) o Hv0) as (V1 & V2 & V3 & V4 & V5).
    { rewrite length_map. unfold corner_count in Hfc. lia. }
    cbv zeta in V1, V2, V3, V4, V5. rewrite length_map in V1.
    set (o1 := fold_left (fun o v => push_vertex v_start v o) (map (corner_vertex c) cs) o) in *.
    assert (Hlen : Z.of_nat (length (pushed_indices (v_count o) (corner_count cs))) <= 6)
      by (unfold pushed_indices; destruct (corner_count cs =? 4); cbn; lia).
    destruct (push_indices i_start (pushed_indices (v_count o) (corner_count cs)) o1)
      as (I1 & I2 & I3 & I4 & I5).
    { rewrite V2. exact Hi0. }
    { rewrite V2. lia. }
    cbv zeta in I1, I2, I3, I4, I5.
    rewrite pushed_indices_wrap16 in I5 by exact Hge.
    constructor.
    + rewrite I1, V1, Hvc, map_app, face_vertex_total_app. cbn [map face_vertex_total].
      rewrite Hltb. fold (corner_count cs). lia.
    + assert (Hone : face_index_total [corner_count cs] =
                     Z.of_nat (length (pushed_indices (v_count o) (corner_count cs)))).
      { unfold face_index_total, pushed_indices. cbn [face_indices]. rewrite Hltb.
        destruct (corner_count cs =? 4); reflexivity. }
      rewrite I2, V2, Hic, map_app, face_index_total_app. cbn [map].
      rewrite Hone. reflexivity.
    + intros j. rewrite I5, V3, V2, Hic.
      rewrite map_app, face_indices_app, write_list_app. cbn [map].
      rewrite Z.add_0_l, <- Hvc. unfold face_index_total.
      apply write_list_ext. exact Hidx.
    + intros j. rewrite I3, V5.
      unfold face_vertices. rewrite flat_map_app, write_list_app. cbn [flat_map].
      rewrite Hltb, app_nil_r.
      fold (face_vertices c done).
      assert (Hlenv : Z.of_nat (length (face_vertices c done)) = v_count o).
      { rewrite Hvc. clear. induction done as [| cs0 done IH].
        - reflexivity.
        - cbn [face_vertices flat_map map face_vertex_total].
          fold (face_vertices c done). rewrite length_app, Nat2Z.inj_add, IH.
          destruct (corner_count cs0 <? 3); [reflexivity |].
          rewrite length_map. reflexivity. }
      rewrite Hlenv. apply write_list_ext. exact Hvtx.
    + rewrite I4, V4. exact Hm.
Qed.

Lemma built_bounds : forall c s v_start i_start done o,
    obj_built c s v_start i_start done o ->
    Forall (fun cs => corner_count cs <= 4) done ->
    0 <= v_count o <= 4 * Z.of_nat (length done) /\
    0 <= i_count o <= 6 * Z.of_nat (length done).
Proof.
  intros c s v_start i_start done o [Hvc Hic _ _ _] Hall.
  rewrite Hvc, Hic. rewrite <- (length_map corner_count done).
  apply totals_bounds. apply Forall_map.
  apply Forall_impl with (2 := Hall). intros cs H. unfold corner_count in *. lia.
Qed.

Lemma pass3_fold : forall c s v_start i_start max_verts max_indices lines done o,
    obj_built c s v_start i_start done o ->
    Forall (fun cs => corner_count cs <= 4) done ->
    4 * (Z.of_nat (length done) + Z.of_nat (length (filter is_face_line lines)))
      <= max_verts ->
    6 * (Z.of_nat (length done) + Z.of_nat (length (filter is_face_line lines)))
      <= max_indices ->
    max_verts < 4294967296 -> max_indices < 4294967296 ->
    obj_built c s v_start i_start
      (done ++ map (fun line => face_corners strtol 4 (skipn 2 (skip_blank line)))
                   (filter is_face_line lines))
      (fold_left (obj_pass3_line strtol c v_start i_start max_verts max_indices) lines o).
Proof.
  intros c s v_start i_start max_verts max_indices lines.
  induction lines as [| line lines IH]; intros done o Hb Hall Hv Hi Hmv Hmi;
    cbn [fold_left filter map].
  - rewrite app_nil_r. exact Hb.
  - unfold obj_pass3_line at 2. cbn [filter] in Hv, Hi.
    destruct (is_face_line line) eqn:Hface.
    + cbn [map length] in *.
      set (cs := face_corners strtol 4 (skipn 2 (skip_blank line))).
      assert (Hcs : corner_count cs <= 4).
      { unfold corner_count, cs.
        pose proof (face_corners_length 4 (skipn 2 (skip_blank line))). lia. }
      destruct (built_bounds c s v_start i_start done o Hb Hall) as [Hvb Hib].
      replace (done ++ cs :: map (fun line0 => face_corners strtol 4 (skipn 2 (skip_blank line0)))
                                 (filter is_face_line lines))
        with ((done ++ [cs]) ++ map (fun line0 => face_corners strtol 4
                                                    (skipn 2 (skip_blank line0)))
                                    (filter is_face_line lines))
        by (rewrite <- app_assoc; reflexivity).
      apply IH.
      * apply emit_face_built; try assumption; lia.
      * apply Forall_app. split; [exact Hall | constructor; [exact Hcs | constructor]].
      * rewrite length_app. cbn [length]. lia.
      * rewrite length_app. cbn [length]. lia.
      * exact Hmv.
      * exact Hmi.
    + apply IH; assumption.
Qed.

End Faces.

(** *** The loader *)

(** A successful [Mesh_LoadOBJ] (on a file of at most 2^29 bytes): the
    outer loop ends, the slot is the first free one and becomes a static
    mesh; a face line gives its first four corners at most; every face
    with three corners or more gives one output vertex per corner, none
    shared, and the triangle (0,1,2) of its own vertices, followed by
    (0,2,3) when it has four corners; the vertices and the indices lie at
    the former fill levels of the pools, which end advanced by exactly the
    numbers written; nothing else in the pools and no other slot is
    written.  The descriptor keeps the index count in 16 bits. *)
Theorem Mesh_LoadOBJ_triangulates :
  forall (strtod : list Z -> float * nat) (strtol : list Z -> Z * nat)
         (d : list Z) (size : Z) (s : MeshState) (bufs : ObjBuffers),
    0 < size <= 536870912 ->
    0 <= g_vertex_used s <= MAX_TOTAL_VERTICES ->
    0 <= g_index_used s <= MAX_TOTAL_INDICES ->
    let r := Mesh_LoadOBJ strtod strtol (Some d) size s bufs in
    let slot := fst (fst r) in
    let s' := snd (fst r) in
    let faces := obj_faces strtol d size in
    let fcs := map corner_count faces in
    let c := obj_counts strtod d size bufs in
    slot <> NO_SPACE ->
    (forall k, obj_lines (Z.to_nat size + k) d size 0 = obj_lines (Z.to_nat size) d size 0) /\
    slot = AllocMeshSlot s /\
    Forall (fun fc => 0 <= fc <= 4) fcs /\
    type (g_meshes s' slot) = 1 /\
    vertex_start (stat (g_meshes s' slot)) = g_vertex_used s /\
    vertex_count (stat (g_meshes s' slot)) = face_vertex_total fcs /\
    index_start (stat (g_meshes s' slot)) = wrap16 (g_index_used s) /\
    index_count (stat (g_meshes s' slot)) = wrap16 (face_index_total fcs) /\
    g_vertex_used s' = g_vertex_used s + face_vertex_total fcs /\
    g_index_used s' = g_index_used s + face_index_total fcs /\
    (forall j, g_index_pool s' j =
               write_list (g_index_pool s) (g_index_used s) (face_indices 0 fcs) j) /\
    (forall j, g_vertex_pool s' j =
               write_list (g_vertex_pool s) (g_vertex_used s) (face_vertices c faces) j) /\
    (forall j, j <> slot -> g_meshes s' j = g_meshes s j).
Proof.
  intros strtod strtol d size s bufs Hsize Hvu Hiu r slot s' faces fcs c Hslot.
  split.
  { intros k. apply obj_lines_enough. lia. }
  subst r slot s' faces fcs c. unfold obj_faces, obj_counts.
  unfold Mesh_LoadOBJ in *.
  destruct (Z.eqb_spec size 0) as [| _]; [lia |].
  set (lines := obj_lines (Z.to_nat size) d size 0) in *.
  set (c := fold_left (obj_pass1_line strtod) lines
              {| pos_count := 0; norm_count := 0; uv_count_obj := 0; obj_bufs := bufs |}) in *.
  pose proof (obj_lines_length (Z.to_nat size) d size 0) as Hlen. fold lines in Hlen.
  assert (Hfaces : Z.of_nat (length (filter is_face_line lines)) <= 536870912).
  { pose proof (filter_length_le is_face_line lines). lia. }
  cbv zeta in Hslot |- *.
  rewrite (face_count_fold lines 0) in Hslot |- * by lia.
  rewrite Z.add_0_l in Hslot |- *.
  set (n := Z.of_nat (length (filter is_face_line lines))) in *.
  assert (Hn0 : 0 <= n) by (unfold n; lia).
  rewrite (PrimitiveFacts.wrap32_small (n * 4)) in Hslot |- * by lia.
  rewrite (PrimitiveFacts.wrap32_small (n * 6)) in Hslot |- * by lia.
  destruct (Z.eqb_spec (AllocMeshSlot s) NO_SPACE) as [Hno | Hfree];
    [exfalso; apply Hslot; reflexivity |].
  unfold AllocVertices, AllocIndices in Hslot |- *.
  unfold MAX_TOTAL_VERTICES, MAX_TOTAL_INDICES, NO_SPACE in *.
  rewrite (PrimitiveFacts.wrap32_small (g_vertex_used s + n * 4)) in Hslot |- * by lia.
  destruct (Z.gtb_spec (g_vertex_used s + n * 4) 40960) as [Hvfull | Hvfit].
  { exfalso. apply Hslot.
    destruct (wrap32 (g_index_used s + n * 6) >? 81920); reflexivity. }
  cbn [set_vertex_used g_index_used] in Hslot |- *.
  rewrite (PrimitiveFacts.wrap32_small (g_index_used s + n * 6)) in Hslot |- * by lia.
  destruct (Z.gtb_spec (g_index_used s + n * 6) 81920) as [Hifull | Hifit].
  { exfalso. apply Hslot. rewrite orb_true_r. reflexivity. }
  destruct (Z.eqb_spec (g_vertex_used s) 4294967295) as [| _]; [lia |].
  destruct (Z.eqb_spec (g_index_used s) 4294967295) as [| _]; [lia |].
  cbn [orb] in Hslot |- *.
  set (s2 := set_index_used (set_vertex_used s (g_vertex_used s + n * 4))
                            (g_index_used s + n * 6)) in *.
  assert (Hstart : obj_built c s (g_vertex_used s) (g_index_used s) nil
                     {| v_count := 0; i_count := 0; ob_mesh := s2 |}).
  { constructor; try reflexivity; intros j; reflexivity. }
  pose proof (pass3_fold strtol c s (g_vertex_used s) (g_index_used s) (n * 4) (n * 6)
                lines nil _ Hstart (Forall_nil _)
                ltac:(cbn [length]; fold n; lia) ltac:(cbn [length]; fold n; lia)
                ltac:(lia) ltac:(lia)) as Hb.
  cbn [app] in Hb.
  set (o := fold_left (obj_pass3_line strtol c (g_vertex_used s) (g_index_used s)
                         (n * 4) (n * 6)) lines
                      {| v_count := 0; i_count := 0; ob_mesh := s2 |}) in *.
  set (faces := map (fun line => face_corners strtol 4 (skipn 2 (skip_blank line)))
                    (filter is_face_line lines)) in *.
  assert (Hall : Forall (fun cs => corner_count cs <= 4) faces).
  { unfold faces. apply Forall_map. apply Forall_forall. intros line _.
    unfold corner_count. pose proof (face_corners_length strtol 4 (skipn 2 (skip_blank line))).
    lia. }
  destruct (built_bounds c s _ _ faces o Hb Hall) as [Hvb Hib].
  assert (Hfl : Z.of_nat (length faces) = n) by (unfold faces; rewrite length_map; reflexivity).
  destruct Hb as [Hvc Hic Hidx Hvtx Hm].
  destruct (obj_bounds (g_vertex_used s) (v_count o) _) as [bmin bmax].
  cbn [fst snd]. unfold fill_static_slot.
  cbn [set_meshes set_index_used set_vertex_used g_meshes g_vertex_pool g_index_pool
       g_vertex_used g_index_used].
  rewrite !PrimitiveFacts.aset_same.
  cbn [type stat vertex_start vertex_count index_start index_count].
  split; [reflexivity |].
  split.
  { apply Forall_map. apply Forall_impl with (2 := Hall).
    intros cs H. unfold corner_count in *. lia. }
  split; [reflexivity |].
  split; [apply PrimitiveFacts.wrap16_small; lia |].
  split; [rewrite <- Hvc; apply PrimitiveFacts.wrap16_small; lia |].
  split; [reflexivity |].
  split; [rewrite Hic; reflexivity |].
  split; [rewrite <- Hvc; apply PrimitiveFacts.wrap32_small; lia |].
  split; [rewrite <- Hic; apply PrimitiveFacts.wrap32_small; lia |].
  split; [exact Hidx |].
  split; [exact Hvtx |].
  intros j Hj. unfold aset.
  destruct (Z.eqb_spec j (AllocMeshSlot s)); [contradiction |].
  rewrite Hm. reflexivity.
Qed.

(** The cube of 8 positions and 6 quads gives 24 vertices and 36 indices,
    the first two triangles being (0,1,2) and (0,2,3). *)
Lemma Mesh_LoadOBJ_triangulates_witness :
  let r := Mesh_LoadOBJ strtod_dec strtol_dec (Some obj_cube_file) 136
                        mesh_startup obj_buffers_startup in
  fst (fst r) = 0 /\
  vertex_count (stat (g_meshes (snd (fst r)) 0)) = 24 /\
  index_count (stat (g_meshes (snd (fst r)) 0)) = 36 /\
  map (fun k => g_index_pool (snd (fst r)) k) (slots 0 6) = [0; 1; 2; 0; 2; 3].
Proof.
  intros r.
  assert (H1 : 0 < 136 <= 536870912) by lia.
  assert (H2 : 0 <= g_vertex_used mesh_startup <= MAX_TOTAL_VERTICES)
    by (vm_compute; split; discriminate).
  assert (H3 : 0 <= g_index_used mesh_startup <= MAX_TOTAL_INDICES)
    by (vm_compute; split; discriminate).
  assert (H4 : fst (fst r) <> NO_SPACE) by (vm_compute; discriminate).
  subst r.
  destruct (Mesh_LoadOBJ_triangulates strtod_dec strtol_dec obj_cube_file 136
              mesh_startup obj_buffers_startup H1 H2 H3 H4)
    as (_ & Hs & _ & _ & _ & Hvc & _ & Hic & _).
  assert (E : fst (fst (Mesh_LoadOBJ strtod_dec strtol_dec (Some obj_cube_file) 136
                          mesh_startup obj_buffers_startup)) = 0)
    by (rewrite Hs; vm_compute; reflexivity).
  rewrite E in Hvc, Hic.
  split; [exact E |].
  split; [rewrite Hvc; vm_compute; reflexivity |].
  split; [rewrite Hic; vm_compute; reflexivity |].
  vm_compute. reflexivity.
Defined.

End ObjFacts.

(** ** The index buffer of a loaded MD2 model *)

Module MD2LoadFacts.

Lemma tri_body_index : forall d uv idx iw ih i s j,
    0 <= i -> 3 * i + 2 < 2147483648 ->
    g_index_pool (md2_triangle_body d uv idx iw ih i s) j =
    if j =? idx + 3 * i + 2 then tri_vertex d (hdr_offset_triangles d) i 1
    else if j =? idx + 3 * i + 1 then tri_vertex d (hdr_offset_triangles d) i 2
    else if j =? idx + 3 * i then tri_vertex d (hdr_offset_triangles d) i 0
    else g_index_pool s j.
Proof.
  intros d uv idx iw ih i s j Hi Hb. unfold md2_triangle_body. cbv zeta.
  cbn [for_loop]. cbn [set_md2_uv_pool set_index_pool g_index_pool].
  rewrite (RasterFacts.swrap32_id (i * 3)) by lia.
  rewrite !RasterFacts.swrap32_id by lia.
  unfold aset.
  replace (idx + (i * 3 + 2)) with (idx + 3 * i + 2) by lia.
  replace (idx + (i * 3 + 1)) with (idx + 3 * i + 1) by lia.
  replace (idx + (i * 3 + 0)) with (idx + 3 * i) by lia.
  reflexivity.
Qed.

Lemma tri_body_fields : forall d uv idx iw ih i s,
    g_meshes (md2_triangle_body d uv idx iw ih i s) = g_meshes s /\
    g_index_used (md2_triangle_body d uv idx iw ih i s) = g_index_used s /\
    g_md2_uv_used (md2_triangle_body d uv idx iw ih i s) = g_md2_uv_used s /\
    g_frame_used (md2_triangle_body d uv idx iw ih i s) = g_frame_used s /\
    g_md2_vertex_used (md2_triangle_body d uv idx iw ih i s) = g_md2_vertex_used s.
Proof.
  intros. unfold md2_triangle_body. cbv zeta. cbn [for_loop].
  repeat split; reflexivity.
Qed.

(** The loop over the triangles [lo], ..., [lo + n - 1]. *)
Lemma tri_loop_indices : forall d uv idx iw ih n lo s,
    0 <= lo -> 3 * (lo + Z.of_nat n) < 2147483648 ->
    (forall i, lo <= i < lo + Z.of_nat n ->
       g_index_pool (for_loop n lo (md2_triangle_body d uv idx iw ih) s) (idx + 3 * i)
         = tri_vertex d (hdr_offset_triangles d) i 0 /\
       g_index_pool (for_loop n lo (md2_triangle_body d uv idx iw ih) s) (idx + 3 * i + 1)
         = tri_vertex d (hdr_offset_triangles d) i 2 /\
       g_index_pool (for_loop n lo (md2_triangle_body d uv idx iw ih) s) (idx + 3 * i + 2)
         = tri_vertex d (hdr_offset_triangles d) i 1) /\
    (forall j, j < idx + 3 * lo \/ idx + 3 * (lo + Z.of_nat n) <= j ->
       g_index_pool (for_loop n lo (md2_triangle_body d uv idx iw ih) s) j = g_index_pool s j).
Proof.
  intros d uv idx iw ih n. induction n as [| n IH]; intros lo s Hlo Hb; cbn [for_loop].
  - split; [intros i Hi; lia | intros j Hj; reflexivity].
  - destruct (IH (lo + 1) (md2_triangle_body d uv idx iw ih lo s) ltac:(lia) ltac:(lia))
      as [Hin Hout].
    split.
    + intros i Hi. destruct (Z.eq_dec i lo) as [-> | Hne].
      * rewrite !Hout by lia. rewrite !tri_body_index by lia.
        repeat match goal with
               | |- context [?a =? ?b] =>
                   destruct (Z.eqb_spec a b); try lia
               end;
          try (repeat split; reflexivity).
      * apply Hin. lia.
    + intros j Hj. rewrite Hout by lia. rewrite tri_body_index by lia.
      repeat match goal with
             | |- context [?a =? ?b] => destruct (Z.eqb_spec a b); try lia
             end;
        try reflexivity.
Qed.

Lemma frame_body_keeps : forall d fs vs f s,
    g_index_pool (md2_frame_body d fs vs f s) = g_index_pool s /\
    g_meshes (md2_frame_body d fs vs f s) = g_meshes s /\
    g_index_used (md2_frame_body d fs vs f s) = g_index_used s /\
    g_md2_uv_used (md2_frame_body d fs vs f s) = g_md2_uv_used s.
Proof.
  intros d fs vs f s. unfold md2_frame_body. cbv zeta.
  apply (for_loop_inv MeshState
           (fun s' => g_index_pool s' = g_index_pool s /\ g_meshes s' = g_meshes s /\
                      g_index_used s' = g_index_used s /\
                      g_md2_uv_used s' = g_md2_uv_used s)).
  - intros v s' Hs'. exact Hs'.
  - repeat split; reflexivity.
Qed.

Lemma tri_loop_fields : forall d uv idx iw ih n lo s,
    g_meshes (for_loop n lo (md2_triangle_body d uv idx iw ih) s) = g_meshes s /\
    g_index_used (for_loop n lo (md2_triangle_body d uv idx iw ih) s) = g_index_used s /\
    g_md2_uv_used (for_loop n lo (md2_triangle_body d uv idx iw ih) s) = g_md2_uv_used s.
Proof.
  intros d uv idx iw ih n lo s.
  apply (for_loop_inv MeshState
           (fun s' => g_meshes s' = g_meshes s /\ g_index_used s' = g_index_used s /\
                      g_md2_uv_used s' = g_md2_uv_used s)).
  - intros i s' (H1 & H2 & H3).
    destruct (tri_body_fields d uv idx iw ih i s') as (E1 & E2 & E3 & _).
    rewrite E1, E2, E3. repeat split; assumption.
  - repeat split; reflexivity.
Qed.

Lemma frame_loop_keeps : forall d fs vs n lo s,
    g_index_pool (for_loop n lo (md2_frame_body d fs vs) s) = g_index_pool s /\
    g_meshes (for_loop n lo (md2_frame_body d fs vs) s) = g_meshes s /\
    g_index_used (for_loop n lo (md2_frame_body d fs vs) s) = g_index_used s /\
    g_md2_uv_used (for_loop n lo (md2_frame_body d fs vs) s) = g_md2_uv_used s.
Proof.
  intros d fs vs n lo s.
  apply (for_loop_inv MeshState
           (fun s' => g_index_pool s' = g_index_pool s /\ g_meshes s' = g_meshes s /\
                      g_index_used s' = g_index_used s /\
                      g_md2_uv_used s' = g_md2_uv_used s)).
  - intros f s' (H1 & H2 & H3 & H4).
    destruct (frame_body_keeps d fs vs f s') as (E1 & E2 & E3 & E4).
    rewrite E1, E2, E3, E4. repeat split; assumption.
  - repeat split; reflexivity.
Qed.

(** A successful [Mesh_LoadMD2] (with [3 * num_triangles] in the range of
    [int]): the slot is the first free one and becomes an animated mesh;
    the index and UV pools advance by three entries per triangle; the
    triangle [i] of the file is stored with its second and third vertex
    exchanged, [vertex[0], vertex[2], vertex[1]], at the former fill level
    of the index pool plus [3 * i]; nothing below that level and no other
    slot is written; the descriptor keeps the starts and counts in 16
    bits. *)
Theorem Mesh_LoadMD2_layout :
  forall (d : list Z) (size : Z) (s : MeshState),
    0 <= g_index_used s <= MAX_TOTAL_INDICES ->
    0 <= g_md2_uv_used s <= MAX_MD2_VERTICES ->
    0 <= 3 * hdr_num_triangles d < 2147483648 ->
    let slot := fst (Mesh_LoadMD2 (Some d) size s) in
    let s' := snd (Mesh_LoadMD2 (Some d) size s) in
    let n := hdr_num_triangles d in
    slot <> NO_SPACE ->
    slot = AllocMeshSlot s /\
    type (g_meshes s' slot) = 2 /\
    an_index_start (anim (g_meshes s' slot)) = wrap16 (g_index_used s) /\
    an_index_count (anim (g_meshes s' slot)) = wrap16 (3 * n) /\
    uv_start (anim (g_meshes s' slot)) = wrap16 (g_md2_uv_used s) /\
    uv_count (anim (g_meshes s' slot)) = wrap16 (3 * n) /\
    g_index_used s' = g_index_used s + 3 * n /\
    g_md2_uv_used s' = g_md2_uv_used s + 3 * n /\
    (forall i, 0 <= i < n ->
       g_index_pool s' (g_index_used s + 3 * i)
         = tri_vertex d (hdr_offset_triangles d) i 0 /\
       g_index_pool s' (g_index_used s + 3 * i + 1)
         = tri_vertex d (hdr_offset_triangles d) i 2 /\
       g_index_pool s' (g_index_used s + 3 * i + 2)
         = tri_vertex d (hdr_offset_triangles d) i 1) /\
    (forall j, j < g_index_used s -> g_index_pool s' j = g_index_pool s j) /\
    (forall j, j <> slot -> g_meshes s' j = g_meshes s j).
Proof.
  intros d size s Hiu Huv Hn slot s' n Hsucc. subst slot s' n.
  unfold Mesh_LoadMD2 in *.
  destruct (size <? sizeof_MD2Header); [exfalso; apply Hsucc; reflexivity |].
  destruct (negb (hdr_magic d =? MD2_MAGIC) || negb (hdr_version d =? MD2_VERSION));
    [exfalso; apply Hsucc; reflexivity |].
  destruct (hdr_num_frames d >? MAX_MD2_FRAMES); [exfalso; apply Hsucc; reflexivity |].
  cbv zeta in Hsucc |- *.
  destruct (Z.eqb_spec (AllocMeshSlot s) NO_SPACE) as [| Hfree];
    [exfalso; apply Hsucc; reflexivity |].
  set (n := hdr_num_triangles d) in *.
  assert (E3 : wrap32 (swrap32 (n * 3)) = 3 * n).
  { rewrite RasterFacts.swrap32_id by lia. rewrite PrimitiveFacts.wrap32_small by lia. lia. }
  assert (E3' : swrap32 (n * 3) = 3 * n) by (rewrite RasterFacts.swrap32_id by lia; lia).
  rewrite E3 in Hsucc |- *.
  unfold AllocMD2UVs, AllocIndices, AllocFrames, AllocMD2Vertices in Hsucc |- *.
  unfold MAX_MD2_VERTICES, MAX_TOTAL_INDICES, NO_SPACE in *.
  rewrite (PrimitiveFacts.wrap32_small (g_md2_uv_used s + 3 * n)) in Hsucc |- * by lia.
  destruct (Z.gtb_spec (g_md2_uv_used s + 3 * n) 204800) as [| Huvfit];
    [exfalso; apply Hsucc; reflexivity |].
  destruct (Z.eqb_spec (g_md2_uv_used s) 4294967295) as [| _]; [lia |].
  cbn [set_md2_uv_used g_index_used] in Hsucc |- *.
  rewrite (PrimitiveFacts.wrap32_small (g_index_used s + 3 * n)) in Hsucc |- * by lia.
  destruct (Z.gtb_spec (g_index_used s + 3 * n) 81920) as [| Hifit];
    [exfalso; apply Hsucc; reflexivity |].
  destruct (Z.eqb_spec (g_index_used s) 4294967295) as [| _]; [lia |].
  set (s2 := set_index_used (set_md2_uv_used s (g_md2_uv_used s + 3 * n))
                            (g_index_used s + 3 * n)) in *.
  pose proof (tri_loop_indices d (g_md2_uv_used s) (g_index_used s)
                (fdiv one (of_int (hdr_skin_width d))) (fdiv one (of_int (hdr_skin_height d)))
                (Z.to_nat n) 0 s2 ltac:(lia) ltac:(lia)) as [Hin Hout].
  destruct (tri_loop_fields d (g_md2_uv_used s) (g_index_used s)
              (fdiv one (of_int (hdr_skin_width d))) (fdiv one (of_int (hdr_skin_height d)))
              (Z.to_nat n) 0 s2) as (T1 & T2 & T3).
  remember (for_loop (Z.to_nat n) 0
              (md2_triangle_body d (g_md2_uv_used s) (g_index_used s)
                 (fdiv one (of_int (hdr_skin_width d)))
                 (fdiv one (of_int (hdr_skin_height d)))) s2) as s3 eqn:Hs3.
  clear Hs3.
  destruct (wrap32 (g_frame_used s3 + wrap32 (hdr_num_frames d)) >? MAX_MD2_FRAMES);
    [exfalso; apply Hsucc; reflexivity |].
  cbv zeta in Hsucc |- *.
  destruct (g_frame_used s3 =? 4294967295); [exfalso; apply Hsucc; reflexivity |].
  match type of Hsucc with
  | context [if ?c then (4294967295, ?t) else _] =>
      destruct c; [exfalso; apply Hsucc; reflexivity |]
  end.
  cbv zeta in Hsucc |- *.
  match type of Hsucc with
  | context [if ?c then (4294967295, ?t) else _] =>
      destruct c; [exfalso; apply Hsucc; reflexivity |]
  end.
  match goal with
  | |- context [for_loop ?m 0 (md2_frame_body d ?fs ?vs) ?s5] =>
      destruct (frame_loop_keeps d fs vs m 0 s5) as (F1 & F2 & F3 & F4);
      remember (for_loop m 0 (md2_frame_body d fs vs) s5) as s6 eqn:Hs6; clear Hs6
  end.
  cbn [set_md2_vertex_used set_frame_used g_index_pool g_meshes g_index_used g_md2_uv_used]
    in F1, F2, F3, F4.
  cbn [fst snd]. unfold md2_fill_slot.
  cbn [set_meshes g_meshes g_index_pool g_index_used g_md2_uv_used].
  rewrite !PrimitiveFacts.aset_same.
  cbn [type anim an_index_start an_index_count uv_start uv_count].
  fold n. rewrite E3', F1, F3, F4, T2, T3.
  cbn [s2 set_index_used set_md2_uv_used g_index_used g_md2_uv_used].
  split; [reflexivity |]. split; [reflexivity |]. split; [reflexivity |].
  split; [reflexivity |]. split; [reflexivity |]. split; [reflexivity |].
  split; [reflexivity |]. split; [reflexivity |].
  split.
  { intros i Hi. apply Hin. lia. }
  split.
  { intros j Hj. rewrite Hout by lia. reflexivity. }
  intros j Hj. unfold aset.
  destruct (Z.eqb_spec j (AllocMeshSlot s)); [contradiction |].
  rewrite F2, T1. reflexivity.
Qed.

Lemma Mesh_LoadMD2_layout_witness :
  fst (loaded md2_sample) = 0 /\
  g_index_used (snd (loaded md2_sample)) = 3 /\
  map (fun k => g_index_pool (snd (loaded md2_sample)) k) (slots 0 3) = [0; 1; 1].
Proof.
  unfold loaded.
  assert (H1 : 0 <= g_index_used (Mesh_Init mesh_startup) <= MAX_TOTAL_INDICES)
    by (vm_compute; split; discriminate).
  assert (H2 : 0 <= g_md2_uv_used (Mesh_Init mesh_startup) <= MAX_MD2_VERTICES)
    by (vm_compute; split; discriminate).
  assert (H3 : 0 <= 3 * hdr_num_triangles md2_sample < 2147483648)
    by (vm_compute; split; [discriminate | reflexivity]).
  assert (H4 : fst (Mesh_LoadMD2 (Some md2_sample) (Z.of_nat (length md2_sample))
                      (Mesh_Init mesh_startup)) <> NO_SPACE)
    by (vm_compute; discriminate).
  destruct (Mesh_LoadMD2_layout md2_sample (Z.of_nat (length md2_sample))
              (Mesh_Init mesh_startup) H1 H2 H3 H4)
    as (Hs & _ & _ & _ & _ & _ & Hu & _).
  split; [rewrite Hs; vm_compute; reflexivity |].
  split; [rewrite Hu; vm_compute; reflexivity |].
  vm_compute. reflexivity.
Defined.

End MD2LoadFacts.

(** ** The blend functions *)

Module BlendFacts.

Lemma shiftr1 : forall x, Z.shiftr x 1 = x / 2.
Proof. intros x. rewrite Z.shiftr_div_pow2 by lia. reflexivity. Qed.

Lemma shiftr8 : forall x, Z.shiftr x 8 = x / 256.
Proof. intros x. rewrite Z.shiftr_div_pow2 by lia. reflexivity. Qed.

Lemma average_channel : forall a b,
    0 <= a <= 255 -> 0 <= b <= 255 ->
    wrap8 (Z.shiftr (wrap32 (a + b)) 1) = (a + b) / 2 /\
    Z.min a b <= (a + b) / 2 <= Z.max a b.
Proof.
  intros a b Ha Hb.
  rewrite PrimitiveFacts.wrap32_small by lia. rewrite shiftr1.
  assert (H : Z.min a b <= (a + b) / 2 <= Z.max a b).
  { split; [apply Z.div_le_lower_bound; lia | apply Z.div_le_upper_bound; lia]. }
  split; [unfold wrap8; apply Z.mod_small; lia | exact H].
Qed.

Lemma multiply_channel : forall a b,
    0 <= a <= 255 -> 0 <= b <= 255 ->
    wrap8 (Z.shiftr (wrap32 (a * b)) 8) = (a * b) / 256 /\
    0 <= (a * b) / 256 <= Z.min a b /\
    (0 < a -> (a * b) / 256 < a).
Proof.
  intros a b Ha Hb.
  rewrite PrimitiveFacts.wrap32_small by nia. rewrite shiftr8.
  assert (H : 0 <= a * b / 256 <= Z.min a b).
  { split; [apply Z.div_pos; nia |].
    apply Z.min_glb; apply Z.div_le_upper_bound; nia. }
  split; [unfold wrap8; apply Z.mod_small; lia |].
  split; [exact H |].
  intros Hpos. apply Z.div_lt_upper_bound; nia.
Qed.

Lemma add_channel : forall a b,
    0 <= a <= 255 -> 0 <= b <= 255 ->
    (if wrap32 (a + b) >? 255 then 255 else wrap8 (wrap32 (a + b))) = Z.min 255 (a + b).
Proof.
  intros a b Ha Hb. rewrite PrimitiveFacts.wrap32_small by lia.
  destruct (Z.gtb_spec (a + b) 255); [lia |].
  unfold wrap8. rewrite Z.mod_small by lia. lia.
Qed.

(** On colours whose channels are bytes, for each of the three channels:
    [blendAverage] gives the half sum, rounded down, which lies between
    the two inputs; [blendMultiply] gives the product divided by 256,
    which is below both inputs and strictly below every input that is not
    zero, so that white is not neutral; [blendAdd] gives the sum saturated
    at 255.  The three set alpha to 255 and do not depend on the order of
    their arguments. *)
Theorem blend_channels :
  forall (s t : Color),
    color_typed s -> color_typed t ->
    (forall ch, In ch rgb_channels ->
       ch (blendAverage s t) = (ch s + ch t) / 2 /\
       Z.min (ch s) (ch t) <= ch (blendAverage s t) <= Z.max (ch s) (ch t) /\
       ch (blendMultiply s t) = (ch s * ch t) / 256 /\
       ch (blendMultiply s t) <= Z.min (ch s) (ch t) /\
       (0 < ch s -> ch (blendMultiply s t) < ch s) /\
       ch (blendAdd s t) = Z.min 255 (ch s + ch t)) /\
    color_typed (blendAverage s t) /\ color_typed (blendMultiply s t) /\
    color_typed (blendAdd s t) /\
    c_a (blendAverage s t) = 255 /\ c_a (blendMultiply s t) = 255 /\
    c_a (blendAdd s t) = 255 /\
    blendAverage s t = blendAverage t s /\ blendMultiply s t = blendMultiply t s /\
    blendAdd s t = blendAdd t s.
Proof.
  intros s t (Hsr & Hsg & Hsb & Hsa) (Htr & Htg & Htb & Hta).
  destruct (average_channel (c_r s) (c_r t) Hsr Htr) as [Ar Ar'].
  destruct (average_channel (c_g s) (c_g t) Hsg Htg) as [Ag Ag'].
  destruct (average_channel (c_b s) (c_b t) Hsb Htb) as [Ab Ab'].
  destruct (multiply_channel (c_r s) (c_r t) Hsr Htr) as (Mr & Mr' & Mr'').
  destruct (multiply_channel (c_g s) (c_g t) Hsg Htg) as (Mg & Mg' & Mg'').
  destruct (multiply_channel (c_b s) (c_b t) Hsb Htb) as (Mb & Mb' & Mb'').
  pose proof (add_channel (c_r s) (c_r t) Hsr Htr) as Dr.
  pose proof (add_channel (c_g s) (c_g t) Hsg Htg) as Dg.
  pose proof (add_channel (c_b s) (c_b t) Hsb Htb) as Db.
  split.
  - intros ch Hch. unfold rgb_channels in Hch. cbn [In] in Hch.
    destruct Hch as [<- | [<- | [<- | []]]];
      unfold blendAverage, blendMultiply, blendAdd;
      cbn [c_r c_g c_b]; cbv zeta.
    + rewrite Ar, Mr, Dr. repeat split; try lia; try exact Mr''.
    + rewrite Ag, Mg, Dg. repeat split; try lia; try exact Mg''.
    + rewrite Ab, Mb, Db. repeat split; try lia; try exact Mb''.
  - unfold color_typed, blendAverage, blendMultiply, blendAdd.
    cbn [c_r c_g c_b c_a]. cbv zeta.
    rewrite Ar, Ag, Ab, Mr, Mg, Mb, Dr, Dg, Db.
    rewrite (Z.add_comm (c_r t)), (Z.add_comm (c_g t)), (Z.add_comm (c_b t)).
    rewrite (Z.mul_comm (c_r t)), (Z.mul_comm (c_g t)), (Z.mul_comm (c_b t)).
    rewrite Ar, Ag, Ab, Mr, Mg, Mb, Dr, Dg, Db.
    repeat split; try lia; reflexivity.
Qed.

Lemma blend_channels_witness :
  c_r (blendMultiply color_white color_white) = 254 /\
  c_r (blendAdd color_white color_white) = 255.
Proof.
  assert (H : color_typed color_white) by (unfold color_typed; cbn; lia).
  destruct (blend_channels color_white color_white H H) as (Hch & _).
  destruct (Hch c_r (or_introl eq_refl)) as (_ & _ & Hm & _ & _ & Ha).
  split; [rewrite Hm; reflexivity | rewrite Ha; reflexivity].
Defined.

End BlendFacts.
